(** * Storefront client: product cache, request client, cart guard, checkout

    A shallow embedding of the TypeScript sources of the storefront client:

    - [src/utils/cookies.ts]            the cookie store ([Cookies]);
    - [src/services/api.ts]             the request client that tries the
                                        dev-time proxy and then the direct
                                        endpoint ([ApiDirect]);
    - the webhook revision of [api.ts]  the request client that posts every
                                        operation to [/webhook] and fills the
                                        product cache from the product list
                                        ([ApiWebhook]);
    - [pages/Checkout.tsx]              the three-step checkout ([Checkout]) and
                                        its single-page revision
                                        ([CheckoutSinglePage]);
    - [pages/CartPage.tsx]              the cart page with its shared promise
                                        map ([CartPage]);
    - [pages/HomePage.tsx]              the product grid with its shared promise
                                        ([HomePage]) and, in the revision with
                                        the cart sidebar, the cart badge
                                        ([HomePageWithCart]);
    - [components/Cart.tsx],
      [components/ProductDetailModal.tsx],
      [pages/ProductDetail.tsx]         the cart sidebar ([Cart]), the product
                                        modal ([ProductDetailModal]) and the
                                        product page ([ProductDetail]);
    - the address section of the
      checkout pages                    ([CheckoutForm]);
    - [getCookie] on the text of
      [document.cookie]                 ([CookieText]);
    - the checkout operations of the
      webhook revision of [api.ts]      ([ApiWebhookCheckout]);
    - the serverless webhook proxy      in its three revisions ([WebhookProxy]);
    - [vite.config.ts]                  the rewrite rules of the development
                                        server, in its two revisions
                                        ([ViteConfig]).

    Asynchronous functions are written in a state-and-exception monad over the
    mutable state they touch.  What the environment decides (the outcome of a
    [fetch], the readings of [Date.now()], what the browser stores of a cookie
    that is assigned) is an explicit argument.  The numbers of carts and
    request bodies are whole numbers; where the code adds them, the [+] of
    JavaScript is an explicit argument, and the stock and the quantity of the
    product modal are numbers that need not be whole ([JsNumber]).  Logging to
    the console is left out, except in the serverless proxy. *)

From stdpp Require Import gmap strings list fin_maps pretty.
From Stdlib Require Import ZArith Lia Ascii QArith.

Open Scope Z_scope.

(* ===================================================================== *)
(** * The JavaScript fragment the sources rely on *)
(* ===================================================================== *)

(** Values that the modelled code throws or that reject a promise.
    [NotAnError] stands for a thrown value that is not an [Error] instance. *)
Inductive JsError :=
| Error (message : string)
| TypeError (message : string)
| SyntaxError (message : string)
| NotAnError.

Definition message (e : JsError) : string :=
  match e with
  | Error m | TypeError m | SyntaxError m => m
  | NotAnError => ""
  end.

(** [e instanceof TypeError] *)
Definition instanceofTypeError (e : JsError) : bool :=
  match e with TypeError _ => true | _ => false end.

(** [e instanceof Error] *)
Definition instanceofError (e : JsError) : bool :=
  match e with NotAnError => false | _ => true end.

(** How a call, or an awaited promise, ends. *)
Inductive Completion (A : Type) :=
| Return (a : A)
| Throw (e : JsError).
Arguments Return {A} a.
Arguments Throw {A} e.

(** Truthiness of a string: every string but the empty one. *)
Definition truthy (s : string) : bool :=
  match s with EmptyString => false | String _ _ => true end.

(** Truthiness of an optional string property ([undefined], [null] and the
    empty string are falsy). *)
Definition truthyOpt (o : option string) : bool :=
  match o with Some s => truthy s | None => false end.

(** [a || b] on optional strings. *)
Definition orElse (a b : option string) : option string :=
  if truthyOpt a then a else b.

(** [a || fallback] where [fallback] is a string literal. *)
Definition orDefault (a : option string) (fallback : string) : string :=
  match a with
  | Some s => if truthy s then s else fallback
  | None => fallback
  end.

(** [s.startsWith(p)] *)
Definition startsWith (s p : string) : bool := String.prefix p s.

(** [s.includes(p)] *)
Fixpoint includes (s p : string) : bool :=
  if String.prefix p s then true
  else match s with
       | EmptyString => false
       | String _ rest => includes rest p
       end.

(** Strict equality of strings. *)
Definition strictEq (a b : string) : bool := bool_decide (a = b).

(** [a !== b] where [b] may be [null]. *)
Definition strictNeqOpt (a : string) (b : option string) : bool :=
  match b with
  | Some s => negb (strictEq a s)
  | None => true
  end.

(** ** Numbers that need not be whole

    A JavaScript number other than [NaN]: a finite double, which is a
    rational number, or one of the infinities.  ([JSON.parse] yields no
    [NaN], and neither do [n + 1], [n - 1] and [parseInt(text) || 1] on such
    a number [n].) *)
Module JsNumber.

Inductive t :=
| Finite (q : Q)
| PositiveInfinity
| NegativeInfinity.

Definition ofZ (n : Z) : t := Finite (inject_Z n).

(** [a <= b] *)
Definition leb (a b : t) : bool :=
  match a, b with
  | Finite x, Finite y => Qle_bool x y
  | NegativeInfinity, _ => true
  | _, PositiveInfinity => true
  | _, _ => false
  end.

(** [a < b] *)
Definition ltb (a b : t) : bool :=
  match a, b with
  | Finite x, Finite y => negb (Qle_bool y x)
  | PositiveInfinity, _ => false
  | _, NegativeInfinity => false
  | _, _ => true
  end.

(** [a > b] *)
Definition gtb (a b : t) : bool := ltb b a.

(** Every number but zero is truthy. *)
Definition truthy (a : t) : bool :=
  match a with
  | Finite q => negb (Qeq_bool q 0)
  | _ => true
  end.

End JsNumber.

(** ** State and exceptions *)

Definition Js (S A : Type) : Type := S -> Completion A * S.

Definition ret {S A} (a : A) : Js S A := fun s => (Return a, s).

Definition bind {S A B} (m : Js S A) (k : A -> Js S B) : Js S B :=
  fun s =>
    match m s with
    | (Return a, s') => k a s'
    | (Throw e, s') => (Throw e, s')
    end.

Definition throw {S A} (e : JsError) : Js S A := fun s => (Throw e, s).

(** [try { m } catch (e) { handler e }] *)
Definition tryCatch {S A} (m : Js S A) (handler : JsError -> Js S A) : Js S A :=
  fun s =>
    match m s with
    | (Return a, s') => (Return a, s')
    | (Throw e, s') => handler e s'
    end.

(** [try { m } finally { cleanup }] for a cleanup that does not throw. *)
Definition tryFinally {S A} (m : Js S A) (cleanup : S -> S) : Js S A :=
  fun s => let '(c, s') := m s in (c, cleanup s').

Definition modify {S} (f : S -> S) : Js S unit := fun s => (Return tt, f s).

Definition gets {S A} (f : S -> A) : Js S A := fun s => (Return (f s), s).

(** The outcome of awaiting a promise whose settlement is known. *)
Definition settle {S A} (c : Completion A) : Js S A := fun s => (c, s).

Declare Scope js_scope.
Delimit Scope js_scope with js.
Notation "x <- m ;; k" := (bind m (fun x => k))
  (at level 100, m at next level, right associativity) : js_scope.
Notation "m ;; k" := (bind m (fun _ => k))
  (at level 100, right associativity) : js_scope.
Open Scope js_scope.

(** [l.forEach(f)] *)
Fixpoint forEach {S A} (l : list A) (f : A -> Js S unit) : Js S unit :=
  match l with
  | [] => ret tt
  | x :: rest => f x ;; forEach rest f
  end.

(* ===================================================================== *)
(** * Data: [src/types/product.ts] and the interfaces of [api.ts] *)
(* ===================================================================== *)

(** Only the fields the modelled code reads are kept, together with enough
    payload to tell two records apart. *)

Module ProductVariant.
Record t := { variant_id : string; sku : string }.
End ProductVariant.

Module Product.
Record t := {
  product_id : string;
  name : string;
  selling_price : Z;
  variants : list ProductVariant.t
}.
End Product.

Module ProductsResponse.
Record Currency := { code : string }.
(** [currency] is [None] when the payload comes without the property. *)
Record Payload := {
  products : option (list Product.t);
  currency : option Currency
}.
Record t := {
  status_message : string;
  status_code : string;
  payload : option Payload
}.
End ProductsResponse.

(** The parsed body of a product-detail response, which the code reads
    untyped.  [payload] and [product] are [None] when the property is absent
    or falsy; [self] is the response object itself read through the [Product]
    interface (a missing [product_id] reads as the empty string, which is
    falsy like [undefined]). *)
Module DetailResponse.
Record Payload := { payload_product : option Product.t }.
Record t := {
  payload : option Payload;
  product : option Product.t;
  self : Product.t
}.
End DetailResponse.

Module AddToCartResponse.
Record Payload := { payload_cart_id : option string }.
Record t := {
  status_message : option string;
  status_code : option string;
  cart_id : option string;
  payload : option Payload
}.
End AddToCartResponse.

Module CartLine.
Record t := {
  product_variant_id : option string;
  product_id : option string;
  quantity : option Z;
  name : option string;
  product_name : option string;
  price : option Z;
  selling_price : option Z;
  image : option string;
  image_url : option string
}.
End CartLine.

Module CartItemResponse.
Record Payload := {
  payload_cart_id : option string;
  items : option (list CartLine.t);
  line_items : option (list CartLine.t)
}.
Record t := {
  status_message : option string;
  status_code : option string;
  cart_id : option string;
  payload : option Payload
}.
End CartItemResponse.

Module ShippingMethod.
Record t := {
  id : string;
  name : string;
  rate : Z;
  handling_fees : Z;
  delivery_time : string;
  is_default : bool
}.
End ShippingMethod.

Module CheckoutAddressResponse.
Record CheckoutShippingMethods := { shipping_methods : list ShippingMethod.t }.
Record Payload := { checkout_shipping_methods : option CheckoutShippingMethods }.
Record t := {
  status_message : option string;
  status_code : option string;
  payload : option Payload
}.
End CheckoutAddressResponse.

(** [CheckoutShippingMethodResponse] and [ProcessOfflinePaymentResponse]. *)
Module StatusResponse.
Record t := {
  status_message : option string;
  status_code : option string
}.
End StatusResponse.

Module Address.
Record t := {
  full_name : string;
  address : string;
  city : string;
  is_selected : bool;
  is_selected_billing_address : bool
}.
End Address.

Module CheckoutResponse.
Record AddressDetail := { addresses : option (list Address.t) }.
Record Order := { shipping : option ShippingMethod.t; total : option Z }.
Record CheckoutData := { address_detail : option AddressDetail; order : option Order }.
Record Payload := { checkout : option CheckoutData }.
Record t := {
  status_message : option string;
  status_code : option string;
  payload : option Payload
}.
End CheckoutResponse.

(** A JSON value as the request bodies need it. *)
#[warnings="-register-all"] Inductive Json :=
| JString (s : string)
| JNumber (n : Z)
| JBool (b : bool)
| JObject (fields : list (string * Json)).

(* ===================================================================== *)
(** * HTTP: what [fetch] is asked and what it answers *)
(* ===================================================================== *)

Record Request := {
  method : string;
  url : string;
  headers : list (string * string);
  cors : bool;                 (* [mode: 'cors'] *)
  body : option Json           (* the value handed to [JSON.stringify] *)
}.

(** A received response.  [text] is [None] when [response.text()] rejects;
    [json] is how [response.json()] ends. *)
Record Response (B : Type) := {
  status : Z;
  statusText : string;
  text : option string;
  json : Completion B
}.
Arguments status {B} _.
Arguments statusText {B} _.
Arguments text {B} _.
Arguments json {B} _.

(** [response.ok]: the status is in the range 200-299. *)
Definition ok {B} (r : Response B) : bool :=
  (200 <=? status r) && (status r <=? 299).

(** [await response.text().catch(() => response.statusText)] *)
Definition errorText {B} (r : Response B) : string :=
  default (statusText r) (text r).

(** How a [fetch] ends: a response of any status, or a rejection with a
    [TypeError] whose message the browser chooses. *)
Inductive FetchOutcome (B : Type) :=
| Responded (r : Response B)
| Rejected (message : string).
Arguments Responded {B} r.
Arguments Rejected {B} message.

(* ===================================================================== *)
(** * The module state of the request client and the browser around it *)
(* ===================================================================== *)

Record CacheEntry := { product : Product.t; timestamp : Z }.

Record ProductsListCache := { products : list Product.t; listTimestamp : Z }.

Inductive CookieWrite :=
| SetCookie (name value : string) (days : Z)
| DeleteCookie (name : string).

(** [productCache] and [productsListCache] are the module-level variables of
    [api.ts] (the second exists in the webhook revision only).  [cookies] is
    the browser's cookie jar as [document.cookie] shows it, [cookieWrites]
    the assignments made to [document.cookie], [requests] the calls made to
    [fetch], in order, and [clockReads] the number of [Date.now()] calls so
    far. *)
Record World := {
  productCache : gmap string CacheEntry;
  productsListCache : option ProductsListCache;
  cookies : gmap string string;
  cookieWrites : list CookieWrite;
  requests : list Request;
  clockReads : nat
}.

Definition emptyWorld : World :=
  {| productCache := ∅; productsListCache := None; cookies := ∅;
     cookieWrites := []; requests := []; clockReads := 0 |}.

Definition withProductCache (f : gmap string CacheEntry -> gmap string CacheEntry)
    (w : World) : World :=
  {| productCache := f (productCache w);
     productsListCache := productsListCache w;
     cookies := cookies w; cookieWrites := cookieWrites w;
     requests := requests w; clockReads := clockReads w |}.

Definition withProductsListCache (c : option ProductsListCache) (w : World) : World :=
  {| productCache := productCache w;
     productsListCache := c;
     cookies := cookies w; cookieWrites := cookieWrites w;
     requests := requests w; clockReads := clockReads w |}.

Definition withCookies (f : gmap string string -> gmap string string)
    (write : CookieWrite) (w : World) : World :=
  {| productCache := productCache w;
     productsListCache := productsListCache w;
     cookies := f (cookies w); cookieWrites := cookieWrites w ++ [write];
     requests := requests w; clockReads := clockReads w |}.

Definition withRequest (r : Request) (w : World) : World :=
  {| productCache := productCache w;
     productsListCache := productsListCache w;
     cookies := cookies w; cookieWrites := cookieWrites w;
     requests := requests w ++ [r]; clockReads := clockReads w |}.

Definition withClockRead (w : World) : World :=
  {| productCache := productCache w;
     productsListCache := productsListCache w;
     cookies := cookies w; cookieWrites := cookieWrites w;
     requests := requests w; clockReads := S (clockReads w) |}.

(** What the build, the clock and the browser decide:
    [import.meta.env.DEV], [import.meta.env.VITE_DOMAIN_NAME], the reading
    of the [n]-th call of [Date.now()], and what the browser makes of its
    cookie jar when [setCookie(name, value, days)] assigns
[[
`${name}=${value};${expires};path=/;SameSite=Lax`
]]
    to [document.cookie].  The value goes into that text as it is, so how
    much of it the browser stores is the browser's reading of the text. *)
Record Env := {
  DEV : bool;
  VITE_DOMAIN_NAME : option string;
  clock : nat -> Z;
  assignCookie : string -> string -> Z -> gmap string string -> gmap string string
}.

(** [await fetch(url, init)]: the call is recorded, then it ends as the
    network decides. *)
Definition fetch {B} (req : Request) (outcome : FetchOutcome B) : Js World (Response B) :=
  fun w =>
    match outcome with
    | Responded r => (Return r, withRequest req w)
    | Rejected m => (Throw (TypeError m), withRequest req w)
    end.

(** [Date.now()] *)
Definition Date_now (env : Env) : Js World Z :=
  fun w => (Return (clock env (clockReads w)), withClockRead w).

(* ===================================================================== *)
(** * [src/utils/cookies.ts] *)
(* ===================================================================== *)

(** The browser is taken at its interface.  [getCookie] finds the value
    stored under the name.  [setCookie] assigns its text to
    [document.cookie]; what that does to the jar is the browser's reading of
    the text, [assignCookie] of the environment.  [deleteCookie] assigns the
    name with an empty value and an expiry in the past, which removes the
    cookie.  The expiry of a cookie after its [days] is outside the model. *)
Module Cookies.

Definition getCookie (name : string) : Js World (option string) :=
  gets (fun w => cookies w !! name).

Definition setCookie (env : Env) (name value : string) (days : Z) : Js World unit :=
  modify (withCookies (assignCookie env name value days) (SetCookie name value days)).

Definition deleteCookie (name : string) : Js World unit :=
  modify (withCookies (delete name) (DeleteCookie name)).

Definition getCartId : Js World (option string) := getCookie "cart_id".

Definition setCartId (env : Env) (cartId : string) : Js World unit :=
  setCookie env "cart_id" cartId 30.

Definition deleteCartId : Js World unit := deleteCookie "cart_id".

End Cookies.

(* ===================================================================== *)
(** * What both revisions of [api.ts] share *)
(* ===================================================================== *)

Definition CACHE_DURATION : Z := 5 * 60 * 1000.

Definition productCache_get (key : string) : Js World (option CacheEntry) :=
  gets (fun w => productCache w !! key).

(** [productCache.set(key, { product, timestamp: Date.now() })] *)
Definition productCache_set (env : Env) (key : string) (p : Product.t) : Js World unit :=
  now <- Date_now env ;;
  modify (withProductCache (insert key {| product := p; timestamp := now |})).

(** The cache check that opens [fetchProductDetail] in both revisions:
[[
  const cached = productCache.get(variantId);
  if (cached && Date.now() - cached.timestamp < CACHE_DURATION) {
    return cached.product;
  }
]]
    [Some p] stands for the early return of [p].  The clock is read only when
    an entry is present. *)
Definition fresh (now : Z) (e : CacheEntry) : bool :=
  now - timestamp e <? CACHE_DURATION.

Definition cacheCheck (env : Env) (variantId : string) : Js World (option Product.t) :=
  cached <- productCache_get variantId ;;
  match cached with
  | Some e =>
      now <- Date_now env ;;
      ret (if fresh now e then Some (product e) else None)
  | None => ret None
  end.

(** The probing of the response shapes, the same text in every branch that
    reads a product-detail response:
[[
  if (response.payload && response.payload.product) {
    product = response.payload.product;
  } else if (response.product) {
    product = response.product;
  } else if (response.product_id) {
    product = response;
  } else {
    throw new Error('Unexpected API response format');
  }
]] *)
Definition probeProduct (response : DetailResponse.t) : Completion Product.t :=
  match DetailResponse.payload response with
  | Some {| DetailResponse.payload_product := Some p |} => Return p
  | _ =>
      match DetailResponse.product response with
      | Some p => Return p
      | None =>
          if truthy (Product.product_id (DetailResponse.self response))
          then Return (DetailResponse.self response)
          else Throw (Error "Unexpected API response format")
      end
  end.

(** The [catch] clause that closes every operation:
[[
  if (error instanceof TypeError && error.message.includes('Failed to fetch')) {
    throw new Error(corsMessage);
  }
  throw error;
]] *)
Definition rethrow {A} (corsMessage : string) (error : JsError) : Js World A :=
  if instanceofTypeError error && includes (message error) "Failed to fetch"
  then throw (Error corsMessage)
  else throw error.

(** [getProductImageUrl], the same in both revisions but for the value of
    [DOMAIN_NAME]. *)
Definition getProductImageUrl_with (DOMAIN_NAME : string) (imageUrl : string) : string :=
  if startsWith imageUrl "http" then imageUrl
  else if startsWith imageUrl "/" then "https://" +:+ DOMAIN_NAME +:+ imageUrl
  else "https://" +:+ DOMAIN_NAME +:+ "/" +:+ imageUrl.

(* ===================================================================== *)
(** * [src/services/api.ts]: proxy first, then the direct endpoint *)
(* ===================================================================== *)

Module ApiDirect.
Section WithEnv.

Context (env : Env).

(** [import.meta.env.VITE_DOMAIN_NAME || 'activepharm.zohoecommerce.com'] *)
Definition DOMAIN_NAME : string :=
  orDefault (VITE_DOMAIN_NAME env) "activepharm.zohoecommerce.com".

Definition proxyHeaders : list (string * string) :=
  [("Content-Type", "application/json"); ("Accept", "application/json");
   ("domain-name", DOMAIN_NAME)].

Definition proxyRequest (method proxyUrl : string) (body : option Json) : Request :=
  {| method := method; url := proxyUrl; headers := proxyHeaders;
     cors := false; body := body |}.

Definition directRequest (method domainUrl : string) (body : option Json) : Request :=
  {| method := method; url := domainUrl; headers := proxyHeaders;
     cors := true; body := body |}.

(** ** [fetchProducts] *)

Definition fetchProducts
    (proxy direct : FetchOutcome ProductsResponse.t) : Js World ProductsResponse.t :=
  let proxyUrl := "/api/products" in
  let directUrl := "https://" +:+ DOMAIN_NAME +:+ "/storefront/api/v1/products" in
  returned <-
    (if DEV env then
       tryCatch
         (proxyResponse <- fetch (proxyRequest "GET" proxyUrl None) proxy ;;
          if ok proxyResponse then
            data <- settle (json proxyResponse) ;;
            ret (Some data)
          else ret None)
         (fun proxyError => ret None)
     else ret None) ;;
  match returned with
  | Some data => ret data
  | None =>
      tryCatch
        (response <- fetch (directRequest "GET" directUrl None) direct ;;
         if negb (ok response) then
           throw (Error ("Failed to fetch products: " +:+ pretty (status response)
                         +:+ " " +:+ errorText response))
         else settle (json response))
        (rethrow "CORS error: Unable to fetch products. Please ensure CORS is enabled on the API or use the proxy.")
  end.

(** ** The shape every other operation has

    One attempt on one channel:
[[
const response = await fetch(url, init);
if (response.ok) {
  const data = await response.json();
  ... onOk(data) ...
} else {
  const errorText = await response.text().catch(() => response.statusText);
  throw new Error(failure(response.status, errorText));
}
]] *)
Definition attempt {B R} (req : Request) (outcome : FetchOutcome B)
    (failure : Z -> string -> string) (onOk : B -> Js World R) : Js World R :=
  response <- fetch req outcome ;;
  if ok response then
    data <- settle (json response) ;;
    onOk data
  else
    throw (Error (failure (status response) (errorText response))).

(** The proxy attempt inside [if (import.meta.env.DEV) { try {...} catch
    (proxyError) { /* fall through */ } }], then the direct attempt inside
    [try {...} catch (error) {...}]. *)
Definition proxyThenDirect {B R} (proxyReq directReq : Request)
    (proxy direct : FetchOutcome B)
    (failure : Z -> string -> string) (corsMessage : string)
    (onOk : B -> Js World R) : Js World R :=
  returned <-
    (if DEV env then
       tryCatch
         (r <- attempt proxyReq proxy failure onOk ;; ret (Some r))
         (fun proxyError => ret None)
     else ret None) ;;
  match returned with
  | Some r => ret r
  | None => tryCatch (attempt directReq direct failure onOk) (rethrow corsMessage)
  end.

(** [`${what}: ${status} ${errorText}`] *)
Definition failed (what : string) (status : Z) (errorText : string) : string :=
  what +:+ ": " +:+ pretty status +:+ " " +:+ errorText.

(** [`API returned ${status}: ${errorText}`] *)
Definition apiReturned (status : Z) (errorText : string) : string :=
  "API returned " +:+ pretty status +:+ ": " +:+ errorText.

Definition restartHint (what : string) : string :=
  "CORS error: Unable to " +:+ what +:+
  ". Please restart your dev server (npm run dev) to ensure the proxy is active.".

(** ** [fetchProductDetail] *)

(** What follows [response.ok] in either branch: probe the shape, cache
    the product under the requested id, return it. *)
Definition cacheDetail (variantId : string) (response : DetailResponse.t)
    : Js World Product.t :=
  product <- settle (probeProduct response) ;;
  productCache_set env variantId product ;;
  ret product.

Definition fetchProductDetail (variantId : string)
    (proxy direct : FetchOutcome DetailResponse.t) : Js World Product.t :=
  cached <- cacheCheck env variantId ;;
  match cached with
  | Some product => ret product
  | None =>
      let domainUrl :=
        "https://" +:+ DOMAIN_NAME +:+ "/storefront/api/v1/products/" +:+ variantId in
      let proxyUrl := "/api/products/" +:+ variantId in
      proxyThenDirect
        (proxyRequest "GET" proxyUrl None) (directRequest "GET" domainUrl None)
        proxy direct apiReturned (restartHint "fetch product")
        (cacheDetail variantId)
  end.

(** ** [getProductImageUrl] *)

Definition getProductImageUrl (imageUrl : string) : string :=
  getProductImageUrl_with DOMAIN_NAME imageUrl.

(** ** [addToCart] *)

(** The request body: [cart_id] is added only when the cookie holds a
    truthy value. *)
Definition addToCartBody (productVariantId : string) (quantity : Z)
    (existingCartId : option string) : Json :=
  JObject ([("product_variant_id", JString productVariantId);
            ("quantity", JNumber quantity)]
           ++ match existingCartId with
              | Some c => if truthy c then [("cart_id", JString c)] else []
              | None => []
              end).

(** What follows [response.ok]:
[[
const cartId = response.cart_id || response.payload?.cart_id;
if (cartId && cartId !== existingCartId) {
  setCartId(cartId);
}
return response;
]] *)
Definition carriedCartId (response : AddToCartResponse.t) : option string :=
  orElse (AddToCartResponse.cart_id response)
         (match AddToCartResponse.payload response with
          | Some p => AddToCartResponse.payload_cart_id p
          | None => None
          end).

Definition saveCartId (existingCartId : option string)
    (response : AddToCartResponse.t) : Js World AddToCartResponse.t :=
  match carriedCartId response with
  | Some cartId =>
      if truthy cartId && strictNeqOpt cartId existingCartId
      then Cookies.setCartId env cartId ;; ret response
      else ret response
  | None => ret response
  end.

Definition addToCart (productVariantId : string) (quantity : Z)
    (proxy direct : FetchOutcome AddToCartResponse.t) : Js World AddToCartResponse.t :=
  existingCartId <- Cookies.getCartId ;;
  let body := addToCartBody productVariantId quantity existingCartId in
  let domainUrl := "https://" +:+ DOMAIN_NAME +:+ "/storefront/api/v1/cart" in
  let proxyUrl := "/api/cart" in
  proxyThenDirect
    (proxyRequest "POST" proxyUrl (Some body)) (directRequest "POST" domainUrl (Some body))
    proxy direct (failed "Failed to add to cart") (restartHint "add to cart")
    (saveCartId existingCartId).

(** ** [getCartItems] *)

Definition getCartItems (cartId : string)
    (proxy direct : FetchOutcome CartItemResponse.t) : Js World CartItemResponse.t :=
  let domainUrl :=
    "https://" +:+ DOMAIN_NAME +:+ "/storefront/api/v1/cart?cart_id=" +:+ cartId in
  let proxyUrl := "/api/cart?cart_id=" +:+ cartId in
  proxyThenDirect
    (proxyRequest "GET" proxyUrl None) (directRequest "GET" domainUrl None)
    proxy direct (failed "Failed to get cart items") (restartHint "get cart items")
    ret.

(** ** [getCheckoutData] *)

Definition getCheckoutData (cartId : string)
    (proxy direct : FetchOutcome CheckoutResponse.t) : Js World CheckoutResponse.t :=
  let domainUrl :=
    "https://" +:+ DOMAIN_NAME +:+ "/storefront/api/v1/checkout?checkout_id=" +:+ cartId in
  let proxyUrl := "/api/checkout?checkout_id=" +:+ cartId in
  proxyThenDirect
    (proxyRequest "GET" proxyUrl None) (directRequest "GET" domainUrl None)
    proxy direct (failed "Failed to get checkout data") (restartHint "get checkout data")
    ret.

(** ** [submitCheckoutAddress] *)

Definition submitCheckoutAddress (cartId : string) (addressData : Json)
    (proxy direct : FetchOutcome CheckoutAddressResponse.t)
    : Js World CheckoutAddressResponse.t :=
  let domainUrl :=
    "https://" +:+ DOMAIN_NAME +:+ "/storefront/api/v1/checkout/address?checkout_id="
    +:+ cartId in
  let proxyUrl := "/api/checkout/address?checkout_id=" +:+ cartId in
  proxyThenDirect
    (proxyRequest "POST" proxyUrl (Some addressData))
    (directRequest "POST" domainUrl (Some addressData))
    proxy direct (failed "Failed to submit checkout address")
    (restartHint "submit checkout address")
    ret.

(** ** [submitShippingMethod] *)

Definition submitShippingMethod (cartId shippingMethodId : string)
    (proxy direct : FetchOutcome StatusResponse.t) : Js World StatusResponse.t :=
  let domainUrl :=
    "https://" +:+ DOMAIN_NAME
    +:+ "/storefront/api/v1/checkout/shipping-methods?checkout_id=" +:+ cartId in
  let proxyUrl := "/api/checkout/shipping-methods?checkout_id=" +:+ cartId in
  let body := JObject [("shipping", JString shippingMethodId)] in
  proxyThenDirect
    (proxyRequest "POST" proxyUrl (Some body)) (directRequest "POST" domainUrl (Some body))
    proxy direct (failed "Failed to submit shipping method")
    (restartHint "submit shipping method")
    ret.

(** ** [processOfflinePayment] *)

Definition processOfflinePayment (cartId paymentMode : string)
    (proxy direct : FetchOutcome StatusResponse.t) : Js World StatusResponse.t :=
  let query :=
    "/checkout/process-offline-payment?checkout_id=" +:+ cartId
    +:+ "&payment_mode=" +:+ paymentMode in
  let domainUrl := "https://" +:+ DOMAIN_NAME +:+ "/storefront/api/v1" +:+ query in
  let proxyUrl := "/api" +:+ query in
  proxyThenDirect
    (proxyRequest "POST" proxyUrl None) (directRequest "POST" domainUrl None)
    proxy direct (failed "Failed to process payment") (restartHint "process payment")
    ret.

End WithEnv.
End ApiDirect.

(* ===================================================================== *)
(** * The webhook revision of [api.ts]: one channel, cache filled in bulk *)
(* ===================================================================== *)

Module ApiWebhook.
Section WithEnv.

Context (env : Env).

(** [const DOMAIN_NAME = import.meta.env.VITE_DOMAIN_NAME], as a template
    literal prints it. *)
Definition DOMAIN_NAME : string := default "undefined" (VITE_DOMAIN_NAME env).

Definition WEBHOOK_URL : string := "/webhook".

Definition webhookRequest (function : string) (body : option Json) : Request :=
  {| method := "POST";
     url := WEBHOOK_URL +:+ "?function=" +:+ function;
     headers := [("Content-Type", "application/json"); ("Accept", "application/json")];
     cors := true;
     body := body |}.

Definition failed (what : string) (status : Z) (errorText : string) : string :=
  what +:+ ": " +:+ pretty status +:+ " " +:+ errorText.

Definition apiReturned (status : Z) (errorText : string) : string :=
  "API returned " +:+ pretty status +:+ ": " +:+ errorText.

Definition enableCorsHint (what : string) : string :=
  "CORS error: Unable to " +:+ what +:+ ". Please ensure CORS is enabled on the API.".

(** The body every operation has:
[[
try {
  const response = await fetch(url, init);
  if (!response.ok) {
    const errorText = await response.text().catch(() => response.statusText);
    throw new Error(failure(response.status, errorText));
  }
  const responseData = await response.json();
  ... onOk(responseData) ...
} catch (error) { ... }
]] *)
Definition viaWebhook {B R} (req : Request) (outcome : FetchOutcome B)
    (failure : Z -> string -> string) (corsMessage : string)
    (onOk : B -> Js World R) : Js World R :=
  tryCatch
    (response <- fetch req outcome ;;
     if negb (ok response) then
       throw (Error (failure (status response) (errorText response)))
     else
       responseData <- settle (json response) ;;
       onOk responseData)
    (rethrow corsMessage).

(** ** [fetchProducts] *)

(** [product.variants.forEach(variant => { if (variant.variant_id) {...} })] *)
Definition cacheVariants (product : Product.t) : Js World unit :=
  forEach (Product.variants product) (fun variant =>
    if truthy (ProductVariant.variant_id variant)
    then productCache_set env (ProductVariant.variant_id variant) product
    else ret tt).

(** The body of [products.forEach(product => {...})]. *)
Definition cacheProduct (product : Product.t) : Js World unit :=
  productCache_set env (Product.product_id product) product ;;
  cacheVariants product.

(** What follows [response.json()]: when [data.payload.products] is there,
    remember the list and cache every product under its id and under the
    ids of its variants. *)
Definition cacheProducts (data : ProductsResponse.t) : Js World ProductsResponse.t :=
  match ProductsResponse.payload data with
  | Some {| ProductsResponse.products := Some products |} =>
      now <- Date_now env ;;
      modify (withProductsListCache
                (Some {| products := products; listTimestamp := now |})) ;;
      forEach products cacheProduct ;;
      ret data
  | _ => ret data
  end.

Definition fetchProducts (outcome : FetchOutcome ProductsResponse.t)
    : Js World ProductsResponse.t :=
  viaWebhook (webhookRequest "get-products" None) outcome
    (failed "Failed to fetch products") (enableCorsHint "fetch products")
    cacheProducts.

(** ** [fetchProductDetail] *)

(** The test of the two nested [for ... of] loops over the remembered
    list: the product's own id, or the id of one of its variants. *)
Definition matchesId (variantId : string) (product : Product.t) : bool :=
  strictEq (Product.product_id product) variantId
  || existsb (fun variant => strictEq (ProductVariant.variant_id variant) variantId)
             (Product.variants product).

(** The search through [productsListCache]; [Some p] is the early return
    of [p]. *)
Definition listCacheCheck (variantId : string) : Js World (option Product.t) :=
  listCache <- gets productsListCache ;;
  match listCache with
  | Some c =>
      now <- Date_now env ;;
      if now - listTimestamp c <? CACHE_DURATION then
        match List.find (matchesId variantId) (products c) with
        | Some product =>
            productCache_set env variantId product ;;
            ret (Some product)
        | None => ret None
        end
      else ret None
  | None => ret None
  end.

(** What follows [response.json()]: probe the shape, then cache the product
    under the requested id, under its own id when truthy, and under the
    ids of its variants. *)
Definition cacheDetail (variantId : string) (responseData : DetailResponse.t)
    : Js World Product.t :=
  product <- settle (probeProduct responseData) ;;
  productCache_set env variantId product ;;
  (if truthy (Product.product_id product)
   then productCache_set env (Product.product_id product) product
   else ret tt) ;;
  cacheVariants product ;;
  ret product.

Definition fetchProductDetail (variantId : string)
    (outcome : FetchOutcome DetailResponse.t) : Js World Product.t :=
  cached <- cacheCheck env variantId ;;
  match cached with
  | Some product => ret product
  | None =>
      listed <- listCacheCheck variantId ;;
      match listed with
      | Some product => ret product
      | None =>
          viaWebhook
            (webhookRequest "get-product-detail"
               (Some (JObject [("variant_id", JString variantId)])))
            outcome apiReturned (enableCorsHint "fetch product")
            (cacheDetail variantId)
      end
  end.

(** ** [getProductImageUrl] *)

Definition getProductImageUrl (imageUrl : string) : string :=
  getProductImageUrl_with DOMAIN_NAME imageUrl.

(** ** [addToCart] *)

Definition addToCartBody (productVariantId : string) (quantity : Z)
    (existingCartId : option string) : Json :=
  JObject ([("product_variant_id", JString productVariantId);
            ("quantity", JNumber quantity)]
           ++ match existingCartId with
              | Some c => if truthy c then [("cart_id", JString c)] else []
              | None => []
              end).

(** [responseData.cart_id || responseData.payload?.cart_id] *)
Definition carriedCartId (responseData : AddToCartResponse.t) : option string :=
  orElse (AddToCartResponse.cart_id responseData)
         (match AddToCartResponse.payload responseData with
          | Some p => AddToCartResponse.payload_cart_id p
          | None => None
          end).

(** [if (cartId && cartId !== existingCartId) { setCartId(cartId); }] *)
Definition saveCartId (existingCartId : option string)
    (responseData : AddToCartResponse.t) : Js World AddToCartResponse.t :=
  match carriedCartId responseData with
  | Some cartId =>
      if truthy cartId && strictNeqOpt cartId existingCartId
      then Cookies.setCartId env cartId ;; ret responseData
      else ret responseData
  | None => ret responseData
  end.

Definition addToCart (productVariantId : string) (quantity : Z)
    (outcome : FetchOutcome AddToCartResponse.t) : Js World AddToCartResponse.t :=
  existingCartId <- Cookies.getCartId ;;
  let body := addToCartBody productVariantId quantity existingCartId in
  viaWebhook (webhookRequest "add-to-cart" (Some body)) outcome
    (failed "Failed to add to cart") (enableCorsHint "add to cart")
    (saveCartId existingCartId).

(** ** [getCartItems] *)

(** [responseData.payload?.line_items || []] and
    [responseData.payload?.items || []] *)
Definition lineItemsOf (responseData : CartItemResponse.t) : list CartLine.t :=
  match CartItemResponse.payload responseData with
  | Some p => default [] (CartItemResponse.line_items p)
  | None => []
  end.

Definition itemsOf (responseData : CartItemResponse.t) : list CartLine.t :=
  match CartItemResponse.payload responseData with
  | Some p => default [] (CartItemResponse.items p)
  | None => []
  end.

(** [if (lineItems.length === 0 && items.length === 0) { deleteCartId(); }] *)
Definition forgetEmptyCart (responseData : CartItemResponse.t)
    : Js World CartItemResponse.t :=
  if (length (lineItemsOf responseData) =? 0)%nat
     && (length (itemsOf responseData) =? 0)%nat
  then Cookies.deleteCartId ;; ret responseData
  else ret responseData.

Definition getCartItems (cartId : string)
    (outcome : FetchOutcome CartItemResponse.t) : Js World CartItemResponse.t :=
  viaWebhook
    (webhookRequest "get-cart" (Some (JObject [("cart_id", JString cartId)])))
    outcome (failed "Failed to get cart items") (enableCorsHint "get cart items")
    forgetEmptyCart.

End WithEnv.
End ApiWebhook.

(* ===================================================================== *)
(** * What the pages share *)
(* ===================================================================== *)

(** The address form of the checkout pages. *)
Module AddressForm.
Record t := {
  first_name : string;
  last_name : string;
  email_address : string;
  address : string;
  city : string;
  state : string;
  postal_code : string;
  telephone : string;
  country : string;
  same_billing_address : bool
}.

Definition empty : t :=
  {| first_name := ""; last_name := ""; email_address := ""; address := "";
     city := ""; state := ""; postal_code := ""; telephone := ""; country := "";
     same_billing_address := true |}.

(** [{ ...form, same_billing_address: flag }] *)
Definition withSameBillingAddress (flag : bool) (form : t) : t :=
  {| first_name := first_name form; last_name := last_name form;
     email_address := email_address form; address := address form;
     city := city form; state := state form; postal_code := postal_code form;
     telephone := telephone form; country := country form;
     same_billing_address := flag |}.
End AddressForm.

(** The calls a page makes to the request client. *)
Inductive ApiCall :=
| SubmitCheckoutAddress (cartId : string) (shipping_address billing_address : AddressForm.t)
| SubmitShippingMethod (cartId shippingMethodId : string)
| GetCheckoutData (cartId : string)
| ProcessOfflinePayment (cartId paymentMode : string).

(** A mounted page: its React state, the browser state it shares with the
    request client, the calls it has made to the request client, the alerts
    it has shown and the navigations it has asked for. *)
Record Page (St : Type) := {
  state : St;
  world : World;
  calls : list ApiCall;
  alerts : list string;
  navigations : list string
}.
Arguments state {St} _.
Arguments world {St} _.
Arguments calls {St} _.
Arguments alerts {St} _.
Arguments navigations {St} _.

Definition withState {St} (f : St -> St) (p : Page St) : Page St :=
  {| state := f (state p); world := world p; calls := calls p;
     alerts := alerts p; navigations := navigations p |}.

(** Run code of [cookies.ts] on the page's browser state. *)
Definition onWorld {St A} (m : Js World A) : Js (Page St) A :=
  fun p =>
    let '(c, w) := m (world p) in
    (c, {| state := state p; world := w; calls := calls p;
           alerts := alerts p; navigations := navigations p |}).

(** [await call(...)]: the call is made, then its promise settles as given. *)
Definition awaitApi {St A} (call : ApiCall) (settlement : Completion A) : Js (Page St) A :=
  fun p =>
    (settlement,
     {| state := state p; world := world p; calls := calls p ++ [call];
        alerts := alerts p; navigations := navigations p |}).

Definition alert {St} (text : string) : Js (Page St) unit :=
  modify (fun p =>
    {| state := state p; world := world p; calls := calls p;
       alerts := alerts p ++ [text]; navigations := navigations p |}).

Definition navigate {St} (to : string) : Js (Page St) unit :=
  modify (fun p =>
    {| state := state p; world := world p; calls := calls p;
       alerts := alerts p; navigations := navigations p ++ [to] |}).

(** [response.status_code === '0' || response.status_message === 'success'] *)
Definition succeeded (status_code status_message : option string) : bool :=
  bool_decide (status_code = Some "0") || bool_decide (status_message = Some "success").

(** [err instanceof Error ? err.message : fallback] *)
Definition messageOr (fallback : string) (err : JsError) : string :=
  if instanceofError err then message err else fallback.

(** [methods.find(m => m.is_default) || methods[0]] *)
Definition defaultMethod (methods : list ShippingMethod.t) : option ShippingMethod.t :=
  match List.find ShippingMethod.is_default methods with
  | Some m => Some m
  | None => head methods
  end.

(** [response.payload?.checkout_shipping_methods?.shipping_methods] *)
Definition shippingMethodsOf (response : CheckoutAddressResponse.t)
    : option (list ShippingMethod.t) :=
  match CheckoutAddressResponse.payload response with
  | Some p =>
      match CheckoutAddressResponse.checkout_shipping_methods p with
      | Some m => Some (CheckoutAddressResponse.shipping_methods m)
      | None => None
      end
  | None => None
  end.

(* ===================================================================== *)
(** * [pages/Checkout.tsx]: address, shipping method, confirmation *)
(* ===================================================================== *)

Module Checkout.

(** [useState<1 | 2 | 3>(1)]: 1 = address, 2 = shipping method,
    3 = confirmation. *)
Inductive Step := AddressStep | ShippingStep | ConfirmationStep.

Record ConfirmationData := {
  confirmedShippingAddress : option Address.t;
  confirmedBillingAddress : option Address.t;
  confirmedShipping : option ShippingMethod.t;
  confirmedTotal : option Z
}.

Record State := {
  currentStep : Step;
  sameBillingAddress : bool;
  loading : bool;
  error : option string;
  shippingMethods : list ShippingMethod.t;
  selectedShippingMethod : string;
  confirmationData : ConfirmationData;
  loadingConfirmation : bool;
  shippingAddress : AddressForm.t;
  billingAddress : AddressForm.t
}.

Definition initialState : State :=
  {| currentStep := AddressStep; sameBillingAddress := true; loading := false;
     error := None; shippingMethods := []; selectedShippingMethod := "";
     confirmationData :=
       {| confirmedShippingAddress := None; confirmedBillingAddress := None;
          confirmedShipping := None; confirmedTotal := None |};
     loadingConfirmation := false;
     shippingAddress := AddressForm.empty; billingAddress := AddressForm.empty |}.

Definition withCurrentStep (v : Step) (s : State) : State :=
  {| currentStep := v; sameBillingAddress := sameBillingAddress s;
     loading := loading s; error := error s; shippingMethods := shippingMethods s;
     selectedShippingMethod := selectedShippingMethod s;
     confirmationData := confirmationData s;
     loadingConfirmation := loadingConfirmation s;
     shippingAddress := shippingAddress s; billingAddress := billingAddress s |}.

Definition withLoading (v : bool) (s : State) : State :=
  {| currentStep := currentStep s; sameBillingAddress := sameBillingAddress s;
     loading := v; error := error s; shippingMethods := shippingMethods s;
     selectedShippingMethod := selectedShippingMethod s;
     confirmationData := confirmationData s;
     loadingConfirmation := loadingConfirmation s;
     shippingAddress := shippingAddress s; billingAddress := billingAddress s |}.

Definition withError (v : option string) (s : State) : State :=
  {| currentStep := currentStep s; sameBillingAddress := sameBillingAddress s;
     loading := loading s; error := v; shippingMethods := shippingMethods s;
     selectedShippingMethod := selectedShippingMethod s;
     confirmationData := confirmationData s;
     loadingConfirmation := loadingConfirmation s;
     shippingAddress := shippingAddress s; billingAddress := billingAddress s |}.

Definition withShippingMethods (v : list ShippingMethod.t) (s : State) : State :=
  {| currentStep := currentStep s; sameBillingAddress := sameBillingAddress s;
     loading := loading s; error := error s; shippingMethods := v;
     selectedShippingMethod := selectedShippingMethod s;
     confirmationData := confirmationData s;
     loadingConfirmation := loadingConfirmation s;
     shippingAddress := shippingAddress s; billingAddress := billingAddress s |}.

Definition withSelectedShippingMethod (v : string) (s : State) : State :=
  {| currentStep := currentStep s; sameBillingAddress := sameBillingAddress s;
     loading := loading s; error := error s; shippingMethods := shippingMethods s;
     selectedShippingMethod := v;
     confirmationData := confirmationData s;
     loadingConfirmation := loadingConfirmation s;
     shippingAddress := shippingAddress s; billingAddress := billingAddress s |}.

Definition withConfirmationData (v : ConfirmationData) (s : State) : State :=
  {| currentStep := currentStep s; sameBillingAddress := sameBillingAddress s;
     loading := loading s; error := error s; shippingMethods := shippingMethods s;
     selectedShippingMethod := selectedShippingMethod s;
     confirmationData := v;
     loadingConfirmation := loadingConfirmation s;
     shippingAddress := shippingAddress s; billingAddress := billingAddress s |}.

Definition withLoadingConfirmation (v : bool) (s : State) : State :=
  {| currentStep := currentStep s; sameBillingAddress := sameBillingAddress s;
     loading := loading s; error := error s; shippingMethods := shippingMethods s;
     selectedShippingMethod := selectedShippingMethod s;
     confirmationData := confirmationData s;
     loadingConfirmation := v;
     shippingAddress := shippingAddress s; billingAddress := billingAddress s |}.

Definition setCurrentStep (v : Step) : Js (Page State) unit :=
  modify (withState (withCurrentStep v)).
Definition setLoading (v : bool) : Js (Page State) unit :=
  modify (withState (withLoading v)).
Definition setError (v : option string) : Js (Page State) unit :=
  modify (withState (withError v)).
Definition setShippingMethods (v : list ShippingMethod.t) : Js (Page State) unit :=
  modify (withState (withShippingMethods v)).
Definition setSelectedShippingMethod (v : string) : Js (Page State) unit :=
  modify (withState (withSelectedShippingMethod v)).
Definition setConfirmationData (v : ConfirmationData) : Js (Page State) unit :=
  modify (withState (withConfirmationData v)).
Definition setLoadingConfirmation (v : bool) : Js (Page State) unit :=
  modify (withState (withLoadingConfirmation v)).

(** ** [handleSubmit], the submit handler of the address form

    [render] is the state of the render whose closure the handler is;
    [submitted] is how the promise of [submitCheckoutAddress] settles. *)
Definition handleSubmit (render : State)
    (submitted : Completion CheckoutAddressResponse.t) : Js (Page State) unit :=
  cartId <- onWorld Cookies.getCartId ;;
  if negb (truthyOpt cartId) then
    setError (Some "No cart found. Please add items to cart first.")
  else
    tryFinally
      (tryCatch
         (setLoading true ;;
          setError None ;;
          response <-
            awaitApi
              (SubmitCheckoutAddress (default "" cartId)
                 (AddressForm.withSameBillingAddress (sameBillingAddress render)
                    (shippingAddress render))
                 (AddressForm.withSameBillingAddress (sameBillingAddress render)
                    (billingAddress render)))
              submitted ;;
          if succeeded (CheckoutAddressResponse.status_code response)
                       (CheckoutAddressResponse.status_message response)
          then
            match shippingMethodsOf response with
            | Some (m :: rest) =>
                let shippingMethodsData := m :: rest in
                setShippingMethods shippingMethodsData ;;
                match defaultMethod shippingMethodsData with
                | Some d => setSelectedShippingMethod (ShippingMethod.id d)
                | None => ret tt
                end ;;
                setCurrentStep ShippingStep
            | _ => alert "Address submitted successfully!"
            end
          else
            throw (Error (orDefault (CheckoutAddressResponse.status_message response)
                                    "Failed to submit address")))
         (fun err => setError (Some (messageOr "Failed to process checkout" err))))
      (withState (withLoading false)).

(** ** [fetchConfirmationData] *)

Definition checkoutOf (checkoutData : CheckoutResponse.t)
    : option CheckoutResponse.CheckoutData :=
  match CheckoutResponse.payload checkoutData with
  | Some p => CheckoutResponse.checkout p
  | None => None
  end.

(** [checkout.address_detail?.addresses || []] *)
Definition addressesOf (checkout : CheckoutResponse.CheckoutData) : list Address.t :=
  match CheckoutResponse.address_detail checkout with
  | Some d => default [] (CheckoutResponse.addresses d)
  | None => []
  end.

Definition fetchConfirmationData (cartId : string)
    (fetched : Completion CheckoutResponse.t) : Js (Page State) unit :=
  tryFinally
    (tryCatch
       (setLoadingConfirmation true ;;
        checkoutData <- awaitApi (GetCheckoutData cartId) fetched ;;
        match checkoutOf checkoutData with
        | Some checkout =>
            let addresses := addressesOf checkout in
            setConfirmationData
              {| confirmedShippingAddress := List.find Address.is_selected addresses;
                 confirmedBillingAddress :=
                   List.find Address.is_selected_billing_address addresses;
                 confirmedShipping :=
                   match CheckoutResponse.order checkout with
                   | Some o => CheckoutResponse.shipping o
                   | None => None
                   end;
                 confirmedTotal :=
                   match CheckoutResponse.order checkout with
                   | Some o => CheckoutResponse.total o
                   | None => None
                   end |}
        | None => ret tt
        end)
       (fun err =>
          setError (Some "Failed to load confirmation data. Please refresh the page.")))
    (withState (withLoadingConfirmation false)).

(** ** [handleShippingMethodSubmit], the submit handler of the shipping form *)
Definition handleShippingMethodSubmit (render : State)
    (submitted : Completion StatusResponse.t)
    (fetched : Completion CheckoutResponse.t) : Js (Page State) unit :=
  cartId <- onWorld Cookies.getCartId ;;
  if negb (truthyOpt cartId) then
    setError (Some "No cart found. Please add items to cart first.")
  else if negb (truthy (selectedShippingMethod render)) then
    setError (Some "Please select a shipping method")
  else
    tryFinally
      (tryCatch
         (setLoading true ;;
          setError None ;;
          response <-
            awaitApi (SubmitShippingMethod (default "" cartId)
                        (selectedShippingMethod render))
                     submitted ;;
          if succeeded (StatusResponse.status_code response)
                       (StatusResponse.status_message response)
          then
            fetchConfirmationData (default "" cartId) fetched ;;
            setCurrentStep ConfirmationStep
          else
            throw (Error (orDefault (StatusResponse.status_message response)
                                    "Failed to submit shipping method")))
         (fun err => setError (Some (messageOr "Failed to process shipping method" err))))
      (withState (withLoading false)).

(** ** [handleConfirmOrder], the click handler of the confirmation button *)
Definition handleConfirmOrder
    (placed : Completion StatusResponse.t) : Js (Page State) unit :=
  cartId <- onWorld Cookies.getCartId ;;
  if negb (truthyOpt cartId) then
    setError (Some "No cart found. Please add items to cart first.")
  else
    tryFinally
      (tryCatch
         (setLoading true ;;
          setError None ;;
          response <-
            awaitApi (ProcessOfflinePayment (default "" cartId) "cash_on_delivery")
                     placed ;;
          if succeeded (StatusResponse.status_code response)
                       (StatusResponse.status_message response)
          then
            onWorld Cookies.deleteCartId ;;
            alert "Order placed successfully!" ;;
            navigate "/"
          else
            throw (Error (orDefault (StatusResponse.status_message response)
                                    "Failed to place order")))
         (fun err => setError (Some (messageOr "Failed to place order" err))))
      (withState (withLoading false)).

(** The click handler of the back button. *)
Definition handleBack (render : State) : Js (Page State) unit :=
  match currentStep render with
  | ShippingStep => setCurrentStep AddressStep
  | ConfirmationStep => setCurrentStep ShippingStep
  | AddressStep => navigate "-1"
  end.

(** Whether the form of the current step can be submitted: the step's
    button is rendered and is not [disabled]. *)
Definition canSubmit (s : State) : bool :=
  match currentStep s with
  | AddressStep => negb (loading s)
  | ShippingStep => negb (loading s || negb (truthy (selectedShippingMethod s)))
  | ConfirmationStep => negb (loadingConfirmation s) && negb (loading s)
  end.

(** What the user does on the page, with the settlements of the promises
    the handler awaits. *)
Inductive Event :=
| SubmitAddress (submitted : Completion CheckoutAddressResponse.t)
| SubmitShipping (submitted : Completion StatusResponse.t)
                 (fetched : Completion CheckoutResponse.t)
| ConfirmOrder (placed : Completion StatusResponse.t)
| Back
| SelectShippingMethod (index : nat).

(** The page reacts to an event of the form that the current step renders,
    when its button is enabled; other events find no handler. *)
Definition react (e : Event) (p : Page State) : Page State :=
  let s := state p in
  match e, currentStep s with
  | SubmitAddress submitted, AddressStep =>
      if canSubmit s then snd (handleSubmit s submitted p) else p
  | SubmitShipping submitted fetched, ShippingStep =>
      if canSubmit s then snd (handleShippingMethodSubmit s submitted fetched p) else p
  | ConfirmOrder placed, ConfirmationStep =>
      if canSubmit s then snd (handleConfirmOrder placed p) else p
  | Back, _ => snd (handleBack s p)
  | SelectShippingMethod index, ShippingStep =>
      match shippingMethods s !! index with
      | Some method => snd (setSelectedShippingMethod (ShippingMethod.id method) p)
      | None => p
      end
  | _, _ => p
  end.

End Checkout.

(* ===================================================================== *)
(** * The single-page revision of [pages/Checkout.tsx] *)
(* ===================================================================== *)

Module CheckoutSinglePage.

Record State := {
  sameBillingAddress : bool;
  loading : bool;
  error : option string;
  shippingMethods : list ShippingMethod.t;
  selectedShippingMethod : string;
  addressSubmitted : bool;
  shippingAddress : AddressForm.t;
  billingAddress : AddressForm.t
}.

Definition initialState : State :=
  {| sameBillingAddress := true; loading := false; error := None;
     shippingMethods := []; selectedShippingMethod := ""; addressSubmitted := false;
     shippingAddress := AddressForm.empty; billingAddress := AddressForm.empty |}.

Definition withLoading (v : bool) (s : State) : State :=
  {| sameBillingAddress := sameBillingAddress s; loading := v; error := error s;
     shippingMethods := shippingMethods s;
     selectedShippingMethod := selectedShippingMethod s;
     addressSubmitted := addressSubmitted s;
     shippingAddress := shippingAddress s; billingAddress := billingAddress s |}.

Definition withError (v : option string) (s : State) : State :=
  {| sameBillingAddress := sameBillingAddress s; loading := loading s; error := v;
     shippingMethods := shippingMethods s;
     selectedShippingMethod := selectedShippingMethod s;
     addressSubmitted := addressSubmitted s;
     shippingAddress := shippingAddress s; billingAddress := billingAddress s |}.

Definition withShippingMethods (v : list ShippingMethod.t) (s : State) : State :=
  {| sameBillingAddress := sameBillingAddress s; loading := loading s;
     error := error s; shippingMethods := v;
     selectedShippingMethod := selectedShippingMethod s;
     addressSubmitted := addressSubmitted s;
     shippingAddress := shippingAddress s; billingAddress := billingAddress s |}.

Definition withSelectedShippingMethod (v : string) (s : State) : State :=
  {| sameBillingAddress := sameBillingAddress s; loading := loading s;
     error := error s; shippingMethods := shippingMethods s;
     selectedShippingMethod := v;
     addressSubmitted := addressSubmitted s;
     shippingAddress := shippingAddress s; billingAddress := billingAddress s |}.

Definition withAddressSubmitted (v : bool) (s : State) : State :=
  {| sameBillingAddress := sameBillingAddress s; loading := loading s;
     error := error s; shippingMethods := shippingMethods s;
     selectedShippingMethod := selectedShippingMethod s;
     addressSubmitted := v;
     shippingAddress := shippingAddress s; billingAddress := billingAddress s |}.

Definition setLoading (v : bool) : Js (Page State) unit :=
  modify (withState (withLoading v)).
Definition setError (v : option string) : Js (Page State) unit :=
  modify (withState (withError v)).
Definition setShippingMethods (v : list ShippingMethod.t) : Js (Page State) unit :=
  modify (withState (withShippingMethods v)).
Definition setSelectedShippingMethod (v : string) : Js (Page State) unit :=
  modify (withState (withSelectedShippingMethod v)).
Definition setAddressSubmitted (v : bool) : Js (Page State) unit :=
  modify (withState (withAddressSubmitted v)).

(** ** [handlePlaceOrder]

    [shippingSubmitted] and [placed] are how the promises of
    [submitShippingMethod] and [processOfflinePayment] settle, when the
    handler comes to await them. *)
Definition handlePlaceOrder (render : State)
    (shippingSubmitted placed : Completion StatusResponse.t) : Js (Page State) unit :=
  cartId <- onWorld Cookies.getCartId ;;
  if negb (truthyOpt cartId) then
    setError (Some "No cart found. Please add items to cart first.")
  else if negb (truthy (selectedShippingMethod render))
          && (0 <? length (shippingMethods render))%nat then
    setError (Some "Please select a shipping method")
  else
    tryFinally
      (tryCatch
         (setLoading true ;;
          setError None ;;
          (if truthy (selectedShippingMethod render)
              && (0 <? length (shippingMethods render))%nat
           then
             shippingResponse <-
               awaitApi (SubmitShippingMethod (default "" cartId)
                           (selectedShippingMethod render))
                        shippingSubmitted ;;
             if negb (succeeded (StatusResponse.status_code shippingResponse)
                                (StatusResponse.status_message shippingResponse))
             then throw (Error (orDefault (StatusResponse.status_message shippingResponse)
                                          "Failed to submit shipping method"))
             else ret tt
           else ret tt) ;;
          response <-
            awaitApi (ProcessOfflinePayment (default "" cartId) "cash_on_delivery")
                     placed ;;
          if succeeded (StatusResponse.status_code response)
                       (StatusResponse.status_message response)
          then
            onWorld Cookies.deleteCartId ;;
            alert "Order placed successfully!" ;;
            navigate "/"
          else
            throw (Error (orDefault (StatusResponse.status_message response)
                                    "Failed to place order")))
         (fun err => setError (Some (messageOr "Failed to place order" err))))
      (withState (withLoading false)).

(** ** [handleAddressSubmit] *)
Definition handleAddressSubmit (render : State)
    (submitted : Completion CheckoutAddressResponse.t)
    (shippingSubmitted placed : Completion StatusResponse.t) : Js (Page State) unit :=
  cartId <- onWorld Cookies.getCartId ;;
  if negb (truthyOpt cartId) then
    setError (Some "No cart found. Please add items to cart first.")
  else
    tryFinally
      (tryCatch
         (setLoading true ;;
          setError None ;;
          response <-
            awaitApi
              (SubmitCheckoutAddress (default "" cartId)
                 (AddressForm.withSameBillingAddress (sameBillingAddress render)
                    (shippingAddress render))
                 (AddressForm.withSameBillingAddress (sameBillingAddress render)
                    (billingAddress render)))
              submitted ;;
          if succeeded (CheckoutAddressResponse.status_code response)
                       (CheckoutAddressResponse.status_message response)
          then
            match shippingMethodsOf response with
            | Some (m :: rest) =>
                let shippingMethodsData := m :: rest in
                setShippingMethods shippingMethodsData ;;
                match defaultMethod shippingMethodsData with
                | Some d => setSelectedShippingMethod (ShippingMethod.id d)
                | None => ret tt
                end ;;
                setAddressSubmitted true
            | _ => handlePlaceOrder render shippingSubmitted placed
            end
          else
            throw (Error (orDefault (CheckoutAddressResponse.status_message response)
                                    "Failed to submit address")))
         (fun err => setError (Some (messageOr "Failed to process checkout" err))))
      (withState (withLoading false)).

(** The form's [onSubmit]: [handlePlaceOrder] once the address has been
    submitted, [handleAddressSubmit] before. *)
Definition onSubmit (render : State)
    (submitted : Completion CheckoutAddressResponse.t)
    (shippingSubmitted placed : Completion StatusResponse.t) : Js (Page State) unit :=
  if addressSubmitted render
  then handlePlaceOrder render shippingSubmitted placed
  else handleAddressSubmit render submitted shippingSubmitted placed.

End CheckoutSinglePage.

(* ===================================================================== *)
(** * [pages/CartPage.tsx]: the cart page and its shared promise map *)
(* ===================================================================== *)

(** The page is event driven.  Its asynchronous function [loadCartItems] is
    cut at its [await]: the part before runs when the function is called,
    the part after ([resume]) when the awaited promise settles.  Promises are
    numbered in the order in which [getCartItems] is called. A timer fires as
    soon as its delay has passed.  The request client is run when the network
    answers, so the request shows in [requests] from then on; the calls of
    [getCartItems] themselves are recorded in [invoked] when they are made. *)
Module CartPage.

Record CartItem := {
  product_id : string;
  variant_id : string;
  quantity : Z;
  name : string;
  price : Z;
  image : option string
}.

(** [a || b] and [a || fallback] on optional numbers (zero is falsy). *)
Definition orElseNumber (a b : option Z) : option Z :=
  match a with
  | Some n => if n =? 0 then b else a
  | None => b
  end.

Definition orNumber (a : option Z) (fallback : Z) : Z :=
  match a with
  | Some n => if n =? 0 then fallback else n
  | None => fallback
  end.

(** The callback of [apiItems.map(...)]. *)
Definition transform (item : CartLine.t) : CartItem :=
  {| product_id := orDefault (CartLine.product_id item) "";
     variant_id := orDefault (CartLine.product_variant_id item) "";
     quantity := orNumber (CartLine.quantity item) 1;
     name := orDefault (orElse (CartLine.name item) (CartLine.product_name item))
                       "Product";
     price := orNumber (orElseNumber (CartLine.price item) (CartLine.selling_price item)) 0;
     image :=
       match orElse (CartLine.image item) (CartLine.image_url item) with
       | Some s => if truthy s then Some s else None
       | None => None
       end |}.

(** [response.payload?.items || []] *)
Definition apiItemsOf (response : CartItemResponse.t) : list CartLine.t :=
  match CartItemResponse.payload response with
  | Some p => default [] (CartItemResponse.items p)
  | None => []
  end.

(** The React state of the page. *)
Record View := {
  cartItems : list CartItem;
  loading : bool;
  error : option string
}.

(** A call of [loadCartItems] suspended at its [await]: which call it is,
    the promise it awaits, the cart id it read, and whether it took the
    [useCache] branch. *)
Record Waiter := {
  caller : nat;
  awaited : nat;
  cartIdOf : string;
  shared : bool
}.

(** [cartPromises] is the module-level map of the source.  [invoked] lists
    the arguments of the calls of [getCartItems] made so far (the [n]-th
    call returns promise [n]), [settled] how the settled ones ended,
    [waiters] the suspended calls of [loadCartItems], [timers] the pending
    [setTimeout]s with their due times, [loads] the number of calls of
    [loadCartItems] so far and [delivered] what each resumed call received
    from its [await]. *)
Record State := {
  world : World;
  cartPromises : gmap string nat;
  invoked : list string;
  settled : gmap nat (Completion CartItemResponse.t);
  waiters : list Waiter;
  timers : list (Z * string);
  now : Z;
  loads : nat;
  delivered : list (nat * Completion CartItemResponse.t);
  view : View
}.

Definition initial (w : World) : State :=
  {| world := w; cartPromises := ∅; invoked := []; settled := ∅; waiters := [];
     timers := []; now := 0; loads := 0; delivered := [];
     view := {| cartItems := []; loading := true; error := None |} |}.

Definition withWorld (v : World) (s : State) : State :=
  {| world := v; cartPromises := cartPromises s; invoked := invoked s;
     settled := settled s; waiters := waiters s; timers := timers s; now := now s;
     loads := loads s; delivered := delivered s; view := view s |}.

Definition withCartPromises (f : gmap string nat -> gmap string nat) (s : State) : State :=
  {| world := world s; cartPromises := f (cartPromises s); invoked := invoked s;
     settled := settled s; waiters := waiters s; timers := timers s; now := now s;
     loads := loads s; delivered := delivered s; view := view s |}.

Definition withInvoked (v : list string) (s : State) : State :=
  {| world := world s; cartPromises := cartPromises s; invoked := v;
     settled := settled s; waiters := waiters s; timers := timers s; now := now s;
     loads := loads s; delivered := delivered s; view := view s |}.

Definition withSettled (v : gmap nat (Completion CartItemResponse.t)) (s : State) : State :=
  {| world := world s; cartPromises := cartPromises s; invoked := invoked s;
     settled := v; waiters := waiters s; timers := timers s; now := now s;
     loads := loads s; delivered := delivered s; view := view s |}.

Definition withWaiters (v : list Waiter) (s : State) : State :=
  {| world := world s; cartPromises := cartPromises s; invoked := invoked s;
     settled := settled s; waiters := v; timers := timers s; now := now s;
     loads := loads s; delivered := delivered s; view := view s |}.

Definition withTimers (v : list (Z * string)) (s : State) : State :=
  {| world := world s; cartPromises := cartPromises s; invoked := invoked s;
     settled := settled s; waiters := waiters s; timers := v; now := now s;
     loads := loads s; delivered := delivered s; view := view s |}.

Definition withNow (v : Z) (s : State) : State :=
  {| world := world s; cartPromises := cartPromises s; invoked := invoked s;
     settled := settled s; waiters := waiters s; timers := timers s; now := v;
     loads := loads s; delivered := delivered s; view := view s |}.

Definition withLoads (v : nat) (s : State) : State :=
  {| world := world s; cartPromises := cartPromises s; invoked := invoked s;
     settled := settled s; waiters := waiters s; timers := timers s; now := now s;
     loads := v; delivered := delivered s; view := view s |}.

Definition withDelivered (v : list (nat * Completion CartItemResponse.t)) (s : State) : State :=
  {| world := world s; cartPromises := cartPromises s; invoked := invoked s;
     settled := settled s; waiters := waiters s; timers := timers s; now := now s;
     loads := loads s; delivered := v; view := view s |}.

Definition withView (f : View -> View) (s : State) : State :=
  {| world := world s; cartPromises := cartPromises s; invoked := invoked s;
     settled := settled s; waiters := waiters s; timers := timers s; now := now s;
     loads := loads s; delivered := delivered s; view := f (view s) |}.

Definition setCartItems (v : list CartItem) (s : State) : State :=
  withView (fun x => {| cartItems := v; loading := loading x; error := error x |}) s.
Definition setLoading (v : bool) (s : State) : State :=
  withView (fun x => {| cartItems := cartItems x; loading := v; error := error x |}) s.
Definition setError (v : option string) (s : State) : State :=
  withView (fun x => {| cartItems := cartItems x; loading := loading x; error := v |}) s.

(** The cart id the cookie store holds. *)
Definition storedCartId (s : State) : option string :=
  match Cookies.getCartId (world s) with
  | (Return c, _) => c
  | (Throw _, _) => None
  end.

(** ** [loadCartItems] after its [await]

    On success: in the [useCache] branch, [setTimeout(() =>
    cartPromises.delete(cartId), 100)]; then the items are shown.  On
    failure: the error is shown and [cartPromises.delete(cartId)] runs at
    once.  In both cases [finally] clears [loading]. *)
Definition resume (wt : Waiter) (c : Completion CartItemResponse.t) (s : State) : State :=
  let s := withDelivered (delivered s ++ [(caller wt, c)]) s in
  let s :=
    match c with
    | Return response =>
        let s :=
          if shared wt
          then withTimers (timers s ++ [(now s + 100, cartIdOf wt)]) s
          else s in
        setCartItems (map transform (apiItemsOf response)) s
    | Throw err =>
        let s := setError (Some (messageOr "Failed to load cart" err)) s in
        let s := setCartItems [] s in
        if truthy (cartIdOf wt)
        then withCartPromises (delete (cartIdOf wt)) s
        else s
    end in
  setLoading false s.

(** [await promise]: a settled promise resumes the caller before anything
    else happens, a pending one suspends it. *)
Definition await (wt : Waiter) (s : State) : State :=
  match settled s !! awaited wt with
  | Some c => resume wt c s
  | None => withWaiters (waiters s ++ [wt]) s
  end.

(** ** [loadCartItems] up to its [await] *)
Definition loadCartItems (useCache : bool) (s : State) : State :=
  let me := loads s in
  let s := withLoads (S me) s in
  match storedCartId s with
  | Some cartId =>
      if truthy cartId then
        let s := setLoading true s in
        let s := setError None s in
        if useCache then
          match cartPromises s !! cartId with
          | Some promise =>
              await {| caller := me; awaited := promise; cartIdOf := cartId;
                       shared := true |} s
          | None =>
              let promise := length (invoked s) in
              let s := withInvoked (invoked s ++ [cartId]) s in
              let s := withCartPromises (insert cartId promise) s in
              await {| caller := me; awaited := promise; cartIdOf := cartId;
                       shared := true |} s
          end
        else
          let promise := length (invoked s) in
          let s := withInvoked (invoked s ++ [cartId]) s in
          await {| caller := me; awaited := promise; cartIdOf := cartId;
                   shared := false |} s
      else setLoading false (setCartItems [] s)
  | None => setLoading false (setCartItems [] s)
  end.

(** The mount effect ([initLoad]): with no cart id the page shows the
    empty cart, otherwise it calls [loadCartItems(true)]. *)
Definition initLoad (s : State) : State :=
  if truthyOpt (storedCartId s)
  then loadCartItems true s
  else setLoading false (setCartItems [] s).

Section WithApi.

(** The request client the page imports: [getCartItems] with the
    outcomes of the [fetch] calls it makes. *)
Context {Outcome : Type}.
Context (getCartItems : string -> Outcome -> Js World CartItemResponse.t).

Inductive Event :=
| Mount                                   (* the mount effect runs *)
| Load (useCache : bool)                  (* a call of [loadCartItems] *)
| Answer (promise : nat) (outcome : Outcome)
                                          (* the network answers a call *)
| Elapse (ms : Z).                        (* time passes *)

(** The network answers the call of [getCartItems] behind [promise]:
    the request client finishes, the promise settles, and the calls of
    [loadCartItems] that await it resume in the order in which they
    suspended. *)
Definition answer (promise : nat) (outcome : Outcome) (s : State) : State :=
  match invoked s !! promise, settled s !! promise with
  | Some cartId, None =>
      let '(c, w) := getCartItems cartId outcome (world s) in
      let s := withWorld w s in
      let s := withSettled (<[promise := c]> (settled s)) s in
      let ready := List.filter (fun wt => Nat.eqb (awaited wt) promise) (waiters s) in
      let s :=
        withWaiters
          (List.filter (fun wt => negb (Nat.eqb (awaited wt) promise)) (waiters s)) s in
      fold_left (fun s wt => resume wt c s) ready s
  | _, _ => s
  end.

(** Time passes: the timers that are due run
    [cartPromises.delete(cartId)], in the order in which they were set. *)
Definition elapse (ms : Z) (s : State) : State :=
  let s := withNow (now s + ms) s in
  let due := List.filter (fun t => fst t <=? now s) (timers s) in
  let s := withTimers (List.filter (fun t => negb (fst t <=? now s)) (timers s)) s in
  fold_left (fun s t => withCartPromises (delete (snd t)) s) due s.

Definition step (s : State) (e : Event) : State :=
  match e with
  | Mount => initLoad s
  | Load useCache => loadCartItems useCache s
  | Answer promise outcome => answer promise outcome s
  | Elapse ms => elapse ms s
  end.

Definition run (events : list Event) (s : State) : State :=
  fold_left step events s.

End WithApi.

End CartPage.

(* ===================================================================== *)
(** * [pages/HomePage.tsx]: the product grid and its shared promise *)
(* ===================================================================== *)

(** The page keeps the promise of [fetchProducts] in the module-level
    variable [productsPromise], so that the effect that loads the products
    does not call [fetchProducts] again while a call is pending.  The effect
    ([loadProducts]) is cut at its [await], as for the cart page.  A
    component has its React state; each run of its effect has its own
    [isMounted] flag, which the cleanup of that run clears. *)
Module HomePage.

Record State := {
  products : option (list Product.t);
  loading : bool;
  error : option string;
  currency : string;
  selectedVariantId : option string;
  isModalOpen : bool
}.

Definition initialState : State :=
  {| products := Some []; loading := true; error := None; currency := "USD";
     selectedVariantId := None; isModalOpen := false |}.

Definition setProducts (v : option (list Product.t)) (s : State) : State :=
  {| products := v; loading := loading s; error := error s; currency := currency s;
     selectedVariantId := selectedVariantId s; isModalOpen := isModalOpen s |}.
Definition setLoading (v : bool) (s : State) : State :=
  {| products := products s; loading := v; error := error s; currency := currency s;
     selectedVariantId := selectedVariantId s; isModalOpen := isModalOpen s |}.
Definition setError (v : option string) (s : State) : State :=
  {| products := products s; loading := loading s; error := v; currency := currency s;
     selectedVariantId := selectedVariantId s; isModalOpen := isModalOpen s |}.
Definition setCurrency (v : string) (s : State) : State :=
  {| products := products s; loading := loading s; error := error s; currency := v;
     selectedVariantId := selectedVariantId s; isModalOpen := isModalOpen s |}.
Definition setSelectedVariantId (v : option string) (s : State) : State :=
  {| products := products s; loading := loading s; error := error s;
     currency := currency s; selectedVariantId := v; isModalOpen := isModalOpen s |}.
Definition setIsModalOpen (v : bool) (s : State) : State :=
  {| products := products s; loading := loading s; error := error s;
     currency := currency s; selectedVariantId := selectedVariantId s;
     isModalOpen := v |}.

(** [handleProductClick]: the modal is opened for the id of the first
    variant, or for the product's own id when it has no variants. *)
Definition handleProductClick (product : Product.t) (s : State) : State :=
  let variantId :=
    match Product.variants product with
    | variant :: _ => ProductVariant.variant_id variant
    | [] => Product.product_id product
    end in
  setIsModalOpen true (setSelectedVariantId (Some variantId) s).

Definition handleCloseModal (s : State) : State := setIsModalOpen false s.

(** A run of the effect suspended at its [await]: which run it is and the
    promise it awaits. *)
Record Waiter := {
  caller : nat;
  awaited : nat
}.

(** [productsPromise] is the module-level variable of the source.
    [invoked] counts the calls of [fetchProducts] made so far (the [n]-th
    call returns promise [n]), [settled] tells how the settled ones ended,
    [isMounted] holds the flag of each run of the effect, [waiters] the
    suspended runs and [timers] the due times of the pending
    [setTimeout]s. *)
Record Session := {
  world : World;
  productsPromise : option nat;
  invoked : nat;
  settled : gmap nat (Completion ProductsResponse.t);
  isMounted : list bool;
  waiters : list Waiter;
  timers : list Z;
  now : Z;
  view : State
}.

Definition initial (w : World) : Session :=
  {| world := w; productsPromise := None; invoked := 0; settled := ∅;
     isMounted := []; waiters := []; timers := []; now := 0; view := initialState |}.

Definition withWorld (v : World) (s : Session) : Session :=
  {| world := v; productsPromise := productsPromise s; invoked := invoked s;
     settled := settled s; isMounted := isMounted s; waiters := waiters s;
     timers := timers s; now := now s; view := view s |}.

Definition withProductsPromise (v : option nat) (s : Session) : Session :=
  {| world := world s; productsPromise := v; invoked := invoked s;
     settled := settled s; isMounted := isMounted s; waiters := waiters s;
     timers := timers s; now := now s; view := view s |}.

Definition withInvoked (v : nat) (s : Session) : Session :=
  {| world := world s; productsPromise := productsPromise s; invoked := v;
     settled := settled s; isMounted := isMounted s; waiters := waiters s;
     timers := timers s; now := now s; view := view s |}.

Definition withSettled (v : gmap nat (Completion ProductsResponse.t)) (s : Session)
    : Session :=
  {| world := world s; productsPromise := productsPromise s; invoked := invoked s;
     settled := v; isMounted := isMounted s; waiters := waiters s;
     timers := timers s; now := now s; view := view s |}.

Definition withIsMounted (v : list bool) (s : Session) : Session :=
  {| world := world s; productsPromise := productsPromise s; invoked := invoked s;
     settled := settled s; isMounted := v; waiters := waiters s;
     timers := timers s; now := now s; view := view s |}.

Definition withWaiters (v : list Waiter) (s : Session) : Session :=
  {| world := world s; productsPromise := productsPromise s; invoked := invoked s;
     settled := settled s; isMounted := isMounted s; waiters := v;
     timers := timers s; now := now s; view := view s |}.

Definition withTimers (v : list Z) (s : Session) : Session :=
  {| world := world s; productsPromise := productsPromise s; invoked := invoked s;
     settled := settled s; isMounted := isMounted s; waiters := waiters s;
     timers := v; now := now s; view := view s |}.

Definition withNow (v : Z) (s : Session) : Session :=
  {| world := world s; productsPromise := productsPromise s; invoked := invoked s;
     settled := settled s; isMounted := isMounted s; waiters := waiters s;
     timers := timers s; now := v; view := view s |}.

Definition withView (f : State -> State) (s : Session) : Session :=
  {| world := world s; productsPromise := productsPromise s; invoked := invoked s;
     settled := settled s; isMounted := isMounted s; waiters := waiters s;
     timers := timers s; now := now s; view := f (view s) |}.

(** [if (isMounted) { update }] in the run [run] of the effect. *)
Definition whenMounted (run : nat) (update : State -> State) : Js Session unit :=
  modify (fun s =>
    if default false (isMounted s !! run) then withView update s else s).

Section WithApi.

(** The request client the page imports: [fetchProducts] with the outcomes
    of the [fetch] calls it makes. *)
Context {Outcome : Type}.
Context (fetchProducts : Outcome -> Js World ProductsResponse.t).

(** The message of the [TypeError] that the engine throws when the named
    property of [undefined] is read. *)
Context (readOfUndefined : string -> string).

(** ** [loadProducts] after its [await]

    A mounted run reads [response.payload.products], which throws when the
    response has no [payload], shows the products, and reads
    [response.payload.currency.code], which throws when the payload has no
    [currency].  [catch] shows the error if the run is mounted and clears
    [productsPromise]; [finally] clears [loading] if the run is mounted and
    sets the timeout that clears [productsPromise]. *)
Definition resume (wt : Waiter) (c : Completion ProductsResponse.t) : Js Session unit :=
  tryFinally
    (tryCatch
       (response <- settle c ;;
        mounted <- gets (fun s => default false (isMounted s !! caller wt)) ;;
        if mounted then
          match ProductsResponse.payload response with
          | Some payload =>
              modify (withView (setProducts (ProductsResponse.products payload))) ;;
              match ProductsResponse.currency payload with
              | Some currency =>
                  modify (withView (setCurrency (ProductsResponse.code currency)))
              | None => throw (TypeError (readOfUndefined "code"))
              end
          | None => throw (TypeError (readOfUndefined "products"))
          end
        else ret tt)
       (fun err =>
          whenMounted (caller wt)
            (setError (Some (messageOr "Failed to load products" err))) ;;
          modify (withProductsPromise None)))
    (fun s =>
       let s := if default false (isMounted s !! caller wt)
                then withView (setLoading false) s else s in
       withTimers (timers s ++ [now s + 100]) s).

(** [await productsPromise]: a settled promise resumes the run before
    anything else happens, a pending one suspends it. *)
Definition await (wt : Waiter) (s : Session) : Session :=
  match settled s !! awaited wt with
  | Some c => snd (resume wt c s)
  | None => withWaiters (waiters s ++ [wt]) s
  end.

(** ** The effect up to its [await]: [isMounted] is set, [loading] is
    shown, and [fetchProducts] is called unless [productsPromise] holds a
    promise. *)
Definition mount (s : Session) : Session :=
  let me := length (isMounted s) in
  let s := withIsMounted (isMounted s ++ [true]) s in
  let s := withView (setLoading true) s in
  match productsPromise s with
  | Some promise => await {| caller := me; awaited := promise |} s
  | None =>
      let promise := invoked s in
      let s := withInvoked (S (invoked s)) s in
      let s := withProductsPromise (Some promise) s in
      await {| caller := me; awaited := promise |} s
  end.

(** The cleanup of the run [run] of the effect: [isMounted = false]. *)
Definition cleanup (run : nat) (s : Session) : Session :=
  withIsMounted (<[run := false]> (isMounted s)) s.

(** The call of [fetchProducts] behind [promise] finishes: the promise
    settles and the runs that await it resume in the order in which they
    suspended. *)
Definition answer (promise : nat) (outcome : Outcome) (s : Session) : Session :=
  if bool_decide (promise < invoked s)%nat then
    match settled s !! promise with
    | None =>
        let '(c, w) := fetchProducts outcome (world s) in
        let s := withWorld w s in
        let s := withSettled (<[promise := c]> (settled s)) s in
        let ready := List.filter (fun wt => Nat.eqb (awaited wt) promise) (waiters s) in
        let s :=
          withWaiters
            (List.filter (fun wt => negb (Nat.eqb (awaited wt) promise)) (waiters s)) s in
        fold_left (fun s wt => snd (resume wt c s)) ready s
    | Some _ => s
    end
  else s.

(** Time passes: each timer that is due runs [productsPromise = null]. *)
Definition elapse (ms : Z) (s : Session) : Session :=
  let s := withNow (now s + ms) s in
  let due := List.filter (fun t => t <=? now s) (timers s) in
  let s := withTimers (List.filter (fun t => negb (t <=? now s)) (timers s)) s in
  fold_left (fun s _ => withProductsPromise None s) due s.

Inductive Event :=
| Mount                                   (* the effect runs *)
| Cleanup (run : nat)                     (* the cleanup of a run of the effect *)
| Answer (promise : nat) (outcome : Outcome)
                                          (* a call of [fetchProducts] finishes *)
| Elapse (ms : Z)                         (* time passes *)
| Click (product : Product.t)             (* a product card is clicked *)
| CloseModal.                             (* the modal is closed *)

Definition step (s : Session) (e : Event) : Session :=
  match e with
  | Mount => mount s
  | Cleanup run => cleanup run s
  | Answer promise outcome => answer promise outcome s
  | Elapse ms => elapse ms s
  | Click product => withView (handleProductClick product) s
  | CloseModal => withView handleCloseModal s
  end.

Definition run (events : list Event) (s : Session) : Session :=
  fold_left step events s.

End WithApi.

End HomePage.

(* ===================================================================== *)
(** * [pages/Checkout.tsx]: the address section of the form *)
(* ===================================================================== *)

(** The handlers of the address section are the same text in the three-step
    page and in its single-page revision.  They read and write the state
    cells collected in [Form]; [error] is the cell that the submit handlers
    write as well.  The two revisions differ in where the countries come
    from: [fetchAddressDetails] asks [getCheckoutData], the single-page
    revision reads a local file. *)
Module CheckoutForm.

(** [interface State] and [interface Country] of [api.ts]. *)
Record StateOption := { state_code : string; state_name : string }.

Record Country := {
  code : string;
  name : string;
  states : list StateOption
}.

(** The body of a [getCheckoutData] response as [fetchAddressDetails] reads
    it: the three places where it looks for the countries.  A place is
    [None] when a link of its optional chain is missing or its [countries]
    is falsy; an empty array is truthy. *)
Record AddressDetailsResponse := {
  payload_checkout_address_detail_countries : option (list Country);
  address_detail_countries : option (list Country);
  payload_address_detail_countries : option (list Country)
}.

(** The inputs of an address section, by their [name] attribute. *)
Module Field.
Inductive t :=
| first_name | last_name | email_address | telephone | address | city | state
| postal_code | country.
End Field.

Record Form := {
  sameBillingAddress : bool;
  shippingAddress : AddressForm.t;
  billingAddress : AddressForm.t;
  countries : list Country;
  loadingAddressDetails : bool;
  error : option string
}.

Definition initialForm : Form :=
  {| sameBillingAddress := true; shippingAddress := AddressForm.empty;
     billingAddress := AddressForm.empty; countries := [];
     loadingAddressDetails := true; error := None |}.

Definition withSameBillingAddress (v : bool) (f : Form) : Form :=
  {| sameBillingAddress := v; shippingAddress := shippingAddress f;
     billingAddress := billingAddress f; countries := countries f;
     loadingAddressDetails := loadingAddressDetails f; error := error f |}.

Definition withShippingAddress (g : AddressForm.t -> AddressForm.t) (f : Form) : Form :=
  {| sameBillingAddress := sameBillingAddress f; shippingAddress := g (shippingAddress f);
     billingAddress := billingAddress f; countries := countries f;
     loadingAddressDetails := loadingAddressDetails f; error := error f |}.

Definition withBillingAddress (g : AddressForm.t -> AddressForm.t) (f : Form) : Form :=
  {| sameBillingAddress := sameBillingAddress f; shippingAddress := shippingAddress f;
     billingAddress := g (billingAddress f); countries := countries f;
     loadingAddressDetails := loadingAddressDetails f; error := error f |}.

Definition withCountries (v : list Country) (f : Form) : Form :=
  {| sameBillingAddress := sameBillingAddress f; shippingAddress := shippingAddress f;
     billingAddress := billingAddress f; countries := v;
     loadingAddressDetails := loadingAddressDetails f; error := error f |}.

Definition withLoadingAddressDetails (v : bool) (f : Form) : Form :=
  {| sameBillingAddress := sameBillingAddress f; shippingAddress := shippingAddress f;
     billingAddress := billingAddress f; countries := countries f;
     loadingAddressDetails := v; error := error f |}.

Definition withError (v : option string) (f : Form) : Form :=
  {| sameBillingAddress := sameBillingAddress f; shippingAddress := shippingAddress f;
     billingAddress := billingAddress f; countries := countries f;
     loadingAddressDetails := loadingAddressDetails f; error := v |}.

(** [{ ...prev, ...updates }] for the [updates] of a change of the input
    [name] to [value]:
[[
const updates = { [name]: value }
if (name === 'country') {
  updates.state = ''
}
]] *)
Definition update (name : Field.t) (value : string) (prev : AddressForm.t)
    : AddressForm.t :=
  let pick (field : Field.t) (old : string) : string :=
    match name, field with
    | Field.first_name, Field.first_name | Field.last_name, Field.last_name
    | Field.email_address, Field.email_address | Field.telephone, Field.telephone
    | Field.address, Field.address | Field.city, Field.city
    | Field.state, Field.state | Field.postal_code, Field.postal_code
    | Field.country, Field.country => value
    | Field.country, Field.state => ""
    | _, _ => old
    end in
  {| AddressForm.first_name := pick Field.first_name (AddressForm.first_name prev);
     AddressForm.last_name := pick Field.last_name (AddressForm.last_name prev);
     AddressForm.email_address :=
       pick Field.email_address (AddressForm.email_address prev);
     AddressForm.address := pick Field.address (AddressForm.address prev);
     AddressForm.city := pick Field.city (AddressForm.city prev);
     AddressForm.state := pick Field.state (AddressForm.state prev);
     AddressForm.postal_code := pick Field.postal_code (AddressForm.postal_code prev);
     AddressForm.telephone := pick Field.telephone (AddressForm.telephone prev);
     AddressForm.country := pick Field.country (AddressForm.country prev);
     AddressForm.same_billing_address := AddressForm.same_billing_address prev |}.

(** [handleShippingChange]; [render] is the state of the render whose
    closure the handler is. *)
Definition handleShippingChange (render : Form) (name : Field.t) (value : string)
    (f : Form) : Form :=
  let f := withShippingAddress (update name value) f in
  if sameBillingAddress render
  then withBillingAddress (update name value) f
  else f.

(** [handleBillingChange] *)
Definition handleBillingChange (name : Field.t) (value : string) (f : Form) : Form :=
  withBillingAddress (update name value) f.

(** [handleSameBillingAddressChange]: the last update copies the shipping
    address of the render into the billing address:
    [{ ...prev, ...shippingAddress, same_billing_address: checked }]. *)
Definition handleSameBillingAddressChange (render : Form) (checked : bool)
    (f : Form) : Form :=
  let f := withSameBillingAddress checked f in
  let f := withShippingAddress (AddressForm.withSameBillingAddress checked) f in
  let f := withBillingAddress (AddressForm.withSameBillingAddress checked) f in
  if checked
  then withBillingAddress
         (fun prev => AddressForm.withSameBillingAddress checked (shippingAddress render))
         f
  else f.

(** [getStatesForCountry] *)
Definition getStatesForCountry (f : Form) (countryCode : string) : list StateOption :=
  match List.find (fun c => strictEq (code c) countryCode) (countries f) with
  | Some c => states c
  | None => []
  end.

(** The update both effects apply to each address:
[[
prev => {
  if (!prev.country) {
    return { ...prev, country: defaultCountry }
  }
  return prev
}
]] *)
Definition defaultTo (defaultCountry : string) (prev : AddressForm.t) : AddressForm.t :=
  if negb (truthy (AddressForm.country prev))
  then {| AddressForm.first_name := AddressForm.first_name prev;
          AddressForm.last_name := AddressForm.last_name prev;
          AddressForm.email_address := AddressForm.email_address prev;
          AddressForm.address := AddressForm.address prev;
          AddressForm.city := AddressForm.city prev;
          AddressForm.state := AddressForm.state prev;
          AddressForm.postal_code := AddressForm.postal_code prev;
          AddressForm.telephone := AddressForm.telephone prev;
          AddressForm.country := defaultCountry;
          AddressForm.same_billing_address := AddressForm.same_billing_address prev |}
  else prev.

(** What both effects do with the countries they found. *)
Definition useCountries (countriesArray : list Country) (noneMessage : string)
    : Js (Page Form) unit :=
  match countriesArray with
  | first :: _ =>
      modify (withState (withCountries countriesArray)) ;;
      modify (withState (withShippingAddress (defaultTo (code first)))) ;;
      modify (withState (withBillingAddress (defaultTo (code first))))
  | [] => modify (withState (withError (Some noneMessage)))
  end.

(** The three places, in the order of the [if ... else if ... else if]. *)
Definition countriesOf (responseData : AddressDetailsResponse) : option (list Country) :=
  match payload_checkout_address_detail_countries responseData with
  | Some l => Some l
  | None =>
      match address_detail_countries responseData with
      | Some l => Some l
      | None => payload_address_detail_countries responseData
      end
  end.

(** [fetchAddressDetails], the mount effect of the three-step page;
    [fetched] is how the promise of [getCheckoutData] settles. *)
Definition fetchAddressDetails (fetched : Completion AddressDetailsResponse)
    : Js (Page Form) unit :=
  cartId <- onWorld Cookies.getCartId ;;
  if negb (truthyOpt cartId) then
    modify (withState (withLoadingAddressDetails false))
  else
    tryFinally
      (tryCatch
         (checkoutData <- awaitApi (GetCheckoutData (default "" cartId)) fetched ;;
          useCountries (default [] (countriesOf checkoutData))
            "No countries available. Please check the API response.")
         (fun err =>
            modify (withState
                      (withError
                         (Some "Failed to load address details. Please refresh the page.")))))
      (withState (withLoadingAddressDetails false)).

(** The mount effect of the single-page revision;
    [countriesData] is [countriesData.countries] of the local file. *)
Definition loadCountries (countriesData : option (list Country)) : Js (Page Form) unit :=
  tryFinally
    (useCountries (default [] countriesData) "No countries available in data file.")
    (withState (withLoadingAddressDetails false)).

(** What happens to the address section. *)
Inductive Event :=
| ChangeShipping (name : Field.t) (value : string)
| ChangeBilling (name : Field.t) (value : string)
| ToggleSameBillingAddress (checked : bool)
| AddressDetailsSettle (fetched : Completion AddressDetailsResponse)
| LocalCountries (countriesData : option (list Country)).

(** The billing section is rendered only when the box is unchecked:
    [{!sameBillingAddress && (...)}]. *)
Definition react (e : Event) (p : Page Form) : Page Form :=
  match e with
  | ChangeShipping name value =>
      withState (handleShippingChange (state p) name value) p
  | ChangeBilling name value =>
      if sameBillingAddress (state p) then p
      else withState (handleBillingChange name value) p
  | ToggleSameBillingAddress checked =>
      withState (handleSameBillingAddressChange (state p) checked) p
  | AddressDetailsSettle fetched => snd (fetchAddressDetails fetched p)
  | LocalCountries countriesData => snd (loadCountries countriesData p)
  end.

Definition run (events : list Event) (p : Page Form) : Page Form :=
  fold_left (fun p e => react e p) events p.

End CheckoutForm.

(* ===================================================================== *)
(** * [src/utils/cookies.ts]: [getCookie] on the text of [document.cookie] *)
(* ===================================================================== *)

(** [Cookies.getCookie] above takes the browser's cookie jar as a finite
    map.  Here is [getCookie] as it is written, on the string that
    [document.cookie] returns. *)
Module CookieText.

(** [s.split(sep)] for a separator of one character. *)
Fixpoint split (sep : Ascii.ascii) (s : string) : list string :=
  match s with
  | EmptyString => [EmptyString]
  | String c rest =>
      if Ascii.eqb c sep then EmptyString :: split sep rest
      else match split sep rest with
           | piece :: pieces => String c piece :: pieces
           | [] => [String c EmptyString]
           end
  end.

(** [while (c.charAt(0) === ' ') c = c.substring(1, c.length)] *)
Fixpoint trimStart (c : string) : string :=
  match c with
  | String " "%char rest => trimStart rest
  | _ => c
  end.

(** The [for] loop over the pieces:
[[
let c = ca[i]
while (c.charAt(0) === ' ') c = c.substring(1, c.length)
if (c.indexOf(nameEQ) === 0) return c.substring(nameEQ.length, c.length)
]]
    [c.indexOf(nameEQ) === 0] holds exactly when [c] starts with [nameEQ]. *)
Fixpoint scan (nameEQ : string) (ca : list string) : option string :=
  match ca with
  | [] => None
  | piece :: rest =>
      let c := trimStart piece in
      if startsWith c nameEQ
      then Some (String.substring (String.length nameEQ)
                   (String.length c - String.length nameEQ)%nat c)
      else scan nameEQ rest
  end.

Definition getCookie (documentCookie name : string) : option string :=
  let nameEQ := name +:+ "=" in
  let ca := split ";"%char documentCookie in
  scan nameEQ ca.

(** What the browser returns for [document.cookie]: the cookies of the jar
    as [name=value], separated by a semicolon and a space. *)
Fixpoint documentCookie (jar : list (string * string)) : string :=
  match jar with
  | [] => ""
  | (name, value) :: rest =>
      match rest with
      | [] => name +:+ "=" +:+ value
      | _ :: _ => name +:+ "=" +:+ value +:+ "; " +:+ documentCookie rest
      end
  end.

End CookieText.

(* ===================================================================== *)
(** * [components/Cart.tsx] and the cart badge of the home page *)
(* ===================================================================== *)

(** The cart sidebar.  Its [loadCartItems] reads the cart through
    [getCartItems] of the request client, which runs on the browser state
    of the page; [outcome] is how the network answers that call. *)
Module Cart.

Record State := {
  cartItems : list CartPage.CartItem;
  loading : bool;
  error : option string
}.

Definition initialState : State :=
  {| cartItems := []; loading := false; error := None |}.

Definition setCartItems (v : list CartPage.CartItem) : Js (Page State) unit :=
  modify (withState (fun s =>
    {| cartItems := v; loading := loading s; error := error s |})).

Definition withLoading (v : bool) (s : State) : State :=
  {| cartItems := cartItems s; loading := v; error := error s |}.

Definition setLoading (v : bool) : Js (Page State) unit :=
  modify (withState (withLoading v)).

Definition setError (v : option string) : Js (Page State) unit :=
  modify (withState (fun s =>
    {| cartItems := cartItems s; loading := loading s; error := v |})).

Section WithApi.

Context {Outcome : Type}.
Context (getCartItems : string -> Outcome -> Js World CartItemResponse.t).

(** The callback of [apiItems.map(...)] is the one of the cart page. *)
Definition loadCartItems (outcome : Outcome) : Js (Page State) unit :=
  cartId <- onWorld Cookies.getCartId ;;
  if negb (truthyOpt cartId) then
    setCartItems []
  else
    tryFinally
      (tryCatch
         (setLoading true ;;
          setError None ;;
          response <- onWorld (getCartItems (default "" cartId) outcome) ;;
          let apiItems := CartPage.apiItemsOf response in
          let transformedItems := map CartPage.transform apiItems in
          setCartItems transformedItems)
         (fun err =>
            setError (Some (messageOr "Failed to load cart" err)) ;;
            setCartItems []))
      (withState (withLoading false)).

End WithApi.

Section WithNumbers.

(** The [+] of JavaScript on the numbers of the page.  The quantities of
    the model are whole numbers; JavaScript adds them as doubles, so its sum
    is the exact one only where that can be held (up to [2^53]).  The sums
    below are taken with whatever [+] does. *)
Context (plus : Z -> Z -> Z).

(** [cartItems.reduce((sum, item) => sum + item.quantity, 0)] *)
Definition totalItems (cartItems : list CartPage.CartItem) : Z :=
  fold_left (fun sum item => plus sum (CartPage.quantity item)) cartItems 0.

End WithNumbers.

End Cart.

(** The home page of the revision that shows the cart sidebar: the count
    on the cart icon ([updateCartCount]) and the handlers that refresh it. *)
Module HomePageWithCart.

Record State := {
  isModalOpen : bool;
  isCartOpen : bool;
  cartItemCount : Z
}.

Definition initialState : State :=
  {| isModalOpen := false; isCartOpen := false; cartItemCount := 0 |}.

Definition setCartItemCount (v : Z) : Js (Page State) unit :=
  modify (withState (fun s =>
    {| isModalOpen := isModalOpen s; isCartOpen := isCartOpen s; cartItemCount := v |})).

Definition setIsModalOpen (v : bool) : Js (Page State) unit :=
  modify (withState (fun s =>
    {| isModalOpen := v; isCartOpen := isCartOpen s;
       cartItemCount := cartItemCount s |})).

Section WithApi.

(** The [+] of JavaScript on the numbers of the page, as for the sidebar. *)
Context (plus : Z -> Z -> Z).

(** [items.reduce((sum, item) => sum + (item.quantity || 0), 0)] *)
Definition count (items : list CartLine.t) : Z :=
  fold_left (fun sum item => plus sum (CartPage.orNumber (CartLine.quantity item) 0))
    items 0.

Context {Outcome : Type}.
Context (getCartItems : string -> Outcome -> Js World CartItemResponse.t).

Definition updateCartCount (outcome : Outcome) : Js (Page State) unit :=
  cartId <- onWorld Cookies.getCartId ;;
  if negb (truthyOpt cartId) then
    setCartItemCount 0
  else
    tryCatch
      (response <- onWorld (getCartItems (default "" cartId) outcome) ;;
       let items := CartPage.apiItemsOf response in
       setCartItemCount (count items))
      (fun err => setCartItemCount 0).

Definition handleCloseModal (outcome : Outcome) : Js (Page State) unit :=
  setIsModalOpen false ;;
  updateCartCount outcome.

Definition handleCartUpdate (outcome : Outcome) : Js (Page State) unit :=
  updateCartCount outcome.

End WithApi.

End HomePageWithCart.

(* ===================================================================== *)
(** * [components/ProductDetailModal.tsx] *)
(* ===================================================================== *)

(** The modal that shows one product and adds it to the cart.  A handler
    reads the React state of the render it was created in ([render]); the
    calls to the request client are recorded with their arguments and settle
    as given, and the delays of the [setTimeout] calls are recorded. *)
Module ProductDetailModal.

Record State := {
  product : option Product.t;
  loading : bool;
  error : option string;
  selectedImageIndex : Z;
  addingToCart : bool;
  cartMessage : option string;
  quantity : JsNumber.t
}.

Definition initialState : State :=
  {| product := None; loading := false; error := None; selectedImageIndex := 0;
     addingToCart := false; cartMessage := None; quantity := JsNumber.ofZ 1 |}.

Inductive Call :=
| FetchProductDetail (variantId : string)
| AddToCart (productVariantId : string) (quantity : JsNumber.t).

(** A mounted modal: its props, its React state, the calls it has made
    and the timeouts it has set and that have not fired yet. *)
Record Modal := {
  variantId : option string;
  isOpen : bool;
  view : State;
  made : list Call;
  timeouts : list Z
}.

Definition mounted (variantId : option string) (isOpen : bool) : Modal :=
  {| variantId := variantId; isOpen := isOpen; view := initialState; made := [];
     timeouts := [] |}.

Definition withView (f : State -> State) (m : Modal) : Modal :=
  {| variantId := variantId m; isOpen := isOpen m; view := f (view m);
     made := made m; timeouts := timeouts m |}.

Definition withProps (v : option string) (o : bool) (m : Modal) : Modal :=
  {| variantId := v; isOpen := o; view := view m; made := made m;
     timeouts := timeouts m |}.

Definition withTimeouts (v : list Z) (m : Modal) : Modal :=
  {| variantId := variantId m; isOpen := isOpen m; view := view m;
     made := made m; timeouts := v |}.

Definition withProduct (v : option Product.t) (s : State) : State :=
  {| product := v; loading := loading s; error := error s;
     selectedImageIndex := selectedImageIndex s; addingToCart := addingToCart s;
     cartMessage := cartMessage s; quantity := quantity s |}.

Definition withLoading (v : bool) (s : State) : State :=
  {| product := product s; loading := v; error := error s;
     selectedImageIndex := selectedImageIndex s; addingToCart := addingToCart s;
     cartMessage := cartMessage s; quantity := quantity s |}.

Definition withError (v : option string) (s : State) : State :=
  {| product := product s; loading := loading s; error := v;
     selectedImageIndex := selectedImageIndex s; addingToCart := addingToCart s;
     cartMessage := cartMessage s; quantity := quantity s |}.

Definition withSelectedImageIndex (v : Z) (s : State) : State :=
  {| product := product s; loading := loading s; error := error s;
     selectedImageIndex := v; addingToCart := addingToCart s;
     cartMessage := cartMessage s; quantity := quantity s |}.

Definition withAddingToCart (v : bool) (s : State) : State :=
  {| product := product s; loading := loading s; error := error s;
     selectedImageIndex := selectedImageIndex s; addingToCart := v;
     cartMessage := cartMessage s; quantity := quantity s |}.

Definition withCartMessage (v : option string) (s : State) : State :=
  {| product := product s; loading := loading s; error := error s;
     selectedImageIndex := selectedImageIndex s; addingToCart := addingToCart s;
     cartMessage := v; quantity := quantity s |}.

Definition withQuantity (v : JsNumber.t) (s : State) : State :=
  {| product := product s; loading := loading s; error := error s;
     selectedImageIndex := selectedImageIndex s; addingToCart := addingToCart s;
     cartMessage := cartMessage s; quantity := v |}.

Definition setProduct (v : option Product.t) : Js Modal unit :=
  modify (withView (withProduct v)).
Definition setLoading (v : bool) : Js Modal unit := modify (withView (withLoading v)).
Definition setError (v : option string) : Js Modal unit :=
  modify (withView (withError v)).
Definition setSelectedImageIndex (v : Z) : Js Modal unit :=
  modify (withView (withSelectedImageIndex v)).
Definition setAddingToCart (v : bool) : Js Modal unit :=
  modify (withView (withAddingToCart v)).
Definition setCartMessage (v : option string) : Js Modal unit :=
  modify (withView (withCartMessage v)).
Definition setQuantity (v : JsNumber.t) : Js Modal unit :=
  modify (withView (withQuantity v)).

(** [await call(...)]: the call is made, then its promise settles as given. *)
Definition awaitCall {A} (call : Call) (settlement : Completion A) : Js Modal A :=
  fun m =>
    (settlement,
     {| variantId := variantId m; isOpen := isOpen m; view := view m;
        made := made m ++ [call]; timeouts := timeouts m |}).

(** [setTimeout(() => setCartMessage(null), delay)] *)
Definition setTimeout (delay : Z) : Js Modal unit :=
  modify (fun m => withTimeouts (timeouts m ++ [delay]) m).

(** ** The effect [loadProduct], which runs when the props change *)
Definition loadProduct (fetched : Completion Product.t) : Js Modal unit :=
  props <- gets (fun m => (variantId m, isOpen m)) ;;
  if negb (truthyOpt (fst props)) || negb (snd props) then ret tt
  else
    tryFinally
      (tryCatch
         (setLoading true ;;
          setError None ;;
          productData <- awaitCall (FetchProductDetail (default "" (fst props))) fetched ;;
          setProduct (Some productData) ;;
          setSelectedImageIndex 0)
         (fun err => setError (Some (messageOr "Failed to load product" err))))
      (withView (withLoading false)).

(** ** [handleAddToCart], the click handler of the add button *)
Definition handleAddToCart (render : Modal)
    (added : Completion AddToCartResponse.t) : Js Modal unit :=
  match product (view render) with
  | None => ret tt
  | Some shown =>
      if negb (truthyOpt (variantId render))
         || JsNumber.ltb (quantity (view render)) (JsNumber.ofZ 1)
      then ret tt
      else
        let variantIdToAdd :=
          match Product.variants shown with
          | variant :: _ => ProductVariant.variant_id variant
          | [] => default "" (variantId render)
          end in
        tryFinally
          (tryCatch
             (setAddingToCart true ;;
              setCartMessage None ;;
              awaitCall (AddToCart variantIdToAdd (quantity (view render))) added ;;
              setCartMessage (Some "Product added to cart successfully!") ;;
              setTimeout 3000 ;;
              setQuantity (JsNumber.ofZ 1))
             (fun err =>
                setCartMessage (Some (messageOr "Failed to add to cart" err)) ;;
                setTimeout 5000))
          (withView (withAddingToCart false))
  end.

Section WithStock.

(** The [stock_available] property of a variant, a number. *)
Context (stock_available : ProductVariant.t -> JsNumber.t).

(** [product?.variants && product.variants.length > 0
     ? product.variants[0].stock_available : undefined] *)
Definition maxStockOf (shown : option Product.t) : option JsNumber.t :=
  match shown with
  | Some p =>
      match Product.variants p with
      | variant :: _ => Some (stock_available variant)
      | [] => None
      end
  | None => None
  end.

(** ** [handleQuantityChange] *)
Definition handleQuantityChange (render : Modal) (newQuantity : JsNumber.t)
    : Js Modal unit :=
  if JsNumber.ltb newQuantity (JsNumber.ofZ 1) then ret tt
  else
    let maxStock := maxStockOf (product (view render)) in
    match maxStock with
    | Some stock =>
        if JsNumber.truthy stock && JsNumber.gtb newQuantity stock
        then setQuantity stock
        else setQuantity newQuantity
    | None => setQuantity newQuantity
    end.

(** What happens to a mounted modal. *)
Inductive Event :=
| Props (variantId : option string) (isOpen : bool) (fetched : Completion Product.t)
                                  (* new props arrive and [loadProduct] runs *)
| ChangeQuantity (newQuantity : JsNumber.t)
                                  (* [handleQuantityChange] is called, with
                                     [quantity - 1], [quantity + 1] or
                                     [parseInt(text) || 1] *)
| ClickAdd (added : Completion AddToCartResponse.t)
                                  (* the add button is clicked *)
| SelectImage (index : Z)           (* a thumbnail is clicked *)
| Fire (timeout : nat).             (* a pending timeout fires *)

Definition step (m : Modal) (e : Event) : Modal :=
  match e with
  | Props v o fetched => snd (loadProduct fetched (withProps v o m))
  | ChangeQuantity newQuantity => snd (handleQuantityChange m newQuantity m)
  | ClickAdd added => snd (handleAddToCart m added m)
  | SelectImage index => snd (setSelectedImageIndex index m)
  | Fire timeout =>
      match timeouts m !! timeout with
      | Some _ =>
          snd (setCartMessage None (withTimeouts (delete timeout (timeouts m)) m))
      | None => m
      end
  end.

Definition run (events : list Event) (m : Modal) : Modal := fold_left step events m.

End WithStock.

End ProductDetailModal.

(* ===================================================================== *)
(** * The serverless webhook proxy ([api/webhook]) *)
(* ===================================================================== *)

(** The Vercel function that forwards a request of the storefront to the
    webhook, in its three revisions.  [B] is the type of parsed JSON that
    the webhook answers with; the body of the incoming request is the value
    that the request client handed to [JSON.stringify]. *)
Module WebhookProxy.

(** A value of [req.query]: a string, or the array of a repeated name. *)
Inductive QueryValue :=
| Single (value : string)
| Many (first : string) (rest : list string).

Record VercelRequest := {
  reqMethod : option string;
  query : list (string * QueryValue);
  reqBody : option Json
}.

(** [process.env] *)
Record ProcessEnv := {
  VITE_WEBHOOK_AUTH_KEY : option string;
  WEBHOOK_AUTH_KEY : option string
}.

(** What [res.json] or [res.end] sends. *)
Inductive Sent (B : Type) :=
| Ended
| Parsed (jsonData : B)
| Raw (data : string)
| Failure (error : string) (detail : option string).
Arguments Ended {B}.
Arguments Parsed {B} jsonData.
Arguments Raw {B} data.
Arguments Failure {B} error detail.

(** A reply: the headers set on [res] when it was sent, the status and
    what was sent. *)
Record Reply (B : Type) := {
  replyHeaders : list (string * string);
  replyStatus : Z;
  replyBody : Sent B
}.
Arguments replyHeaders {B} _.
Arguments replyStatus {B} _.
Arguments replyBody {B} _.

(** One invocation of the function: the calls made to the webhook, the
    headers set on [res] so far, the replies sent and the lines logged. *)
Record Invocation (B : Type) := {
  forwarded : list Request;
  resHeaders : list (string * string);
  replies : list (Reply B);
  logged : list string
}.
Arguments forwarded {B} _.
Arguments resHeaders {B} _.
Arguments replies {B} _.
Arguments logged {B} _.

Definition start {B} : Invocation B :=
  {| forwarded := []; resHeaders := []; replies := []; logged := [] |}.

(** [res.setHeader(name, value)] *)
Definition setHeader {B} (name value : string) : Js (Invocation B) unit :=
  modify (fun s =>
    {| forwarded := forwarded s; resHeaders := resHeaders s ++ [(name, value)];
       replies := replies s; logged := logged s |}).

(** [res.status(status).json(...)] and [res.status(status).end()] *)
Definition send {B} (status : Z) (what : Sent B) : Js (Invocation B) unit :=
  modify (fun s =>
    {| forwarded := forwarded s; resHeaders := resHeaders s;
       replies := replies s ++ [{| replyHeaders := resHeaders s; replyStatus := status;
                                   replyBody := what |}];
       logged := logged s |}).

(** [console.error(line, ...)] *)
Definition console_error {B} (line : string) : Js (Invocation B) unit :=
  modify (fun s =>
    {| forwarded := forwarded s; resHeaders := resHeaders s; replies := replies s;
       logged := logged s ++ [line] |}).

(** [await fetch(targetUrl, init)] followed by [await response.text()]:
    the call is recorded; a rejection of either promise is thrown.
    [unreadable] is the error with which [response.text()] rejects when the
    body cannot be read. *)
Definition fetchText {B} (unreadable : JsError) (req : Request)
    (outcome : FetchOutcome B) : Js (Invocation B) (Response B * string) :=
  fun s =>
    let s' := {| forwarded := forwarded s ++ [req]; resHeaders := resHeaders s;
                 replies := replies s; logged := logged s |} in
    match outcome with
    | Responded r =>
        match text r with
        | Some data => (Return (r, data), s')
        | None => (Throw unreadable, s')
        end
    | Rejected m => (Throw (TypeError m), s')
    end.

(** [try { jsonData = JSON.parse(data) } catch { jsonData = data }]: the
    text parses exactly when [response.json()] would have returned. *)
Definition parseOrKeep {B} (r : Response B) (data : string) : Sent B :=
  match json r with
  | Return jsonData => Parsed jsonData
  | Throw _ => Raw data
  end.

Definition webhookBaseUrl : string :=
  "https://n8n.impactwebstudio.ca/webhook/active-pharma".

(** The three CORS headers. *)
Definition allowAll {B} : Js (Invocation B) unit :=
  setHeader "Access-Control-Allow-Origin" "*" ;;
  setHeader "Access-Control-Allow-Methods" "GET, POST, PUT, DELETE, OPTIONS" ;;
  setHeader "Access-Control-Allow-Headers" "Content-Type, Accept".

(** [req.method === name] *)
Definition methodIs (req : VercelRequest) (name : string) : bool :=
  match reqMethod req with
  | Some m => strictEq m name
  | None => false
  end.

(** Truthiness of a JSON value. *)
Definition truthyJson (j : Json) : bool :=
  match j with
  | JString s => truthy s
  | JNumber n => negb (n =? 0)
  | JBool b => b
  | JObject _ => true
  end.

(** [req.method !== 'GET' && req.method !== 'HEAD' && req.body
     ? JSON.stringify(req.body) : undefined] *)
Definition bodyOf (req : VercelRequest) : option Json :=
  if negb (methodIs req "GET") && negb (methodIs req "HEAD") then
    match reqBody req with
    | Some j => if truthyJson j then Some j else None
    | None => None
    end
  else None.

(** [if (value)] and [Array.isArray(value) ? value[0] : value] *)
Definition truthyValue (value : QueryValue) : bool :=
  match value with
  | Single v => truthy v
  | Many _ _ => true
  end.

Definition firstOf (value : QueryValue) : string :=
  match value with
  | Single v => v
  | Many first _ => first
  end.

(** [process.env.VITE_WEBHOOK_AUTH_KEY || process.env.WEBHOOK_AUTH_KEY] *)
Definition authKeyOf (env : ProcessEnv) : option string :=
  orElse (VITE_WEBHOOK_AUTH_KEY env) (WEBHOOK_AUTH_KEY env).

Section WithEncoding.

(** How [URLSearchParams] writes a name or a value in [toString()]. *)
Context (encode : string -> string).

(** [queryParams.toString()] *)
Fixpoint toString (queryParams : list (string * string)) : string :=
  match queryParams with
  | [] => ""
  | (key, value) :: rest =>
      match rest with
      | [] => encode key +:+ "=" +:+ encode value
      | _ :: _ => encode key +:+ "=" +:+ encode value +:+ "&" +:+ toString rest
      end
  end.

(** The loop over [Object.entries(req.query)], with the test of the
    revision: [keep key] is [true] for the revisions that forward every
    name. *)
Definition queryParamsOf (keep : string -> bool) (req : VercelRequest)
    : list (string * string) :=
  map (fun entry => (fst entry, firstOf (snd entry)))
    (List.filter (fun entry => keep (fst entry) && truthyValue (snd entry)) (query req)).

Definition targetUrlOf (queryParams : list (string * string)) : string :=
  let queryString := toString queryParams in
  webhookBaseUrl +:+ (if truthy queryString then "?" +:+ queryString else "").

(** The call that forwards the request. *)
Definition forward (req : VercelRequest) (targetUrl : string)
    (headers : list (string * string)) : Request :=
  {| method := orDefault (reqMethod req) "POST"; url := targetUrl;
     headers := headers; cors := false; body := bodyOf req |}.

End WithEncoding.

(** [if (authKey) { headers['key'] = authKey }] *)
Definition headersWith (authKey : option string) : list (string * string) :=
  [("Content-Type", "application/json"); ("Accept", "application/json")]
  ++ (if truthyOpt authKey then [("key", default "" authKey)] else []).

(** ** The revision that requires the key *)
Module Keyed.
Definition handler {B} (encode : string -> string) (unreadable : JsError)
    (env : ProcessEnv) (req : VercelRequest)
    (outcome : FetchOutcome B) : Js (Invocation B) unit :=
  if methodIs req "OPTIONS" then
    allowAll ;;
    send 200 Ended
  else
    let queryParams := queryParamsOf (fun _ => true) req in
    let targetUrl := targetUrlOf encode queryParams in
    let authKey := authKeyOf env in
    if negb (truthyOpt authKey) then
      console_error "VITE_WEBHOOK_AUTH_KEY is not set in environment variables" ;;
      send 500 (Failure "Server configuration error: Webhook auth key is missing" None)
    else
      tryCatch
        (let headers := [("Content-Type", "application/json");
                         ("Accept", "application/json");
                         ("key", default "" authKey)] in
         answer <- fetchText unreadable (forward req targetUrl headers) outcome ;;
         let jsonData := parseOrKeep (fst answer) (snd answer) in
         allowAll ;;
         send (status (fst answer)) jsonData)
        (fun error =>
           console_error "Webhook proxy error:" ;;
           setHeader "Access-Control-Allow-Origin" "*" ;;
           send 500 (Failure "Failed to proxy webhook request"
                       (Some (messageOr "Unknown error" error)))).
End Keyed.

(** ** The revision that answers the preflight and sends the key if it is
    set *)
Module Cors.
Definition handler {B} (encode : string -> string) (unreadable : JsError)
    (env : ProcessEnv) (req : VercelRequest)
    (outcome : FetchOutcome B) : Js (Invocation B) unit :=
  if methodIs req "OPTIONS" then
    allowAll ;;
    send 200 Ended
  else
    let queryParams := queryParamsOf (fun _ => true) req in
    let targetUrl := targetUrlOf encode queryParams in
    let authKey := authKeyOf env in
    tryCatch
      (let headers := headersWith authKey in
       answer <- fetchText unreadable (forward req targetUrl headers) outcome ;;
       let jsonData := parseOrKeep (fst answer) (snd answer) in
       allowAll ;;
       send (status (fst answer)) jsonData)
      (fun error =>
         console_error "Webhook proxy error:" ;;
         setHeader "Access-Control-Allow-Origin" "*" ;;
         send 500 (Failure "Failed to proxy webhook request"
                     (Some (messageOr "Unknown error" error)))).
End Cors.

(** ** The revision without CORS headers, which drops the [path]
    parameter *)
Module Path.
Definition handler {B} (encode : string -> string) (unreadable : JsError)
    (env : ProcessEnv) (req : VercelRequest)
    (outcome : FetchOutcome B) : Js (Invocation B) unit :=
  let queryParams := queryParamsOf (fun key => negb (strictEq key "path")) req in
  let targetUrl := targetUrlOf encode queryParams in
  let authKey := authKeyOf env in
  tryCatch
    (let headers := headersWith authKey in
     answer <- fetchText unreadable (forward req targetUrl headers) outcome ;;
     let jsonData := parseOrKeep (fst answer) (snd answer) in
     send (status (fst answer)) jsonData)
    (fun error =>
       console_error "Webhook proxy error:" ;;
       send 500 (Failure "Failed to proxy webhook request"
                   (Some (messageOr "Unknown error" error)))).
End Path.

End WebhookProxy.

(* ===================================================================== *)
(** * The checkout operations of the webhook revision of [api.ts] *)
(* ===================================================================== *)

Module ApiWebhookCheckout.

(** [object[key] = value]: the value of a key that is there is replaced in
    place, a new key is added at the end. *)
Fixpoint assign (fields : list (string * Json)) (key : string) (value : Json)
    : list (string * Json) :=
  match fields with
  | [] => [(key, value)]
  | (k, v) :: rest =>
      if strictEq k key then (k, value) :: rest
      else (k, v) :: assign rest key value
  end.

(** [{ ...fields, ...more }] *)
Definition spread (fields more : list (string * Json)) : list (string * Json) :=
  fold_left (fun acc entry => assign acc (fst entry) (snd entry)) more fields.

(** ** [getCheckoutData] *)
Definition getCheckoutData (cartId : string)
    (outcome : FetchOutcome CheckoutResponse.t) : Js World CheckoutResponse.t :=
  ApiWebhook.viaWebhook
    (ApiWebhook.webhookRequest "get-checkout-info"
       (Some (JObject [("checkout_id", JString cartId)])))
    outcome (ApiWebhook.failed "Failed to get checkout data")
    (ApiWebhook.enableCorsHint "get checkout data")
    ret.

(** ** [submitCheckoutAddress]; [addressData] holds the properties of the
    object that is spread into the body. *)
Definition submitCheckoutAddress (cartId : string) (addressData : list (string * Json))
    (outcome : FetchOutcome CheckoutAddressResponse.t)
    : Js World CheckoutAddressResponse.t :=
  ApiWebhook.viaWebhook
    (ApiWebhook.webhookRequest "add-address"
       (Some (JObject (spread [("checkout_id", JString cartId)] addressData))))
    outcome (ApiWebhook.failed "Failed to submit checkout address")
    (ApiWebhook.enableCorsHint "submit checkout address")
    ret.

(** ** [submitShippingMethod] *)
Definition submitShippingMethod (cartId shippingMethodId : string)
    (outcome : FetchOutcome StatusResponse.t) : Js World StatusResponse.t :=
  ApiWebhook.viaWebhook
    (ApiWebhook.webhookRequest "add-shipping-methods"
       (Some (JObject [("checkout_id", JString cartId);
                       ("shipping", JString shippingMethodId)])))
    outcome (ApiWebhook.failed "Failed to submit shipping method")
    (ApiWebhook.enableCorsHint "submit shipping method")
    ret.

(** ** [processOfflinePayment] *)
Definition processOfflinePayment (cartId paymentMode : string)
    (outcome : FetchOutcome StatusResponse.t) : Js World StatusResponse.t :=
  ApiWebhook.viaWebhook
    (ApiWebhook.webhookRequest "place-order"
       (Some (JObject [("checkout_id", JString cartId);
                       ("payment_mode", JString paymentMode)])))
    outcome (ApiWebhook.failed "Failed to process payment")
    (ApiWebhook.enableCorsHint "process payment")
    ret.

(** ** [confirmCheckout]: [shipping] is part of the body only when a
    shipping method is given. *)
Definition confirmCheckout (cartId : string) (shippingMethodId : option string)
    (paymentMode : string)
    (outcome : FetchOutcome StatusResponse.t) : Js World StatusResponse.t :=
  let body := [("checkout_id", JString cartId); ("payment_mode", JString paymentMode)] in
  let body :=
    if truthyOpt shippingMethodId
    then assign body "shipping" (JString (default "" shippingMethodId))
    else body in
  ApiWebhook.viaWebhook
    (ApiWebhook.webhookRequest "confirm-checkout" (Some (JObject body)))
    outcome (ApiWebhook.failed "Failed to confirm checkout")
    (ApiWebhook.enableCorsHint "confirm checkout")
    ret.

End ApiWebhookCheckout.

(* ===================================================================== *)
(** * [vite.config.ts]: the proxy of the development server *)
(* ===================================================================== *)

(** The sources hold two revisions of the file.  Both have the ['/api']
    entry, with the same [rewrite]; they fall back to different domain names
    when [VITE_DOMAIN_NAME] is not set, and only one has the ['/webhook']
    entry.  [loadEnv] reads [VITE_DOMAIN_NAME] from the files from which
    Vite fills [import.meta.env], so the variable is the one of [Env]. *)
Module ViteConfig.

Inductive Revision :=
| WithWebhook   (* the entries ['/api'] and ['/webhook'] *)
| ApiOnly.      (* the entry ['/api'] alone *)

(** The rest of [s] after the prefix [p], when [s] starts with [p]. *)
Fixpoint afterPrefix (p s : string) : option string :=
  match p with
  | EmptyString => Some s
  | String a p' =>
      match s with
      | String b s' => if Ascii.eqb a b then afterPrefix p' s' else None
      | EmptyString => None
      end
  end.

(** [path.replace(/^prefix/, replacement)] for a prefix without special
    characters. *)
Definition replacePrefix (prefix replacement path : string) : string :=
  match afterPrefix prefix path with
  | Some rest => replacement +:+ rest
  | None => path
  end.

(** The [rewrite] of the ['/api'] entry. *)
Definition rewrite (path : string) : string :=
  replacePrefix "/api" "/storefront/api/v1" path.

(** The [rewrite] of the ['/webhook'] entry and its [target]. *)
Definition rewriteWebhook (path : string) : string :=
  replacePrefix "/webhook" "/webhook/active-pharma" path.

Definition webhookTarget : string := "https://n8n.impactwebstudio.ca".

(** The ['/webhook'] entry of a revision, if it has one: its [target] and
    its [rewrite]. *)
Definition webhookEntry (revision : Revision) : option (string * (string -> string)) :=
  match revision with
  | WithWebhook => Some (webhookTarget, rewriteWebhook)
  | ApiOnly => None
  end.

(** [env.VITE_DOMAIN_NAME || 'activepharm.zohoecommerce.com'] in the one
    revision, [env.VITE_DOMAIN_NAME || 'plera.zohoecommerce.com'] in the
    other. *)
Definition domainName (revision : Revision) (env : Env) : string :=
  orDefault (VITE_DOMAIN_NAME env)
    match revision with
    | WithWebhook => "activepharm.zohoecommerce.com"
    | ApiOnly => "plera.zohoecommerce.com"
    end.

(** The headers that [configure] sets on a proxied ['/api'] request. *)
Definition proxyReqHeaders (revision : Revision) (env : Env) : list (string * string) :=
  [("X-Zoho-Domain", domainName revision env); ("domain-name", domainName revision env);
   ("Origin", "https://" +:+ domainName revision env)].

End ViteConfig.

(* ===================================================================== *)
(** * [pages/ProductDetail.tsx] *)
(* ===================================================================== *)

(** The page that shows one product.  Its effect [loadProduct] runs when
    the [variantId] of the route changes; the call of [fetchProductDetail]
    settles as given. *)
Module ProductDetail.

Record State := {
  product : option Product.t;
  loading : bool;
  error : option string;
  selectedImageIndex : Z
}.

Definition initialState : State :=
  {| product := None; loading := true; error := None; selectedImageIndex := 0 |}.

Definition setProduct (v : option Product.t) : Js State unit :=
  modify (fun s =>
    {| product := v; loading := loading s; error := error s;
       selectedImageIndex := selectedImageIndex s |}).

Definition withLoading (v : bool) (s : State) : State :=
  {| product := product s; loading := v; error := error s;
     selectedImageIndex := selectedImageIndex s |}.

Definition setLoading (v : bool) : Js State unit := modify (withLoading v).

Definition setError (v : option string) : Js State unit :=
  modify (fun s =>
    {| product := product s; loading := loading s; error := v;
       selectedImageIndex := selectedImageIndex s |}).

Definition loadProduct (variantId : option string) (fetched : Completion Product.t)
    : Js State unit :=
  if negb (truthyOpt variantId) then
    setError (Some "Variant ID is required") ;;
    setLoading false
  else
    tryFinally
      (tryCatch
         (setLoading true ;;
          productData <- settle fetched ;;
          setProduct (Some productData))
         (fun err => setError (Some (messageOr "Failed to load product" err))))
      (withLoading false).

(** What the page renders. *)
Inductive Screen :=
| Loading
| Failed (text : string)
| Details (shown : Product.t).

(** [if (loading) ...; if (error || !product) ... {error || 'Product not
    found'}] *)
Definition render (s : State) : Screen :=
  if loading s then Loading
  else
    match product s with
    | Some shown =>
        if truthyOpt (error s) then Failed (default "" (error s)) else Details shown
    | None => Failed (orDefault (error s) "Product not found")
    end.

(** The route changes several times: each change runs the effect. *)
Definition run (loads : list (option string * Completion Product.t)) (s : State)
    : State :=
  fold_left (fun s load => snd (loadProduct (fst load) (snd load) s)) loads s.

End ProductDetail.

(* ===================================================================== *)
(** * Vocabulary of the statements *)
(* ===================================================================== *)

(** A channel failed: the network rejected the [fetch], or the response has
    a status outside 200-299. *)
Definition channelFailed {B} (o : FetchOutcome B) : bool :=
  match o with
  | Responded r => negb (ok r)
  | Rejected _ => true
  end.

(** The parsed body of an answer with a success status. *)
Definition parsed {B} (o : FetchOutcome B) : option B :=
  match o with
  | Responded r =>
      if ok r then
        match json r with
        | Return b => Some b
        | Throw _ => None
        end
      else None
  | Rejected _ => None
  end.

(** [response.payload && response.payload.product] *)
Definition payloadProduct (response : DetailResponse.t) : option Product.t :=
  match DetailResponse.payload response with
  | Some p => DetailResponse.payload_product p
  | None => None
  end.

(** The product a channel yields for a product-detail request: the answer
    has a success status, its body parses, and the probe finds a product. *)
Definition yields (o : FetchOutcome DetailResponse.t) : option Product.t :=
  match parsed o with
  | Some b =>
      match probeProduct b with
      | Return p => Some p
      | Throw _ => None
      end
  | None => None
  end.

(** A computation of the request client that calls no [fetch]. *)
Definition silent {A} (m : Js World A) : Prop :=
  forall w, requests (snd (m w)) = requests w.

(** A continuation that always returns. *)
Definition neverThrows {A B} (k : A -> Js World B) : Prop :=
  forall a w, exists b, fst (k a w) = Return b.

(** Two worlds with the same cookie store and the same record of writes to
    it. *)
Definition sameCookies (w w' : World) : Prop :=
  cookies w' = cookies w /\ cookieWrites w' = cookieWrites w.

(** A run of an operation from the world [w] fell back to the direct
    channel: it called [fetch] exactly twice, first for [proxyUrl] and then
    for [directUrl], and it threw only if [directFailed]. *)
Definition fellBack {R} (w : World) (run : Completion R * World)
    (proxyUrl directUrl : string) (directFailed : Prop) : Prop :=
  (exists p d,
     requests (snd run) = requests w ++ [p; d]
     /\ url p = proxyUrl /\ url d = directUrl)
  /\ (forall e, fst run = Throw e -> directFailed).

(** [data.payload.products], when it is there. *)
Definition productsOf (data : ProductsResponse.t) : option (list Product.t) :=
  match ProductsResponse.payload data with
  | Some p => ProductsResponse.products p
  | None => None
  end.

(** Going from [w] to [w1], the cache received [p] under each of [keys],
    stamped with a clock reading taken on the way, and kept every other
    entry. *)
Definition fills (env : Env) (keys : list string) (p : Product.t) (w w1 : World)
    : Prop :=
  (clockReads w <= clockReads w1)%nat
  /\ (forall key, In key keys ->
       exists i, (clockReads w <= i < clockReads w1)%nat
                 /\ productCache w1 !! key
                    = Some {| product := p; timestamp := clock env i |})
  /\ (forall key, ~ In key keys -> productCache w1 !! key = productCache w !! key).

(** The page holds a truthy cart id in its cookie store. *)
Definition hasCart {St} (p : Page St) (cartId : string) : Prop :=
  cookies (world p) !! "cart_id" = Some cartId /\ truthy cartId = true.

(** A submission failed: its promise rejected, or it resolved with a
    response that reports neither [status_code "0"] nor
    [status_message "success"]. *)
Definition submissionFailed (c : Completion StatusResponse.t) : Prop :=
  match c with
  | Throw _ => True
  | Return r =>
      succeeded (StatusResponse.status_code r) (StatusResponse.status_message r) = false
  end.

Definition addressSubmissionFailed (c : Completion CheckoutAddressResponse.t) : Prop :=
  match c with
  | Throw _ => True
  | Return r =>
      succeeded (CheckoutAddressResponse.status_code r)
                (CheckoutAddressResponse.status_message r) = false
  end.

(** The message a failed submission shows: the message of the thrown error
    (or [thrownFallback] for a thrown value that is no [Error]), or the
    upstream [status_message] (or [statusFallback] when it is missing or
    empty). *)
Definition failureMessage {R} (status_message : R -> option string)
    (thrownFallback statusFallback : string) (c : Completion R) : string :=
  match c with
  | Throw err => messageOr thrownFallback err
  | Return r => orDefault (status_message r) statusFallback
  end.

(** What the error banner of the three-step page shows:
    [{error && <div className="checkout-error">{error}</div>}]. *)
Definition banner (s : Checkout.State) : option string :=
  match Checkout.error s with
  | Some text => if truthy text then Some text else None
  | None => None
  end.

(** After a failed submission the three-step page [p'] is where [p] was: on
    the same step, showing [shown], with the step's form open for another
    submission, having made the one call [call] and no other, and with the
    browser state untouched. *)
Definition stayedWithError (p p' : Page Checkout.State) (shown : string)
    (call : ApiCall) : Prop :=
  Checkout.currentStep (state p') = Checkout.currentStep (state p)
  /\ Checkout.error (state p') = Some shown
  /\ (truthy shown = true -> banner (state p') = Some shown)
  /\ Checkout.canSubmit (state p') = true
  /\ calls p' = calls p ++ [call]
  /\ world p' = world p.

(** A rejection as the request client produces it: a thrown [Error] has a
    message. *)
Definition rejectionHasMessage {R} (c : Completion R) : Prop :=
  match c with
  | Throw err => instanceofError err = true -> truthy (message err) = true
  | Return _ => True
  end.

(** No promise of the cart page is numbered [promise] yet: none has settled
    under that number and no suspended call awaits it. *)
Definition unused (s : CartPage.State) (promise : nat) : Prop :=
  CartPage.settled s !! promise = None
  /\ Forall (fun wt => CartPage.awaited wt <> promise) (CartPage.waiters s).

(** The calls of [loadCartItems(true)] numbered [first], [first + 1], ...,
    [n] of them, suspended on [promise] for the cart id [cartId]. *)
Definition joined (cartId : string) (promise first n : nat) : list CartPage.Waiter :=
  map (fun i => {| CartPage.caller := first + i; CartPage.awaited := promise;
                   CartPage.cartIdOf := cartId; CartPage.shared := true |})
      (seq 0 n).

(** A cached load of the cart page: its mount effect, or a call of
    [loadCartItems(true)]. *)
Definition cachedLoad {Outcome : Type} (e : CartPage.Event (Outcome := Outcome)) : bool :=
  match e with
  | CartPage.Mount | CartPage.Load true => true
  | _ => false
  end.

(** What the window of a shared call admits: cached loads and time passing
    (no uncached load, and no call of [getCartItems] settling). *)
Definition inWindow {Outcome : Type} (e : CartPage.Event (Outcome := Outcome)) : bool :=
  match e with
  | CartPage.Mount | CartPage.Load true | CartPage.Elapse _ => true
  | _ => false
  end.

(** The browser stores the cart id [c] as it is: with the jar [jar],
    [setCartId(c)] leaves [c] under [cart_id] and every other cookie as it
    was.  (The cookie standard has a browser end the value at the first
    semicolon and drop its outer blanks, so an id with either is stored
    cut.) *)
Definition storedWhole (env : Env) (c : string) (jar : gmap string string) : Prop :=
  assignCookie env "cart_id" c 30 jar = <["cart_id" := c]> jar.

(** The cache keys of a product: its id and the truthy ids of its variants. *)
Definition cacheKeys (p : Product.t) : list string :=
  Product.product_id p
  :: List.filter truthy (map ProductVariant.variant_id (Product.variants p)).

(* ---- vocabulary (request client) ---- *)

(** A run of an operation from the world [w] called [fetch] exactly once,
    with the request [req]. *)
Definition calledOnce {R} (w : World) (run : Completion R * World) (req : Request)
    : Prop :=
  requests (snd run) = requests w ++ [req].

(** An operation, given the outcomes of its proxy and direct [fetch], does
    not look at the proxy: it calls [fetch] once, with [req], and ends the
    same way whatever the proxy outcome is. *)
Definition ignoresProxy {B R}
    (op : FetchOutcome B -> FetchOutcome B -> Js World R) (w : World) (req : Request)
    : Prop :=
  forall proxy proxy' direct,
    calledOnce w (op proxy direct w) req
    /\ op proxy direct w = op proxy' direct w.

(** How a run ends when the channel whose outcome is [o] decides it and
    gives no usable answer: [run o] is the completion of the operation.  A
    rejected [fetch] whose message contains "Failed to fetch" surfaces as an
    [Error] with the message [hint]; any other rejection is thrown on as it
    is; a status outside 200-299 surfaces as an [Error] whose message is
    [describe status text], where [text] is the body text, or the status text
    when the body cannot be read; an error of [response.json()] that is no
    [TypeError] is thrown on as it is. *)
Definition surfacesFailure {B R} (run : FetchOutcome B -> Completion R)
    (describe : Z -> string -> string) (hint : string) : Prop :=
  (forall m, includes m "Failed to fetch" = true ->
     run (Rejected m) = Throw (Error hint))
  /\ (forall m, includes m "Failed to fetch" = false ->
        run (Rejected m) = Throw (TypeError m))
  /\ (forall r, ok r = false ->
        run (Responded r)
        = Throw (Error (describe (status r) (default (statusText r) (text r)))))
  /\ (forall r e, ok r = true -> json r = Throw e -> instanceofTypeError e = false ->
        run (Responded r) = Throw e).

(** The world [w0] is [w] with more calls of [fetch] recorded and nothing
    else changed. *)
Definition onlyFetched (w w0 : World) : Prop :=
  productCache w0 = productCache w
  /\ productsListCache w0 = productsListCache w
  /\ cookies w0 = cookies w
  /\ cookieWrites w0 = cookieWrites w
  /\ clockReads w0 = clockReads w.

(** After a run of [fetchProductDetail] for [variantId] from [w] that ended
    in [run], the cache holds [product] under [variantId]; when the cache had
    no entry before, its timestamp is a clock reading taken during the run;
    and a further call for [variantId], made while that entry is younger
    than five minutes, is [again]. *)
Definition cachedFor (env : Env) (variantId : string) (product : Product.t)
    (w : World) (run : Completion Product.t * World)
    (again : World -> Completion Product.t * World) : Prop :=
  exists t,
    productCache (snd run) !! variantId = Some {| product := product; timestamp := t |}
    /\ (productCache w !! variantId = None ->
        exists i, (clockReads w <= i < clockReads (snd run))%nat /\ t = clock env i)
    /\ (clock env (clockReads (snd run)) - t < 5 * 60 * 1000 ->
        again (snd run) = (Return product, withClockRead (snd run))).

(** The browser of the page holds no usable cart id: the [cart_id] cookie
    is missing or empty. *)
Definition noCart {St} (p : Page St) : Prop :=
  truthyOpt (cookies (world p) !! "cart_id") = false.

(** A submission went through: its promise resolved with a response that
    reports [status_code "0"] or [status_message "success"]. *)
Definition accepted (c : Completion StatusResponse.t) : Prop :=
  exists response,
    c = Return response
    /\ succeeded (StatusResponse.status_code response)
                 (StatusResponse.status_message response) = true.

(** On the single page, nothing stands between the render [s] and the
    payment: there is no shipping method to submit, or the selected one is
    submitted and goes through. *)
Definition shippingSettled (s : CheckoutSinglePage.State)
    (shippingSubmitted : Completion StatusResponse.t) : Prop :=
  CheckoutSinglePage.shippingMethods s = []
  \/ (CheckoutSinglePage.shippingMethods s <> []
      /\ truthy (CheckoutSinglePage.selectedShippingMethod s) = true
      /\ accepted shippingSubmitted).

(** What the page [p'] shows after the order placed from [p] went through:
    the cart id is deleted from the cookie store, the success alert is
    shown and the page navigates home. *)
Definition orderPlaced {St} (p p' : Page St) : Prop :=
  cookies (world p') = delete "cart_id" (cookies (world p))
  /\ cookieWrites (world p') = cookieWrites (world p) ++ [DeleteCookie "cart_id"]
  /\ alerts p' = alerts p ++ ["Order placed successfully!"]
  /\ navigations p' = navigations p ++ ["/"].

(** The address section is consistent: the [same_billing_address] flag of
    both addresses is the state of the checkbox, and while the box is
    checked the billing address is the shipping address. *)
Definition mirrored (f : CheckoutForm.Form) : Prop :=
  AddressForm.same_billing_address (CheckoutForm.shippingAddress f)
  = CheckoutForm.sameBillingAddress f
  /\ AddressForm.same_billing_address (CheckoutForm.billingAddress f)
     = CheckoutForm.sameBillingAddress f
  /\ (CheckoutForm.sameBillingAddress f = true ->
      CheckoutForm.billingAddress f = CheckoutForm.shippingAddress f).

(** The country an address shows after the countries have arrived: the one
    it had, or [defaultCountry] when it had none. *)
Definition countryOr (defaultCountry : string) (a : AddressForm.t) : string :=
  if truthy (AddressForm.country a) then AddressForm.country a else defaultCountry.

(** The character [c] occurs in [s]. *)
Fixpoint occurs (c : Ascii.ascii) (s : string) : bool :=
  match s with
  | EmptyString => false
  | String a rest => Ascii.eqb a c || occurs c rest
  end.

(** A cookie as a browser stores it: the name holds no semicolon and no
    equals sign, is not empty and does not begin with a space, and the
    value holds no semicolon. *)
Definition storable (cookie : string * string) : Prop :=
  fst cookie <> ""
  /\ occurs ";"%char (fst cookie) = false
  /\ occurs "="%char (fst cookie) = false
  /\ startsWith (fst cookie) " " = false
  /\ occurs ";"%char (snd cookie) = false.

(** The value of the first cookie of the jar that is named [name]. *)
Definition firstNamed (name : string) (jar : list (string * string)) : option string :=
  match List.find (fun cookie => strictEq (fst cookie) name) jar with
  | Some cookie => Some (snd cookie)
  | None => None
  end.

(** Every slot of the shared map of the cart page, and every suspended call
    of [loadCartItems], stands for a call of [getCartItems] that was made
    for that very cart id. *)
Definition ownCalls (s : CartPage.State) : Prop :=
  (forall cartId promise,
     CartPage.cartPromises s !! cartId = Some promise ->
     CartPage.invoked s !! promise = Some cartId)
  /\ Forall (fun wt => CartPage.invoked s !! CartPage.awaited wt
                       = Some (CartPage.cartIdOf wt))
       (CartPage.waiters s).

(** The event starts a load of the cart: the mount effect or a call of
    [loadCartItems]. *)
Definition startsLoad {Outcome} (e : CartPage.Event (Outcome := Outcome)) : bool :=
  match e with
  | CartPage.Mount | CartPage.Load _ => true
  | CartPage.Answer _ _ | CartPage.Elapse _ => false
  end.

(** The cart line has no quantity to count: the property is missing or
    zero. *)
(** [plus] is exact on whole numbers from zero up to [2^53], as the [+] of
    JavaScript is: each such number is a double, and so is their sum. *)
Definition exactInSafeRange (plus : Z -> Z -> Z) : Prop :=
  forall a b, 0 <= a -> 0 <= b -> a + b <= 2 ^ 53 -> plus a b = a + b.

(** The quantity the sidebar shows for a line ([quantity || 1]). *)
Definition shownQuantity (item : CartLine.t) : Z :=
  CartPage.quantity (CartPage.transform item).

(** The exact sum of the quantities the sidebar shows. *)
Definition exactTotal (items : list CartLine.t) : Z :=
  fold_right Z.add 0 (map shownQuantity items).

Definition lacksQuantity (item : CartLine.t) : bool :=
  match CartLine.quantity item with
  | Some n => n =? 0
  | None => true
  end.

(** The number is one or more. *)
Definition atLeastOne (n : JsNumber.t) : Prop :=
  JsNumber.leb (JsNumber.ofZ 1) n = true.

(** The number is zero, or one or more: not negative and not between zero
    and one. *)
Definition zeroOrAtLeastOne (n : JsNumber.t) : Prop :=
  JsNumber.truthy n = false \/ atLeastOne n.

(** A call of the product modal that, if it adds to the cart, adds at least
    one item. *)
Definition addsAtLeastOne (call : ProductDetailModal.Call) : Prop :=
  match call with
  | ProductDetailModal.AddToCart _ quantity => atLeastOne quantity
  | ProductDetailModal.FetchProductDetail _ => True
  end.

(** One invocation of the webhook proxy forwarded the request and relayed
    the answer.  It did not throw.  It called the webhook once: with the
    method of the request (or POST), at the webhook's address, without a
    body for GET and HEAD and with the truthy body of the request
    otherwise.  It sent one reply: the status of the webhook with its body
    (parsed when it is JSON, as text otherwise), or status 500 with the
    message of the failure when the call or the reading of its body
    failed. *)
Definition relayed {B} (unreadable : JsError) (req : WebhookProxy.VercelRequest)
    (outcome : FetchOutcome B)
    (run : Completion unit * WebhookProxy.Invocation B) : Prop :=
  fst run = Return tt
  /\ exists call reply,
       WebhookProxy.forwarded (snd run) = [call]
       /\ WebhookProxy.replies (snd run) = [reply]
       /\ method call = orDefault (WebhookProxy.reqMethod req) "POST"
       /\ startsWith (url call) WebhookProxy.webhookBaseUrl = true
       /\ (WebhookProxy.methodIs req "GET" || WebhookProxy.methodIs req "HEAD" = true ->
           body call = None)
       /\ (WebhookProxy.methodIs req "GET" || WebhookProxy.methodIs req "HEAD" = false ->
           forall sent, WebhookProxy.reqBody req = Some sent ->
                        WebhookProxy.truthyJson sent = true ->
                        body call = Some sent)
       /\ WebhookProxy.replyStatus reply
          = match outcome with
            | Responded r =>
                match text r with Some _ => status r | None => 500 end
            | Rejected _ => 500
            end
       /\ WebhookProxy.replyBody reply
          = match outcome with
            | Responded r =>
                match text r with
                | Some data => WebhookProxy.parseOrKeep r data
                | None =>
                    WebhookProxy.Failure "Failed to proxy webhook request"
                      (Some (messageOr "Unknown error" unreadable))
                end
            | Rejected m =>
                WebhookProxy.Failure "Failed to proxy webhook request" (Some m)
            end.

(** One invocation of the webhook proxy answered by itself: it did not
    throw, it did not call the webhook, and it sent one reply, with the
    status [status]. *)
Definition answeredItself {B} (status : Z)
    (run : Completion unit * WebhookProxy.Invocation B) : Prop :=
  fst run = Return tt
  /\ WebhookProxy.forwarded (snd run) = []
  /\ map WebhookProxy.replyStatus (WebhookProxy.replies (snd run)) = [status].

(** [object[key]] on a JSON value: the value of the property, if [object]
    is an object that has it. *)
Definition property (key : string) (object : Json) : option Json :=
  match object with
  | JObject fields =>
      match List.find (fun field => strictEq (fst field) key) fields with
      | Some field => Some (snd field)
      | None => None
      end
  | _ => None
  end.

(** A run of a webhook operation from the world [w] made one call, a POST
    to the webhook function [function] whose body names the cart as
    [checkout_id], and changed nothing else in the browser; it returned the
    parsed body of an answer with a success status and threw in every other
    case. *)
Definition oneWebhookCall {B} (function cartId : string) (outcome : FetchOutcome B)
    (w : World) (run : Completion B * World) : Prop :=
  (exists body,
     snd run = withRequest (ApiWebhook.webhookRequest function (Some body)) w
     /\ property "checkout_id" body = Some (JString cartId))
  /\ (forall b, parsed outcome = Some b -> fst run = Return b)
  /\ (parsed outcome = None -> exists e, fst run = Throw e).

(** A run of an operation from the world [w] asked the two channels for the
    same thing: it called [fetch] twice, and the second call is the first
    as the development server forwards it, sent to the storefront's own
    domain: same method, same body, the path that the server's [rewrite]
    gives, and the [domain-name] header that the server sets.  [domain] is
    the domain name of the server's configuration. *)
Definition sameEndpoint {R} (domain : string) (w : World) (run : Completion R * World)
    : Prop :=
  exists p d,
    requests (snd run) = requests w ++ [p; d]
    /\ url d = "https://" +:+ domain +:+ ViteConfig.rewrite (url p)
    /\ method d = method p
    /\ body d = body p
    /\ In ("domain-name", domain) (headers d).

(** The product cache of [w] does not answer for [variantId]: it holds no
    entry, or one that is no longer fresh when the clock is read next. *)
Definition unanswered (env : Env) (variantId : string) (w : World) : Prop :=
  match productCache w !! variantId with
  | Some e => fresh (clock env (clockReads w)) e = false
  | None => True
  end.

(* ===================================================================== *)
(** * Sample data *)
(* ===================================================================== *)

(** A clock that advances by one second at every reading. *)
Definition sampleClock (n : nat) : Z := 1000 * Z.of_nat n.

(** A browser that reads an assignment to [document.cookie] as the cookie
    standard has it, for a name that is plain: the value ends at the first
    semicolon and loses its outer blanks, and an expiry that is not in the
    future removes the cookie. *)
Fixpoint beforeSemicolon (value : string) : string :=
  match value with
  | EmptyString => EmptyString
  | String c rest => if Ascii.eqb c ";" then EmptyString else String c (beforeSemicolon rest)
  end.

Fixpoint dropLeadingBlanks (value : string) : string :=
  match value with
  | String c rest => if Ascii.eqb c " " then dropLeadingBlanks rest else value
  | EmptyString => EmptyString
  end.

Fixpoint dropTrailingBlanks (value : string) : string :=
  match value with
  | EmptyString => EmptyString
  | String c rest =>
      match dropTrailingBlanks rest with
      | EmptyString => if Ascii.eqb c " " then EmptyString else String c EmptyString
      | kept => String c kept
      end
  end.

Definition standardAssign (name value : string) (days : Z) (jar : gmap string string)
    : gmap string string :=
  if days <=? 0 then delete name jar
  else <[name := dropTrailingBlanks (dropLeadingBlanks (beforeSemicolon value))]> jar.

Definition devEnv : Env :=
  {| DEV := true; VITE_DOMAIN_NAME := None; clock := sampleClock;
     assignCookie := standardAssign |}.

Definition prodEnv : Env :=
  {| DEV := false; VITE_DOMAIN_NAME := Some "shop.example.com"; clock := sampleClock;
     assignCookie := standardAssign |}.

Definition answered {B} (b : B) : FetchOutcome B :=
  Responded {| status := 200; statusText := "OK"; text := None; json := Return b |}.

Definition serverError {B} : FetchOutcome B :=
  Responded {| status := 500; statusText := "Internal Server Error";
               text := Some "upstream failed";
               json := Throw (SyntaxError "Unexpected token u in JSON") |}.

Definition tablets : Product.t :=
  {| Product.product_id := "p1"; Product.name := "Tablets"; Product.selling_price := 120;
     Product.variants :=
       [ {| ProductVariant.variant_id := "v1"; ProductVariant.sku := "TAB-10" |};
         {| ProductVariant.variant_id := "v2"; ProductVariant.sku := "TAB-30" |} ] |}.

Definition syrup : Product.t :=
  {| Product.product_id := "p2"; Product.name := "Syrup"; Product.selling_price := 80;
     Product.variants :=
       [ {| ProductVariant.variant_id := "v3"; ProductVariant.sku := "SYR-1" |} ] |}.

(** A product whose id is the id of a variant of [tablets]. *)
Definition clashing : Product.t :=
  {| Product.product_id := "v1"; Product.name := "Drops"; Product.selling_price := 40;
     Product.variants := [] |}.

Definition productList (l : list Product.t) : ProductsResponse.t :=
  {| ProductsResponse.status_message := "success";
     ProductsResponse.status_code := "0";
     ProductsResponse.payload :=
       Some {| ProductsResponse.products := Some l;
               ProductsResponse.currency := Some {| ProductsResponse.code := "USD" |} |} |}.

(** A product-detail body of none of the three shapes. *)
Definition shapeless : DetailResponse.t :=
  {| DetailResponse.payload := None;
     DetailResponse.product := None;
     DetailResponse.self :=
       {| Product.product_id := ""; Product.name := ""; Product.selling_price := 0;
          Product.variants := [] |} |}.

(** A product-detail body that is the product itself. *)
Definition bare (p : Product.t) : DetailResponse.t :=
  {| DetailResponse.payload := None; DetailResponse.product := None;
     DetailResponse.self := p |}.

(** A product-detail body of all three shapes at once. *)
Definition layered (inPayload atTop itself : Product.t) : DetailResponse.t :=
  {| DetailResponse.payload := Some {| DetailResponse.payload_product := Some inPayload |};
     DetailResponse.product := Some atTop;
     DetailResponse.self := itself |}.

Definition cartLine (variant : string) (n : Z) : CartLine.t :=
  {| CartLine.product_variant_id := Some variant; CartLine.product_id := None;
     CartLine.quantity := Some n; CartLine.name := None; CartLine.product_name := None;
     CartLine.price := None; CartLine.selling_price := None;
     CartLine.image := None; CartLine.image_url := None |}.

(** A cart-read body for cart [c] with the given [items] and [line_items]. *)
Definition cartOf (c : option string) (items lineItems : option (list CartLine.t))
    : CartItemResponse.t :=
  {| CartItemResponse.status_message := Some "success";
     CartItemResponse.status_code := Some "0";
     CartItemResponse.cart_id := c;
     CartItemResponse.payload :=
       Some {| CartItemResponse.payload_cart_id := c;
               CartItemResponse.items := items;
               CartItemResponse.line_items := lineItems |} |}.

(** An add-to-cart body that carries the cart id [c] at the top level. *)
Definition addedTo (c : option string) : AddToCartResponse.t :=
  {| AddToCartResponse.status_message := Some "success";
     AddToCartResponse.status_code := Some "0";
     AddToCartResponse.cart_id := c;
     AddToCartResponse.payload := None |}.

Definition standard : ShippingMethod.t :=
  {| ShippingMethod.id := "std"; ShippingMethod.name := "Standard";
     ShippingMethod.rate := 5; ShippingMethod.handling_fees := 0;
     ShippingMethod.delivery_time := "3-5 days"; ShippingMethod.is_default := false |}.

Definition express : ShippingMethod.t :=
  {| ShippingMethod.id := "exp"; ShippingMethod.name := "Express";
     ShippingMethod.rate := 15; ShippingMethod.handling_fees := 1;
     ShippingMethod.delivery_time := "1 day"; ShippingMethod.is_default := true |}.

(** An address response with [status_code "0"] and the given methods. *)
Definition addressAccepted (methods : list ShippingMethod.t) : CheckoutAddressResponse.t :=
  {| CheckoutAddressResponse.status_message := None;
     CheckoutAddressResponse.status_code := Some "0";
     CheckoutAddressResponse.payload :=
       Some {| CheckoutAddressResponse.checkout_shipping_methods :=
                 Some {| CheckoutAddressResponse.shipping_methods := methods |} |} |}.

(** A response that reports a failure with an upstream message. *)
Definition refused (why : string) : StatusResponse.t :=
  {| StatusResponse.status_message := Some why;
     StatusResponse.status_code := Some "1" |}.

(** A world whose cookie store holds the cart id [c]. *)
Definition worldWithCart (c : string) : World :=
  withCookies (insert "cart_id" c) (SetCookie "cart_id" c 30) emptyWorld.

(** A world whose product cache holds [p] under [key], stamped [t]. *)
Definition worldWithEntry (key : string) (p : Product.t) (t : Z) : World :=
  withProductCache (insert key {| product := p; timestamp := t |}) emptyWorld.

(** A freshly mounted three-step checkout page in a browser that holds the
    cart id [c]. *)
Definition checkoutPage (c : string) : Page Checkout.State :=
  {| state := Checkout.initialState; world := worldWithCart c; calls := [];
     alerts := []; navigations := [] |}.

(** The same page on its shipping step, with [express] selected. *)
Definition shippingPage (c : string) : Page Checkout.State :=
  {| state :=
       Checkout.withSelectedShippingMethod "exp"
         (Checkout.withShippingMethods [standard; express]
            (Checkout.withCurrentStep Checkout.ShippingStep Checkout.initialState));
     world := worldWithCart c; calls := []; alerts := []; navigations := [] |}.

(** The same page on its confirmation step. *)
Definition confirmationPage (c : string) : Page Checkout.State :=
  {| state :=
       Checkout.withSelectedShippingMethod "exp"
         (Checkout.withShippingMethods [standard; express]
            (Checkout.withCurrentStep Checkout.ConfirmationStep Checkout.initialState));
     world := worldWithCart c; calls := []; alerts := []; navigations := [] |}.

(** A freshly mounted single-page checkout in a browser that holds the cart
    id [c]. *)
Definition singlePage (c : string) : Page CheckoutSinglePage.State :=
  {| state := CheckoutSinglePage.initialState; world := worldWithCart c; calls := [];
     alerts := []; navigations := [] |}.

(** A response that reports success by its [status_message] only. *)
Definition reportedSuccess : StatusResponse.t :=
  {| StatusResponse.status_message := Some "success";
     StatusResponse.status_code := None |}.

(** A freshly mounted address section in a browser with the state [w]. *)
Definition freshForm (w : World) : Page CheckoutForm.Form :=
  {| state := CheckoutForm.initialForm; world := w; calls := []; alerts := [];
     navigations := [] |}.

Definition canada : CheckoutForm.Country :=
  {| CheckoutForm.code := "CA"; CheckoutForm.name := "Canada";
     CheckoutForm.states :=
       [ {| CheckoutForm.state_code := "ON"; CheckoutForm.state_name := "Ontario" |};
         {| CheckoutForm.state_code := "QC"; CheckoutForm.state_name := "Quebec" |} ] |}.

Definition vietnam : CheckoutForm.Country :=
  {| CheckoutForm.code := "VN"; CheckoutForm.name := "Vietnam"; CheckoutForm.states := [] |}.

(** A cart line that carries no quantity. *)
Definition unquantified (variant : string) : CartLine.t :=
  {| CartLine.product_variant_id := Some variant; CartLine.product_id := None;
     CartLine.quantity := None; CartLine.name := None; CartLine.product_name := None;
     CartLine.price := None; CartLine.selling_price := None;
     CartLine.image := None; CartLine.image_url := None |}.

(** The home page with its cart badge, and the cart sidebar, in a browser
    that holds the cart id [c]. *)
Definition badgePage (c : string) : Page HomePageWithCart.State :=
  {| state := HomePageWithCart.initialState; world := worldWithCart c; calls := [];
     alerts := []; navigations := [] |}.

Definition sidebarPage (c : string) : Page Cart.State :=
  {| state := Cart.initialState; world := worldWithCart c; calls := [];
     alerts := []; navigations := [] |}.

(** A request to the webhook proxy that reads a cart, and a server
    environment with and without the webhook key. *)
Definition cartRequest : WebhookProxy.VercelRequest :=
  {| WebhookProxy.reqMethod := Some "POST";
     WebhookProxy.query := [("action", WebhookProxy.Single "get-cart")];
     WebhookProxy.reqBody := Some (JObject [("cart_id", JString "c1")]) |}.

Definition keyedEnv : WebhookProxy.ProcessEnv :=
  {| WebhookProxy.VITE_WEBHOOK_AUTH_KEY := None;
     WebhookProxy.WEBHOOK_AUTH_KEY := Some "s3cret" |}.

Definition keylessEnv : WebhookProxy.ProcessEnv :=
  {| WebhookProxy.VITE_WEBHOOK_AUTH_KEY := Some "";
     WebhookProxy.WEBHOOK_AUTH_KEY := None |}.

(* ===================================================================== *)
(** * Run equations of the building blocks *)
(* ===================================================================== *)

Lemma rethrow_run {A} (corsMessage : string) (error : JsError) (w : World) :
  @rethrow A corsMessage error w =
  (Throw (if instanceofTypeError error && includes (message error) "Failed to fetch"
          then Error corsMessage else error), w).
Proof.
  unfold rethrow.
  by destruct (instanceofTypeError error && includes (message error) "Failed to fetch").
Qed.

Lemma cacheCheck_run (env : Env) (variantId : string) (w : World) :
  cacheCheck env variantId w =
  match productCache w !! variantId with
  | Some e =>
      (Return (if fresh (clock env (clockReads w)) e then Some (product e) else None),
       withClockRead w)
  | None => (Return None, w)
  end.
Proof.
  unfold cacheCheck, bind, productCache_get, gets. simpl.
  by destruct (productCache w !! variantId).
Qed.

Lemma productCache_set_run (env : Env) (key : string) (p : Product.t) (w : World) :
  productCache_set env key p w =
  (Return tt,
   withProductCache
     (insert key {| product := p; timestamp := clock env (clockReads w) |})
     (withClockRead w)).
Proof. reflexivity. Qed.

Lemma attempt_run (env : Env) {B R} (req : Request) (o : FetchOutcome B)
    (failure : Z -> string -> string) (onOk : B -> Js World R) (w : World) :
  ApiDirect.attempt req o failure onOk w =
  match o with
  | Rejected m => (Throw (TypeError m), withRequest req w)
  | Responded r =>
      if ok r then
        match json r with
        | Return b => onOk b (withRequest req w)
        | Throw e => (Throw e, withRequest req w)
        end
      else (Throw (Error (failure (status r) (errorText r))), withRequest req w)
  end.
Proof.
  unfold ApiDirect.attempt, bind, fetch, settle, throw.
  destruct o as [r|m]; [|done]. destruct (ok r); [|done]. by destruct (json r).
Qed.

Lemma proxyThenDirect_run (env : Env) {B R} (pr dr : Request)
    (proxy direct : FetchOutcome B) (failure : Z -> string -> string)
    (corsMessage : string) (onOk : B -> Js World R) (w : World) :
  ApiDirect.proxyThenDirect env pr dr proxy direct failure corsMessage onOk w =
  if DEV env then
    match ApiDirect.attempt pr proxy failure onOk w with
    | (Return r, w') => (Return r, w')
    | (Throw _, w') =>
        tryCatch (ApiDirect.attempt dr direct failure onOk) (rethrow corsMessage) w'
    end
  else tryCatch (ApiDirect.attempt dr direct failure onOk) (rethrow corsMessage) w.
Proof.
  unfold ApiDirect.proxyThenDirect, bind at 1.
  destruct (DEV env); [|done].
  unfold tryCatch at 1, bind at 1.
  by destruct (ApiDirect.attempt pr proxy failure onOk w) as [[r|e] w'].
Qed.

Lemma viaWebhook_run {B R} (req : Request) (o : FetchOutcome B)
    (failure : Z -> string -> string) (corsMessage : string)
    (onOk : B -> Js World R) (w : World) :
  ApiWebhook.viaWebhook req o failure corsMessage onOk w =
  match o with
  | Rejected m => rethrow corsMessage (TypeError m) (withRequest req w)
  | Responded r =>
      if ok r then
        match json r with
        | Return b => tryCatch (onOk b) (rethrow corsMessage) (withRequest req w)
        | Throw e => rethrow corsMessage e (withRequest req w)
        end
      else rethrow corsMessage (Error (failure (status r) (errorText r)))
             (withRequest req w)
  end.
Proof.
  unfold ApiWebhook.viaWebhook, tryCatch, bind, fetch, settle, throw.
  destruct o as [r|m]; [|done]. destruct (ok r); simpl; [|done]. by destruct (json r).
Qed.

(** ** Computations that call no [fetch] *)

Lemma silent_ret {A} (a : A) : silent (ret a).
Proof. by intros w. Qed.

Lemma silent_bind {A B} (m : Js World A) (k : A -> Js World B) :
  silent m -> (forall a, silent (k a)) -> silent (bind m k).
Proof.
  intros Hm Hk w. unfold bind. specialize (Hm w).
  destruct (m w) as [[a|e] w']; simpl in *; [|done].
  by rewrite Hk.
Qed.

Lemma silent_settle {A} (c : Completion A) : silent (settle c).
Proof. by intros w. Qed.

Lemma silent_productCache_set (env : Env) (key : string) (p : Product.t) :
  silent (productCache_set env key p).
Proof. by intros w. Qed.

Lemma silent_forEach {A} (l : list A) (f : A -> Js World unit) :
  (forall a, silent (f a)) -> silent (forEach l f).
Proof.
  intros Hf. induction l as [|a l IH]; simpl.
  - apply silent_ret.
  - apply silent_bind; [apply Hf | intros _; apply IH].
Qed.

Lemma silent_cacheVariants (env : Env) (p : Product.t) :
  silent (ApiWebhook.cacheVariants env p).
Proof.
  apply silent_forEach. intros v.
  destruct (truthy (ProductVariant.variant_id v));
    [apply silent_productCache_set | apply silent_ret].
Qed.

Lemma silent_direct_cacheDetail (env : Env) (variantId : string) (b : DetailResponse.t) :
  silent (ApiDirect.cacheDetail env variantId b).
Proof.
  apply silent_bind; [apply silent_settle | intros p].
  apply silent_bind; [apply silent_productCache_set | intros _; apply silent_ret].
Qed.

Lemma silent_webhook_cacheDetail (env : Env) (variantId : string) (b : DetailResponse.t) :
  silent (ApiWebhook.cacheDetail env variantId b).
Proof.
  apply silent_bind; [apply silent_settle | intros p].
  apply silent_bind; [apply silent_productCache_set | intros _].
  apply silent_bind.
  - destruct (truthy (Product.product_id p));
      [apply silent_productCache_set | apply silent_ret].
  - intros _. apply silent_bind; [apply silent_cacheVariants | intros _; apply silent_ret].
Qed.

Lemma silent_tryCatch_rethrow {A} (m : Js World A) (corsMessage : string) :
  silent m -> silent (tryCatch m (rethrow corsMessage)).
Proof.
  intros Hm w. unfold tryCatch. specialize (Hm w).
  destruct (m w) as [[a|e] w']; simpl in *; [done|].
  by rewrite rethrow_run.
Qed.

(** One attempt records exactly its request. *)
Lemma attempt_requests (env : Env) {B R} (req : Request) (o : FetchOutcome B)
    (failure : Z -> string -> string) (onOk : B -> Js World R) (w : World) :
  (forall b, silent (onOk b)) ->
  requests (snd (ApiDirect.attempt req o failure onOk w)) = requests w ++ [req].
Proof.
  intros Hs. rewrite (attempt_run env).
  destruct o as [r|m]; [|done]. destruct (ok r); [|done].
  destruct (json r) as [b|e]; [|done]. by rewrite Hs.
Qed.

Lemma viaWebhook_requests {B R} (req : Request) (o : FetchOutcome B)
    (failure : Z -> string -> string) (corsMessage : string)
    (onOk : B -> Js World R) (w : World) :
  (forall b, silent (onOk b)) ->
  requests (snd (ApiWebhook.viaWebhook req o failure corsMessage onOk w))
  = requests w ++ [req].
Proof.
  intros Hs. rewrite viaWebhook_run.
  destruct o as [r|m]; [|by rewrite rethrow_run].
  destruct (ok r); [|by rewrite rethrow_run].
  destruct (json r) as [b|e]; [|by rewrite rethrow_run].
  by rewrite (silent_tryCatch_rethrow _ _ (Hs b)).
Qed.

(* ===================================================================== *)
(** * The image URL helper *)
(* ===================================================================== *)

Lemma startsWith_https (rest : string) : startsWith ("https://" +:+ rest) "http" = true.
Proof. reflexivity. Qed.

Lemma getProductImageUrl_with_spec (domain imageUrl : string) :
  (startsWith imageUrl "http" = true ->
     getProductImageUrl_with domain imageUrl = imageUrl) /\
  (startsWith imageUrl "http" = false ->
     exists rest, getProductImageUrl_with domain imageUrl = "https://" +:+ domain +:+ rest) /\
  getProductImageUrl_with domain (getProductImageUrl_with domain imageUrl)
  = getProductImageUrl_with domain imageUrl.
Proof.
  unfold getProductImageUrl_with.
  destruct (startsWith imageUrl "http") eqn:Hhttp.
  - repeat split; [done | by rewrite Hhttp].
  - split; [done|]. split.
    + intros _. destruct (startsWith imageUrl "/"); eauto.
    + destruct (startsWith imageUrl "/"); by rewrite startsWith_https.
Qed.

(** C10.  In both revisions [getProductImageUrl] returns a string that starts
    with "http" unchanged, turns every other string into a URL that begins
    with "https://" followed by the domain name, and applying it twice is the
    same as applying it once. *)
Theorem getProductImageUrl_idempotent_prefix_preserving (env : Env) (imageUrl : string) :
  (startsWith imageUrl "http" = true ->
     ApiDirect.getProductImageUrl env imageUrl = imageUrl /\
     ApiWebhook.getProductImageUrl env imageUrl = imageUrl) /\
  (startsWith imageUrl "http" = false ->
     (exists rest, ApiDirect.getProductImageUrl env imageUrl
                   = "https://" +:+ ApiDirect.DOMAIN_NAME env +:+ rest) /\
     (exists rest, ApiWebhook.getProductImageUrl env imageUrl
                   = "https://" +:+ ApiWebhook.DOMAIN_NAME env +:+ rest)) /\
  ApiDirect.getProductImageUrl env (ApiDirect.getProductImageUrl env imageUrl)
  = ApiDirect.getProductImageUrl env imageUrl /\
  ApiWebhook.getProductImageUrl env (ApiWebhook.getProductImageUrl env imageUrl)
  = ApiWebhook.getProductImageUrl env imageUrl.
Proof.
  unfold ApiDirect.getProductImageUrl, ApiWebhook.getProductImageUrl.
  pose proof (getProductImageUrl_with_spec (ApiDirect.DOMAIN_NAME env) imageUrl)
    as (D1 & D2 & D3).
  pose proof (getProductImageUrl_with_spec (ApiWebhook.DOMAIN_NAME env) imageUrl)
    as (W1 & W2 & W3).
  repeat split; auto.
Qed.

Lemma getProductImageUrl_idempotent_prefix_preserving_witness :
  ApiDirect.getProductImageUrl devEnv "http://cdn.example.com/a.png"
  = "http://cdn.example.com/a.png"
  /\ exists rest, ApiWebhook.getProductImageUrl prodEnv "img/a.png"
                  = "https://" +:+ ApiWebhook.DOMAIN_NAME prodEnv +:+ rest.
Proof.
  split.
  - destruct (getProductImageUrl_idempotent_prefix_preserving devEnv
                "http://cdn.example.com/a.png") as [Hkeep _].
    destruct Hkeep as [Hdirect _]; [reflexivity | exact Hdirect].
  - destruct (getProductImageUrl_idempotent_prefix_preserving prodEnv "img/a.png")
      as (_ & Hbuild & _).
    destruct Hbuild as [_ Hwebhook]; [reflexivity | exact Hwebhook].
Defined.

(* ===================================================================== *)
(** * The freshness window of the product cache *)
(* ===================================================================== *)

Lemma fresh_iff (now : Z) (e : CacheEntry) :
  fresh now e = true <-> now - timestamp e < 5 * 60 * 1000.
Proof. unfold fresh, CACHE_DURATION. rewrite Z.ltb_lt. lia. Qed.

Lemma tryCatch_rethrow_world {A} (m : Js World A) (corsMessage : string) (w : World) :
  snd (tryCatch m (rethrow corsMessage) w) = snd (m w).
Proof.
  unfold tryCatch. destruct (m w) as [[a|e] w']; [done|]. by rewrite rethrow_run.
Qed.

Lemma proxyThenDirect_requests_grow (env : Env) {B R} (pr dr : Request)
    (proxy direct : FetchOutcome B) (failure : Z -> string -> string)
    (corsMessage : string) (onOk : B -> Js World R) (w : World) :
  (forall b, silent (onOk b)) ->
  exists req rest,
    requests (snd (ApiDirect.proxyThenDirect env pr dr proxy direct failure
                     corsMessage onOk w))
    = requests w ++ req :: rest.
Proof.
  intros Hs. rewrite proxyThenDirect_run.
  pose proof (attempt_requests env pr proxy failure onOk w Hs) as Hp.
  destruct (DEV env).
  - destruct (ApiDirect.attempt pr proxy failure onOk w) as [[r|e] w']; simpl in Hp.
    + by exists pr, [].
    + exists pr, [dr].
      rewrite tryCatch_rethrow_world, (attempt_requests env) by done.
      rewrite Hp. by rewrite <- app_assoc.
  - exists dr, [].
    by rewrite tryCatch_rethrow_world, (attempt_requests env).
Qed.

Lemma listCacheCheck_none (env : Env) (variantId : string) (w : World) :
  productsListCache w = None ->
  ApiWebhook.listCacheCheck env variantId w = (Return None, w).
Proof.
  intros Hnone. unfold ApiWebhook.listCacheCheck, bind, gets. simpl. by rewrite Hnone.
Qed.

Lemma direct_fetchProductDetail_run (env : Env) (variantId : string)
    (proxy direct : FetchOutcome DetailResponse.t) (w : World) :
  ApiDirect.fetchProductDetail env variantId proxy direct w =
  match cacheCheck env variantId w with
  | (Return (Some p), w') => (Return p, w')
  | (Return None, w') =>
      ApiDirect.proxyThenDirect env
        (ApiDirect.proxyRequest env "GET" ("/api/products/" +:+ variantId) None)
        (ApiDirect.directRequest env "GET"
           ("https://" +:+ ApiDirect.DOMAIN_NAME env
            +:+ "/storefront/api/v1/products/" +:+ variantId) None)
        proxy direct ApiDirect.apiReturned (ApiDirect.restartHint "fetch product")
        (ApiDirect.cacheDetail env variantId) w'
  | (Throw e, w') => (Throw e, w')
  end.
Proof.
  unfold ApiDirect.fetchProductDetail, bind at 1.
  by destruct (cacheCheck env variantId w) as [[[p|]|e] w'].
Qed.

Lemma webhook_fetchProductDetail_run (env : Env) (variantId : string)
    (outcome : FetchOutcome DetailResponse.t) (w : World) :
  ApiWebhook.fetchProductDetail env variantId outcome w =
  match cacheCheck env variantId w with
  | (Return (Some p), w') => (Return p, w')
  | (Return None, w') =>
      match ApiWebhook.listCacheCheck env variantId w' with
      | (Return (Some p), w'') => (Return p, w'')
      | (Return None, w'') =>
          ApiWebhook.viaWebhook
            (ApiWebhook.webhookRequest "get-product-detail"
               (Some (JObject [("variant_id", JString variantId)])))
            outcome ApiWebhook.apiReturned (ApiWebhook.enableCorsHint "fetch product")
            (ApiWebhook.cacheDetail env variantId) w''
      | (Throw e, w'') => (Throw e, w'')
      end
  | (Throw e, w') => (Throw e, w')
  end.
Proof.
  unfold ApiWebhook.fetchProductDetail, bind at 1.
  destruct (cacheCheck env variantId w) as [[[p|]|e] w']; [done| |done].
  unfold bind at 1.
  by destruct (ApiWebhook.listCacheCheck env variantId w') as [[[p|]|e] w''].
Qed.

(** C3.  For a cached entry, the cache check that opens [fetchProductDetail]
    returns the cached record if and only if [now - timestamp] is strictly
    less than five minutes; at exactly five minutes the check reports nothing.
    When the entry is fresh, both revisions of [fetchProductDetail] return the
    cached record and touch nothing but the clock; when it is not, the
    proxy/direct revision calls [fetch], and so does the webhook revision
    unless the remembered product list answers. *)
Theorem cache_entry_valid_iff_younger_than_window
    (env : Env) (w : World) (variantId : string) (e : CacheEntry) :
  productCache w !! variantId = Some e ->
  let now := clock env (clockReads w) in
  (fst (cacheCheck env variantId w) = Return (Some (product e))
   <-> now - timestamp e < 5 * 60 * 1000) /\
  (now - timestamp e = 5 * 60 * 1000 ->
     fst (cacheCheck env variantId w) = Return None) /\
  (now - timestamp e < 5 * 60 * 1000 ->
     (forall proxy direct,
        ApiDirect.fetchProductDetail env variantId proxy direct w
        = (Return (product e), withClockRead w)) /\
     (forall outcome,
        ApiWebhook.fetchProductDetail env variantId outcome w
        = (Return (product e), withClockRead w))) /\
  (5 * 60 * 1000 <= now - timestamp e ->
     (forall proxy direct, exists req rest,
        requests (snd (ApiDirect.fetchProductDetail env variantId proxy direct w))
        = requests w ++ req :: rest) /\
     (productsListCache w = None ->
      forall outcome, exists req,
        requests (snd (ApiWebhook.fetchProductDetail env variantId outcome w))
        = requests w ++ [req])).
Proof.
  intros Hentry now.
  assert (Hcheck : cacheCheck env variantId w
                   = (Return (if fresh now e then Some (product e) else None),
                      withClockRead w)).
  { by rewrite cacheCheck_run, Hentry. }
  assert (Hdirect : forall proxy direct,
            ApiDirect.fetchProductDetail env variantId proxy direct w
            = if fresh now e then (Return (product e), withClockRead w)
              else ApiDirect.proxyThenDirect env
                (ApiDirect.proxyRequest env "GET" ("/api/products/" +:+ variantId) None)
                (ApiDirect.directRequest env "GET"
                   ("https://" +:+ ApiDirect.DOMAIN_NAME env
                    +:+ "/storefront/api/v1/products/" +:+ variantId) None)
                proxy direct ApiDirect.apiReturned
                (ApiDirect.restartHint "fetch product")
                (ApiDirect.cacheDetail env variantId) (withClockRead w)).
  { intros. rewrite direct_fetchProductDetail_run, Hcheck. by destruct (fresh now e). }
  assert (Hwebhook : forall outcome,
            ApiWebhook.fetchProductDetail env variantId outcome w
            = if fresh now e then (Return (product e), withClockRead w)
              else match ApiWebhook.listCacheCheck env variantId (withClockRead w) with
                   | (Return (Some p), w'') => (Return p, w'')
                   | (Return None, w'') =>
                       ApiWebhook.viaWebhook
                         (ApiWebhook.webhookRequest "get-product-detail"
                            (Some (JObject [("variant_id", JString variantId)])))
                         outcome ApiWebhook.apiReturned
                         (ApiWebhook.enableCorsHint "fetch product")
                         (ApiWebhook.cacheDetail env variantId) w''
                   | (Throw e, w'') => (Throw e, w'')
                   end).
  { intros. rewrite webhook_fetchProductDetail_run, Hcheck. by destruct (fresh now e). }
  rewrite Hcheck. simpl fst.
  destruct (fresh now e) eqn:Hfresh.
  - apply fresh_iff in Hfresh.
    repeat split; try done; try lia.
  - assert (Hold : 5 * 60 * 1000 <= now - timestamp e).
    { unfold fresh, CACHE_DURATION in Hfresh. apply Z.ltb_ge in Hfresh. lia. }
    repeat split; try done; try lia.
    + intros proxy direct. rewrite Hdirect.
      apply (proxyThenDirect_requests_grow env _ _ proxy direct _ _ _ (withClockRead w)).
      apply silent_direct_cacheDetail.
    + intros Hlist outcome. rewrite Hwebhook.
      rewrite listCacheCheck_none by done.
      eexists. rewrite viaWebhook_requests; [done|].
      apply silent_webhook_cacheDetail.
Qed.

Lemma cache_entry_valid_iff_younger_than_window_witness :
  fst (cacheCheck devEnv "v1" (worldWithEntry "v1" tablets (-299999)))
  = Return (Some tablets)
  /\ fst (cacheCheck devEnv "v1" (worldWithEntry "v1" tablets (-300000)))
     = Return None.
Proof.
  split.
  - destruct (cache_entry_valid_iff_younger_than_window devEnv
                (worldWithEntry "v1" tablets (-299999)) "v1"
                {| product := tablets; timestamp := -299999 |})
      as [Hvalid _]; [reflexivity|].
    apply Hvalid. vm_compute. reflexivity.
  - destruct (cache_entry_valid_iff_younger_than_window devEnv
                (worldWithEntry "v1" tablets (-300000)) "v1"
                {| product := tablets; timestamp := -300000 |})
      as (_ & Hedge & _); [reflexivity|].
    apply Hedge. reflexivity.
Defined.

(* ===================================================================== *)
(** * Probing the shape of a product-detail response *)
(* ===================================================================== *)

Lemma cacheCheck_miss (env : Env) (variantId : string) (w : World) :
  productCache w !! variantId = None ->
  cacheCheck env variantId w = (Return None, w).
Proof. intros Hmiss. by rewrite cacheCheck_run, Hmiss. Qed.

(** What an attempt on a channel that answers with a parsed body gives. *)
Lemma attempt_parsed (env : Env) {B R} (req : Request) (o : FetchOutcome B)
    (failure : Z -> string -> string) (onOk : B -> Js World R) (w : World) (b : B) :
  parsed o = Some b ->
  ApiDirect.attempt req o failure onOk w = onOk b (withRequest req w).
Proof.
  intros Hparsed. rewrite (attempt_run env).
  destruct o as [r|m]; simpl in Hparsed; [|done].
  destruct (ok r); [|done]. destruct (json r); [|done]. by simplify_eq.
Qed.

(** An attempt on a channel that gives no parsed body throws. *)
Lemma attempt_unparsed (env : Env) {B R} (req : Request) (o : FetchOutcome B)
    (failure : Z -> string -> string) (onOk : B -> Js World R) (w : World) :
  parsed o = None ->
  exists e, ApiDirect.attempt req o failure onOk w = (Throw e, withRequest req w).
Proof.
  intros Hparsed. rewrite (attempt_run env).
  destruct o as [r|m]; simpl in Hparsed; [|by eexists].
  destruct (ok r); [|by eexists]. destruct (json r); [done|by eexists].
Qed.

Lemma direct_cacheDetail_fst (env : Env) (variantId : string) (b : DetailResponse.t)
    (w : World) :
  fst (ApiDirect.cacheDetail env variantId b w) = probeProduct b.
Proof.
  unfold ApiDirect.cacheDetail, bind, settle. by destruct (probeProduct b).
Qed.

Lemma silent_never_throws_forEach {A} (l : list A) (f : A -> Js World unit) (w : World) :
  (forall a w0, fst (f a w0) = Return tt) ->
  fst (forEach l f w) = Return tt.
Proof.
  intros Hf. revert w. induction l as [|a l IH]; intros w; simpl; [done|].
  unfold bind. specialize (Hf a w). destruct (f a w) as [[[]|e] w']; simpl in Hf; [|done].
  apply IH.
Qed.

Lemma cacheVariants_fst (env : Env) (p : Product.t) (w : World) :
  fst (ApiWebhook.cacheVariants env p w) = Return tt.
Proof.
  apply silent_never_throws_forEach. intros v w0.
  by destruct (truthy (ProductVariant.variant_id v)).
Qed.

Lemma webhook_cacheDetail_fst (env : Env) (variantId : string) (b : DetailResponse.t)
    (w : World) :
  fst (ApiWebhook.cacheDetail env variantId b w) = probeProduct b.
Proof.
  unfold ApiWebhook.cacheDetail, bind at 1. unfold settle.
  destruct (probeProduct b) as [p|e]; [|done].
  unfold bind at 1. rewrite productCache_set_run.
  unfold bind at 1.
  set (w1 := withProductCache _ _).
  destruct (truthy (Product.product_id p)).
  - rewrite productCache_set_run. unfold bind.
    set (w2 := withProductCache _ _).
    pose proof (cacheVariants_fst env p w2) as Hv.
    by destruct (ApiWebhook.cacheVariants env p w2) as [[[]|e] w3].
  - unfold ret at 1. unfold bind.
    pose proof (cacheVariants_fst env p w1) as Hv.
    by destruct (ApiWebhook.cacheVariants env p w1) as [[[]|e] w3].
Qed.

Lemma probe_error_is_rethrown {A} (corsMessage : string) (b : DetailResponse.t)
    (m : Js World A) (w : World) (c : Completion A) :
  fst (m w) = c ->
  (forall e, c = Throw e -> e = Error "Unexpected API response format") ->
  fst (tryCatch m (rethrow corsMessage) w) = c.
Proof.
  intros Hm Hshape. unfold tryCatch.
  destruct (m w) as [[a|e] w']; simpl in Hm; subst; [done|].
  rewrite rethrow_run. by rewrite (Hshape e eq_refl).
Qed.

Lemma probeProduct_throws (b : DetailResponse.t) (e : JsError) :
  probeProduct b = Throw e -> e = Error "Unexpected API response format".
Proof.
  unfold probeProduct.
  destruct (DetailResponse.payload b) as [[[p|]]|];
    destruct (DetailResponse.product b);
    destruct (truthy (Product.product_id (DetailResponse.self b)));
    naive_solver.
Qed.

(** C7, as the code has it.  On the channel that decides the call (the
    direct channel of the proxy/direct revision, the only channel of the
    webhook revision) a response with a success status and a parsed body is
    probed for [payload.product], then [product], then the body itself when
    its [product_id] is truthy; when none is there the call throws
    [Error('Unexpected API response format')], whose message is neither a
    transport (CORS) message nor an upstream-status message.  On the proxy
    channel a body of no known shape is not surfaced: like every other proxy
    failure it hands the call over to the direct channel. *)
Theorem detail_shape_probed_in_order_on_deciding_channel
    (env : Env) (variantId : string) (w : World)
    (r : Response DetailResponse.t) (body : DetailResponse.t) :
  productCache w !! variantId = None ->
  productsListCache w = None ->
  ok r = true ->
  json r = Return body ->
  (forall p, payloadProduct body = Some p -> probeProduct body = Return p) /\
  (forall p, payloadProduct body = None ->
             DetailResponse.product body = Some p ->
             probeProduct body = Return p) /\
  (payloadProduct body = None ->
   DetailResponse.product body = None ->
   truthy (Product.product_id (DetailResponse.self body)) = true ->
   probeProduct body = Return (DetailResponse.self body)) /\
  (payloadProduct body = None ->
   DetailResponse.product body = None ->
   truthy (Product.product_id (DetailResponse.self body)) = false ->
   probeProduct body = Throw (Error "Unexpected API response format")) /\
  (forall proxy,
     fst (ApiDirect.fetchProductDetail env variantId proxy (Responded r) w)
     = if DEV env
       then match yields proxy with
            | Some p => Return p
            | None => probeProduct body
            end
       else probeProduct body) /\
  fst (ApiWebhook.fetchProductDetail env variantId (Responded r) w) = probeProduct body /\
  (forall status errorText what,
     "Unexpected API response format" <> ApiDirect.apiReturned status errorText /\
     "Unexpected API response format" <> ApiWebhook.apiReturned status errorText /\
     "Unexpected API response format" <> ApiDirect.restartHint what /\
     "Unexpected API response format" <> ApiWebhook.enableCorsHint what).
Proof.
  intros Hmiss Hlist Hok Hjson.
  assert (Hparsed : parsed (Responded r) = Some body).
  { simpl. by rewrite Hok, Hjson. }
  assert (Hdecide : forall w0 pr dr,
            fst (tryCatch
                   (ApiDirect.attempt dr (Responded r) ApiDirect.apiReturned
                      (ApiDirect.cacheDetail env variantId))
                   (rethrow pr) w0)
            = probeProduct body).
  { intros w0 pr dr.
    apply (probe_error_is_rethrown pr body).
    - rewrite (attempt_parsed env _ _ _ _ _ body Hparsed).
      apply direct_cacheDetail_fst.
    - apply probeProduct_throws. }
  split; [|split; [|split; [|split; [|split; [|split]]]]].
  - unfold payloadProduct, probeProduct. intros p Hp.
    destruct (DetailResponse.payload body) as [[q]|]; simpl in Hp; by subst.
  - unfold payloadProduct, probeProduct. intros p Hp Hq. rewrite Hq.
    destruct (DetailResponse.payload body) as [[q]|]; simpl in Hp; by subst.
  - unfold payloadProduct, probeProduct. intros Hp Hq Hid. rewrite Hq, Hid.
    destruct (DetailResponse.payload body) as [[q]|]; simpl in Hp; by subst.
  - unfold payloadProduct, probeProduct. intros Hp Hq Hid. rewrite Hq, Hid.
    destruct (DetailResponse.payload body) as [[q]|]; simpl in Hp; by subst.
  - intros proxy.
    rewrite direct_fetchProductDetail_run, cacheCheck_miss by done.
    rewrite proxyThenDirect_run.
    destruct (DEV env); [|apply Hdecide].
    unfold yields.
    destruct (parsed proxy) as [b|] eqn:Hproxy.
    + rewrite (attempt_parsed env _ _ _ _ _ b Hproxy).
      pose proof (direct_cacheDetail_fst env variantId b
                    (withRequest
                       (ApiDirect.proxyRequest env "GET"
                          ("/api/products/" +:+ variantId) None) w)) as Hfst.
      destruct (ApiDirect.cacheDetail env variantId b _) as [[p|e] w'];
        simpl in Hfst; rewrite <- Hfst; [done | apply Hdecide].
    + destruct (attempt_unparsed env
                  (ApiDirect.proxyRequest env "GET" ("/api/products/" +:+ variantId) None)
                  proxy ApiDirect.apiReturned (ApiDirect.cacheDetail env variantId)
                  w Hproxy) as [e ->].
      apply Hdecide.
  - rewrite webhook_fetchProductDetail_run, cacheCheck_miss by done.
    rewrite listCacheCheck_none by done.
    rewrite viaWebhook_run, Hok, Hjson.
    apply (probe_error_is_rethrown _ body).
    + apply webhook_cacheDetail_fst.
    + apply probeProduct_throws.
  - intros status errorText what.
    unfold ApiDirect.apiReturned, ApiWebhook.apiReturned, ApiDirect.restartHint,
      ApiWebhook.enableCorsHint.
    repeat split; discriminate.
Qed.

Lemma detail_shape_probed_in_order_on_deciding_channel_witness :
  probeProduct (layered tablets syrup clashing) = Return tablets
  /\ fst (ApiWebhook.fetchProductDetail prodEnv "v9" (answered shapeless) emptyWorld)
     = Throw (Error "Unexpected API response format")
  /\ fst (ApiDirect.fetchProductDetail prodEnv "v9" serverError (answered shapeless)
            emptyWorld)
     = Throw (Error "Unexpected API response format").
Proof.
  split; [|split].
  - destruct (detail_shape_probed_in_order_on_deciding_channel prodEnv "v9" emptyWorld
                {| status := 200; statusText := "OK"; text := None;
                   json := Return (layered tablets syrup clashing) |}
                (layered tablets syrup clashing))
      as [Hfirst _]; [reflexivity | reflexivity | reflexivity | reflexivity |].
    apply Hfirst. reflexivity.
  - destruct (detail_shape_probed_in_order_on_deciding_channel prodEnv "v9" emptyWorld
                {| status := 200; statusText := "OK"; text := None;
                   json := Return shapeless |}
                shapeless)
      as (_ & _ & _ & Hnone & _ & Hwebhook & _);
      [reflexivity | reflexivity | reflexivity | reflexivity |].
    unfold answered. rewrite Hwebhook. apply Hnone; reflexivity.
  - destruct (detail_shape_probed_in_order_on_deciding_channel prodEnv "v9" emptyWorld
                {| status := 200; statusText := "OK"; text := None;
                   json := Return shapeless |}
                shapeless)
      as (_ & _ & _ & Hnone & Hdirect & _);
      [reflexivity | reflexivity | reflexivity | reflexivity |].
    unfold answered. rewrite Hdirect. apply Hnone; reflexivity.
Defined.

(** C7 as stated fails on the proxy channel of the proxy/direct revision: a
    proxy response with a success status and a body of no known shape does not
    end the call with the shape error.  The direct channel is tried, and the
    call returns its product, or throws its upstream-status error. *)
Lemma shape_error_not_surfaced_from_proxy :
  probeProduct shapeless = Throw (Error "Unexpected API response format")
  /\ fst (ApiDirect.fetchProductDetail devEnv "v1" (answered shapeless)
            (answered (bare tablets)) emptyWorld)
     = Return tablets
  /\ fst (ApiDirect.fetchProductDetail devEnv "v1" (answered shapeless)
            serverError emptyWorld)
     = Throw (Error "API returned 500: upstream failed").
Proof. repeat split; vm_compute; reflexivity. Qed.

(* ===================================================================== *)
(** * The two channels *)
(* ===================================================================== *)

Lemma sameCookies_refl (w : World) : sameCookies w w.
Proof. by split. Qed.

Lemma sameCookies_withRequest (req : Request) (w w' : World) :
  sameCookies w w' -> sameCookies w (withRequest req w').
Proof. by intros [? ?]. Qed.

Lemma viaWebhook_parsed {B R} (req : Request) (o : FetchOutcome B)
    (failure : Z -> string -> string) (corsMessage : string)
    (onOk : B -> Js World R) (w : World) (b : B) :
  neverThrows onOk ->
  parsed o = Some b ->
  ApiWebhook.viaWebhook req o failure corsMessage onOk w = onOk b (withRequest req w).
Proof.
  intros Hnever Hparsed. rewrite viaWebhook_run.
  destruct o as [r|m]; simpl in Hparsed; [|done].
  destruct (ok r); [|done]. destruct (json r) as [b'|]; [|done]. simplify_eq.
  unfold tryCatch. destruct (Hnever b (withRequest req w)) as [a Ha].
  by destruct (onOk b (withRequest req w)) as [[a'|e] w'].
Qed.

Lemma viaWebhook_unparsed {B R} (req : Request) (o : FetchOutcome B)
    (failure : Z -> string -> string) (corsMessage : string)
    (onOk : B -> Js World R) (w : World) :
  parsed o = None ->
  exists e, ApiWebhook.viaWebhook req o failure corsMessage onOk w
            = (Throw e, withRequest req w).
Proof.
  intros Hparsed. rewrite viaWebhook_run.
  destruct o as [r|m]; simpl in Hparsed; [|rewrite rethrow_run; by eexists].
  destruct (ok r); [|rewrite rethrow_run; by eexists].
  destruct (json r); [done|rewrite rethrow_run; by eexists].
Qed.

(** The direct attempt with its [catch] clause, when the continuation always
    returns: the parsed body goes to the continuation, anything else
    throws. *)
Lemma direct_attempt_cases (env : Env) {B R} (dr : Request) (direct : FetchOutcome B)
    (failure : Z -> string -> string) (corsMessage : string)
    (onOk : B -> Js World R) (w : World) :
  neverThrows onOk ->
  match parsed direct with
  | Some b =>
      tryCatch (ApiDirect.attempt dr direct failure onOk) (rethrow corsMessage) w
      = onOk b (withRequest dr w)
  | None =>
      exists e,
        tryCatch (ApiDirect.attempt dr direct failure onOk) (rethrow corsMessage) w
        = (Throw e, withRequest dr w)
  end.
Proof.
  intros Hnever.
  destruct (parsed direct) as [b|] eqn:Hparsed.
  - unfold tryCatch. rewrite (attempt_parsed env _ _ _ _ _ b Hparsed).
    destruct (Hnever b (withRequest dr w)) as [a Ha].
    by destruct (onOk b (withRequest dr w)) as [[a'|e] w'].
  - destruct (attempt_unparsed env dr direct failure onOk w Hparsed) as [e He].
    unfold tryCatch. rewrite He, rethrow_run. by eexists.
Qed.

(** The proxy attempt, when the continuation always returns. *)
Lemma proxy_attempt_cases (env : Env) {B R} (pr : Request) (proxy : FetchOutcome B)
    (failure : Z -> string -> string) (onOk : B -> Js World R) (w : World) :
  neverThrows onOk ->
  match parsed proxy with
  | Some b =>
      exists a w', ApiDirect.attempt pr proxy failure onOk w = (Return a, w')
                   /\ onOk b (withRequest pr w) = (Return a, w')
  | None =>
      exists e, ApiDirect.attempt pr proxy failure onOk w = (Throw e, withRequest pr w)
  end.
Proof.
  intros Hnever.
  destruct (parsed proxy) as [b|] eqn:Hparsed.
  - rewrite (attempt_parsed env _ _ _ _ _ b Hparsed).
    destruct (Hnever b (withRequest pr w)) as [a Ha].
    destruct (onOk b (withRequest pr w)) as [[a'|e] w']; [|done]. by exists a', w'.
  - by apply attempt_unparsed.
Qed.

(** In the proxied run mode a failed proxy channel hands the call over to
    the direct channel. *)
Lemma proxyThenDirect_fallback (env : Env) {B R} (pr dr : Request)
    (proxy direct : FetchOutcome B) (failure : Z -> string -> string)
    (corsMessage : string) (onOk : B -> Js World R) (w : World) :
  DEV env = true ->
  channelFailed proxy = true ->
  ApiDirect.proxyThenDirect env pr dr proxy direct failure corsMessage onOk w
  = tryCatch (ApiDirect.attempt dr direct failure onOk) (rethrow corsMessage)
      (withRequest pr w).
Proof.
  intros Hdev Hfailed. rewrite proxyThenDirect_run, Hdev, (attempt_run env).
  destruct proxy as [r|m]; simpl in Hfailed; [|done].
  by destruct (ok r).
Qed.

(** Every way [proxyThenDirect] can end when the continuation always
    returns: with the continuation run on the body of the channel that
    answered, or with an error when the direct channel gave no body. *)
Lemma proxyThenDirect_cases (env : Env) {B R} (pr dr : Request)
    (proxy direct : FetchOutcome B) (failure : Z -> string -> string)
    (corsMessage : string) (onOk : B -> Js World R) (w : World) :
  neverThrows onOk ->
  (exists b w0,
     sameCookies w w0 /\
     ApiDirect.proxyThenDirect env pr dr proxy direct failure corsMessage onOk w
     = onOk b w0)
  \/ (exists e w0,
        sameCookies w w0 /\
        ApiDirect.proxyThenDirect env pr dr proxy direct failure corsMessage onOk w
        = (Throw e, w0)).
Proof.
  intros Hnever. rewrite proxyThenDirect_run.
  assert (Hdirect : forall w1, sameCookies w w1 ->
            (exists b w0, sameCookies w w0 /\
               tryCatch (ApiDirect.attempt dr direct failure onOk)
                 (rethrow corsMessage) w1 = onOk b w0)
            \/ (exists e w0, sameCookies w w0 /\
                  tryCatch (ApiDirect.attempt dr direct failure onOk)
                    (rethrow corsMessage) w1 = (Throw e, w0))).
  { intros w1 Hw1.
    pose proof (direct_attempt_cases env dr direct failure corsMessage onOk w1 Hnever)
      as Hcases.
    destruct (parsed direct) as [b|].
    - left. exists b, (withRequest dr w1). split; [by apply sameCookies_withRequest|done].
    - right. destruct Hcases as [e He]. exists e, (withRequest dr w1).
      split; [by apply sameCookies_withRequest|done]. }
  destruct (DEV env); [|apply Hdirect, sameCookies_refl].
  pose proof (proxy_attempt_cases env pr proxy failure onOk w Hnever) as Hproxy.
  destruct (parsed proxy) as [b|].
  - destruct Hproxy as (a & w' & -> & Hon). left. exists b, (withRequest pr w).
    split; [apply sameCookies_withRequest, sameCookies_refl | done].
  - destruct Hproxy as [e ->].
    apply Hdirect, sameCookies_withRequest, sameCookies_refl.
Qed.

(* ===================================================================== *)
(** * The cart identity cookie *)
(* ===================================================================== *)

Lemma neverThrows_ret {A} : neverThrows (@ret World A).
Proof. intros a w. by exists a. Qed.

Lemma forgetEmptyCart_run (b : CartItemResponse.t) (w : World) :
  ApiWebhook.forgetEmptyCart b w =
  (Return b,
   match ApiWebhook.lineItemsOf b, ApiWebhook.itemsOf b with
   | [], [] => withCookies (delete "cart_id") (DeleteCookie "cart_id") w
   | _, _ => w
   end).
Proof.
  unfold ApiWebhook.forgetEmptyCart.
  destruct (ApiWebhook.lineItemsOf b), (ApiWebhook.itemsOf b); reflexivity.
Qed.

Lemma neverThrows_forgetEmptyCart : neverThrows ApiWebhook.forgetEmptyCart.
Proof. intros b w. exists b. by rewrite forgetEmptyCart_run. Qed.

(** The direct revision of [getCartItems] never touches the cookie store. *)
Lemma direct_getCartItems_sameCookies (env : Env) (cartId : string)
    (proxy direct : FetchOutcome CartItemResponse.t) (w : World) :
  sameCookies w (snd (ApiDirect.getCartItems env cartId proxy direct w)).
Proof.
  unfold ApiDirect.getCartItems.
  destruct (proxyThenDirect_cases env
              (ApiDirect.proxyRequest env "GET" ("/api/cart?cart_id=" +:+ cartId) None)
              (ApiDirect.directRequest env "GET"
                 ("https://" +:+ ApiDirect.DOMAIN_NAME env
                  +:+ "/storefront/api/v1/cart?cart_id=" +:+ cartId) None)
              proxy direct (ApiDirect.failed "Failed to get cart items")
              (ApiDirect.restartHint "get cart items") ret w neverThrows_ret)
    as [(b & w0 & Hsame & ->) | (e & w0 & Hsame & ->)]; exact Hsame.
Qed.

(** C2, as the code has it.  A successful cart read of the webhook revision
    deletes the [cart_id] cookie when both [payload.line_items] and
    [payload.items] are absent or empty, and leaves the cookie store untouched
    when either of them has an item.  The cart read of the proxy/direct
    revision never touches the cookie store. *)
Theorem cart_read_forgets_cart_when_both_lists_are_empty
    (env : Env) (cartId : string) (w : World) :
  (forall outcome response,
     fst (ApiWebhook.getCartItems cartId outcome w) = Return response ->
     let w' := snd (ApiWebhook.getCartItems cartId outcome w) in
     (ApiWebhook.lineItemsOf response = [] ->
      ApiWebhook.itemsOf response = [] ->
      cookies w' = delete "cart_id" (cookies w) /\
      cookieWrites w' = cookieWrites w ++ [DeleteCookie "cart_id"]) /\
     (ApiWebhook.lineItemsOf response <> [] \/ ApiWebhook.itemsOf response <> [] ->
      cookies w' = cookies w /\ cookieWrites w' = cookieWrites w)) /\
  (forall proxy direct,
     let w' := snd (ApiDirect.getCartItems env cartId proxy direct w) in
     cookies w' = cookies w /\ cookieWrites w' = cookieWrites w).
Proof.
  split.
  - intros outcome response. unfold ApiWebhook.getCartItems.
    set (req := ApiWebhook.webhookRequest "get-cart" _).
    destruct (parsed outcome) as [b|] eqn:Hparsed.
    + rewrite (viaWebhook_parsed req outcome _ _ _ w b neverThrows_forgetEmptyCart Hparsed).
      rewrite forgetEmptyCart_run. simpl. intros [= ->].
      split.
      * by intros -> ->.
      * intros [Hne|Hne];
          destruct (ApiWebhook.lineItemsOf response), (ApiWebhook.itemsOf response);
          done.
    + destruct (viaWebhook_unparsed req outcome
                  (ApiWebhook.failed "Failed to get cart items")
                  (ApiWebhook.enableCorsHint "get cart items")
                  ApiWebhook.forgetEmptyCart w Hparsed) as [e ->].
      done.
  - intros proxy direct. apply direct_getCartItems_sameCookies.
Qed.

Lemma cart_read_forgets_cart_when_both_lists_are_empty_witness :
  cookies (snd (ApiWebhook.getCartItems "c1"
                  (answered (cartOf (Some "c1") (Some []) None))
                  (worldWithCart "c1"))) !! "cart_id" = None
  /\ cookies (snd (ApiWebhook.getCartItems "c1"
                     (answered (cartOf (Some "c1") (Some [cartLine "v1" 2]) None))
                     (worldWithCart "c1"))) !! "cart_id" = Some "c1".
Proof.
  split.
  - destruct (cart_read_forgets_cart_when_both_lists_are_empty prodEnv "c1"
                (worldWithCart "c1")) as [Hwebhook _].
    destruct (Hwebhook (answered (cartOf (Some "c1") (Some []) None))
                (cartOf (Some "c1") (Some []) None) eq_refl) as [Hempty _].
    destruct Hempty as [Hcookies _]; [reflexivity | reflexivity |].
    rewrite Hcookies. reflexivity.
  - destruct (cart_read_forgets_cart_when_both_lists_are_empty prodEnv "c1"
                (worldWithCart "c1")) as [Hwebhook _].
    destruct (Hwebhook (answered (cartOf (Some "c1") (Some [cartLine "v1" 2]) None))
                (cartOf (Some "c1") (Some [cartLine "v1" 2]) None) eq_refl)
      as [_ Hfull].
    destruct Hfull as [Hcookies _]; [right; discriminate |].
    rewrite Hcookies. reflexivity.
Defined.

(** C2 as stated fails.  In the proxy/direct revision a successful cart read
    with no item leaves the cookie in place, and in the webhook revision an
    empty [items] list does not delete the cookie while [line_items] has an
    entry. *)
Lemma empty_cart_read_can_keep_cookie :
  (fst (ApiDirect.getCartItems prodEnv "c1" serverError
          (answered (cartOf (Some "c1") (Some []) None)) (worldWithCart "c1"))
   = Return (cartOf (Some "c1") (Some []) None)
   /\ cookies (snd (ApiDirect.getCartItems prodEnv "c1" serverError
                      (answered (cartOf (Some "c1") (Some []) None))
                      (worldWithCart "c1"))) !! "cart_id" = Some "c1")
  /\ (fst (ApiWebhook.getCartItems "c1"
             (answered (cartOf (Some "c1") (Some []) (Some [cartLine "v1" 2])))
             (worldWithCart "c1"))
      = Return (cartOf (Some "c1") (Some []) (Some [cartLine "v1" 2]))
      /\ cookies (snd (ApiWebhook.getCartItems "c1"
                         (answered (cartOf (Some "c1") (Some [])
                                      (Some [cartLine "v1" 2])))
                         (worldWithCart "c1"))) !! "cart_id" = Some "c1").
Proof. repeat split; vm_compute; reflexivity. Qed.

Lemma strictNeqOpt_true (c : string) (stored : option string) :
  strictNeqOpt c stored = true <-> stored <> Some c.
Proof.
  unfold strictNeqOpt, strictEq. destruct stored as [s|]; [|done].
  rewrite negb_true_iff, bool_decide_eq_false. naive_solver.
Qed.

Lemma direct_saveCartId_run (env : Env) (stored : option string)
    (b : AddToCartResponse.t) (w : World) :
  ApiDirect.saveCartId env stored b w =
  (Return b,
   match ApiDirect.carriedCartId b with
   | Some c =>
       if truthy c && strictNeqOpt c stored
       then withCookies (assignCookie env "cart_id" c 30) (SetCookie "cart_id" c 30) w
       else w
   | None => w
   end).
Proof.
  unfold ApiDirect.saveCartId.
  destruct (ApiDirect.carriedCartId b) as [c|]; [|done].
  by destruct (truthy c && strictNeqOpt c stored).
Qed.

Lemma webhook_saveCartId_run (env : Env) (stored : option string)
    (b : AddToCartResponse.t) (w : World) :
  ApiWebhook.saveCartId env stored b w =
  (Return b,
   match ApiWebhook.carriedCartId b with
   | Some c =>
       if truthy c && strictNeqOpt c stored
       then withCookies (assignCookie env "cart_id" c 30) (SetCookie "cart_id" c 30) w
       else w
   | None => w
   end).
Proof.
  unfold ApiWebhook.saveCartId.
  destruct (ApiWebhook.carriedCartId b) as [c|]; [|done].
  by destruct (truthy c && strictNeqOpt c stored).
Qed.

(** What the code after [response.ok] does to the cookie store, for a world
    [w0] whose cookie store is that of [w]. *)
Lemma saved_cart_id_effect (env : Env) (stored carried : option string)
    (w w0 : World) :
  sameCookies w w0 ->
  let w' :=
    match carried with
    | Some c =>
        if truthy c && strictNeqOpt c stored
        then withCookies (assignCookie env "cart_id" c 30) (SetCookie "cart_id" c 30) w0
        else w0
    | None => w0
    end in
  (forall c, carried = Some c -> truthy c = true -> stored <> Some c ->
     cookieWrites w' = cookieWrites w ++ [SetCookie "cart_id" c 30] /\
     cookies w' = assignCookie env "cart_id" c 30 (cookies w) /\
     (storedWhole env c (cookies w) -> cookies w' = <["cart_id" := c]> (cookies w))) /\
  (carried = stored \/ truthyOpt carried = false -> sameCookies w w').
Proof.
  intros [Hcookies Hwrites]. split.
  - intros c -> Htruthy Hnew.
    apply strictNeqOpt_true in Hnew. rewrite Htruthy, Hnew. simpl.
    rewrite Hcookies, Hwrites. by repeat split.
  - intros Hsame. destruct carried as [c|]; [|by split].
    destruct (truthy c) eqn:Htruthy; simpl; [|by split].
    destruct (strictNeqOpt c stored) eqn:Hneq; [|by split].
    apply strictNeqOpt_true in Hneq.
    destruct Hsame as [Heq|Hfalsy]; [by subst | simpl in Hfalsy; congruence].
Qed.

Lemma direct_addToCart_run (env : Env) (productVariantId : string) (quantity : Z)
    (proxy direct : FetchOutcome AddToCartResponse.t) (w : World) :
  ApiDirect.addToCart env productVariantId quantity proxy direct w =
  let stored := cookies w !! "cart_id" in
  let body := ApiDirect.addToCartBody productVariantId quantity stored in
  ApiDirect.proxyThenDirect env
    (ApiDirect.proxyRequest env "POST" "/api/cart" (Some body))
    (ApiDirect.directRequest env "POST"
       ("https://" +:+ ApiDirect.DOMAIN_NAME env +:+ "/storefront/api/v1/cart")
       (Some body))
    proxy direct (ApiDirect.failed "Failed to add to cart")
    (ApiDirect.restartHint "add to cart") (ApiDirect.saveCartId env stored) w.
Proof. reflexivity. Qed.

Lemma webhook_addToCart_run (env : Env) (productVariantId : string) (quantity : Z)
    (outcome : FetchOutcome AddToCartResponse.t) (w : World) :
  ApiWebhook.addToCart env productVariantId quantity outcome w =
  let stored := cookies w !! "cart_id" in
  ApiWebhook.viaWebhook
    (ApiWebhook.webhookRequest "add-to-cart"
       (Some (ApiWebhook.addToCartBody productVariantId quantity stored)))
    outcome (ApiWebhook.failed "Failed to add to cart")
    (ApiWebhook.enableCorsHint "add to cart") (ApiWebhook.saveCartId env stored) w.
Proof. reflexivity. Qed.

(** C8, as the code has it.  A successful add-to-cart whose response carries
    a truthy cart id ([cart_id], else [payload.cart_id]) that differs from the
    one the cookie held when the call began calls [setCartId] with it: the id
    is assigned to the [cart_id] cookie for 30 days, and the cookie holds it
    afterwards whenever the browser stores the id as it is ([setCookie]
    writes the value into the cookie text without encoding it, so a browser
    stores an id with a semicolon or outer blanks cut).  When the carried id
    is the stored one, or none is carried, the cookie store is not written.
    A cart read never writes a cart id: the proxy/direct revision leaves the
    cookie store alone, the webhook revision can only delete the cookie. *)
Theorem add_to_cart_saves_a_new_cart_id
    (env : Env) (productVariantId : string) (quantity : Z) (cartId : string)
    (w : World) :
  let stored := cookies w !! "cart_id" in
  (forall proxy direct response,
     fst (ApiDirect.addToCart env productVariantId quantity proxy direct w)
     = Return response ->
     let w' := snd (ApiDirect.addToCart env productVariantId quantity proxy direct w) in
     (forall c, ApiDirect.carriedCartId response = Some c ->
                truthy c = true -> stored <> Some c ->
                cookieWrites w' = cookieWrites w ++ [SetCookie "cart_id" c 30] /\
                cookies w' = assignCookie env "cart_id" c 30 (cookies w) /\
                (storedWhole env c (cookies w) ->
                 cookies w' = <["cart_id" := c]> (cookies w))) /\
     (ApiDirect.carriedCartId response = stored
      \/ truthyOpt (ApiDirect.carriedCartId response) = false ->
      sameCookies w w')) /\
  (forall outcome response,
     fst (ApiWebhook.addToCart env productVariantId quantity outcome w)
     = Return response ->
     let w' := snd (ApiWebhook.addToCart env productVariantId quantity outcome w) in
     (forall c, ApiWebhook.carriedCartId response = Some c ->
                truthy c = true -> stored <> Some c ->
                cookieWrites w' = cookieWrites w ++ [SetCookie "cart_id" c 30] /\
                cookies w' = assignCookie env "cart_id" c 30 (cookies w) /\
                (storedWhole env c (cookies w) ->
                 cookies w' = <["cart_id" := c]> (cookies w))) /\
     (ApiWebhook.carriedCartId response = stored
      \/ truthyOpt (ApiWebhook.carriedCartId response) = false ->
      sameCookies w w')) /\
  (forall proxy direct,
     sameCookies w (snd (ApiDirect.getCartItems env cartId proxy direct w))) /\
  (forall outcome,
     let w' := snd (ApiWebhook.getCartItems cartId outcome w) in
     cookieWrites w' = cookieWrites w
     \/ cookieWrites w' = cookieWrites w ++ [DeleteCookie "cart_id"]).
Proof.
  intros stored. split; [|split; [|split]].
  - intros proxy direct response.
    rewrite direct_addToCart_run. cbv zeta. fold stored.
    set (pr := ApiDirect.proxyRequest env "POST" "/api/cart" _).
    set (dr := ApiDirect.directRequest env "POST" _ _).
    assert (Hnever : neverThrows (ApiDirect.saveCartId env stored)).
    { intros b w0. exists b. by rewrite direct_saveCartId_run. }
    destruct (proxyThenDirect_cases env pr dr proxy direct
                (ApiDirect.failed "Failed to add to cart")
                (ApiDirect.restartHint "add to cart")
                (ApiDirect.saveCartId env stored) w Hnever)
      as [(b & w0 & Hsame & ->) | (e & w0 & Hsame & ->)]; [|done].
    rewrite direct_saveCartId_run. simpl. intros [= ->].
    exact (saved_cart_id_effect env stored (ApiDirect.carriedCartId response) w w0 Hsame).
  - intros outcome response.
    rewrite webhook_addToCart_run. cbv zeta. fold stored.
    set (req := ApiWebhook.webhookRequest "add-to-cart" _).
    assert (Hnever : neverThrows (ApiWebhook.saveCartId env stored)).
    { intros b w0. exists b. by rewrite webhook_saveCartId_run. }
    destruct (parsed outcome) as [b|] eqn:Hparsed.
    + rewrite (viaWebhook_parsed req outcome _ _ _ w b Hnever Hparsed).
      rewrite webhook_saveCartId_run. simpl. intros [= ->].
      exact (saved_cart_id_effect env stored (ApiWebhook.carriedCartId response) w
               (withRequest req w)
               (sameCookies_withRequest req w w (sameCookies_refl w))).
    + destruct (viaWebhook_unparsed req outcome
                  (ApiWebhook.failed "Failed to add to cart")
                  (ApiWebhook.enableCorsHint "add to cart")
                  (ApiWebhook.saveCartId env stored) w Hparsed) as [e ->].
      done.
  - intros proxy direct. apply direct_getCartItems_sameCookies.
  - intros outcome. unfold ApiWebhook.getCartItems.
    set (req := ApiWebhook.webhookRequest "get-cart" _).
    destruct (parsed outcome) as [b|] eqn:Hparsed.
    + rewrite (viaWebhook_parsed req outcome _ _ _ w b neverThrows_forgetEmptyCart Hparsed).
      rewrite forgetEmptyCart_run. simpl.
      destruct (ApiWebhook.lineItemsOf b), (ApiWebhook.itemsOf b); auto.
    + destruct (viaWebhook_unparsed req outcome
                  (ApiWebhook.failed "Failed to get cart items")
                  (ApiWebhook.enableCorsHint "get cart items")
                  ApiWebhook.forgetEmptyCart w Hparsed) as [e ->].
      by left.
Qed.

Lemma add_to_cart_saves_a_new_cart_id_witness :
  cookies (snd (ApiWebhook.addToCart prodEnv "v1" 1 (answered (addedTo (Some "c2")))
                  (worldWithCart "c1"))) !! "cart_id" = Some "c2"
  /\ cookieWrites (snd (ApiDirect.addToCart devEnv "v1" 1 serverError
                          (answered (addedTo (Some "c1"))) (worldWithCart "c1")))
     = cookieWrites (worldWithCart "c1").
Proof.
  split.
  - destruct (add_to_cart_saves_a_new_cart_id prodEnv "v1" 1 "c1" (worldWithCart "c1"))
      as (_ & Hwebhook & _).
    destruct (Hwebhook (answered (addedTo (Some "c2"))) (addedTo (Some "c2")) eq_refl)
      as [Hnew _].
    destruct (Hnew "c2") as (_ & _ & Hwhole); [reflexivity | reflexivity | discriminate |].
    rewrite (Hwhole eq_refl). reflexivity.
  - destruct (add_to_cart_saves_a_new_cart_id devEnv "v1" 1 "c1" (worldWithCart "c1"))
      as (Hdirect & _).
    destruct (Hdirect serverError (answered (addedTo (Some "c1")))
                (addedTo (Some "c1")) eq_refl) as [_ Hsame].
    destruct Hsame as [_ Hwrites]; [left; reflexivity | exact Hwrites].
Defined.

(** A browser that reads the assignment as the cookie standard has it
    stores a carried id with a semicolon cut: the next add-to-cart then finds
    an id that differs from the carried one and assigns it again. *)
Example carried_cart_id_with_semicolon_is_stored_cut :
  let w1 := snd (ApiWebhook.addToCart prodEnv "v1" 1 (answered (addedTo (Some "a;b")))
                   emptyWorld) in
  let w2 := snd (ApiWebhook.addToCart prodEnv "v1" 1 (answered (addedTo (Some "a;b")))
                   w1) in
  cookies w1 !! "cart_id" = Some "a"
  /\ cookieWrites w2 = [SetCookie "cart_id" "a;b" 30; SetCookie "cart_id" "a;b" 30].
Proof. split; vm_compute; reflexivity. Qed.

(** C8 as stated fails for the cart read: a successful cart read whose
    response carries a cart id other than the stored one leaves the cookie as
    it was, in both revisions. *)
Lemma cart_read_does_not_save_carried_cart_id :
  (fst (ApiWebhook.getCartItems "c1"
          (answered (cartOf (Some "c2") (Some [cartLine "v1" 2]) None))
          (worldWithCart "c1"))
   = Return (cartOf (Some "c2") (Some [cartLine "v1" 2]) None)
   /\ cookies (snd (ApiWebhook.getCartItems "c1"
                      (answered (cartOf (Some "c2") (Some [cartLine "v1" 2]) None))
                      (worldWithCart "c1"))) !! "cart_id" = Some "c1")
  /\ (fst (ApiDirect.getCartItems devEnv "c1"
             (answered (cartOf (Some "c2") (Some [cartLine "v1" 2]) None))
             serverError (worldWithCart "c1"))
      = Return (cartOf (Some "c2") (Some [cartLine "v1" 2]) None)
      /\ cookies (snd (ApiDirect.getCartItems devEnv "c1"
                         (answered (cartOf (Some "c2") (Some [cartLine "v1" 2]) None))
                         serverError (worldWithCart "c1"))) !! "cart_id" = Some "c1").
Proof. repeat split; vm_compute; reflexivity. Qed.

(* ===================================================================== *)
(** * Falling back from the proxy to the direct endpoint *)
(* ===================================================================== *)

Lemma proxyThenDirect_fellBack (env : Env) {B R} (pr dr : Request)
    (proxy direct : FetchOutcome B) (failure : Z -> string -> string)
    (corsMessage : string) (onOk : B -> Js World R) (w : World) :
  DEV env = true ->
  channelFailed proxy = true ->
  (forall b, silent (onOk b)) ->
  neverThrows onOk ->
  fellBack w
    (ApiDirect.proxyThenDirect env pr dr proxy direct failure corsMessage onOk w)
    (url pr) (url dr) (parsed direct = None).
Proof.
  intros Hdev Hfailed Hsilent Hnever.
  rewrite proxyThenDirect_fallback by done. split.
  - exists pr, dr.
    rewrite tryCatch_rethrow_world, (attempt_requests env) by done.
    simpl. by rewrite <- app_assoc.
  - intros e He.
    pose proof (direct_attempt_cases env dr direct failure corsMessage onOk
                  (withRequest pr w) Hnever) as Hcases.
    destruct (parsed direct) as [b|]; [|done].
    rewrite Hcases in He.
    destruct (Hnever b (withRequest dr (withRequest pr w))) as [a Ha]. congruence.
Qed.

Lemma direct_fetchProducts_fallback (env : Env)
    (proxy direct : FetchOutcome ProductsResponse.t) (w : World) :
  DEV env = true ->
  channelFailed proxy = true ->
  ApiDirect.fetchProducts env proxy direct w =
  let pr := ApiDirect.proxyRequest env "GET" "/api/products" None in
  let dr := ApiDirect.directRequest env "GET"
              ("https://" +:+ ApiDirect.DOMAIN_NAME env +:+ "/storefront/api/v1/products")
              None in
  match direct with
  | Rejected m =>
      rethrow "CORS error: Unable to fetch products. Please ensure CORS is enabled on the API or use the proxy."
        (TypeError m) (withRequest dr (withRequest pr w))
  | Responded r =>
      if ok r then
        match json r with
        | Return data => (Return data, withRequest dr (withRequest pr w))
        | Throw e =>
            rethrow "CORS error: Unable to fetch products. Please ensure CORS is enabled on the API or use the proxy."
              e (withRequest dr (withRequest pr w))
        end
      else
        rethrow "CORS error: Unable to fetch products. Please ensure CORS is enabled on the API or use the proxy."
          (Error ("Failed to fetch products: " +:+ pretty (status r) +:+ " "
                  +:+ errorText r))
          (withRequest dr (withRequest pr w))
  end.
Proof.
  intros Hdev Hfailed.
  unfold ApiDirect.fetchProducts. rewrite Hdev.
  unfold bind at 1, tryCatch at 1, bind at 1, fetch at 1.
  destruct proxy as [rp|mp]; simpl in Hfailed.
  - apply negb_true_iff in Hfailed. rewrite Hfailed.
    unfold ret at 1. cbv zeta.
    unfold tryCatch, bind, fetch, throw, settle.
    destruct direct as [r|m]; [|done].
    destruct (ok r); simpl; [|done]. by destruct (json r).
  - unfold ret at 1. cbv zeta.
    unfold tryCatch, bind, fetch, throw, settle.
    destruct direct as [r|m]; [|done].
    destruct (ok r); simpl; [|done]. by destruct (json r).
Qed.

(** C6.  In the proxied run mode ([import.meta.env.DEV]), when the proxy
    channel fails at the network level or answers with a status outside
    200-299, every operation of the request client calls the direct endpoint
    next, and throws only if the direct channel gives no usable answer either
    (for [fetchProductDetail], the operation is taken past its cache check). *)
Theorem failed_proxy_falls_back_to_direct_channel (env : Env) (w : World) :
  DEV env = true ->
  (forall proxy direct,
     channelFailed proxy = true ->
     fellBack w (ApiDirect.fetchProducts env proxy direct w)
       "/api/products"
       ("https://" +:+ ApiDirect.DOMAIN_NAME env +:+ "/storefront/api/v1/products")
       (parsed direct = None)) /\
  (forall variantId proxy direct,
     channelFailed proxy = true ->
     productCache w !! variantId = None ->
     fellBack w (ApiDirect.fetchProductDetail env variantId proxy direct w)
       ("/api/products/" +:+ variantId)
       ("https://" +:+ ApiDirect.DOMAIN_NAME env +:+ "/storefront/api/v1/products/"
        +:+ variantId)
       (yields direct = None)) /\
  (forall productVariantId quantity proxy direct,
     channelFailed proxy = true ->
     fellBack w (ApiDirect.addToCart env productVariantId quantity proxy direct w)
       "/api/cart"
       ("https://" +:+ ApiDirect.DOMAIN_NAME env +:+ "/storefront/api/v1/cart")
       (parsed direct = None)) /\
  (forall cartId proxy direct,
     channelFailed proxy = true ->
     fellBack w (ApiDirect.getCartItems env cartId proxy direct w)
       ("/api/cart?cart_id=" +:+ cartId)
       ("https://" +:+ ApiDirect.DOMAIN_NAME env +:+ "/storefront/api/v1/cart?cart_id="
        +:+ cartId)
       (parsed direct = None)) /\
  (forall cartId proxy direct,
     channelFailed proxy = true ->
     fellBack w (ApiDirect.getCheckoutData env cartId proxy direct w)
       ("/api/checkout?checkout_id=" +:+ cartId)
       ("https://" +:+ ApiDirect.DOMAIN_NAME env
        +:+ "/storefront/api/v1/checkout?checkout_id=" +:+ cartId)
       (parsed direct = None)) /\
  (forall cartId addressData proxy direct,
     channelFailed proxy = true ->
     fellBack w (ApiDirect.submitCheckoutAddress env cartId addressData proxy direct w)
       ("/api/checkout/address?checkout_id=" +:+ cartId)
       ("https://" +:+ ApiDirect.DOMAIN_NAME env
        +:+ "/storefront/api/v1/checkout/address?checkout_id=" +:+ cartId)
       (parsed direct = None)) /\
  (forall cartId shippingMethodId proxy direct,
     channelFailed proxy = true ->
     fellBack w (ApiDirect.submitShippingMethod env cartId shippingMethodId proxy direct w)
       ("/api/checkout/shipping-methods?checkout_id=" +:+ cartId)
       ("https://" +:+ ApiDirect.DOMAIN_NAME env
        +:+ "/storefront/api/v1/checkout/shipping-methods?checkout_id=" +:+ cartId)
       (parsed direct = None)) /\
  (forall cartId paymentMode proxy direct,
     channelFailed proxy = true ->
     fellBack w (ApiDirect.processOfflinePayment env cartId paymentMode proxy direct w)
       ("/api" +:+ "/checkout/process-offline-payment?checkout_id=" +:+ cartId
        +:+ "&payment_mode=" +:+ paymentMode)
       ("https://" +:+ ApiDirect.DOMAIN_NAME env +:+ "/storefront/api/v1"
        +:+ "/checkout/process-offline-payment?checkout_id=" +:+ cartId
        +:+ "&payment_mode=" +:+ paymentMode)
       (parsed direct = None)).
Proof.
  intros Hdev.
  assert (Hret : forall B, (forall b : B, silent (ret b)) /\ neverThrows (@ret World B)).
  { intros B. split; [intros b; apply silent_ret | apply neverThrows_ret]. }
  split; [|split; [|split; [|split; [|split; [|split; [|split]]]]]].
  - intros proxy direct Hfailed.
    rewrite direct_fetchProducts_fallback by done. cbv zeta.
    split.
    + exists (ApiDirect.proxyRequest env "GET" "/api/products" None),
        (ApiDirect.directRequest env "GET"
           ("https://" +:+ ApiDirect.DOMAIN_NAME env +:+ "/storefront/api/v1/products")
           None).
      split; [|split; reflexivity].
      destruct direct as [r|m]; [|by rewrite rethrow_run; simpl; rewrite <- app_assoc].
      destruct (ok r); [|by rewrite rethrow_run; simpl; rewrite <- app_assoc].
      destruct (json r); [|rewrite rethrow_run]; simpl; by rewrite <- app_assoc.
    + intros e. destruct direct as [r|m]; simpl; [|done].
      destruct (ok r); [|done]. by destruct (json r).
  - intros variantId proxy direct Hfailed Hmiss.
    rewrite direct_fetchProductDetail_run, cacheCheck_miss by done.
    rewrite proxyThenDirect_fallback by done. split.
    + exists (ApiDirect.proxyRequest env "GET" ("/api/products/" +:+ variantId) None),
        (ApiDirect.directRequest env "GET"
           ("https://" +:+ ApiDirect.DOMAIN_NAME env +:+ "/storefront/api/v1/products/"
            +:+ variantId) None).
      split; [|split; reflexivity].
      rewrite tryCatch_rethrow_world, (attempt_requests env);
        [|apply silent_direct_cacheDetail].
      simpl. by rewrite <- app_assoc.
    + intros e He. unfold yields.
      destruct (parsed direct) as [b|] eqn:Hparsed; [|done].
      rewrite (probe_error_is_rethrown _ b _ _ (probeProduct b)) in He.
      * by rewrite He.
      * rewrite (attempt_parsed env _ _ _ _ _ b Hparsed).
        apply direct_cacheDetail_fst.
      * apply probeProduct_throws.
  - intros productVariantId quantity proxy direct Hfailed.
    rewrite direct_addToCart_run. cbv zeta.
    apply (proxyThenDirect_fellBack env
             (ApiDirect.proxyRequest env "POST" "/api/cart" _)
             (ApiDirect.directRequest env "POST" _ _)); try done.
    + intros b w0. rewrite direct_saveCartId_run. simpl.
      destruct (ApiDirect.carriedCartId b) as [c|]; [|done].
      by destruct (truthy c && strictNeqOpt c (cookies w !! "cart_id")).
    + intros b w0. exists b. by rewrite direct_saveCartId_run.
  - intros cartId proxy direct Hfailed.
    apply (proxyThenDirect_fellBack env (ApiDirect.proxyRequest env "GET" _ None)
             (ApiDirect.directRequest env "GET" _ None)); try done; apply Hret.
  - intros cartId proxy direct Hfailed.
    apply (proxyThenDirect_fellBack env (ApiDirect.proxyRequest env "GET" _ None)
             (ApiDirect.directRequest env "GET" _ None)); try done; apply Hret.
  - intros cartId addressData proxy direct Hfailed.
    apply (proxyThenDirect_fellBack env (ApiDirect.proxyRequest env "POST" _ _)
             (ApiDirect.directRequest env "POST" _ _)); try done; apply Hret.
  - intros cartId shippingMethodId proxy direct Hfailed.
    apply (proxyThenDirect_fellBack env (ApiDirect.proxyRequest env "POST" _ _)
             (ApiDirect.directRequest env "POST" _ _)); try done; apply Hret.
  - intros cartId paymentMode proxy direct Hfailed.
    apply (proxyThenDirect_fellBack env (ApiDirect.proxyRequest env "POST" _ None)
             (ApiDirect.directRequest env "POST" _ None)); try done; apply Hret.
Qed.

Lemma failed_proxy_falls_back_to_direct_channel_witness :
  fellBack emptyWorld
    (ApiDirect.getCartItems devEnv "c1" serverError (Rejected "Failed to fetch")
       emptyWorld)
    "/api/cart?cart_id=c1"
    "https://activepharm.zohoecommerce.com/storefront/api/v1/cart?cart_id=c1"
    (parsed (@Rejected CartItemResponse.t "Failed to fetch") = None)
  /\ fst (ApiDirect.getCartItems devEnv "c1" serverError (Rejected "Failed to fetch")
            emptyWorld)
     = Throw (Error "CORS error: Unable to get cart items. Please restart your dev server (npm run dev) to ensure the proxy is active.").
Proof.
  split.
  - destruct (failed_proxy_falls_back_to_direct_channel devEnv emptyWorld eq_refl)
      as (_ & _ & _ & Hcart & _).
    exact (Hcart "c1" serverError (Rejected "Failed to fetch") eq_refl).
  - reflexivity.
Defined.

(* ===================================================================== *)
(** * Filling the product cache from the product list *)
(* ===================================================================== *)

Lemma forEach_cons {S A} (x : A) (l : list A) (f : A -> Js S unit) (s : S) :
  forEach (x :: l) f s =
  match f x s with
  | (Return _, s') => forEach l f s'
  | (Throw e, s') => (Throw e, s')
  end.
Proof. reflexivity. Qed.

(** Caching the variants [vs] of [p]. *)
Lemma cacheVariants_fills (env : Env) (p : Product.t) (vs : list ProductVariant.t)
    (w : World) :
  let run :=
    forEach vs (fun variant =>
      if truthy (ProductVariant.variant_id variant)
      then productCache_set env (ProductVariant.variant_id variant) p
      else ret tt) w in
  fst run = Return tt
  /\ fills env (List.filter truthy (map ProductVariant.variant_id vs)) p w (snd run).
Proof.
  revert w. induction vs as [|v vs IH]; intros w; cbv zeta.
  - split; [done|]. split; [done|]. split; [by intros key []|done].
  - rewrite forEach_cons. simpl map. simpl List.filter.
    destruct (truthy (ProductVariant.variant_id v)) eqn:Htruthy.
    + rewrite productCache_set_run.
      set (w1 := withProductCache _ _).
      destruct (IH w1) as (Hret & Hle & Hin & Hout).
      split; [done|]. simpl in Hle. split; [simpl; lia|]. split.
      * intros key Hkey.
        destruct (in_dec String.string_dec key
                    (List.filter truthy (map ProductVariant.variant_id vs)))
          as [Hlater|Hnot].
        -- destruct (Hin key Hlater) as (i & Hi & Hlook).
           exists i. split; [simpl in Hi; lia | done].
        -- destruct Hkey as [<-|Hkey]; [|done].
           exists (clockReads w). split; [lia|].
           rewrite (Hout _ Hnot). subst w1. simpl. apply lookup_insert_eq.
      * intros key Hkey. apply not_in_cons in Hkey as [Hne Hnot].
        rewrite Hout by done.
        subst w1. simpl. apply lookup_insert_ne. congruence.
    + exact (IH w).
Qed.

(** Caching one product of the list. *)
Lemma cacheProduct_fills (env : Env) (p : Product.t) (w : World) :
  fst (ApiWebhook.cacheProduct env p w) = Return tt
  /\ fills env (cacheKeys p) p w (snd (ApiWebhook.cacheProduct env p w)).
Proof.
  unfold ApiWebhook.cacheProduct, bind. rewrite productCache_set_run.
  set (w1 := withProductCache _ _).
  destruct (cacheVariants_fills env p (Product.variants p) w1)
    as (Hret & Hle & Hin & Hout).
  fold (ApiWebhook.cacheVariants env p) in *.
  split; [done|]. simpl in Hle. split; [lia|]. unfold cacheKeys. split.
  - intros key Hkey.
    destruct (in_dec String.string_dec key
                (List.filter truthy
                   (map ProductVariant.variant_id (Product.variants p))))
      as [Hlater|Hnot].
    + destruct (Hin key Hlater) as (i & Hi & Hlook).
      exists i. split; [simpl in Hi; lia | done].
    + destruct Hkey as [<-|Hkey]; [|done].
      exists (clockReads w). split; [lia|].
      rewrite (Hout _ Hnot). subst w1. simpl. apply lookup_insert_eq.
  - intros key Hkey. apply not_in_cons in Hkey as [Hne Hnot].
    rewrite Hout by done.
    subst w1. simpl. apply lookup_insert_ne. congruence.
Qed.

(** Either a later product of the list has the key, or none has. *)
Lemma classic_in_later (ps : list Product.t) (key : string) (p : Product.t) :
  (exists q, In q ps /\ In key (cacheKeys q))
  \/ (forall q, In q ps -> ~ In key (cacheKeys q)).
Proof.
  induction ps as [|q ps IH]; [by right|].
  destruct (in_dec String.string_dec key (cacheKeys q)) as [Hq|Hq].
  - left. exists q. split; [by left | done].
  - destruct IH as [(q' & Hq' & Hkey)|Hnone].
    + left. exists q'. split; [by right | done].
    + right. intros q' [<-|Hq']; auto.
Qed.

(** Caching the whole list: a key that belongs to one product only ends
    with that product, stamped on the way. *)
Lemma cacheProducts_fills (env : Env) (ps : list Product.t) (w : World) :
  let run := forEach ps (ApiWebhook.cacheProduct env) w in
  fst run = Return tt
  /\ (clockReads w <= clockReads (snd run))%nat
  /\ (forall p key,
        In p ps -> In key (cacheKeys p) ->
        (forall q, In q ps -> In key (cacheKeys q) -> q = p) ->
        exists i, (clockReads w <= i < clockReads (snd run))%nat
                  /\ productCache (snd run) !! key
                     = Some {| product := p; timestamp := clock env i |})
  /\ (forall key, (forall q, In q ps -> ~ In key (cacheKeys q)) ->
                  productCache (snd run) !! key = productCache w !! key).
Proof.
  revert w. induction ps as [|p0 ps IH]; intros w; cbv zeta.
  - split; [done|]. split; [done|]. split; [by intros p key []|done].
  - rewrite forEach_cons.
    destruct (cacheProduct_fills env p0 w) as (Hret0 & Hle0 & Hin0 & Hout0).
    destruct (ApiWebhook.cacheProduct env p0 w) as [[[]|e] w1]; simpl in *; [|done].
    destruct (IH w1) as (Hret & Hle & Hin & Hout).
    split; [done|]. split; [lia|]. split.
    + intros p key Hp Hkey Honly.
      destruct (classic_in_later ps key p) as [Hlater|Hnone].
      * destruct Hp as [<-|Hp].
        -- destruct Hlater as (q & Hq & Hqkey).
           assert (q = p0) as -> by (apply Honly; auto).
           destruct (Hin p0 key Hq Hkey) as (i & Hi & Hlook);
             [intros q' Hq' Hk'; apply Honly; auto|].
           exists i. split; [lia | done].
        -- destruct (Hin p key Hp Hkey) as (i & Hi & Hlook);
             [intros q' Hq' Hk'; apply Honly; auto|].
           exists i. split; [lia | done].
      * destruct Hp as [<-|Hp]; [|by destruct (Hnone p Hp)].
        destruct (Hin0 key Hkey) as (i & Hi & Hlook).
        exists i. split; [lia|]. by rewrite (Hout key Hnone).
    + intros key Hnone. rewrite Hout by (intros q Hq; apply Hnone; auto).
      apply Hout0. apply Hnone. auto.
Qed.

Lemma webhook_cacheProducts_run (env : Env) (data : ProductsResponse.t) (w : World) :
  ApiWebhook.cacheProducts env data w =
  match productsOf data with
  | Some products =>
      (Return data,
       snd (forEach products (ApiWebhook.cacheProduct env)
              (withProductsListCache
                 (Some {| products := products;
                          listTimestamp := clock env (clockReads w) |})
                 (withClockRead w))))
  | None => (Return data, w)
  end.
Proof.
  unfold ApiWebhook.cacheProducts, productsOf.
  destruct (ProductsResponse.payload data) as [[[products|] currency]|]; try done.
  unfold bind at 1. unfold Date_now at 1. unfold bind at 1. unfold modify at 1.
  unfold bind at 1. cbn [ProductsResponse.products].
  set (w1 := withProductsListCache _ _).
  destruct (cacheProducts_fills env products w1) as (Hret & _).
  by destruct (forEach products (ApiWebhook.cacheProduct env) w1) as [[[]|e] w2].
Qed.

Lemma neverThrows_cacheProducts (env : Env) : neverThrows (ApiWebhook.cacheProducts env).
Proof.
  intros data w. exists data. rewrite webhook_cacheProducts_run.
  by destruct (productsOf data).
Qed.

(** C1, as the code has it.  In the webhook revision, after [fetchProducts]
    has returned a product list in which no cache key (a product id, or a
    truthy variant id) belongs to two different products, a
    [fetchProductDetail] for the id of a listed product or for the truthy id
    of one of its variants returns that product's record from the cache, with
    no call to [fetch], provided the cache entries are still the ones the list
    wrote and the lookup happens within five minutes of every clock reading
    taken while the list was cached. *)
Theorem product_list_fills_cache_under_every_key
    (env : Env) (outcome : FetchOutcome ProductsResponse.t) (w : World)
    (data : ProductsResponse.t) (products : list Product.t) :
  fst (ApiWebhook.fetchProducts env outcome w) = Return data ->
  productsOf data = Some products ->
  (forall p q key,
     In p products -> In q products ->
     In key (cacheKeys p) -> In key (cacheKeys q) -> p = q) ->
  let w' := snd (ApiWebhook.fetchProducts env outcome w) in
  forall (later : World) (p : Product.t) (key : string)
         (next : FetchOutcome DetailResponse.t),
    productCache later = productCache w' ->
    (forall i, (clockReads w <= i < clockReads w')%nat ->
               clock env (clockReads later) - clock env i < 5 * 60 * 1000) ->
    In p products ->
    In key (cacheKeys p) ->
    ApiWebhook.fetchProductDetail env key next later = (Return p, withClockRead later).
Proof.
  intros Hreturned Hproducts Hdistinct w' later p key next Hcache Hwindow Hp Hkey.
  subst w'. revert Hreturned Hcache Hwindow.
  unfold ApiWebhook.fetchProducts.
  set (req := ApiWebhook.webhookRequest "get-products" None).
  destruct (parsed outcome) as [b|] eqn:Hparsed.
  - rewrite (viaWebhook_parsed req outcome _ _ _ w b
               (neverThrows_cacheProducts env) Hparsed).
    rewrite webhook_cacheProducts_run.
    destruct (productsOf b) as [listed|] eqn:Hlisted; simpl;
      intros [= ->]; rewrite Hproducts in Hlisted; [|done].
    injection Hlisted as <-.
    set (w1 := withProductsListCache _ _).
    destruct (cacheProducts_fills env products w1) as (_ & Hle & Hin & _).
    destruct (Hin p key Hp Hkey) as (i & Hi & Hlook).
    { intros q Hq Hqkey. by apply (Hdistinct q p key). }
    intros Hcache Hwindow.
    rewrite webhook_fetchProductDetail_run, cacheCheck_run, Hcache, Hlook.
    assert (Hfresh : fresh (clock env (clockReads later))
                       {| product := p; timestamp := clock env i |} = true).
    { apply fresh_iff. simpl. apply Hwindow. subst w1. simpl in Hi. lia. }
    by rewrite Hfresh.
  - destruct (viaWebhook_unparsed req outcome
                (ApiWebhook.failed "Failed to fetch products")
                (ApiWebhook.enableCorsHint "fetch products")
                (ApiWebhook.cacheProducts env) w Hparsed) as [e ->].
    done.
Qed.

Lemma product_list_fills_cache_under_every_key_witness :
  fst (ApiWebhook.fetchProductDetail devEnv "v2" serverError
         (snd (ApiWebhook.fetchProducts devEnv
                 (answered (productList [tablets; syrup])) emptyWorld)))
  = Return tablets
  /\ requests (snd (ApiWebhook.fetchProductDetail devEnv "p2" serverError
                      (snd (ApiWebhook.fetchProducts devEnv
                              (answered (productList [tablets; syrup])) emptyWorld))))
     = [ApiWebhook.webhookRequest "get-products" None].
Proof.
  assert (Hdistinct : forall p q key,
            In p [tablets; syrup] -> In q [tablets; syrup] ->
            In key (cacheKeys p) -> In key (cacheKeys q) -> p = q).
  { intros p q key [<-|[<-|[]]] [<-|[<-|[]]]; try reflexivity; simpl; intros Hp Hq;
      exfalso;
      repeat match goal with
             | H : _ \/ _ |- _ => destruct H
             | H : False |- _ => destruct H
             end; subst; discriminate. }
  assert (Hwindow : forall i,
            (clockReads emptyWorld <= i
             < clockReads (snd (ApiWebhook.fetchProducts devEnv
                                  (answered (productList [tablets; syrup]))
                                  emptyWorld)))%nat ->
            clock devEnv
              (clockReads (snd (ApiWebhook.fetchProducts devEnv
                                  (answered (productList [tablets; syrup]))
                                  emptyWorld)))
            - clock devEnv i < 5 * 60 * 1000).
  { intros i [_ Hi]. vm_compute in Hi. simpl. unfold sampleClock.
    change (clockReads _) with 6%nat.
    apply Nat.leb_le in Hi. apply Nat.leb_le in Hi. lia. }
  split.
  - rewrite (product_list_fills_cache_under_every_key devEnv
               (answered (productList [tablets; syrup])) emptyWorld
               (productList [tablets; syrup]) [tablets; syrup]
               eq_refl eq_refl Hdistinct _ tablets "v2" serverError eq_refl Hwindow);
      [reflexivity | simpl; auto | simpl; auto].
  - rewrite (product_list_fills_cache_under_every_key devEnv
               (answered (productList [tablets; syrup])) emptyWorld
               (productList [tablets; syrup]) [tablets; syrup]
               eq_refl eq_refl Hdistinct _ syrup "p2" serverError eq_refl Hwindow);
      [reflexivity | simpl; auto | simpl; auto].
Defined.

(** C1 as stated fails.  In the webhook revision, when the id of a listed
    product is also the id of a variant of an earlier product, the lookup by
    that variant id returns the later product, not the record the lookup by
    the earlier product's id returns.  In the proxy/direct revision
    [fetchProducts] caches nothing, and the lookup goes to the network. *)
Lemma product_list_lookup_can_differ_or_fetch :
  (In "v1" (map ProductVariant.variant_id (Product.variants tablets))
   /\ fst (ApiWebhook.fetchProductDetail prodEnv "p1" serverError
             (snd (ApiWebhook.fetchProducts prodEnv
                     (answered (productList [tablets; clashing])) emptyWorld)))
      = Return tablets
   /\ fst (ApiWebhook.fetchProductDetail prodEnv "v1" serverError
             (snd (ApiWebhook.fetchProducts prodEnv
                     (answered (productList [tablets; clashing])) emptyWorld)))
      = Return clashing
   /\ clashing <> tablets)
  /\ (fst (ApiDirect.fetchProducts prodEnv serverError
             (answered (productList [tablets])) emptyWorld)
      = Return (productList [tablets])
      /\ fst (ApiDirect.fetchProductDetail prodEnv "p1" serverError serverError
                (snd (ApiDirect.fetchProducts prodEnv serverError
                        (answered (productList [tablets])) emptyWorld)))
         = Throw (Error "API returned 500: upstream failed")
      /\ length (requests
                   (snd (ApiDirect.fetchProductDetail prodEnv "p1" serverError
                           serverError
                           (snd (ApiDirect.fetchProducts prodEnv serverError
                                   (answered (productList [tablets]))
                                   emptyWorld)))))
         = 2%nat).
Proof.
  split; [split; [|split; [|split]] | split; [|split]];
    try (vm_compute; reflexivity).
  - simpl. auto.
  - discriminate.
Qed.

(* ===================================================================== *)
(** * The checkout pages *)
(* ===================================================================== *)

Lemma defaultMethod_flagged (methods : list ShippingMethod.t) (m : ShippingMethod.t) :
  List.find ShippingMethod.is_default methods = Some m ->
  defaultMethod methods = Some m.
Proof. unfold defaultMethod. by intros ->. Qed.

Lemma defaultMethod_first (methods : list ShippingMethod.t) :
  List.find ShippingMethod.is_default methods = None ->
  defaultMethod methods = head methods.
Proof. unfold defaultMethod. by intros ->. Qed.

(** What the address handler of the three-step page does with a successful
    response that lists shipping methods. *)
Lemma handleSubmit_accepted (p : Page Checkout.State) (cartId : string)
    (response : CheckoutAddressResponse.t) (m : ShippingMethod.t)
    (rest : list ShippingMethod.t) :
  hasCart p cartId ->
  succeeded (CheckoutAddressResponse.status_code response)
            (CheckoutAddressResponse.status_message response) = true ->
  shippingMethodsOf response = Some (m :: rest) ->
  state (snd (Checkout.handleSubmit (state p) (Return response) p))
  = Checkout.withLoading false
      (Checkout.withCurrentStep Checkout.ShippingStep
         (match defaultMethod (m :: rest) with
          | Some d => Checkout.withSelectedShippingMethod (ShippingMethod.id d)
          | None => fun s => s
          end
            (Checkout.withShippingMethods (m :: rest)
               (Checkout.withError None (Checkout.withLoading true (state p)))))).
Proof.
  intros [Hcookie Htruthy] Hok Hmethods.
  unfold Checkout.handleSubmit, bind at 1, onWorld, Cookies.getCartId,
    Cookies.getCookie, gets.
  rewrite Hcookie. unfold truthyOpt. rewrite Htruthy. simpl negb. cbv iota.
  unfold tryFinally, tryCatch, bind, awaitApi, Checkout.setLoading, Checkout.setError,
    modify. simpl.
  rewrite Hok, Hmethods. simpl.
  unfold Checkout.setShippingMethods, modify. simpl.
  by destruct (defaultMethod (m :: rest)).
Qed.

(** The same for the address handler of the single-page revision. *)
Lemma handleAddressSubmit_accepted (q : Page CheckoutSinglePage.State) (cartId : string)
    (response : CheckoutAddressResponse.t) (m : ShippingMethod.t)
    (rest : list ShippingMethod.t)
    (shippingSubmitted placed : Completion StatusResponse.t) :
  hasCart q cartId ->
  succeeded (CheckoutAddressResponse.status_code response)
            (CheckoutAddressResponse.status_message response) = true ->
  shippingMethodsOf response = Some (m :: rest) ->
  state (snd (CheckoutSinglePage.handleAddressSubmit (state q) (Return response)
                shippingSubmitted placed q))
  = CheckoutSinglePage.withLoading false
      (CheckoutSinglePage.withAddressSubmitted true
         (match defaultMethod (m :: rest) with
          | Some d => CheckoutSinglePage.withSelectedShippingMethod (ShippingMethod.id d)
          | None => fun s => s
          end
            (CheckoutSinglePage.withShippingMethods (m :: rest)
               (CheckoutSinglePage.withError None
                  (CheckoutSinglePage.withLoading true (state q)))))).
Proof.
  intros [Hcookie Htruthy] Hok Hmethods.
  unfold CheckoutSinglePage.handleAddressSubmit, bind at 1, onWorld, Cookies.getCartId,
    Cookies.getCookie, gets.
  rewrite Hcookie. unfold truthyOpt. rewrite Htruthy. simpl negb. cbv iota.
  unfold tryFinally, tryCatch, bind, awaitApi, CheckoutSinglePage.setLoading,
    CheckoutSinglePage.setError, modify. simpl.
  rewrite Hok, Hmethods. simpl.
  unfold CheckoutSinglePage.setShippingMethods, modify. simpl.
  by destruct (defaultMethod (m :: rest)).
Qed.

(** C4.  When the address submission succeeds with a non-empty list of
    shipping methods, the three-step page moves from its address step to its
    shipping step (the single-page revision marks the address as submitted,
    which opens its shipping section), keeps the list, and pre-selects the
    first method flagged [is_default], or the first method of the list when
    none is flagged. *)
Theorem accepted_address_advances_to_shipping_with_default_selected
    (p : Page Checkout.State) (q : Page CheckoutSinglePage.State) (cartId : string)
    (response : CheckoutAddressResponse.t) (methods : list ShippingMethod.t) :
  hasCart p cartId ->
  hasCart q cartId ->
  Checkout.currentStep (state p) = Checkout.AddressStep ->
  Checkout.loading (state p) = false ->
  CheckoutSinglePage.addressSubmitted (state q) = false ->
  succeeded (CheckoutAddressResponse.status_code response)
            (CheckoutAddressResponse.status_message response) = true ->
  shippingMethodsOf response = Some methods ->
  methods <> [] ->
  (let p' := Checkout.react (Checkout.SubmitAddress (Return response)) p in
   Checkout.currentStep (state p') = Checkout.ShippingStep
   /\ Checkout.shippingMethods (state p') = methods
   /\ (forall m, List.find ShippingMethod.is_default methods = Some m ->
                 Checkout.selectedShippingMethod (state p') = ShippingMethod.id m)
   /\ (List.find ShippingMethod.is_default methods = None ->
       forall m, head methods = Some m ->
                 Checkout.selectedShippingMethod (state p') = ShippingMethod.id m))
  /\ (forall shippingSubmitted placed,
        let q' := snd (CheckoutSinglePage.onSubmit (state q) (Return response)
                         shippingSubmitted placed q) in
        CheckoutSinglePage.addressSubmitted (state q') = true
        /\ CheckoutSinglePage.shippingMethods (state q') = methods
        /\ (forall m, List.find ShippingMethod.is_default methods = Some m ->
                      CheckoutSinglePage.selectedShippingMethod (state q')
                      = ShippingMethod.id m)
        /\ (List.find ShippingMethod.is_default methods = None ->
            forall m, head methods = Some m ->
                      CheckoutSinglePage.selectedShippingMethod (state q')
                      = ShippingMethod.id m)).
Proof.
  intros Hp Hq Hstep Hloading Hfirst Hok Hmethods Hnonempty.
  destruct methods as [|m0 rest]; [done|].
  split.
  - unfold Checkout.react, Checkout.canSubmit. rewrite Hstep, Hloading. simpl negb.
    cbv iota zeta.
    rewrite (handleSubmit_accepted p cartId response m0 rest Hp Hok Hmethods).
    repeat split.
    + by destruct (defaultMethod (m0 :: rest)).
    + intros m Hflagged. by rewrite (defaultMethod_flagged _ _ Hflagged).
    + intros Hnone m Hhead. rewrite (defaultMethod_first _ Hnone), Hhead. done.
  - intros shippingSubmitted placed. unfold CheckoutSinglePage.onSubmit. rewrite Hfirst.
    cbv zeta.
    rewrite (handleAddressSubmit_accepted q cartId response m0 rest shippingSubmitted
               placed Hq Hok Hmethods).
    repeat split.
    + by destruct (defaultMethod (m0 :: rest)).
    + intros m Hflagged. by rewrite (defaultMethod_flagged _ _ Hflagged).
    + intros Hnone m Hhead. rewrite (defaultMethod_first _ Hnone), Hhead. done.
Qed.

Lemma accepted_address_advances_to_shipping_with_default_selected_witness :
  (let p' := Checkout.react
               (Checkout.SubmitAddress (Return (addressAccepted [standard; express])))
               (checkoutPage "c1") in
   Checkout.currentStep (state p') = Checkout.ShippingStep
   /\ Checkout.selectedShippingMethod (state p') = "exp")
  /\ CheckoutSinglePage.selectedShippingMethod
       (state (snd (CheckoutSinglePage.onSubmit (state (singlePage "c1"))
                      (Return (addressAccepted [standard]))
                      (Throw NotAnError) (Throw NotAnError) (singlePage "c1"))))
     = "std".
Proof.
  split.
  - destruct (accepted_address_advances_to_shipping_with_default_selected
                (checkoutPage "c1") (singlePage "c1") "c1"
                (addressAccepted [standard; express]) [standard; express])
      as [(Hstep & _ & Hflagged & _) _];
      [by split | by split | reflexivity | reflexivity | reflexivity | reflexivity
       | reflexivity | discriminate |].
    split; [exact Hstep | exact (Hflagged express eq_refl)].
  - destruct (accepted_address_advances_to_shipping_with_default_selected
                (checkoutPage "c1") (singlePage "c1") "c1"
                (addressAccepted [standard]) [standard])
      as [_ Hsingle];
      [by split | by split | reflexivity | reflexivity | reflexivity | reflexivity
       | reflexivity | discriminate |].
    destruct (Hsingle (Throw NotAnError) (Throw NotAnError)) as (_ & _ & _ & Hfirst).
    exact (Hfirst eq_refl standard eq_refl).
Defined.

Ltac run_handler Hcart :=
  destruct Hcart as [?Hcookie ?Htruthy];
  unfold bind at 1, onWorld, Cookies.getCartId, Cookies.getCookie, gets;
  rewrite Hcookie; unfold truthyOpt; rewrite Htruthy; simpl negb; cbv iota;
  unfold tryFinally, tryCatch, bind, awaitApi, throw, modify; simpl.

(** What each handler of the three-step page leaves behind when its
    submission fails. *)
Lemma handleSubmit_failed (p : Page Checkout.State) (cartId : string)
    (submitted : Completion CheckoutAddressResponse.t) :
  hasCart p cartId ->
  addressSubmissionFailed submitted ->
  snd (Checkout.handleSubmit (state p) submitted p) =
  {| state :=
       Checkout.withLoading false
         (Checkout.withError
            (Some (failureMessage CheckoutAddressResponse.status_message
                     "Failed to process checkout" "Failed to submit address" submitted))
            (Checkout.withError None (Checkout.withLoading true (state p))));
     world := world p;
     calls := calls p ++
       [SubmitCheckoutAddress cartId
          (AddressForm.withSameBillingAddress (Checkout.sameBillingAddress (state p))
             (Checkout.shippingAddress (state p)))
          (AddressForm.withSameBillingAddress (Checkout.sameBillingAddress (state p))
             (Checkout.billingAddress (state p)))];
     alerts := alerts p;
     navigations := navigations p |}.
Proof.
  intros Hcart Hfailed.
  unfold Checkout.handleSubmit, Checkout.setLoading, Checkout.setError.
  run_handler Hcart.
  destruct submitted as [response|err]; simpl in *; [|done].
  by rewrite Hfailed.
Qed.

Lemma handleShippingMethodSubmit_failed (p : Page Checkout.State) (cartId : string)
    (submitted : Completion StatusResponse.t) (fetched : Completion CheckoutResponse.t) :
  hasCart p cartId ->
  truthy (Checkout.selectedShippingMethod (state p)) = true ->
  submissionFailed submitted ->
  snd (Checkout.handleShippingMethodSubmit (state p) submitted fetched p) =
  {| state :=
       Checkout.withLoading false
         (Checkout.withError
            (Some (failureMessage StatusResponse.status_message
                     "Failed to process shipping method"
                     "Failed to submit shipping method" submitted))
            (Checkout.withError None (Checkout.withLoading true (state p))));
     world := world p;
     calls := calls p ++
       [SubmitShippingMethod cartId (Checkout.selectedShippingMethod (state p))];
     alerts := alerts p;
     navigations := navigations p |}.
Proof.
  intros Hcart Hselected Hfailed.
  unfold Checkout.handleShippingMethodSubmit, Checkout.setLoading, Checkout.setError.
  run_handler Hcart. rewrite Hselected. simpl.
  destruct submitted as [response|err]; simpl in *; [|done].
  by rewrite Hfailed.
Qed.

Lemma handleConfirmOrder_failed (p : Page Checkout.State) (cartId : string)
    (placed : Completion StatusResponse.t) :
  hasCart p cartId ->
  submissionFailed placed ->
  snd (Checkout.handleConfirmOrder placed p) =
  {| state :=
       Checkout.withLoading false
         (Checkout.withError
            (Some (failureMessage StatusResponse.status_message
                     "Failed to place order" "Failed to place order" placed))
            (Checkout.withError None (Checkout.withLoading true (state p))));
     world := world p;
     calls := calls p ++ [ProcessOfflinePayment cartId "cash_on_delivery"];
     alerts := alerts p;
     navigations := navigations p |}.
Proof.
  intros Hcart Hfailed.
  unfold Checkout.handleConfirmOrder, Checkout.setLoading, Checkout.setError.
  run_handler Hcart.
  destruct placed as [response|err]; simpl in *; [|done].
  by rewrite Hfailed.
Qed.

(** C5.  On each step of the three-step checkout, when the step's submission
    fails (its promise rejects, or the response reports no success), the page
    stays on the step, shows the message of the error or of the upstream
    response (or a fixed fallback), leaves the step's form open for another
    submission, and has called the request client exactly once.  The message
    shown is never empty when a thrown [Error] carries a message, as those of
    the request client do. *)
Theorem failed_submission_stays_on_step_with_error
    (p : Page Checkout.State) (cartId : string) :
  hasCart p cartId ->
  Checkout.canSubmit (state p) = true ->
  (Checkout.currentStep (state p) = Checkout.AddressStep ->
   forall submitted,
     addressSubmissionFailed submitted ->
     stayedWithError p (Checkout.react (Checkout.SubmitAddress submitted) p)
       (failureMessage CheckoutAddressResponse.status_message
          "Failed to process checkout" "Failed to submit address" submitted)
       (SubmitCheckoutAddress cartId
          (AddressForm.withSameBillingAddress (Checkout.sameBillingAddress (state p))
             (Checkout.shippingAddress (state p)))
          (AddressForm.withSameBillingAddress (Checkout.sameBillingAddress (state p))
             (Checkout.billingAddress (state p))))) /\
  (Checkout.currentStep (state p) = Checkout.ShippingStep ->
   forall submitted fetched,
     submissionFailed submitted ->
     stayedWithError p (Checkout.react (Checkout.SubmitShipping submitted fetched) p)
       (failureMessage StatusResponse.status_message
          "Failed to process shipping method" "Failed to submit shipping method"
          submitted)
       (SubmitShippingMethod cartId (Checkout.selectedShippingMethod (state p)))) /\
  (Checkout.currentStep (state p) = Checkout.ConfirmationStep ->
   forall placed,
     submissionFailed placed ->
     stayedWithError p (Checkout.react (Checkout.ConfirmOrder placed) p)
       (failureMessage StatusResponse.status_message
          "Failed to place order" "Failed to place order" placed)
       (ProcessOfflinePayment cartId "cash_on_delivery")) /\
  (forall R (status_message : R -> option string) (thrownFallback statusFallback : string)
          (c : Completion R),
     truthy thrownFallback = true ->
     truthy statusFallback = true ->
     rejectionHasMessage c ->
     truthy (failureMessage status_message thrownFallback statusFallback c) = true).
Proof.
  intros Hcart Hcan. split; [|split; [|split]].
  - intros Hstep submitted Hfailed.
    unfold Checkout.react. rewrite Hstep, Hcan.
    rewrite (handleSubmit_failed p cartId submitted Hcart Hfailed).
    unfold stayedWithError, Checkout.canSubmit, banner. simpl. rewrite Hstep.
    repeat split. by intros ->.
  - intros Hstep submitted fetched Hfailed.
    unfold Checkout.react. rewrite Hstep, Hcan.
    unfold Checkout.canSubmit in Hcan. rewrite Hstep in Hcan.
    apply negb_true_iff, orb_false_iff in Hcan as [Hloading Hselected].
    apply negb_false_iff in Hselected.
    rewrite (handleShippingMethodSubmit_failed p cartId submitted fetched Hcart
               Hselected Hfailed).
    unfold stayedWithError, Checkout.canSubmit, banner. simpl. rewrite Hstep, Hselected.
    repeat split. by intros ->.
  - intros Hstep placed Hfailed.
    unfold Checkout.react. rewrite Hstep, Hcan.
    unfold Checkout.canSubmit in Hcan. rewrite Hstep in Hcan.
    apply andb_true_iff in Hcan as [Hconfirming Hloading].
    rewrite (handleConfirmOrder_failed p cartId placed Hcart Hfailed).
    unfold stayedWithError, Checkout.canSubmit, banner. simpl.
    rewrite Hstep, Hconfirming.
    repeat split. by intros ->.
  - intros R status_message thrownFallback statusFallback c Hthrown Hstatus Hmessage.
    destruct c as [r|err]; simpl in *.
    + unfold orDefault. destruct (status_message r) as [text|]; [|done].
      by destruct (truthy text) eqn:Htext.
    + unfold messageOr. destruct (instanceofError err); auto.
Qed.

Lemma failed_submission_stays_on_step_with_error_witness :
  stayedWithError (checkoutPage "c1")
    (Checkout.react
       (Checkout.SubmitAddress
          (Throw (Error "Failed to submit checkout address: 500 upstream failed")))
       (checkoutPage "c1"))
    "Failed to submit checkout address: 500 upstream failed"
    (SubmitCheckoutAddress "c1" AddressForm.empty AddressForm.empty)
  /\ stayedWithError (shippingPage "c1")
       (Checkout.react
          (Checkout.SubmitShipping (Return (refused "Method unavailable"))
             (Throw NotAnError))
          (shippingPage "c1"))
       "Method unavailable"
       (SubmitShippingMethod "c1" "exp")
  /\ stayedWithError (confirmationPage "c1")
       (Checkout.react (Checkout.ConfirmOrder (Throw NotAnError)) (confirmationPage "c1"))
       "Failed to place order"
       (ProcessOfflinePayment "c1" "cash_on_delivery").
Proof.
  split; [|split].
  - destruct (failed_submission_stays_on_step_with_error (checkoutPage "c1") "c1")
      as (Haddress & _); [by split | reflexivity |].
    exact (Haddress eq_refl
             (Throw (Error "Failed to submit checkout address: 500 upstream failed")) I).
  - destruct (failed_submission_stays_on_step_with_error (shippingPage "c1") "c1")
      as (_ & Hshipping & _); [by split | reflexivity |].
    exact (Hshipping eq_refl (Return (refused "Method unavailable")) (Throw NotAnError)
             eq_refl).
  - destruct (failed_submission_stays_on_step_with_error (confirmationPage "c1") "c1")
      as (_ & _ & Hconfirm & _); [by split | reflexivity |].
    exact (Hconfirm eq_refl (Throw NotAnError) I).
Defined.

(* ===================================================================== *)
(** * The shared promise map of the cart page *)
(* ===================================================================== *)

(** The first call for a cart id opens a slot: it calls [getCartItems],
    stores the promise and suspends on it. *)
Lemma loadCartItems_opens (s : CartPage.State) (cartId : string) :
  CartPage.storedCartId s = Some cartId ->
  truthy cartId = true ->
  CartPage.cartPromises s !! cartId = None ->
  CartPage.settled s !! length (CartPage.invoked s) = None ->
  CartPage.loadCartItems true s =
  CartPage.withWaiters
    (CartPage.waiters s ++
     [{| CartPage.caller := CartPage.loads s;
         CartPage.awaited := length (CartPage.invoked s);
         CartPage.cartIdOf := cartId; CartPage.shared := true |}])
    (CartPage.withCartPromises (insert cartId (length (CartPage.invoked s)))
       (CartPage.withInvoked (CartPage.invoked s ++ [cartId])
          (CartPage.setError None
             (CartPage.setLoading true
                (CartPage.withLoads (S (CartPage.loads s)) s))))).
Proof.
  intros Hstored Htruthy Hslot Hpending.
  unfold CartPage.loadCartItems.
  change (CartPage.storedCartId (CartPage.withLoads (S (CartPage.loads s)) s))
    with (CartPage.storedCartId s).
  rewrite Hstored, Htruthy. simpl. rewrite Hslot.
  unfold CartPage.await. simpl. by rewrite Hpending.
Qed.

(** A call that finds the slot taken, its promise pending, calls nothing
    and suspends on the same promise. *)
Lemma loadCartItems_joins (s : CartPage.State) (cartId : string) (promise : nat) :
  CartPage.storedCartId s = Some cartId ->
  truthy cartId = true ->
  CartPage.cartPromises s !! cartId = Some promise ->
  CartPage.settled s !! promise = None ->
  CartPage.loadCartItems true s =
  CartPage.withWaiters
    (CartPage.waiters s ++
     [{| CartPage.caller := CartPage.loads s; CartPage.awaited := promise;
         CartPage.cartIdOf := cartId; CartPage.shared := true |}])
    (CartPage.setError None
       (CartPage.setLoading true (CartPage.withLoads (S (CartPage.loads s)) s))).
Proof.
  intros Hstored Htruthy Hslot Hpending.
  unfold CartPage.loadCartItems.
  change (CartPage.storedCartId (CartPage.withLoads (S (CartPage.loads s)) s))
    with (CartPage.storedCartId s).
  rewrite Hstored, Htruthy. simpl. rewrite Hslot.
  unfold CartPage.await. simpl. by rewrite Hpending.
Qed.

(** Firing timers only deletes slots. *)
Lemma timers_fire (due : list (Z * string)) (s : CartPage.State) :
  let s' := fold_left (fun s t => CartPage.withCartPromises (delete (snd t)) s) due s in
  CartPage.world s' = CartPage.world s
  /\ CartPage.invoked s' = CartPage.invoked s
  /\ CartPage.settled s' = CartPage.settled s
  /\ CartPage.waiters s' = CartPage.waiters s
  /\ CartPage.timers s' = CartPage.timers s
  /\ CartPage.now s' = CartPage.now s
  /\ CartPage.loads s' = CartPage.loads s
  /\ CartPage.delivered s' = CartPage.delivered s
  /\ (forall key, In key (map snd due) -> CartPage.cartPromises s' !! key = None)
  /\ (forall key, ~ In key (map snd due) ->
                  CartPage.cartPromises s' !! key = CartPage.cartPromises s !! key)
  /\ (forall key, CartPage.cartPromises s !! key = None ->
                  CartPage.cartPromises s' !! key = None).
Proof.
  revert s. induction due as [|[t k] due IH]; intros s; cbv zeta.
  - repeat split; done.
  - simpl fold_left.
    destruct (IH (CartPage.withCartPromises (delete k) s))
      as (Hw & Hi & Hs & Hwt & Ht & Hn & Hl & Hd & Hin & Hout & Hnone).
    repeat split; try done.
    + intros key [<-|Hkey]; [|by apply Hin].
      apply Hnone. simpl. apply lookup_delete_eq.
    + intros key Hkey. simpl in Hkey. apply not_in_cons in Hkey as [Hne Hkey].
      rewrite (Hout key Hkey). simpl. apply lookup_delete_ne. congruence.
    + intros key Hkey. apply Hnone. simpl.
      destruct (decide (k = key)) as [->|Hne];
        [apply lookup_delete_eq | by rewrite lookup_delete_ne].
Qed.

(** Time passing changes the clock, the pending timers and the slots whose
    timers are due, and nothing else. *)
Lemma elapse_frame (ms : Z) (s : CartPage.State) :
  let s' := CartPage.elapse ms s in
  CartPage.world s' = CartPage.world s
  /\ CartPage.invoked s' = CartPage.invoked s
  /\ CartPage.settled s' = CartPage.settled s
  /\ CartPage.waiters s' = CartPage.waiters s
  /\ CartPage.now s' = CartPage.now s + ms
  /\ CartPage.loads s' = CartPage.loads s
  /\ CartPage.delivered s' = CartPage.delivered s
  /\ (forall t, In t (CartPage.timers s') -> In t (CartPage.timers s))
  /\ (forall key, Forall (fun t => snd t <> key) (CartPage.timers s) ->
                  CartPage.cartPromises s' !! key = CartPage.cartPromises s !! key)
  /\ (forall key due, In (due, key) (CartPage.timers s) -> due <= CartPage.now s + ms ->
                      CartPage.cartPromises s' !! key = None)
  /\ (forall key, CartPage.cartPromises s !! key = None ->
                  CartPage.cartPromises s' !! key = None).
Proof.
  unfold CartPage.elapse. cbv zeta.
  set (s1 := CartPage.withTimers _ _).
  set (due := List.filter _ _).
  destruct (timers_fire due s1)
    as (Hw & Hi & Hs & Hwt & Ht & Hn & Hl & Hd & Hin & Hout & Hnone).
  repeat split; try done.
  - intros t. rewrite Ht. subst s1. simpl. intros Hmem.
    by apply filter_In in Hmem as [Hmem _].
  - intros key Hnotimer. rewrite Hout; [done|].
    intros Hkey. apply in_map_iff in Hkey as ([t k] & Hk & Hmem). simpl in Hk. subst k.
    subst due. apply filter_In in Hmem as [Hmem _]. simpl in Hmem.
    rewrite Forall_forall in Hnotimer.
    apply (Hnotimer (t, key)); [by apply list_elem_of_In | done].
  - intros key t Hmem Hdue. apply Hin.
    apply in_map_iff. exists (t, key). split; [done|].
    subst due. apply filter_In. split; [done|]. simpl. by apply Z.leb_le.
Qed.

Lemma joined_snoc (cartId : string) (promise first n : nat) :
  joined cartId promise first (S n)
  = joined cartId promise first n
    ++ [{| CartPage.caller := first + n; CartPage.awaited := promise;
           CartPage.cartIdOf := cartId; CartPage.shared := true |}].
Proof. unfold joined. by rewrite seq_S, map_app. Qed.

Lemma filter_joined (promise : nat) (old : list CartPage.Waiter) (cartId : string)
    (first n : nat) :
  Forall (fun wt => CartPage.awaited wt <> promise) old ->
  List.filter (fun wt => Nat.eqb (CartPage.awaited wt) promise)
    (old ++ joined cartId promise first n)
  = joined cartId promise first n
  /\ List.filter (fun wt => negb (Nat.eqb (CartPage.awaited wt) promise))
       (old ++ joined cartId promise first n)
     = old.
Proof.
  intros Hold. rewrite !List.filter_app.
  assert (Hin : List.filter (fun wt => Nat.eqb (CartPage.awaited wt) promise)
                  (joined cartId promise first n)
                = joined cartId promise first n
                /\ List.filter (fun wt => negb (Nat.eqb (CartPage.awaited wt) promise))
                     (joined cartId promise first n)
                   = []).
  { unfold joined. induction (seq 0 n) as [|i l [IH1 IH2]]; [done|].
    simpl. rewrite Nat.eqb_refl. simpl. by rewrite IH1, IH2. }
  destruct Hin as [-> ->]. rewrite app_nil_r.
  induction Hold as [|wt old Hwt Hold [IH1 IH2]]; [done|].
  simpl. apply Nat.eqb_neq in Hwt. rewrite Hwt. simpl.
  split; [exact IH1 | by rewrite IH2].
Qed.

(** The calls suspended on one promise resume with its result, in the order
    in which they suspended: on success each sets a timer of 100 ms, on
    failure each deletes the slot at once. *)
Lemma resume_joined (cartId : string) (promise first n : nat)
    (c : Completion CartItemResponse.t) (s : CartPage.State) :
  truthy cartId = true ->
  let s' := fold_left (fun s wt => CartPage.resume wt c s)
              (joined cartId promise first n) s in
  CartPage.world s' = CartPage.world s
  /\ CartPage.invoked s' = CartPage.invoked s
  /\ CartPage.now s' = CartPage.now s
  /\ CartPage.delivered s'
     = CartPage.delivered s
       ++ map (fun wt => (CartPage.caller wt, c)) (joined cartId promise first n)
  /\ (n <> 0%nat ->
      match c with
      | Return _ => In (CartPage.now s + 100, cartId) (CartPage.timers s')
      | Throw _ => CartPage.cartPromises s' !! cartId = None
      end).
Proof.
  intros Htruthy. induction n as [|n IH]; cbv zeta.
  - simpl. rewrite app_nil_r. by repeat split.
  - rewrite joined_snoc, fold_left_app, map_app. cbv zeta in IH.
    set (sn := fold_left _ (joined cartId promise first n) s) in *.
    destruct IH as (Hw & Hi & Hn & Hd & _).
    simpl fold_left. unfold CartPage.resume. simpl.
    destruct c as [response|err]; simpl; rewrite ?Htruthy; simpl.
    + repeat split; try done; [by rewrite Hd, <- app_assoc|].
      intros _. rewrite Hn. apply in_or_app. right. by left.
    + repeat split; try done; [by rewrite Hd, <- app_assoc|].
      intros _. apply lookup_delete_eq.
Qed.

(** The network answers the call behind a promise on which calls of
    [loadCartItems(true)] are suspended: all of them receive the one
    result. *)
Lemma answer_resumes {Outcome : Type}
    (getCartItems : string -> Outcome -> Js World CartItemResponse.t)
    (s : CartPage.State) (promise : nat) (cartId : string) (outcome : Outcome)
    (old : list CartPage.Waiter) (first n : nat) :
  CartPage.invoked s !! promise = Some cartId ->
  CartPage.settled s !! promise = None ->
  truthy cartId = true ->
  CartPage.waiters s = old ++ joined cartId promise first n ->
  Forall (fun wt => CartPage.awaited wt <> promise) old ->
  let result := fst (getCartItems cartId outcome (CartPage.world s)) in
  let s' := CartPage.answer getCartItems promise outcome s in
  CartPage.world s' = snd (getCartItems cartId outcome (CartPage.world s))
  /\ CartPage.invoked s' = CartPage.invoked s
  /\ CartPage.delivered s'
     = CartPage.delivered s
       ++ map (fun wt => (CartPage.caller wt, result)) (joined cartId promise first n)
  /\ CartPage.now s' = CartPage.now s
  /\ (n <> 0%nat ->
      match result with
      | Return _ => In (CartPage.now s + 100, cartId) (CartPage.timers s')
      | Throw _ => CartPage.cartPromises s' !! cartId = None
      end).
Proof.
  intros Hinvoked Hpending Htruthy Hwaiters Hold result s'.
  subst result s'. unfold CartPage.answer. rewrite Hinvoked, Hpending.
  destruct (getCartItems cartId outcome (CartPage.world s)) as [c w] eqn:Hrun.
  cbv zeta. simpl CartPage.waiters. rewrite Hwaiters.
  destruct (filter_joined promise old cartId first n Hold) as [-> ->].
  set (s0 := CartPage.withWaiters old _).
  destruct (resume_joined cartId promise first n c s0 Htruthy)
    as (Hw & Hi & Hn & Hd & Hafter).
  simpl fst. simpl snd. by repeat split.
Qed.

Lemma storedCartId_world (s s' : CartPage.State) :
  CartPage.world s' = CartPage.world s ->
  CartPage.storedCartId s' = CartPage.storedCartId s.
Proof. unfold CartPage.storedCartId. by intros ->. Qed.

(** A call that finds no slot for the stored cart id calls [getCartItems]. *)
Lemma loadCartItems_opens_invoked (s : CartPage.State) (cartId : string) :
  CartPage.storedCartId s = Some cartId ->
  truthy cartId = true ->
  CartPage.cartPromises s !! cartId = None ->
  CartPage.invoked (CartPage.loadCartItems true s) = CartPage.invoked s ++ [cartId].
Proof.
  intros Hstored Htruthy Hslot.
  unfold CartPage.loadCartItems.
  change (CartPage.storedCartId (CartPage.withLoads (S (CartPage.loads s)) s))
    with (CartPage.storedCartId s).
  rewrite Hstored, Htruthy. simpl. rewrite Hslot.
  unfold CartPage.await. simpl.
  destruct (CartPage.settled s !! length (CartPage.invoked s)) as [c|]; [|done].
  unfold CartPage.resume. simpl.
  destruct c as [response|err]; simpl; [done|].
  by rewrite Htruthy.
Qed.

(** With a truthy cart id stored, the mount effect is a cached load. *)
Lemma initLoad_loads (s : CartPage.State) (cartId : string) :
  CartPage.storedCartId s = Some cartId ->
  truthy cartId = true ->
  CartPage.initLoad s = CartPage.loadCartItems true s.
Proof.
  intros Hstored Htruthy. unfold CartPage.initLoad.
  rewrite Hstored. simpl. by rewrite Htruthy.
Qed.

(** A cached load inside the window: the first one opens the slot, each
    later one joins the pending promise. *)
Lemma cached_load_in_window (s s0 : CartPage.State) (cartId : string) (n : nat) :
  let promise := length (CartPage.invoked s) in
  CartPage.storedCartId s = Some cartId ->
  truthy cartId = true ->
  CartPage.settled s !! promise = None ->
  CartPage.world s0 = CartPage.world s ->
  CartPage.invoked s0
  = CartPage.invoked s ++ match n with O => [] | S _ => [cartId] end ->
  CartPage.cartPromises s0 !! cartId = match n with O => None | S _ => Some promise end ->
  CartPage.settled s0 = CartPage.settled s ->
  CartPage.waiters s0 = CartPage.waiters s ++ joined cartId promise (CartPage.loads s) n ->
  Forall (fun t => snd t <> cartId) (CartPage.timers s0) ->
  CartPage.loads s0 = (CartPage.loads s + n)%nat ->
  CartPage.delivered s0 = CartPage.delivered s ->
  let s' := CartPage.loadCartItems true s0 in
  CartPage.world s' = CartPage.world s
  /\ CartPage.invoked s' = CartPage.invoked s ++ [cartId]
  /\ CartPage.cartPromises s' !! cartId = Some promise
  /\ CartPage.settled s' = CartPage.settled s
  /\ CartPage.waiters s'
     = CartPage.waiters s ++ joined cartId promise (CartPage.loads s) (S n)
  /\ Forall (fun t => snd t <> cartId) (CartPage.timers s')
  /\ CartPage.loads s' = (CartPage.loads s + S n)%nat
  /\ CartPage.delivered s' = CartPage.delivered s.
Proof.
  intros promise Hstored Htruthy Hpending Hw Hi Hc Hse Hwt Ht Hl Hd s'.
  assert (Hstored0 : CartPage.storedCartId s0 = Some cartId)
    by (by rewrite (storedCartId_world s s0)).
  subst s'. rewrite joined_snoc, app_assoc, <- Hwt, <- Hl.
  destruct n as [|n].
  - rewrite app_nil_r in Hi.
    rewrite (loadCartItems_opens s0 cartId Hstored0 Htruthy Hc)
      by (by rewrite Hi, Hse).
    simpl. rewrite Hi. fold promise.
    repeat split; try done; [apply lookup_insert_eq | lia].
  - rewrite (loadCartItems_joins s0 cartId promise Hstored0 Htruthy Hc)
      by (by rewrite Hse).
    simpl. repeat split; try done. lia.
Qed.

(** Inside the window the slot of the cart id holds at most one promise:
    after [n] cached loads, [n] calls are suspended on the promise that the
    first of them opened, and [getCartItems] was called once, if at all. *)
Lemma window_keeps_one_call {Outcome : Type}
    (getCartItems : string -> Outcome -> Js World CartItemResponse.t)
    (s : CartPage.State) (cartId : string) (window : list CartPage.Event) :
  CartPage.storedCartId s = Some cartId ->
  truthy cartId = true ->
  CartPage.cartPromises s !! cartId = None ->
  CartPage.settled s !! length (CartPage.invoked s) = None ->
  Forall (fun t => snd t <> cartId) (CartPage.timers s) ->
  Forall (fun e => inWindow e = true) window ->
  let promise := length (CartPage.invoked s) in
  let n := length (List.filter cachedLoad window) in
  let s' := CartPage.run getCartItems window s in
  CartPage.world s' = CartPage.world s
  /\ CartPage.invoked s'
     = CartPage.invoked s ++ match n with O => [] | S _ => [cartId] end
  /\ CartPage.cartPromises s' !! cartId
     = match n with O => None | S _ => Some promise end
  /\ CartPage.settled s' = CartPage.settled s
  /\ CartPage.waiters s' = CartPage.waiters s ++ joined cartId promise (CartPage.loads s) n
  /\ Forall (fun t => snd t <> cartId) (CartPage.timers s')
  /\ CartPage.loads s' = (CartPage.loads s + n)%nat
  /\ CartPage.delivered s' = CartPage.delivered s.
Proof.
  intros Hstored Htruthy Hslot Hpending Hnotimer Hwindow. cbv zeta.
  induction window as [|e window IH] using rev_ind.
  - simpl. rewrite !app_nil_r, Nat.add_0_r. by repeat split.
  - apply Forall_app in Hwindow as [Hwindow He].
    apply Forall_cons in He as [He _].
    specialize (IH Hwindow).
    unfold CartPage.run in *. rewrite fold_left_app, List.filter_app, length_app.
    set (s0 := fold_left (CartPage.step getCartItems) window s) in *.
    set (n := length (List.filter cachedLoad window)) in *.
    destruct IH as (Hw & Hi & Hc & Hse & Hwt & Ht & Hl & Hd).
    assert (Hload :
      let s' := CartPage.loadCartItems true s0 in
      CartPage.world s' = CartPage.world s
      /\ CartPage.invoked s' = CartPage.invoked s ++ [cartId]
      /\ CartPage.cartPromises s' !! cartId = Some (length (CartPage.invoked s))
      /\ CartPage.settled s' = CartPage.settled s
      /\ CartPage.waiters s'
         = CartPage.waiters s
           ++ joined cartId (length (CartPage.invoked s)) (CartPage.loads s) (S n)
      /\ Forall (fun t => snd t <> cartId) (CartPage.timers s')
      /\ CartPage.loads s' = (CartPage.loads s + S n)%nat
      /\ CartPage.delivered s' = CartPage.delivered s)
      by (by apply cached_load_in_window).
    destruct e as [|[|]|promise' outcome'|ms]; try discriminate He; simpl.
    + rewrite (initLoad_loads s0 cartId)
        by (by rewrite ?(storedCartId_world s s0)).
      by rewrite Nat.add_1_r.
    + by rewrite Nat.add_1_r.
    + rewrite Nat.add_0_r.
      destruct (elapse_frame ms s0)
        as (Hw' & Hi' & Hse' & Hwt' & _ & Hl' & Hd' & Ht' & Hc' & _ & _).
      rewrite Hw', Hi', Hse', Hwt', Hl', Hd', (Hc' cartId Ht).
      repeat split; try done.
      apply Forall_forall. intros t Hmem.
      rewrite Forall_forall in Ht. apply Ht.
      apply list_elem_of_In. apply Ht'. by apply list_elem_of_In.
Qed.

(** C9, as the code has it.  Take the cart page with a truthy cart id
    stored, no slot for it in the shared map and no timer of an earlier load
    of that cart id pending.  A call of [loadCartItems(true)] then calls
    [getCartItems], and as long as only cached loads are made (the mount
    effect or [loadCartItems(true)]) and time passes, however many and
    whenever, no further call of [getCartItems] is made: every load
    suspends on the promise of the first.  When the network answers, all of
    them receive the result of that one promise.  Once 100 ms or more have
    passed after the answer, the slot is gone, and the next call, if the
    cart id is still stored, calls [getCartItems] again. *)
Theorem concurrent_cart_reads_share_one_call {Outcome : Type}
    (getCartItems : string -> Outcome -> Js World CartItemResponse.t)
    (s : CartPage.State) (cartId : string) (outcome : Outcome)
    (window : list CartPage.Event) (after : Z) :
  CartPage.storedCartId s = Some cartId ->
  truthy cartId = true ->
  CartPage.cartPromises s !! cartId = None ->
  unused s (length (CartPage.invoked s)) ->
  Forall (fun t => snd t <> cartId) (CartPage.timers s) ->
  Forall (fun e => inWindow e = true) window ->
  100 <= after ->
  let promise := length (CartPage.invoked s) in
  let sharing :=
    joined cartId promise (CartPage.loads s)
      (S (length (List.filter cachedLoad window))) in
  let result := fst (getCartItems cartId outcome (CartPage.world s)) in
  let s2 := CartPage.run getCartItems (CartPage.Load true :: window) s in
  let s3 := CartPage.step getCartItems s2 (CartPage.Answer promise outcome) in
  let s5 := CartPage.run getCartItems [CartPage.Elapse after; CartPage.Load true] s3 in
  CartPage.invoked s2 = CartPage.invoked s ++ [cartId]
  /\ CartPage.waiters s2 = CartPage.waiters s ++ sharing
  /\ CartPage.invoked s3 = CartPage.invoked s ++ [cartId]
  /\ CartPage.delivered s3
     = CartPage.delivered s ++ map (fun wt => (CartPage.caller wt, result)) sharing
  /\ (CartPage.storedCartId s3 = Some cartId ->
      CartPage.invoked s5 = CartPage.invoked s ++ [cartId; cartId]).
Proof.
  intros Hstored Htruthy Hslot [Hpending Hold] Hnotimer Hwindow Hafter
    promise sharing result s2 s3 s5.
  destruct (window_keeps_one_call getCartItems s cartId (CartPage.Load true :: window)
              Hstored Htruthy Hslot Hpending Hnotimer)
    as (Hw2 & Hi2 & Hc2 & Hse2 & Hwt2 & Ht2 & Hl2 & Hd2);
    [by constructor|].
  change (CartPage.run getCartItems (CartPage.Load true :: window) s)
    with s2 in Hw2, Hi2, Hc2, Hse2, Hwt2, Ht2, Hl2, Hd2.
  change (List.filter cachedLoad (CartPage.Load true :: window))
    with (CartPage.Load true :: List.filter cachedLoad window)
    in Hi2, Hc2, Hwt2, Hl2.
  simpl length in Hi2, Hc2, Hwt2, Hl2.
  fold promise in Hc2, Hwt2. fold sharing in Hwt2.
  (* the network answers *)
  assert (Hinvoked2 : CartPage.invoked s2 !! promise = Some cartId).
  { rewrite Hi2. apply list_lookup_middle. done. }
  destruct (answer_resumes getCartItems s2 promise cartId outcome (CartPage.waiters s)
              (CartPage.loads s) (S (length (List.filter cachedLoad window))) Hinvoked2)
    as (Hw3 & Hi3 & Hd3 & Hn3 & Hafter3);
    [ by rewrite Hse2 | done | done | done | ].
  assert (Hrun3 : s3 = CartPage.answer getCartItems promise outcome s2) by reflexivity.
  rewrite <- Hrun3 in *. rewrite Hw2 in Hd3, Hafter3.
  fold result in Hd3, Hafter3. fold sharing in Hd3.
  split; [done | split; [done | split; [by rewrite Hi3 |]]].
  split; [by rewrite Hd3, Hd2 |].
  (* the next call, after the grace delay *)
  intros Hstill.
  destruct (elapse_frame after s3)
    as (Hw4 & Hi4 & _ & _ & _ & _ & _ & _ & _ & Hdue4 & Hnone4).
  assert (Hrun5 : s5 = CartPage.loadCartItems true (CartPage.elapse after s3))
    by reflexivity.
  rewrite Hrun5, (loadCartItems_opens_invoked _ cartId).
  - rewrite Hi4, Hi3, Hi2. by rewrite <- app_assoc.
  - by rewrite (storedCartId_world s3).
  - done.
  - specialize (Hafter3 (Nat.neq_succ_0 _)).
    destruct result as [response|err].
    + apply (Hdue4 cartId (CartPage.now s2 + 100)); [done | rewrite Hn3; lia].
    + by apply Hnone4.
Qed.

Lemma concurrent_cart_reads_share_one_call_witness :
  let s2 := CartPage.run ApiWebhook.getCartItems
              [CartPage.Load true; CartPage.Elapse 10;
               CartPage.Load true; CartPage.Elapse 40]
              (CartPage.initial (worldWithCart "c1")) in
  let s3 := CartPage.step ApiWebhook.getCartItems s2
              (CartPage.Answer 0%nat
                 (answered (cartOf (Some "c1") (Some [cartLine "v1" 2]) None))) in
  let s5 := CartPage.run ApiWebhook.getCartItems
              [CartPage.Elapse 100; CartPage.Load true] s3 in
  CartPage.invoked s2 = ["c1"]
  /\ CartPage.delivered s3
     = [(0%nat, Return (cartOf (Some "c1") (Some [cartLine "v1" 2]) None));
        (1%nat, Return (cartOf (Some "c1") (Some [cartLine "v1" 2]) None))]
  /\ CartPage.invoked s5 = ["c1"; "c1"].
Proof.
  destruct (concurrent_cart_reads_share_one_call ApiWebhook.getCartItems
              (CartPage.initial (worldWithCart "c1")) "c1"
              (answered (cartOf (Some "c1") (Some [cartLine "v1" 2]) None))
              [CartPage.Elapse 10; CartPage.Load true; CartPage.Elapse 40] 100)
    as (Hone & _ & _ & Hsame & Hthird);
    [ reflexivity | reflexivity | reflexivity | by split | by constructor
    | by repeat constructor | lia | ].
  split; [exact Hone | split; [exact Hsame | exact (Hthird eq_refl)]].
Defined.

(** C9 as stated fails: two cached loads of the same cart id can be pending
    together on two calls of [getCartItems].  In the first run a load joins
    an already settled promise and sets its own timer; that timer fires
    after a later load has opened a new slot and deletes it while its call
    is still pending, so the load made 70 ms after the one that opened the
    slot calls [getCartItems] again.  In the second run an uncached load
    (retry, remove) of the same cart id fails, and its [catch] deletes the
    slot that a cached load has opened in the meantime. *)
Example overlapping_cart_reads_can_call_twice :
  let s := CartPage.run ApiWebhook.getCartItems
             [CartPage.Load true;
              CartPage.Answer 0%nat
                (answered (cartOf (Some "c1") (Some [cartLine "v1" 2]) None));
              CartPage.Elapse 70; CartPage.Load true;
              CartPage.Elapse 40; CartPage.Load true;
              CartPage.Elapse 70; CartPage.Load true]
             (CartPage.initial (worldWithCart "c1")) in
  let s' := CartPage.run ApiWebhook.getCartItems
              [CartPage.Load false; CartPage.Load true;
               CartPage.Answer 0%nat serverError; CartPage.Load true]
              (CartPage.initial (worldWithCart "c1")) in
  (CartPage.invoked s = ["c1"; "c1"; "c1"]
   /\ CartPage.settled s !! 1%nat = None
   /\ map CartPage.awaited (CartPage.waiters s) = [1%nat; 2%nat]
   /\ map CartPage.shared (CartPage.waiters s) = [true; true])
  /\ (CartPage.invoked s' = ["c1"; "c1"; "c1"]
      /\ CartPage.settled s' !! 1%nat = None
      /\ map CartPage.awaited (CartPage.waiters s') = [1%nat; 2%nat]
      /\ map CartPage.shared (CartPage.waiters s') = [true; true]).
Proof. repeat split; vm_compute; reflexivity. Qed.

(* ===================================================================== *)
(** * Which channel an operation uses, and how its failures surface *)
(* ===================================================================== *)

Lemma proxyThenDirect_production (env : Env) {B R} (pr dr : Request)
    (proxy direct : FetchOutcome B) (failure : Z -> string -> string)
    (corsMessage : string) (onOk : B -> Js World R) (w : World) :
  DEV env = false ->
  ApiDirect.proxyThenDirect env pr dr proxy direct failure corsMessage onOk w
  = tryCatch (ApiDirect.attempt dr direct failure onOk) (rethrow corsMessage) w.
Proof. intros Hprod. by rewrite proxyThenDirect_run, Hprod. Qed.

Lemma proxyThenDirect_ignoresProxy (env : Env) {B R} (pr dr : Request)
    (failure : Z -> string -> string) (corsMessage : string)
    (onOk : B -> Js World R) (w : World) :
  DEV env = false ->
  (forall b, silent (onOk b)) ->
  ignoresProxy
    (fun proxy direct =>
       ApiDirect.proxyThenDirect env pr dr proxy direct failure corsMessage onOk)
    w dr.
Proof.
  intros Hprod Hsilent proxy proxy' direct. split.
  - unfold calledOnce. rewrite proxyThenDirect_production by done.
    by rewrite tryCatch_rethrow_world, (attempt_requests env).
  - by rewrite !proxyThenDirect_production.
Qed.

Lemma direct_fetchProducts_production (env : Env)
    (proxy direct : FetchOutcome ProductsResponse.t) (w : World) :
  DEV env = false ->
  ApiDirect.fetchProducts env proxy direct w =
  let dr := ApiDirect.directRequest env "GET"
              ("https://" +:+ ApiDirect.DOMAIN_NAME env +:+ "/storefront/api/v1/products")
              None in
  match direct with
  | Rejected m =>
      rethrow "CORS error: Unable to fetch products. Please ensure CORS is enabled on the API or use the proxy."
        (TypeError m) (withRequest dr w)
  | Responded r =>
      if ok r then
        match json r with
        | Return data => (Return data, withRequest dr w)
        | Throw e =>
            rethrow "CORS error: Unable to fetch products. Please ensure CORS is enabled on the API or use the proxy."
              e (withRequest dr w)
        end
      else
        rethrow "CORS error: Unable to fetch products. Please ensure CORS is enabled on the API or use the proxy."
          (Error ("Failed to fetch products: " +:+ pretty (status r) +:+ " "
                  +:+ errorText r))
          (withRequest dr w)
  end.
Proof.
  intros Hprod. unfold ApiDirect.fetchProducts. rewrite Hprod.
  unfold bind at 1. unfold ret at 1. cbv zeta.
  unfold tryCatch, bind, fetch, throw, settle.
  destruct direct as [r|m]; [|done].
  destruct (ok r); simpl; [|done]. by destruct (json r).
Qed.

Lemma fetchProducts_requests_production (env : Env)
    (proxy direct : FetchOutcome ProductsResponse.t) (w : World) :
  DEV env = false ->
  requests (snd (ApiDirect.fetchProducts env proxy direct w))
  = requests w ++
    [ApiDirect.directRequest env "GET"
       ("https://" +:+ ApiDirect.DOMAIN_NAME env +:+ "/storefront/api/v1/products") None].
Proof.
  intros Hprod. rewrite direct_fetchProducts_production by done. cbv zeta.
  destruct direct as [r|m]; [|by rewrite rethrow_run].
  destruct (ok r); [|by rewrite rethrow_run].
  destruct (json r); [done|by rewrite rethrow_run].
Qed.

Lemma silent_direct_saveCartId (env : Env) (stored : option string)
    (b : AddToCartResponse.t) :
  silent (ApiDirect.saveCartId env stored b).
Proof.
  intros w0. rewrite direct_saveCartId_run. simpl.
  destruct (ApiDirect.carriedCartId b) as [c|]; [|done].
  by destruct (truthy c && strictNeqOpt c stored).
Qed.

(** X1.  In a production build ([import.meta.env.DEV] is false) no operation
    of [api.ts] contacts the proxy: each one calls [fetch] exactly once, for
    the direct endpoint on the store's domain with [mode: 'cors'], and ends
    the same way whatever the proxy would have answered
    ([fetchProductDetail] is taken past its cache check). *)
Theorem production_build_calls_the_direct_endpoint_only (env : Env) (w : World) :
  DEV env = false ->
  ignoresProxy (ApiDirect.fetchProducts env) w
    (ApiDirect.directRequest env "GET"
       ("https://" +:+ ApiDirect.DOMAIN_NAME env +:+ "/storefront/api/v1/products") None)
  /\ (forall variantId,
        productCache w !! variantId = None ->
        ignoresProxy (ApiDirect.fetchProductDetail env variantId) w
          (ApiDirect.directRequest env "GET"
             ("https://" +:+ ApiDirect.DOMAIN_NAME env
              +:+ "/storefront/api/v1/products/" +:+ variantId)
             None))
  /\ (forall productVariantId quantity,
        ignoresProxy (ApiDirect.addToCart env productVariantId quantity) w
          (ApiDirect.directRequest env "POST"
             ("https://" +:+ ApiDirect.DOMAIN_NAME env +:+ "/storefront/api/v1/cart")
             (Some (ApiDirect.addToCartBody productVariantId quantity
                      (cookies w !! "cart_id")))))
  /\ (forall cartId,
        ignoresProxy (ApiDirect.getCartItems env cartId) w
          (ApiDirect.directRequest env "GET"
             ("https://" +:+ ApiDirect.DOMAIN_NAME env
              +:+ "/storefront/api/v1/cart?cart_id=" +:+ cartId)
             None))
  /\ (forall cartId,
        ignoresProxy (ApiDirect.getCheckoutData env cartId) w
          (ApiDirect.directRequest env "GET"
             ("https://" +:+ ApiDirect.DOMAIN_NAME env
              +:+ "/storefront/api/v1/checkout?checkout_id=" +:+ cartId)
             None))
  /\ (forall cartId addressData,
        ignoresProxy (ApiDirect.submitCheckoutAddress env cartId addressData) w
          (ApiDirect.directRequest env "POST"
             ("https://" +:+ ApiDirect.DOMAIN_NAME env
              +:+ "/storefront/api/v1/checkout/address?checkout_id=" +:+ cartId)
             (Some addressData)))
  /\ (forall cartId shippingMethodId,
        ignoresProxy (ApiDirect.submitShippingMethod env cartId shippingMethodId) w
          (ApiDirect.directRequest env "POST"
             ("https://" +:+ ApiDirect.DOMAIN_NAME env
              +:+ "/storefront/api/v1/checkout/shipping-methods?checkout_id=" +:+ cartId)
             (Some (JObject [("shipping", JString shippingMethodId)]))))
  /\ (forall cartId paymentMode,
        ignoresProxy (ApiDirect.processOfflinePayment env cartId paymentMode) w
          (ApiDirect.directRequest env "POST"
             ("https://" +:+ ApiDirect.DOMAIN_NAME env +:+ "/storefront/api/v1"
              +:+ "/checkout/process-offline-payment?checkout_id=" +:+ cartId
              +:+ "&payment_mode=" +:+ paymentMode)
             None)).
Proof.
  intros Hprod.
  split; [|split; [|split; [|split; [|split; [|split; [|split]]]]]].
  - intros proxy proxy' direct. split.
    + unfold calledOnce. by rewrite fetchProducts_requests_production.
    + by rewrite !direct_fetchProducts_production.
  - intros variantId Hmiss proxy proxy' direct.
    unfold calledOnce.
    rewrite !direct_fetchProductDetail_run, cacheCheck_miss by done.
    apply (proxyThenDirect_ignoresProxy env _ _ _ _ _ w Hprod
             (silent_direct_cacheDetail env variantId)).
  - intros productVariantId quantity proxy proxy' direct.
    unfold calledOnce. rewrite !direct_addToCart_run. cbv zeta.
    apply (proxyThenDirect_ignoresProxy env _ _ _ _ _ w Hprod
             (silent_direct_saveCartId env (cookies w !! "cart_id"))).
  - intros cartId.
    apply (proxyThenDirect_ignoresProxy env); [done | intros b; apply silent_ret].
  - intros cartId.
    apply (proxyThenDirect_ignoresProxy env); [done | intros b; apply silent_ret].
  - intros cartId addressData.
    apply (proxyThenDirect_ignoresProxy env); [done | intros b; apply silent_ret].
  - intros cartId shippingMethodId.
    apply (proxyThenDirect_ignoresProxy env); [done | intros b; apply silent_ret].
  - intros cartId paymentMode.
    apply (proxyThenDirect_ignoresProxy env); [done | intros b; apply silent_ret].
Qed.

Lemma production_build_calls_the_direct_endpoint_only_witness :
  requests (snd (ApiDirect.getCartItems prodEnv "c1" (answered (cartOf None None None))
                   serverError emptyWorld))
  = [ {| method := "GET";
         url := "https://shop.example.com/storefront/api/v1/cart?cart_id=c1";
         headers := [("Content-Type", "application/json");
                     ("Accept", "application/json");
                     ("domain-name", "shop.example.com")];
         cors := true; body := None |} ].
Proof.
  destruct (production_build_calls_the_direct_endpoint_only prodEnv emptyWorld eq_refl)
    as (_ & _ & _ & Hcart & _).
  destruct (Hcart "c1" (answered (cartOf None None None)) serverError serverError)
    as [Honce _].
  exact Honce.
Defined.

Lemma proxyThenDirect_answered (env : Env) {B R} (pr dr : Request)
    (proxy direct : FetchOutcome B) (failure : Z -> string -> string)
    (corsMessage : string) (onOk : B -> Js World R) (w : World) (b : B) (r : R)
    (w' : World) :
  DEV env = true ->
  parsed proxy = Some b ->
  onOk b (withRequest pr w) = (Return r, w') ->
  ApiDirect.proxyThenDirect env pr dr proxy direct failure corsMessage onOk w
  = (Return r, w').
Proof.
  intros Hdev Hparsed Hon.
  by rewrite proxyThenDirect_run, Hdev, (attempt_parsed env _ _ _ _ _ b Hparsed), Hon.
Qed.

Lemma direct_fetchProducts_answered (env : Env)
    (proxy direct : FetchOutcome ProductsResponse.t) (w : World)
    (data : ProductsResponse.t) :
  DEV env = true ->
  parsed proxy = Some data ->
  ApiDirect.fetchProducts env proxy direct w
  = (Return data, withRequest (ApiDirect.proxyRequest env "GET" "/api/products" None) w).
Proof.
  intros Hdev Hparsed. unfold ApiDirect.fetchProducts. rewrite Hdev.
  destruct proxy as [r|m]; simpl in Hparsed; [|done].
  destruct (ok r) eqn:Hok; [|done].
  destruct (json r) as [b|] eqn:Hjson; [|done]. simplify_eq.
  unfold bind at 1. unfold tryCatch, bind, fetch, settle, ret. by rewrite Hok, Hjson.
Qed.

(** X2.  In the proxied run mode, when the proxy answers with a status in
    200-299 and a body that parses (for [fetchProductDetail]: one in which
    the probe finds a product), the operation returns that answer after a
    single [fetch], for the proxy URL and without [mode: 'cors']; the direct
    endpoint is not contacted, whatever it would have answered. *)
Theorem answered_proxy_ends_the_call (env : Env) (w : World) :
  DEV env = true ->
  (forall proxy direct data,
     parsed proxy = Some data ->
     ApiDirect.fetchProducts env proxy direct w
     = (Return data,
        withRequest (ApiDirect.proxyRequest env "GET" "/api/products" None) w))
  /\ (forall variantId proxy direct product,
        productCache w !! variantId = None ->
        yields proxy = Some product ->
        fst (ApiDirect.fetchProductDetail env variantId proxy direct w) = Return product
        /\ calledOnce w (ApiDirect.fetchProductDetail env variantId proxy direct w)
             (ApiDirect.proxyRequest env "GET" ("/api/products/" +:+ variantId) None))
  /\ (forall productVariantId quantity proxy direct response,
        parsed proxy = Some response ->
        fst (ApiDirect.addToCart env productVariantId quantity proxy direct w)
        = Return response
        /\ calledOnce w (ApiDirect.addToCart env productVariantId quantity proxy direct w)
             (ApiDirect.proxyRequest env "POST" "/api/cart"
                (Some (ApiDirect.addToCartBody productVariantId quantity
                         (cookies w !! "cart_id")))))
  /\ (forall cartId proxy direct response,
        parsed proxy = Some response ->
        ApiDirect.getCartItems env cartId proxy direct w
        = (Return response,
           withRequest (ApiDirect.proxyRequest env "GET"
                          ("/api/cart?cart_id=" +:+ cartId) None) w))
  /\ (forall cartId proxy direct response,
        parsed proxy = Some response ->
        ApiDirect.getCheckoutData env cartId proxy direct w
        = (Return response,
           withRequest (ApiDirect.proxyRequest env "GET"
                          ("/api/checkout?checkout_id=" +:+ cartId) None) w))
  /\ (forall cartId addressData proxy direct response,
        parsed proxy = Some response ->
        ApiDirect.submitCheckoutAddress env cartId addressData proxy direct w
        = (Return response,
           withRequest (ApiDirect.proxyRequest env "POST"
                          ("/api/checkout/address?checkout_id=" +:+ cartId)
                          (Some addressData)) w))
  /\ (forall cartId shippingMethodId proxy direct response,
        parsed proxy = Some response ->
        ApiDirect.submitShippingMethod env cartId shippingMethodId proxy direct w
        = (Return response,
           withRequest (ApiDirect.proxyRequest env "POST"
                          ("/api/checkout/shipping-methods?checkout_id=" +:+ cartId)
                          (Some (JObject [("shipping", JString shippingMethodId)]))) w))
  /\ (forall cartId paymentMode proxy direct response,
        parsed proxy = Some response ->
        ApiDirect.processOfflinePayment env cartId paymentMode proxy direct w
        = (Return response,
           withRequest (ApiDirect.proxyRequest env "POST"
                          ("/api" +:+ "/checkout/process-offline-payment?checkout_id="
                           +:+ cartId +:+ "&payment_mode=" +:+ paymentMode)
                          None) w)).
Proof.
  intros Hdev.
  split; [|split; [|split; [|split; [|split; [|split; [|split]]]]]].
  - intros proxy direct data Hparsed. by apply direct_fetchProducts_answered.
  - intros variantId proxy direct product Hmiss Hyields.
    unfold yields in Hyields.
    destruct (parsed proxy) as [b|] eqn:Hparsed; [|done].
    destruct (probeProduct b) as [p|] eqn:Hprobe; [|done]. simplify_eq.
    unfold calledOnce.
    rewrite direct_fetchProductDetail_run, cacheCheck_miss by done.
    set (pr := ApiDirect.proxyRequest env "GET" _ None).
    pose proof (direct_cacheDetail_fst env variantId b (withRequest pr w)) as Hfst.
    pose proof (silent_direct_cacheDetail env variantId b (withRequest pr w)) as Hreq.
    destruct (ApiDirect.cacheDetail env variantId b (withRequest pr w))
      as [c w'] eqn:Hcache.
    simpl in Hfst, Hreq. rewrite Hprobe in Hfst. subst c.
    rewrite (proxyThenDirect_answered env _ _ _ _ _ _ _ w b product w' Hdev Hparsed Hcache).
    by split.
  - intros productVariantId quantity proxy direct response Hparsed.
    unfold calledOnce. rewrite direct_addToCart_run. cbv zeta.
    set (pr := ApiDirect.proxyRequest env "POST" "/api/cart" _).
    pose proof (direct_saveCartId_run env (cookies w !! "cart_id") response
                  (withRequest pr w)) as Hsave.
    pose proof (silent_direct_saveCartId env (cookies w !! "cart_id") response
                  (withRequest pr w)) as Hreq.
    rewrite Hsave in Hreq. simpl in Hreq.
    rewrite (proxyThenDirect_answered env _ _ _ _ _ _ _ w response response _
               Hdev Hparsed Hsave).
    by split.
  - intros cartId proxy direct response Hparsed.
    by apply (proxyThenDirect_answered env _ _ _ _ _ _ _ w response).
  - intros cartId proxy direct response Hparsed.
    by apply (proxyThenDirect_answered env _ _ _ _ _ _ _ w response).
  - intros cartId addressData proxy direct response Hparsed.
    by apply (proxyThenDirect_answered env _ _ _ _ _ _ _ w response).
  - intros cartId shippingMethodId proxy direct response Hparsed.
    by apply (proxyThenDirect_answered env _ _ _ _ _ _ _ w response).
  - intros cartId paymentMode proxy direct response Hparsed.
    by apply (proxyThenDirect_answered env _ _ _ _ _ _ _ w response).
Qed.

Lemma answered_proxy_ends_the_call_witness :
  ApiDirect.getCartItems devEnv "c1"
    (answered (cartOf (Some "c1") (Some [cartLine "v1" 2]) None))
    (Rejected "Failed to fetch") emptyWorld
  = (Return (cartOf (Some "c1") (Some [cartLine "v1" 2]) None),
     withRequest
       {| method := "GET"; url := "/api/cart?cart_id=c1";
          headers := [("Content-Type", "application/json");
                      ("Accept", "application/json");
                      ("domain-name", "activepharm.zohoecommerce.com")];
          cors := false; body := None |}
       emptyWorld).
Proof.
  destruct (answered_proxy_ends_the_call devEnv emptyWorld eq_refl)
    as (_ & _ & _ & Hcart & _).
  exact (Hcart "c1" (answered (cartOf (Some "c1") (Some [cartLine "v1" 2]) None))
           (Rejected "Failed to fetch") _ eq_refl).
Defined.

(** The direct attempt with its [catch] clause surfaces the failures of its
    channel. *)
Lemma direct_attempt_surfaces (env : Env) {B R} (dr : Request)
    (failure describe : Z -> string -> string) (corsMessage : string)
    (onOk : B -> Js World R) (w : World) :
  (forall status text, failure status text = describe status text) ->
  surfacesFailure
    (fun direct =>
       fst (tryCatch (ApiDirect.attempt dr direct failure onOk) (rethrow corsMessage) w))
    describe corsMessage.
Proof.
  intros Hdescribe. unfold surfacesFailure, tryCatch.
  split; [|split; [|split]].
  - intros m Hm. rewrite (attempt_run env), rethrow_run. simpl. by rewrite Hm.
  - intros m Hm. rewrite (attempt_run env), rethrow_run. simpl. by rewrite Hm.
  - intros r Hok. rewrite (attempt_run env), Hok, rethrow_run. simpl.
    by rewrite Hdescribe.
  - intros r e Hok Hjson Hte. rewrite (attempt_run env), Hok, Hjson, rethrow_run.
    simpl. by rewrite Hte.
Qed.

(** When the build has no proxy, or the proxy failed, the direct attempt
    decides the call. *)
Lemma proxyThenDirect_direct_decides (env : Env) {B R} (pr dr : Request)
    (proxy direct : FetchOutcome B) (failure : Z -> string -> string)
    (corsMessage : string) (onOk : B -> Js World R) (w : World) :
  DEV env = false \/ channelFailed proxy = true ->
  ApiDirect.proxyThenDirect env pr dr proxy direct failure corsMessage onOk w
  = tryCatch (ApiDirect.attempt dr direct failure onOk) (rethrow corsMessage)
      (if DEV env then withRequest pr w else w).
Proof.
  intros [Hprod|Hfailed].
  - rewrite Hprod. by apply proxyThenDirect_production.
  - destruct (DEV env) eqn:Hdev.
    + by apply proxyThenDirect_fallback.
    + by apply proxyThenDirect_production.
Qed.

Lemma proxyThenDirect_surfaces (env : Env) {B R} (pr dr : Request)
    (proxy : FetchOutcome B) (failure describe : Z -> string -> string)
    (corsMessage : string) (onOk : B -> Js World R) (w : World) :
  DEV env = false \/ channelFailed proxy = true ->
  (forall status text, failure status text = describe status text) ->
  surfacesFailure
    (fun direct =>
       fst (ApiDirect.proxyThenDirect env pr dr proxy direct failure corsMessage onOk w))
    describe corsMessage.
Proof.
  intros Hdecides Hdescribe.
  pose proof (direct_attempt_surfaces env dr failure describe corsMessage onOk
                (if DEV env then withRequest pr w else w) Hdescribe)
    as (H1 & H2 & H3 & H4).
  split; [|split; [|split]].
  - intros m Hm. rewrite proxyThenDirect_direct_decides by done. by apply H1.
  - intros m Hm. rewrite proxyThenDirect_direct_decides by done. by apply H2.
  - intros r Hok. rewrite proxyThenDirect_direct_decides by done. by apply H3.
  - intros r e Hok Hjson Hte. rewrite proxyThenDirect_direct_decides by done.
    by apply H4.
Qed.

Lemma direct_fetchProducts_direct_decides (env : Env)
    (proxy direct : FetchOutcome ProductsResponse.t) (w : World) :
  DEV env = false \/ channelFailed proxy = true ->
  fst (ApiDirect.fetchProducts env proxy direct w) =
  match direct with
  | Rejected m =>
      Throw (if includes m "Failed to fetch"
             then Error "CORS error: Unable to fetch products. Please ensure CORS is enabled on the API or use the proxy."
             else TypeError m)
  | Responded r =>
      if ok r then
        match json r with
        | Return data => Return data
        | Throw e =>
            Throw (if instanceofTypeError e && includes (message e) "Failed to fetch"
                   then Error "CORS error: Unable to fetch products. Please ensure CORS is enabled on the API or use the proxy."
                   else e)
        end
      else
        Throw (Error ("Failed to fetch products: " +:+ pretty (status r) +:+ " "
                      +:+ errorText r))
  end.
Proof.
  intros Hdecides.
  assert (Hrun : exists w0,
            ApiDirect.fetchProducts env proxy direct w =
            match direct with
            | Rejected m =>
                rethrow "CORS error: Unable to fetch products. Please ensure CORS is enabled on the API or use the proxy."
                  (TypeError m) w0
            | Responded r =>
                if ok r then
                  match json r with
                  | Return data => (Return data, w0)
                  | Throw e =>
                      rethrow "CORS error: Unable to fetch products. Please ensure CORS is enabled on the API or use the proxy."
                        e w0
                  end
                else
                  rethrow "CORS error: Unable to fetch products. Please ensure CORS is enabled on the API or use the proxy."
                    (Error ("Failed to fetch products: " +:+ pretty (status r) +:+ " "
                            +:+ errorText r)) w0
            end).
  { destruct (DEV env) eqn:Hdev.
    - destruct Hdecides as [?|Hfailed]; [done|].
      eexists. by rewrite direct_fetchProducts_fallback.
    - eexists. by rewrite direct_fetchProducts_production. }
  destruct Hrun as [w0 ->].
  destruct direct as [r|m]; [|by rewrite rethrow_run].
  destruct (ok r); [|by rewrite rethrow_run].
  destruct (json r); [done|by rewrite rethrow_run].
Qed.

(** X3.  When the direct channel decides a call of [api.ts] (the build has
    no proxy, or the proxy failed) and gives no usable answer, the failure
    surfaces in one of three forms.  A rejected [fetch] whose message contains
    "Failed to fetch" becomes an [Error] with the operation's CORS hint; a
    status outside 200-299 becomes an [Error] that names the operation, the
    status and the body text (the status text when the body cannot be read),
    also for [fetchProducts], whose message contains "Failed to fetch"
    itself; any other rejection, and an error of [response.json()] that is no
    [TypeError], is thrown on unchanged. *)
Theorem direct_channel_failures_surface (env : Env) (w : World) :
  (forall proxy,
     DEV env = false \/ channelFailed proxy = true ->
     surfacesFailure (fun direct => fst (ApiDirect.fetchProducts env proxy direct w))
       (fun status text => "Failed to fetch products: " +:+ pretty status +:+ " " +:+ text)
       "CORS error: Unable to fetch products. Please ensure CORS is enabled on the API or use the proxy.")
  /\ (forall variantId proxy,
        DEV env = false \/ channelFailed proxy = true ->
        productCache w !! variantId = None ->
        surfacesFailure
          (fun direct => fst (ApiDirect.fetchProductDetail env variantId proxy direct w))
          (fun status text => "API returned " +:+ pretty status +:+ ": " +:+ text)
          "CORS error: Unable to fetch product. Please restart your dev server (npm run dev) to ensure the proxy is active.")
  /\ (forall productVariantId quantity proxy,
        DEV env = false \/ channelFailed proxy = true ->
        surfacesFailure
          (fun direct =>
             fst (ApiDirect.addToCart env productVariantId quantity proxy direct w))
          (fun status text => "Failed to add to cart: " +:+ pretty status +:+ " " +:+ text)
          "CORS error: Unable to add to cart. Please restart your dev server (npm run dev) to ensure the proxy is active.")
  /\ (forall cartId proxy,
        DEV env = false \/ channelFailed proxy = true ->
        surfacesFailure
          (fun direct => fst (ApiDirect.getCartItems env cartId proxy direct w))
          (fun status text =>
             "Failed to get cart items: " +:+ pretty status +:+ " " +:+ text)
          "CORS error: Unable to get cart items. Please restart your dev server (npm run dev) to ensure the proxy is active.")
  /\ (forall cartId proxy,
        DEV env = false \/ channelFailed proxy = true ->
        surfacesFailure
          (fun direct => fst (ApiDirect.getCheckoutData env cartId proxy direct w))
          (fun status text =>
             "Failed to get checkout data: " +:+ pretty status +:+ " " +:+ text)
          "CORS error: Unable to get checkout data. Please restart your dev server (npm run dev) to ensure the proxy is active.")
  /\ (forall cartId addressData proxy,
        DEV env = false \/ channelFailed proxy = true ->
        surfacesFailure
          (fun direct =>
             fst (ApiDirect.submitCheckoutAddress env cartId addressData proxy direct w))
          (fun status text =>
             "Failed to submit checkout address: " +:+ pretty status +:+ " " +:+ text)
          "CORS error: Unable to submit checkout address. Please restart your dev server (npm run dev) to ensure the proxy is active.")
  /\ (forall cartId shippingMethodId proxy,
        DEV env = false \/ channelFailed proxy = true ->
        surfacesFailure
          (fun direct =>
             fst (ApiDirect.submitShippingMethod env cartId shippingMethodId proxy
                    direct w))
          (fun status text =>
             "Failed to submit shipping method: " +:+ pretty status +:+ " " +:+ text)
          "CORS error: Unable to submit shipping method. Please restart your dev server (npm run dev) to ensure the proxy is active.")
  /\ (forall cartId paymentMode proxy,
        DEV env = false \/ channelFailed proxy = true ->
        surfacesFailure
          (fun direct =>
             fst (ApiDirect.processOfflinePayment env cartId paymentMode proxy direct w))
          (fun status text =>
             "Failed to process payment: " +:+ pretty status +:+ " " +:+ text)
          "CORS error: Unable to process payment. Please restart your dev server (npm run dev) to ensure the proxy is active.").
Proof.
  split; [|split; [|split; [|split; [|split; [|split; [|split]]]]]].
  - intros proxy Hdecides. split; [|split; [|split]].
    + intros m Hm. rewrite direct_fetchProducts_direct_decides by done. by rewrite Hm.
    + intros m Hm. rewrite direct_fetchProducts_direct_decides by done. by rewrite Hm.
    + intros r Hok. rewrite direct_fetchProducts_direct_decides by done.
      by rewrite Hok.
    + intros r e Hok Hjson Hte. rewrite direct_fetchProducts_direct_decides by done.
      by rewrite Hok, Hjson, Hte.
  - intros variantId proxy Hdecides Hmiss.
    pose proof (proxyThenDirect_surfaces env
                  (ApiDirect.proxyRequest env "GET" ("/api/products/" +:+ variantId) None)
                  (ApiDirect.directRequest env "GET"
                     ("https://" +:+ ApiDirect.DOMAIN_NAME env
                      +:+ "/storefront/api/v1/products/" +:+ variantId) None)
                  proxy ApiDirect.apiReturned
                  (fun status text => "API returned " +:+ pretty status +:+ ": " +:+ text)
                  (ApiDirect.restartHint "fetch product")
                  (ApiDirect.cacheDetail env variantId) w Hdecides
                  (fun _ _ => eq_refl)) as (H1 & H2 & H3 & H4).
    split; [|split; [|split]].
    + intros m Hm. rewrite direct_fetchProductDetail_run, cacheCheck_miss by done.
      by apply H1.
    + intros m Hm. rewrite direct_fetchProductDetail_run, cacheCheck_miss by done.
      by apply H2.
    + intros r Hok. rewrite direct_fetchProductDetail_run, cacheCheck_miss by done.
      by apply H3.
    + intros r e Hok Hjson Hte.
      rewrite direct_fetchProductDetail_run, cacheCheck_miss by done.
      by apply H4.
  - intros productVariantId quantity proxy Hdecides.
    pose proof (proxyThenDirect_surfaces env
                  (ApiDirect.proxyRequest env "POST" "/api/cart"
                     (Some (ApiDirect.addToCartBody productVariantId quantity
                              (cookies w !! "cart_id"))))
                  (ApiDirect.directRequest env "POST"
                     ("https://" +:+ ApiDirect.DOMAIN_NAME env +:+ "/storefront/api/v1/cart")
                     (Some (ApiDirect.addToCartBody productVariantId quantity
                              (cookies w !! "cart_id"))))
                  proxy (ApiDirect.failed "Failed to add to cart")
                  (fun status text =>
                     "Failed to add to cart: " +:+ pretty status +:+ " " +:+ text)
                  (ApiDirect.restartHint "add to cart")
                  (ApiDirect.saveCartId env (cookies w !! "cart_id")) w Hdecides
                  (fun _ _ => eq_refl)) as (H1 & H2 & H3 & H4).
    split; [|split; [|split]].
    + intros m Hm. rewrite direct_addToCart_run. by apply H1.
    + intros m Hm. rewrite direct_addToCart_run. by apply H2.
    + intros r Hok. rewrite direct_addToCart_run. by apply H3.
    + intros r e Hok Hjson Hte. rewrite direct_addToCart_run. by apply H4.
  - intros cartId proxy Hdecides.
    by apply (proxyThenDirect_surfaces env _ _ proxy
                (ApiDirect.failed "Failed to get cart items")).
  - intros cartId proxy Hdecides.
    by apply (proxyThenDirect_surfaces env _ _ proxy
                (ApiDirect.failed "Failed to get checkout data")).
  - intros cartId addressData proxy Hdecides.
    by apply (proxyThenDirect_surfaces env _ _ proxy
                (ApiDirect.failed "Failed to submit checkout address")).
  - intros cartId shippingMethodId proxy Hdecides.
    by apply (proxyThenDirect_surfaces env _ _ proxy
                (ApiDirect.failed "Failed to submit shipping method")).
  - intros cartId paymentMode proxy Hdecides.
    by apply (proxyThenDirect_surfaces env _ _ proxy
                (ApiDirect.failed "Failed to process payment")).
Qed.

Lemma direct_channel_failures_surface_witness :
  fst (ApiDirect.getCartItems devEnv "c1" (Rejected "Failed to fetch") serverError
         emptyWorld)
  = Throw (Error "Failed to get cart items: 500 upstream failed")
  /\ fst (ApiDirect.fetchProducts prodEnv serverError (Rejected "Failed to fetch")
            emptyWorld)
     = Throw (Error "CORS error: Unable to fetch products. Please ensure CORS is enabled on the API or use the proxy.").
Proof.
  destruct (direct_channel_failures_surface devEnv emptyWorld)
    as (_ & _ & _ & Hcart & _).
  destruct (direct_channel_failures_surface prodEnv emptyWorld) as (Hproducts & _).
  split.
  - destruct (Hcart "c1" (Rejected "Failed to fetch") (or_intror eq_refl))
      as (_ & _ & Hstatus & _).
    exact (Hstatus {| status := 500; statusText := "Internal Server Error";
                      text := Some "upstream failed";
                      json := Throw (SyntaxError "Unexpected token u in JSON") |}
             eq_refl).
  - destruct (Hproducts serverError (or_introl eq_refl)) as (Hcors & _).
    exact (Hcors "Failed to fetch" eq_refl).
Defined.

(* ===================================================================== *)
(** * What a product-detail call leaves in the cache *)
(* ===================================================================== *)

Lemma onlyFetched_refl (w : World) : onlyFetched w w.
Proof. by repeat split. Qed.

Lemma onlyFetched_withRequest (req : Request) (w w0 : World) :
  onlyFetched w w0 -> onlyFetched w (withRequest req w0).
Proof. by intros (? & ? & ? & ? & ?). Qed.

Lemma direct_cacheDetail_run (env : Env) (variantId : string) (b : DetailResponse.t)
    (w : World) :
  ApiDirect.cacheDetail env variantId b w =
  match probeProduct b with
  | Return p =>
      (Return p,
       withProductCache
         (insert variantId {| product := p; timestamp := clock env (clockReads w) |})
         (withClockRead w))
  | Throw e => (Throw e, w)
  end.
Proof.
  unfold ApiDirect.cacheDetail, bind at 1. unfold settle.
  by destruct (probeProduct b).
Qed.

(** A call that the cache answers. *)
Lemma direct_fetchProductDetail_hit (env : Env) (variantId : string)
    (proxy direct : FetchOutcome DetailResponse.t) (w : World) (e : CacheEntry) :
  productCache w !! variantId = Some e ->
  clock env (clockReads w) - timestamp e < 5 * 60 * 1000 ->
  ApiDirect.fetchProductDetail env variantId proxy direct w
  = (Return (product e), withClockRead w).
Proof.
  intros Hentry Hfresh. apply fresh_iff in Hfresh.
  by rewrite direct_fetchProductDetail_run, cacheCheck_run, Hentry, Hfresh.
Qed.

Lemma webhook_fetchProductDetail_hit (env : Env) (variantId : string)
    (outcome : FetchOutcome DetailResponse.t) (w : World) (e : CacheEntry) :
  productCache w !! variantId = Some e ->
  clock env (clockReads w) - timestamp e < 5 * 60 * 1000 ->
  ApiWebhook.fetchProductDetail env variantId outcome w
  = (Return (product e), withClockRead w).
Proof.
  intros Hentry Hfresh. apply fresh_iff in Hfresh.
  by rewrite webhook_fetchProductDetail_run, cacheCheck_run, Hentry, Hfresh.
Qed.

(** What the cache check leaves behind when it does not answer. *)
Lemma cacheCheck_unanswered (env : Env) (variantId : string) (w w' : World) :
  cacheCheck env variantId w = (Return None, w') ->
  productCache w' = productCache w
  /\ productsListCache w' = productsListCache w
  /\ cookies w' = cookies w /\ cookieWrites w' = cookieWrites w
  /\ requests w' = requests w
  /\ (clockReads w <= clockReads w')%nat
  /\ (productCache w !! variantId = None -> w' = w).
Proof.
  rewrite cacheCheck_run.
  destruct (productCache w !! variantId) as [e|].
  - intros [= _ <-]. simpl. repeat split; try done. lia.
  - intros [= <-]. repeat split; try done.
Qed.

(** One attempt of the proxy/direct revision that caches what it finds. *)
Lemma direct_attempt_cacheDetail (env : Env) (req : Request)
    (o : FetchOutcome DetailResponse.t) (variantId : string) (w : World) :
  (exists p,
     ApiDirect.attempt req o ApiDirect.apiReturned (ApiDirect.cacheDetail env variantId) w
     = (Return p,
        withProductCache
          (insert variantId {| product := p; timestamp := clock env (clockReads w) |})
          (withClockRead (withRequest req w))))
  \/ (exists e,
        ApiDirect.attempt req o ApiDirect.apiReturned
          (ApiDirect.cacheDetail env variantId) w
        = (Throw e, withRequest req w)).
Proof.
  rewrite (attempt_run env).
  destruct o as [r|m]; [|right; by eexists].
  destruct (ok r); [|right; by eexists].
  destruct (json r) as [b|e]; [|right; by eexists].
  rewrite direct_cacheDetail_run.
  destruct (probeProduct b) as [p|e]; [left|right]; by eexists.
Qed.

(** How the fetching part of the proxy/direct revision ends: with a product
    that it has just cached, or with an error and the cache as it was. *)
Lemma direct_fetch_and_cache (env : Env) (pr dr : Request)
    (proxy direct : FetchOutcome DetailResponse.t) (corsMessage : string)
    (variantId : string) (w : World) :
  (exists p w0,
     onlyFetched w w0 /\
     ApiDirect.proxyThenDirect env pr dr proxy direct ApiDirect.apiReturned corsMessage
       (ApiDirect.cacheDetail env variantId) w
     = (Return p,
        withProductCache
          (insert variantId {| product := p; timestamp := clock env (clockReads w) |})
          (withClockRead w0)))
  \/ (exists e w0,
        onlyFetched w w0 /\
        ApiDirect.proxyThenDirect env pr dr proxy direct ApiDirect.apiReturned
          corsMessage (ApiDirect.cacheDetail env variantId) w
        = (Throw e, w0)).
Proof.
  rewrite proxyThenDirect_run.
  assert (Hdirect : forall w1, onlyFetched w w1 ->
    (exists p w0, onlyFetched w w0 /\
       tryCatch (ApiDirect.attempt dr direct ApiDirect.apiReturned
                   (ApiDirect.cacheDetail env variantId)) (rethrow corsMessage) w1
       = (Return p,
          withProductCache
            (insert variantId {| product := p; timestamp := clock env (clockReads w) |})
            (withClockRead w0)))
    \/ (exists e w0, onlyFetched w w0 /\
          tryCatch (ApiDirect.attempt dr direct ApiDirect.apiReturned
                      (ApiDirect.cacheDetail env variantId)) (rethrow corsMessage) w1
          = (Throw e, w0))).
  { intros w1 Hw1. unfold tryCatch.
    destruct (direct_attempt_cacheDetail env dr direct variantId w1)
      as [[p ->]|[e ->]].
    - left. exists p, (withRequest dr w1).
      split; [by apply onlyFetched_withRequest|].
      destruct Hw1 as (_ & _ & _ & _ & ->). done.
    - right. rewrite rethrow_run. eexists _, (withRequest dr w1).
      split; [by apply onlyFetched_withRequest | done]. }
  destruct (DEV env); [|apply Hdirect, onlyFetched_refl].
  destruct (direct_attempt_cacheDetail env pr proxy variantId w) as [[p ->]|[e ->]].
  - left. exists p, (withRequest pr w).
    split; [apply onlyFetched_withRequest, onlyFetched_refl | done].
  - apply Hdirect, onlyFetched_withRequest, onlyFetched_refl.
Qed.

Lemma listCacheCheck_run (env : Env) (variantId : string) (w : World) :
  ApiWebhook.listCacheCheck env variantId w =
  match productsListCache w with
  | Some c =>
      if clock env (clockReads w) - listTimestamp c <? CACHE_DURATION then
        match List.find (ApiWebhook.matchesId variantId) (products c) with
        | Some p =>
            (Return (Some p),
             withProductCache
               (insert variantId
                  {| product := p; timestamp := clock env (S (clockReads w)) |})
               (withClockRead (withClockRead w)))
        | None => (Return None, withClockRead w)
        end
      else (Return None, withClockRead w)
  | None => (Return None, w)
  end.
Proof.
  unfold ApiWebhook.listCacheCheck, bind at 1. unfold gets at 1.
  destruct (productsListCache w) as [c|]; [|done].
  unfold bind at 1. unfold Date_now at 1. simpl clockReads.
  destruct (clock env (clockReads w) - listTimestamp c <? CACHE_DURATION); [|done].
  by destruct (List.find (ApiWebhook.matchesId variantId) (products c)).
Qed.

(** What the webhook revision leaves in the cache under the requested id
    after a fetch. *)
Lemma webhook_cacheDetail_cached (env : Env) (variantId : string)
    (b : DetailResponse.t) (w : World) :
  match probeProduct b with
  | Return p =>
      exists w3 i,
        ApiWebhook.cacheDetail env variantId b w = (Return p, w3)
        /\ (clockReads w <= i < clockReads w3)%nat
        /\ productCache w3 !! variantId
           = Some {| product := p; timestamp := clock env i |}
  | Throw e => ApiWebhook.cacheDetail env variantId b w = (Throw e, w)
  end.
Proof.
  unfold ApiWebhook.cacheDetail. unfold bind at 1. unfold settle.
  destruct (probeProduct b) as [p|e]; [|done].
  unfold bind at 1. rewrite productCache_set_run.
  set (w1 := withProductCache _ _).
  assert (Hstep : exists w2,
            (if truthy (Product.product_id p)
             then productCache_set env (Product.product_id p) p
             else ret tt) w1 = (Return tt, w2)
            /\ exists i, (clockReads w <= i < clockReads w2)%nat
                         /\ productCache w2 !! variantId
                            = Some {| product := p; timestamp := clock env i |}).
  { destruct (truthy (Product.product_id p)).
    - rewrite productCache_set_run. eexists. split; [done|]. simpl.
      destruct (decide (Product.product_id p = variantId)) as [->|Hne].
      + exists (S (clockReads w)). split; [lia|]. apply lookup_insert_eq.
      + exists (clockReads w). split; [lia|].
        rewrite lookup_insert_ne by done. apply lookup_insert_eq.
    - exists w1. split; [done|].
      exists (clockReads w). split; [simpl; lia | apply lookup_insert_eq]. }
  destruct Hstep as (w2 & Hrun2 & i2 & Hi2 & H2).
  unfold bind at 1. rewrite Hrun2.
  unfold bind at 1.
  destruct (cacheVariants_fills env p (Product.variants p) w2)
    as (Hret & Hle & Hin & Hout).
  fold (ApiWebhook.cacheVariants env p) in *.
  destruct (ApiWebhook.cacheVariants env p w2) as [[[]|e] w3]; simpl in *; [|done].
  unfold ret.
  destruct (in_dec String.string_dec variantId
              (List.filter truthy (map ProductVariant.variant_id (Product.variants p))))
    as [Hkey|Hkey].
  - destruct (Hin variantId Hkey) as (i & Hi & Hlook).
    exists w3, i. split; [done|]. split; [lia | done].
  - exists w3, i2. split; [done|]. split; [lia|]. by rewrite (Hout variantId Hkey).
Qed.

(** How the fetching part of the webhook revision ends. *)
Lemma webhook_fetch_and_cache (env : Env) (req : Request)
    (outcome : FetchOutcome DetailResponse.t) (corsMessage : string)
    (variantId : string) (w : World) :
  let run := ApiWebhook.viaWebhook req outcome ApiWebhook.apiReturned corsMessage
               (ApiWebhook.cacheDetail env variantId) w in
  (exists p i,
     fst run = Return p
     /\ (clockReads w <= i < clockReads (snd run))%nat
     /\ productCache (snd run) !! variantId
        = Some {| product := p; timestamp := clock env i |})
  \/ (exists e, run = (Throw e, withRequest req w)).
Proof.
  cbv zeta. rewrite viaWebhook_run.
  destruct outcome as [r|m]; [|right; rewrite rethrow_run; by eexists].
  destruct (ok r); [|right; rewrite rethrow_run; by eexists].
  destruct (json r) as [b|e]; [|right; rewrite rethrow_run; by eexists].
  pose proof (webhook_cacheDetail_cached env variantId b (withRequest req w)) as Hc.
  unfold tryCatch.
  destruct (probeProduct b) as [p|e].
  - destruct Hc as (w3 & i & -> & Hi & Hlook). left. by exists p, i.
  - right. rewrite Hc, rethrow_run. by eexists.
Qed.

(** X4.  A successful [fetchProductDetail] leaves the product it returned in
    the cache under the requested id (stamped during the call when the
    cache had no entry for the id), and a further call for the same id made
    while that entry is younger than five minutes returns the same product
    without calling [fetch], whatever the network would answer.  A failed
    call leaves the product cache as it was.  This holds in both revisions
    of the request client. *)
Theorem fetched_product_is_served_from_the_cache
    (env : Env) (variantId : string) (w : World) :
  (forall proxy direct proxy' direct' product,
     fst (ApiDirect.fetchProductDetail env variantId proxy direct w) = Return product ->
     cachedFor env variantId product w
       (ApiDirect.fetchProductDetail env variantId proxy direct w)
       (ApiDirect.fetchProductDetail env variantId proxy' direct'))
  /\ (forall proxy direct e,
        fst (ApiDirect.fetchProductDetail env variantId proxy direct w) = Throw e ->
        productCache (snd (ApiDirect.fetchProductDetail env variantId proxy direct w))
        = productCache w)
  /\ (forall outcome outcome' product,
        fst (ApiWebhook.fetchProductDetail env variantId outcome w) = Return product ->
        cachedFor env variantId product w
          (ApiWebhook.fetchProductDetail env variantId outcome w)
          (ApiWebhook.fetchProductDetail env variantId outcome'))
  /\ (forall outcome e,
        fst (ApiWebhook.fetchProductDetail env variantId outcome w) = Throw e ->
        productCache (snd (ApiWebhook.fetchProductDetail env variantId outcome w))
        = productCache w).
Proof.
  split; [|split; [|split]].
  - intros proxy direct proxy' direct' product.
    rewrite direct_fetchProductDetail_run.
    destruct (cacheCheck env variantId w) as [[[p|]|e] w'] eqn:Hcheck; [| |done].
    + (* the cache answered *)
      rewrite cacheCheck_run in Hcheck.
      destruct (productCache w !! variantId) as [[p0 t0]|] eqn:Hentry; [|done].
      destruct (fresh _ _) eqn:Hfresh; [|done].
      injection Hcheck as <- <-. simpl. intros [= <-].
      exists t0. split; [done|]. split; [intros Hnone; congruence|].
      intros Hyoung.
      exact (direct_fetchProductDetail_hit env variantId proxy' direct' (withClockRead w)
               {| product := p0; timestamp := t0 |} Hentry Hyoung).
    + (* the product was fetched *)
      destruct (cacheCheck_unanswered env variantId w w' Hcheck)
        as (Hcache & _ & _ & _ & _ & Hreads & Hmiss).
      destruct (direct_fetch_and_cache env
                  (ApiDirect.proxyRequest env "GET" ("/api/products/" +:+ variantId) None)
                  (ApiDirect.directRequest env "GET"
                     ("https://" +:+ ApiDirect.DOMAIN_NAME env
                      +:+ "/storefront/api/v1/products/" +:+ variantId) None)
                  proxy direct (ApiDirect.restartHint "fetch product") variantId w')
        as [(p & w0 & Hw0 & ->)|(e & w0 & Hw0 & ->)]; [|done].
      simpl. intros [= <-].
      destruct Hw0 as (_ & _ & _ & _ & Hr0).
      exists (clock env (clockReads w')). split; [apply lookup_insert_eq|]. split.
      * intros Hnone. rewrite (Hmiss Hnone) in *.
        exists (clockReads w). simpl; split; [lia | done].
      * intros Hyoung.
        apply (direct_fetchProductDetail_hit env variantId proxy' direct' _
                 {| product := p; timestamp := clock env (clockReads w') |});
          [apply lookup_insert_eq | exact Hyoung].
  - intros proxy direct e.
    rewrite direct_fetchProductDetail_run.
    destruct (cacheCheck env variantId w) as [[[p|]|e0] w'] eqn:Hcheck.
    + done.
    + destruct (cacheCheck_unanswered env variantId w w' Hcheck) as (Hcache & _).
      destruct (direct_fetch_and_cache env
                  (ApiDirect.proxyRequest env "GET" ("/api/products/" +:+ variantId) None)
                  (ApiDirect.directRequest env "GET"
                     ("https://" +:+ ApiDirect.DOMAIN_NAME env
                      +:+ "/storefront/api/v1/products/" +:+ variantId) None)
                  proxy direct (ApiDirect.restartHint "fetch product") variantId w')
        as [(p & w0 & Hw0 & ->)|(e1 & w0 & Hw0 & ->)]; [done|].
      intros _. simpl. destruct Hw0 as (-> & _). exact Hcache.
    + rewrite cacheCheck_run in Hcheck.
      by destruct (productCache w !! variantId).
  - intros outcome outcome' product.
    rewrite webhook_fetchProductDetail_run.
    destruct (cacheCheck env variantId w) as [[[p|]|e] w'] eqn:Hcheck; [| |done].
    + rewrite cacheCheck_run in Hcheck.
      destruct (productCache w !! variantId) as [[p0 t0]|] eqn:Hentry; [|done].
      destruct (fresh _ _) eqn:Hfresh; [|done].
      injection Hcheck as <- <-. simpl. intros [= <-].
      exists t0. split; [done|]. split; [intros Hnone; congruence|].
      intros Hyoung.
      exact (webhook_fetchProductDetail_hit env variantId outcome' (withClockRead w)
               {| product := p0; timestamp := t0 |} Hentry Hyoung).
    + destruct (cacheCheck_unanswered env variantId w w' Hcheck)
        as (Hcache & Hlist & _ & _ & _ & Hreads & Hmiss).
      rewrite listCacheCheck_run.
      destruct (productsListCache w') as [c|] eqn:Hc.
      * destruct (clock env (clockReads w') - listTimestamp c <? CACHE_DURATION).
        -- destruct (List.find (ApiWebhook.matchesId variantId) (products c)) as [p|].
           ++ (* the remembered list answered *)
              simpl. intros [= <-].
              exists (clock env (S (clockReads w'))).
              split; [apply lookup_insert_eq|]. split.
              ** intros _. exists (S (clockReads w')). simpl; split; [lia | done].
              ** intros Hyoung.
                 apply (webhook_fetchProductDetail_hit env variantId outcome' _
                          {| product := p; timestamp := clock env (S (clockReads w')) |});
                   [apply lookup_insert_eq | exact Hyoung].
           ++ destruct (webhook_fetch_and_cache env
                          (ApiWebhook.webhookRequest "get-product-detail"
                             (Some (JObject [("variant_id", JString variantId)])))
                          outcome (ApiWebhook.enableCorsHint "fetch product") variantId
                          (withClockRead w'))
                as [(p & i & Hfst & Hi & Hlook)|(e & ->)]; [|done].
              rewrite Hfst. intros [= <-].
              exists (clock env i). split; [done|]. split.
              ** intros _. exists i. simpl in Hi. split; [lia | done].
              ** intros Hyoung.
                 exact (webhook_fetchProductDetail_hit env variantId outcome' _ _
                          Hlook Hyoung).
        -- destruct (webhook_fetch_and_cache env
                       (ApiWebhook.webhookRequest "get-product-detail"
                          (Some (JObject [("variant_id", JString variantId)])))
                       outcome (ApiWebhook.enableCorsHint "fetch product") variantId
                       (withClockRead w'))
             as [(p & i & Hfst & Hi & Hlook)|(e & ->)]; [|done].
           rewrite Hfst. intros [= <-].
           exists (clock env i). split; [done|]. split.
           ++ intros _. exists i. simpl in Hi. split; [lia | done].
           ++ intros Hyoung.
              exact (webhook_fetchProductDetail_hit env variantId outcome' _ _
                       Hlook Hyoung).
      * destruct (webhook_fetch_and_cache env
                    (ApiWebhook.webhookRequest "get-product-detail"
                       (Some (JObject [("variant_id", JString variantId)])))
                    outcome (ApiWebhook.enableCorsHint "fetch product") variantId w')
          as [(p & i & Hfst & Hi & Hlook)|(e & ->)]; [|done].
        rewrite Hfst. intros [= <-].
        exists (clock env i). split; [done|]. split.
        -- intros _. exists i. simpl; split; [lia | done].
        -- intros Hyoung.
           exact (webhook_fetchProductDetail_hit env variantId outcome' _ _
                    Hlook Hyoung).
  - intros outcome e.
    rewrite webhook_fetchProductDetail_run.
    destruct (cacheCheck env variantId w) as [[[p|]|e0] w'] eqn:Hcheck.
    + done.
    + destruct (cacheCheck_unanswered env variantId w w' Hcheck) as (Hcache & _).
      rewrite listCacheCheck_run.
      assert (Hvia : forall w1, productCache w1 = productCache w ->
                fst (ApiWebhook.viaWebhook
                       (ApiWebhook.webhookRequest "get-product-detail"
                          (Some (JObject [("variant_id", JString variantId)])))
                       outcome ApiWebhook.apiReturned
                       (ApiWebhook.enableCorsHint "fetch product")
                       (ApiWebhook.cacheDetail env variantId) w1) = Throw e ->
                productCache
                  (snd (ApiWebhook.viaWebhook
                          (ApiWebhook.webhookRequest "get-product-detail"
                             (Some (JObject [("variant_id", JString variantId)])))
                          outcome ApiWebhook.apiReturned
                          (ApiWebhook.enableCorsHint "fetch product")
                          (ApiWebhook.cacheDetail env variantId) w1))
                = productCache w).
      { intros w1 Hw1.
        destruct (webhook_fetch_and_cache env
                    (ApiWebhook.webhookRequest "get-product-detail"
                       (Some (JObject [("variant_id", JString variantId)])))
                    outcome (ApiWebhook.enableCorsHint "fetch product") variantId w1)
          as [(p & i & Hfst & _)|(e1 & ->)]; [by rewrite Hfst | done]. }
      destruct (productsListCache w') as [c|].
      * destruct (clock env (clockReads w') - listTimestamp c <? CACHE_DURATION).
        -- destruct (List.find (ApiWebhook.matchesId variantId) (products c)); [done|].
           apply Hvia. exact Hcache.
        -- apply Hvia. exact Hcache.
      * apply Hvia. exact Hcache.
    + rewrite cacheCheck_run in Hcheck.
      by destruct (productCache w !! variantId).
Qed.

Lemma fetched_product_is_served_from_the_cache_witness :
  ApiDirect.fetchProductDetail devEnv "v1" serverError serverError
    (snd (ApiDirect.fetchProductDetail devEnv "v1" (answered (bare tablets)) serverError
            emptyWorld))
  = (Return tablets,
     withClockRead
       (snd (ApiDirect.fetchProductDetail devEnv "v1" (answered (bare tablets))
               serverError emptyWorld))).
Proof.
  destruct (fetched_product_is_served_from_the_cache devEnv "v1" emptyWorld)
    as (Hdirect & _).
  destruct (Hdirect (answered (bare tablets)) serverError serverError serverError
              tablets eq_refl) as (t & _ & Hstamp & Hagain).
  destruct (Hstamp eq_refl) as (i & Hi & ->).
  apply Hagain.
  assert (i = 0%nat) as -> by (vm_compute in Hi; lia).
  vm_compute. reflexivity.
Defined.

(* ===================================================================== *)
(** * The cart id from one add-to-cart to the next *)
(* ===================================================================== *)

(** The calls of [fetch] that [proxyThenDirect] can make. *)
Lemma proxyThenDirect_requests_among (env : Env) {B R} (pr dr : Request)
    (proxy direct : FetchOutcome B) (failure : Z -> string -> string)
    (corsMessage : string) (onOk : B -> Js World R) (w : World) :
  (forall b, silent (onOk b)) ->
  exists sent,
    requests (snd (ApiDirect.proxyThenDirect env pr dr proxy direct failure
                     corsMessage onOk w))
    = requests w ++ sent
    /\ sent <> []
    /\ Forall (fun req => req = pr \/ req = dr) sent.
Proof.
  intros Hs. rewrite proxyThenDirect_run.
  pose proof (attempt_requests env pr proxy failure onOk w Hs) as Hp.
  destruct (DEV env).
  - destruct (ApiDirect.attempt pr proxy failure onOk w) as [[r|e] w']; simpl in Hp.
    + exists [pr]. split; [done|]. split; [done|].
      constructor; [by left | constructor].
    + exists [pr; dr].
      rewrite tryCatch_rethrow_world, (attempt_requests env) by done.
      rewrite Hp, <- app_assoc. split; [done|]. split; [done|].
      constructor; [by left|]. constructor; [by right | constructor].
  - exists [dr]. rewrite tryCatch_rethrow_world, (attempt_requests env) by done.
    split; [done|]. split; [done|]. constructor; [by right | constructor].
Qed.

(** After an add-to-cart that returned a response carrying the truthy cart
    id [c], the cookie store of [w1] holds [c], given that the cookie store
    of [w0], on which the code after [response.ok] ran, was that of [w]. *)
Lemma carried_cart_id_is_stored (env : Env) (stored carried : option string)
    (c : string) (w0 : World) :
  stored = cookies w0 !! "cart_id" ->
  carried = Some c ->
  truthy c = true ->
  storedWhole env c (cookies w0) ->
  cookies
    match carried with
    | Some c =>
        if truthy c && strictNeqOpt c stored
        then withCookies (assignCookie env "cart_id" c 30) (SetCookie "cart_id" c 30) w0
        else w0
    | None => w0
    end !! "cart_id" = Some c.
Proof.
  intros Hstored -> Htruthy Hwhole. rewrite Htruthy. simpl.
  destruct (strictNeqOpt c stored) eqn:Hneq.
  - simpl. rewrite Hwhole. apply lookup_insert_eq.
  - rewrite <- Hstored.
    destruct stored as [s|]; [|done]. simpl in Hneq.
    apply negb_false_iff in Hneq. unfold strictEq in Hneq.
    apply bool_decide_eq_true in Hneq. by subst.
Qed.

(** X5.  The cart id travels from one add-to-cart to the next through the
    cookie.  Take a successful [addToCart] whose response carries a
    non-empty cart id ([cart_id], else [payload.cart_id]) that the browser
    stores as it is when the [cart_id] cookie is assigned ([setCookie]
    writes the id into the cookie text without encoding it, so this leaves
    out ids with a semicolon or outer blanks).  Afterwards [getCartId]
    returns that id, and the body of every request that the next
    [addToCart] sends holds it as [cart_id], next to the variant id and the
    quantity.  This holds in both revisions. *)
Theorem carried_cart_id_is_sent_with_the_next_add
    (env : Env) (w : World) (productVariantId : string) (quantity : Z)
    (response : AddToCartResponse.t) (c : string) :
  truthy c = true ->
  storedWhole env c (cookies w) ->
  (forall proxy direct,
     fst (ApiDirect.addToCart env productVariantId quantity proxy direct w)
     = Return response ->
     ApiDirect.carriedCartId response = Some c ->
     let w1 := snd (ApiDirect.addToCart env productVariantId quantity proxy direct w) in
     fst (Cookies.getCartId w1) = Return (Some c)
     /\ forall productVariantId' quantity' proxy' direct',
          exists sent,
            requests (snd (ApiDirect.addToCart env productVariantId' quantity'
                             proxy' direct' w1))
            = requests w1 ++ sent
            /\ sent <> []
            /\ Forall (fun req =>
                         body req
                         = Some (JObject [("product_variant_id", JString productVariantId');
                                          ("quantity", JNumber quantity');
                                          ("cart_id", JString c)]))
                      sent)
  /\ (forall outcome,
        fst (ApiWebhook.addToCart env productVariantId quantity outcome w)
        = Return response ->
        ApiWebhook.carriedCartId response = Some c ->
        let w1 := snd (ApiWebhook.addToCart env productVariantId quantity outcome w) in
        fst (Cookies.getCartId w1) = Return (Some c)
        /\ forall productVariantId' quantity' outcome',
             exists req,
               requests (snd (ApiWebhook.addToCart env productVariantId' quantity'
                                outcome' w1))
               = requests w1 ++ [req]
               /\ body req
                  = Some (JObject [("product_variant_id", JString productVariantId');
                                   ("quantity", JNumber quantity');
                                   ("cart_id", JString c)])).
Proof.
  intros Htruthy Hwhole. split.
  - intros proxy direct Hret Hcarried w1.
    assert (Hstored : cookies w1 !! "cart_id" = Some c).
    { subst w1. revert Hret. rewrite direct_addToCart_run. cbv zeta.
      set (stored := cookies w !! "cart_id").
      set (pr := ApiDirect.proxyRequest env "POST" "/api/cart" _).
      set (dr := ApiDirect.directRequest env "POST" _ _).
      assert (Hnever : neverThrows (ApiDirect.saveCartId env stored)).
      { intros b w0. exists b. by rewrite direct_saveCartId_run. }
      destruct (proxyThenDirect_cases env pr dr proxy direct
                  (ApiDirect.failed "Failed to add to cart")
                  (ApiDirect.restartHint "add to cart")
                  (ApiDirect.saveCartId env stored) w Hnever)
        as [(b & w0 & [Hsame _] & ->) | (e & w0 & Hsame & ->)]; [|done].
      rewrite direct_saveCartId_run. simpl. intros [= ->].
      apply (carried_cart_id_is_stored env stored);
        [by rewrite Hsame | done | done | by unfold storedWhole; rewrite Hsame]. }
    split; [by unfold Cookies.getCartId, Cookies.getCookie, gets; simpl; rewrite Hstored|].
    intros productVariantId' quantity' proxy' direct'.
    rewrite direct_addToCart_run. cbv zeta. rewrite Hstored.
    destruct (proxyThenDirect_requests_among env
                (ApiDirect.proxyRequest env "POST" "/api/cart"
                   (Some (ApiDirect.addToCartBody productVariantId' quantity' (Some c))))
                (ApiDirect.directRequest env "POST"
                   ("https://" +:+ ApiDirect.DOMAIN_NAME env +:+ "/storefront/api/v1/cart")
                   (Some (ApiDirect.addToCartBody productVariantId' quantity' (Some c))))
                proxy' direct' (ApiDirect.failed "Failed to add to cart")
                (ApiDirect.restartHint "add to cart")
                (ApiDirect.saveCartId env (Some c)) w1
                (silent_direct_saveCartId env (Some c)))
      as (sent & Hsent & Hne & Hall).
    exists sent. split; [exact Hsent|]. split; [exact Hne|].
    eapply Forall_impl; [exact Hall|].
    intros req [->| ->]; simpl; unfold ApiDirect.addToCartBody; by rewrite Htruthy.
  - intros outcome Hret Hcarried w1.
    assert (Hstored : cookies w1 !! "cart_id" = Some c).
    { subst w1. revert Hret. rewrite webhook_addToCart_run. cbv zeta.
      set (stored := cookies w !! "cart_id").
      set (req := ApiWebhook.webhookRequest "add-to-cart" _).
      assert (Hnever : neverThrows (ApiWebhook.saveCartId env stored)).
      { intros b w0. exists b. by rewrite webhook_saveCartId_run. }
      destruct (parsed outcome) as [b|] eqn:Hparsed.
      - rewrite (viaWebhook_parsed req outcome _ _ _ w b Hnever Hparsed).
        rewrite webhook_saveCartId_run. simpl. intros [= ->].
        by apply (carried_cart_id_is_stored env stored).
      - destruct (viaWebhook_unparsed req outcome
                    (ApiWebhook.failed "Failed to add to cart")
                    (ApiWebhook.enableCorsHint "add to cart")
                    (ApiWebhook.saveCartId env stored) w Hparsed) as [e ->].
        done. }
    split; [by unfold Cookies.getCartId, Cookies.getCookie, gets; simpl; rewrite Hstored|].
    intros productVariantId' quantity' outcome'.
    rewrite webhook_addToCart_run. cbv zeta. rewrite Hstored.
    eexists. split.
    + apply viaWebhook_requests. intros b w0. rewrite webhook_saveCartId_run.
      cbn [snd].
      destruct (ApiWebhook.carriedCartId b) as [c'|]; [|done].
      by destruct (truthy c' && strictNeqOpt c' (Some c)).
    + simpl. unfold ApiWebhook.addToCartBody. by rewrite Htruthy.
Qed.

Lemma carried_cart_id_is_sent_with_the_next_add_witness :
  let w1 := snd (ApiWebhook.addToCart devEnv "v1" 1 (answered (addedTo (Some "c7")))
                   emptyWorld) in
  fst (Cookies.getCartId w1) = Return (Some "c7")
  /\ exists req,
       requests (snd (ApiWebhook.addToCart devEnv "v2" 3 serverError w1))
       = requests w1 ++ [req]
       /\ body req
          = Some (JObject [("product_variant_id", JString "v2");
                           ("quantity", JNumber 3); ("cart_id", JString "c7")]).
Proof.
  destruct (carried_cart_id_is_sent_with_the_next_add devEnv emptyWorld "v1" 1
              (addedTo (Some "c7")) "c7" eq_refl eq_refl) as [_ Hwebhook].
  destruct (Hwebhook (answered (addedTo (Some "c7"))) eq_refl eq_refl)
    as [Hstored Hnext].
  split; [exact Hstored | exact (Hnext "v2" 3 serverError)].
Defined.

(* ===================================================================== *)
(** * Opening a listed product *)
(* ===================================================================== *)

(** What caching a product list does not touch. *)
Lemma productCache_set_frame (env : Env) (key : string) (p : Product.t) (w : World) :
  productsListCache (snd (productCache_set env key p w)) = productsListCache w
  /\ requests (snd (productCache_set env key p w)) = requests w.
Proof. by rewrite productCache_set_run. Qed.

Lemma forEach_frame {A} (l : list A) (f : A -> Js World unit) (w : World) :
  (forall a w0, productsListCache (snd (f a w0)) = productsListCache w0
                /\ requests (snd (f a w0)) = requests w0) ->
  productsListCache (snd (forEach l f w)) = productsListCache w
  /\ requests (snd (forEach l f w)) = requests w.
Proof.
  intros Hf. revert w. induction l as [|a l IH]; intros w; [done|].
  rewrite forEach_cons. destruct (Hf a w) as [Hl Hr].
  destruct (f a w) as [[[]|e] w']; simpl in *; [|done].
  destruct (IH w') as [Hl' Hr']. split; congruence.
Qed.

Lemma cacheProduct_frame (env : Env) (p : Product.t) (w : World) :
  productsListCache (snd (ApiWebhook.cacheProduct env p w)) = productsListCache w
  /\ requests (snd (ApiWebhook.cacheProduct env p w)) = requests w.
Proof.
  unfold ApiWebhook.cacheProduct, bind. rewrite productCache_set_run.
  set (w1 := withProductCache _ _).
  destruct (forEach_frame (Product.variants p)
              (fun variant =>
                 if truthy (ProductVariant.variant_id variant)
                 then productCache_set env (ProductVariant.variant_id variant) p
                 else ret tt) w1) as [Hl Hr].
  { intros v w0. destruct (truthy (ProductVariant.variant_id v)); [|done].
    apply productCache_set_frame. }
  fold (ApiWebhook.cacheVariants env p) in *.
  by destruct (ApiWebhook.cacheVariants env p w1) as [[[]|e] w2].
Qed.

(** A key of some listed product ends with a listed product that has that
    key, stamped while the list was cached. *)
Lemma cacheProducts_some (env : Env) (ps : list Product.t) (w : World) (key : string) :
  (exists q, In q ps /\ In key (cacheKeys q)) ->
  exists q i,
    In q ps /\ In key (cacheKeys q)
    /\ (clockReads w <= i < clockReads (snd (forEach ps (ApiWebhook.cacheProduct env) w)))%nat
    /\ productCache (snd (forEach ps (ApiWebhook.cacheProduct env) w)) !! key
       = Some {| product := q; timestamp := clock env i |}.
Proof.
  revert w. induction ps as [|p0 ps IH]; intros w (q & Hq & Hkey); [done|].
  rewrite forEach_cons.
  destruct (cacheProduct_fills env p0 w) as (Hret0 & Hle0 & Hin0 & Hout0).
  destruct (ApiWebhook.cacheProduct env p0 w) as [[[]|e] w1]; simpl in *; [|done].
  destruct (classic_in_later ps key p0) as [Hlater|Hnone].
  - destruct (IH w1 Hlater) as (q' & i & Hq' & Hk' & Hi & Hlook).
    exists q', i. split; [by right|]. split; [done|]. split; [lia | done].
  - destruct Hq as [<-|Hq]; [|by destruct (Hnone q Hq)].
    destruct (Hin0 key Hkey) as (i & Hi & Hlook).
    destruct (cacheProducts_fills env ps w1) as (_ & Hle & _ & Hout).
    exists p0, i. split; [by left|]. split; [done|]. split; [lia|].
    by rewrite (Hout key Hnone).
Qed.

Lemma cacheKeys_matchesId (key : string) (p : Product.t) :
  In key (cacheKeys p) -> ApiWebhook.matchesId key p = true.
Proof.
  unfold cacheKeys, ApiWebhook.matchesId, strictEq. intros [<-|Hkey].
  - by rewrite bool_decide_eq_true_2.
  - apply orb_true_iff. right. apply existsb_exists.
    apply filter_In in Hkey as [Hkey _]. apply in_map_iff in Hkey as (v & <- & Hv).
    exists v. split; [done|]. by apply bool_decide_eq_true_2.
Qed.

Lemma matchesId_cacheKeys (key : string) (p : Product.t) :
  ApiWebhook.matchesId key p = true -> truthy key = true -> In key (cacheKeys p).
Proof.
  unfold cacheKeys, ApiWebhook.matchesId, strictEq. intros Hmatch Htruthy.
  apply orb_true_iff in Hmatch as [Hid|Hvariant].
  - apply bool_decide_eq_true in Hid. by left.
  - right. apply existsb_exists in Hvariant as (v & Hv & Heq).
    apply bool_decide_eq_true in Heq. subst key.
    apply filter_In. split; [|done]. apply in_map_iff. by exists v.
Qed.

(** What [fetchProducts] of the webhook revision leaves behind when it
    returns a product list. *)
Lemma webhook_fetchProducts_listed (env : Env)
    (outcome : FetchOutcome ProductsResponse.t) (w : World)
    (data : ProductsResponse.t) (listed : list Product.t) :
  fst (ApiWebhook.fetchProducts env outcome w) = Return data ->
  productsOf data = Some listed ->
  let w1 := snd (ApiWebhook.fetchProducts env outcome w) in
  productsListCache w1
  = Some {| products := listed; listTimestamp := clock env (clockReads w) |}
  /\ (clockReads w < clockReads w1)%nat
  /\ (forall key, (exists q, In q listed /\ In key (cacheKeys q)) ->
        exists q i, In q listed /\ In key (cacheKeys q)
                    /\ (clockReads w < i < clockReads w1)%nat
                    /\ productCache w1 !! key
                       = Some {| product := q; timestamp := clock env i |}).
Proof.
  intros Hret Hlisted. cbv zeta. revert Hret. unfold ApiWebhook.fetchProducts.
  set (req := ApiWebhook.webhookRequest "get-products" None).
  destruct (parsed outcome) as [b|] eqn:Hparsed.
  - rewrite (viaWebhook_parsed req outcome _ _ _ w b (neverThrows_cacheProducts env)
               Hparsed).
    rewrite webhook_cacheProducts_run.
    destruct (productsOf b) as [ps|] eqn:Hps; simpl; intros [= ->]; [|congruence].
    assert (ps = listed) as -> by congruence.
    set (w0 := withProductsListCache _ _).
    destruct (forEach_frame listed (ApiWebhook.cacheProduct env) w0
                (cacheProduct_frame env)) as [Hl _].
    destruct (cacheProducts_fills env listed w0) as (_ & Hle & _).
    split; [by rewrite Hl|]. split; [simpl in Hle; lia|].
    intros key Hkey.
    destruct (cacheProducts_some env listed w0 key Hkey)
      as (q & i & Hq & Hk & Hi & Hlook).
    exists q, i. repeat split; try done; simpl in Hi; lia.
  - destruct (viaWebhook_unparsed req outcome (ApiWebhook.failed "Failed to fetch products")
                (ApiWebhook.enableCorsHint "fetch products")
                (ApiWebhook.cacheProducts env) w Hparsed) as [e ->].
    done.
Qed.

(** X6.  In the webhook revision, once [fetchProducts] has returned a
    product list, [fetchProductDetail] for any id that is the id of a listed
    product or of one of its variants makes no call to [fetch] as long as
    the lookup happens within five minutes of the moment the list was
    remembered: it returns a product from the cache or from the remembered
    list, and for a non-empty id that product is a listed one with that id.
    The id that [handleProductClick] of the home page selects for a listed
    product is such an id. *)
Theorem listed_product_opens_without_network
    (env : Env) (outcome : FetchOutcome ProductsResponse.t) (w : World)
    (data : ProductsResponse.t) (listed : list Product.t) :
  fst (ApiWebhook.fetchProducts env outcome w) = Return data ->
  productsOf data = Some listed ->
  let w1 := snd (ApiWebhook.fetchProducts env outcome w) in
  (forall j, (clockReads w1 <= j <= S (clockReads w1))%nat ->
             clock env j - clock env (clockReads w) < 5 * 60 * 1000) ->
  (forall item variantId outcome',
     In item listed ->
     ApiWebhook.matchesId variantId item = true ->
     exists found,
       fst (ApiWebhook.fetchProductDetail env variantId outcome' w1) = Return found
       /\ requests (snd (ApiWebhook.fetchProductDetail env variantId outcome' w1))
          = requests w1
       /\ (truthy variantId = true ->
           In found listed /\ ApiWebhook.matchesId variantId found = true))
  /\ (forall item s,
        exists variantId,
          HomePage.selectedVariantId (HomePage.handleProductClick item s)
          = Some variantId
          /\ ApiWebhook.matchesId variantId item = true).
Proof.
  intros Hret Hlisted w1 Hwindow.
  destruct (webhook_fetchProducts_listed env outcome w data listed Hret Hlisted)
    as (Hlist & Hreads & Hkeys).
  fold w1 in Hlist, Hreads, Hkeys.
  split.
  - intros item variantId outcome' Hin Hmatch.
    (* the search through the remembered list, from a world that still
       holds it *)
    assert (Hsearch : forall w2,
              productsListCache w2 = productsListCache w1 ->
              requests w2 = requests w1 ->
              (clockReads w1 <= clockReads w2 <= S (clockReads w1))%nat ->
              exists found w3,
                ApiWebhook.listCacheCheck env variantId w2 = (Return (Some found), w3)
                /\ requests w3 = requests w1
                /\ In found listed /\ ApiWebhook.matchesId variantId found = true).
    { intros w2 Hl2 Hr2 Hc2. rewrite listCacheCheck_run, Hl2, Hlist. simpl.
      assert (Hyoung : (clock env (clockReads w2) - clock env (clockReads w)
                        <? CACHE_DURATION) = true).
      { apply Z.ltb_lt. unfold CACHE_DURATION. by apply Hwindow. }
      rewrite Hyoung.
      destruct (List.find (ApiWebhook.matchesId variantId) listed) as [found|] eqn:Hfind.
      - apply find_some in Hfind as [Hfound Hm].
        eexists found, _. split; [done|]. by split.
      - by rewrite (find_none _ _ Hfind item Hin) in Hmatch. }
    rewrite webhook_fetchProductDetail_run, cacheCheck_run.
    destruct (productCache w1 !! variantId) as [e|] eqn:Hentry.
    + destruct (fresh (clock env (clockReads w1)) e) eqn:Hfresh.
      * exists (product e). split; [done|]. split; [done|].
        intros Htruthy.
        destruct (Hkeys variantId) as (q & i & Hq & Hk & _ & Hlook).
        { exists item. split; [done|]. by apply matchesId_cacheKeys. }
        rewrite Hlook in Hentry. injection Hentry as <-. simpl.
        split; [done|]. by apply cacheKeys_matchesId.
      * destruct (Hsearch (withClockRead w1)) as (found & w3 & -> & Hr3 & Hf & Hm);
          [done | done | simpl; lia |].
        exists found. by repeat split.
    + destruct (Hsearch w1) as (found & w3 & -> & Hr3 & Hf & Hm); [done | done | lia |].
      exists found. by repeat split.
  - intros item s. unfold HomePage.handleProductClick. simpl.
    eexists. split; [done|].
    unfold ApiWebhook.matchesId, strictEq.
    destruct (Product.variants item) as [|v vs]; simpl.
    + by rewrite bool_decide_eq_true_2.
    + rewrite (bool_decide_eq_true_2 (ProductVariant.variant_id v = ProductVariant.variant_id v))
        by done.
      simpl. apply orb_true_r.
Qed.

Lemma listed_product_opens_without_network_witness :
  let w1 := snd (ApiWebhook.fetchProducts devEnv (answered (productList [tablets; clashing]))
                   emptyWorld) in
  exists found,
    fst (ApiWebhook.fetchProductDetail devEnv "v1" serverError w1) = Return found
    /\ requests (snd (ApiWebhook.fetchProductDetail devEnv "v1" serverError w1))
       = requests w1
    /\ (truthy "v1" = true ->
        In found [tablets; clashing] /\ ApiWebhook.matchesId "v1" found = true).
Proof.
  destruct (listed_product_opens_without_network devEnv
              (answered (productList [tablets; clashing])) emptyWorld
              (productList [tablets; clashing]) [tablets; clashing] eq_refl eq_refl)
    as [Hopen _].
  - intros j Hj. vm_compute in Hj.
    assert (j = 5%nat \/ j = 6%nat) as [-> | ->] by lia; vm_compute; reflexivity.
  - exact (Hopen tablets "v1" serverError (or_introl eq_refl) eq_refl).
Defined.

(* ===================================================================== *)
(** * The checkout pages beyond their address step *)
(* ===================================================================== *)

Ltac run_guard Hnone :=
  unfold bind at 1, onWorld, Cookies.getCartId, Cookies.getCookie, gets;
  cbn [fst snd world]; rewrite Hnone; reflexivity.

(** Without a cart id every handler of the checkout pages stops at its
    guard: it shows the guard's message and does nothing else. *)
Lemma checkout_handlers_without_cart (p : Page Checkout.State) :
  noCart p ->
  forall render,
    (forall submitted,
       snd (Checkout.handleSubmit render submitted p)
       = withState (Checkout.withError
                      (Some "No cart found. Please add items to cart first.")) p)
    /\ (forall submitted fetched,
          snd (Checkout.handleShippingMethodSubmit render submitted fetched p)
          = withState (Checkout.withError
                         (Some "No cart found. Please add items to cart first.")) p)
    /\ (forall placed,
          snd (Checkout.handleConfirmOrder placed p)
          = withState (Checkout.withError
                         (Some "No cart found. Please add items to cart first.")) p).
Proof.
  intros Hnone render. unfold noCart in Hnone.
  split; [|split]; intros.
  - unfold Checkout.handleSubmit. run_guard Hnone.
  - unfold Checkout.handleShippingMethodSubmit. run_guard Hnone.
  - unfold Checkout.handleConfirmOrder. run_guard Hnone.
Qed.

Lemma single_page_handlers_without_cart (q : Page CheckoutSinglePage.State) :
  noCart q ->
  forall render submitted shippingSubmitted placed,
    snd (CheckoutSinglePage.onSubmit render submitted shippingSubmitted placed q)
    = withState (CheckoutSinglePage.withError
                   (Some "No cart found. Please add items to cart first.")) q.
Proof.
  intros Hnone render submitted shippingSubmitted placed. unfold noCart in Hnone.
  unfold CheckoutSinglePage.onSubmit.
  destruct (CheckoutSinglePage.addressSubmitted render).
  - unfold CheckoutSinglePage.handlePlaceOrder. run_guard Hnone.
  - unfold CheckoutSinglePage.handleAddressSubmit. run_guard Hnone.
Qed.

(** Whatever the user does on a three-step page without a cart id, the page
    calls nothing and the browser state stays as it is. *)
Lemma react_without_cart (e : Checkout.Event) (p : Page Checkout.State) :
  noCart p ->
  calls (Checkout.react e p) = calls p /\ world (Checkout.react e p) = world p.
Proof.
  intros Hnone.
  destruct (checkout_handlers_without_cart p Hnone (state p)) as (H1 & H2 & H3).
  unfold Checkout.react.
  destruct e as [submitted|submitted fetched|placed| |index];
    destruct (Checkout.currentStep (state p)) eqn:Hstep; try done.
  - destruct (Checkout.canSubmit (state p)); [by rewrite H1 | done].
  - destruct (Checkout.canSubmit (state p)); [by rewrite H2 | done].
  - destruct (Checkout.canSubmit (state p)); [by rewrite H3 | done].
  - unfold Checkout.handleBack. by rewrite Hstep.
  - unfold Checkout.handleBack. by rewrite Hstep.
  - unfold Checkout.handleBack. by rewrite Hstep.
  - by destruct (Checkout.shippingMethods (state p) !! index).
Qed.

Lemma run_without_cart (events : list Checkout.Event) (p : Page Checkout.State) :
  noCart p ->
  calls (fold_left (fun p e => Checkout.react e p) events p) = calls p
  /\ world (fold_left (fun p e => Checkout.react e p) events p) = world p.
Proof.
  revert p. induction events as [|e events IH]; intros p Hnone; [done|].
  simpl. destruct (react_without_cart e p Hnone) as [Hcalls Hworld].
  destruct (IH (Checkout.react e p)) as [Hcalls' Hworld'].
  { unfold noCart. by rewrite Hworld. }
  split; congruence.
Qed.

Lemma handleConfirmOrder_accepted (p : Page Checkout.State) (cartId : string)
    (response : StatusResponse.t) :
  hasCart p cartId ->
  succeeded (StatusResponse.status_code response)
            (StatusResponse.status_message response) = true ->
  snd (Checkout.handleConfirmOrder (Return response) p) =
  {| state := Checkout.withLoading false
                (Checkout.withError None (Checkout.withLoading true (state p)));
     world := withCookies (delete "cart_id") (DeleteCookie "cart_id") (world p);
     calls := calls p ++ [ProcessOfflinePayment cartId "cash_on_delivery"];
     alerts := alerts p ++ ["Order placed successfully!"];
     navigations := navigations p ++ ["/"] |}.
Proof.
  intros Hcart Hok.
  unfold Checkout.handleConfirmOrder, Checkout.setLoading, Checkout.setError.
  run_handler Hcart. rewrite Hok. simpl.
  unfold alert, navigate, modify, Cookies.deleteCartId, Cookies.deleteCookie, modify.
  reflexivity.
Qed.

Lemma handlePlaceOrder_accepted (q : Page CheckoutSinglePage.State) (cartId : string)
    (render : CheckoutSinglePage.State)
    (shippingSubmitted : Completion StatusResponse.t) (response : StatusResponse.t) :
  hasCart q cartId ->
  shippingSettled render shippingSubmitted ->
  succeeded (StatusResponse.status_code response)
            (StatusResponse.status_message response) = true ->
  snd (CheckoutSinglePage.handlePlaceOrder render shippingSubmitted (Return response) q) =
  {| state := CheckoutSinglePage.withLoading false
                (CheckoutSinglePage.withError None
                   (CheckoutSinglePage.withLoading true (state q)));
     world := withCookies (delete "cart_id") (DeleteCookie "cart_id") (world q);
     calls := calls q ++
       match CheckoutSinglePage.shippingMethods render with
       | [] => []
       | _ :: _ =>
           [SubmitShippingMethod cartId (CheckoutSinglePage.selectedShippingMethod render)]
       end ++ [ProcessOfflinePayment cartId "cash_on_delivery"];
     alerts := alerts q ++ ["Order placed successfully!"];
     navigations := navigations q ++ ["/"] |}.
Proof.
  intros Hcart Hshipping Hok.
  unfold CheckoutSinglePage.handlePlaceOrder, CheckoutSinglePage.setLoading,
    CheckoutSinglePage.setError.
  destruct Hshipping as [Hnone|(Hsome & Hselected & response' & -> & Hok')].
  - run_handler Hcart. rewrite Hnone. simpl. rewrite !andb_false_r. simpl.
    rewrite Hok. simpl.
    unfold alert, navigate, modify, Cookies.deleteCartId, Cookies.deleteCookie, modify.
    reflexivity.
  - destruct (CheckoutSinglePage.shippingMethods render) as [|m ms] eqn:Hmethods;
      [done|].
    run_handler Hcart. rewrite Hselected. simpl. rewrite Hok'. simpl.
    rewrite Hok. simpl.
    unfold alert, navigate, modify, Cookies.deleteCartId, Cookies.deleteCookie, modify.
    simpl. by rewrite <- app_assoc.
Qed.

(** X7.  An order is placed once.  When [processOfflinePayment] reports
    success, the page deletes the [cart_id] cookie, shows the success alert
    and navigates home.  From then on the browser holds no cart id, and
    whatever is submitted on the page afterwards stops at the guard of its
    handler: the request client is not called again.  This holds for the
    three-step page and for its single-page revision. *)
Theorem placed_order_forgets_the_cart
    (p : Page Checkout.State) (q : Page CheckoutSinglePage.State) (cartId : string)
    (placed : Completion StatusResponse.t) :
  hasCart p cartId ->
  hasCart q cartId ->
  accepted placed ->
  (let p' := snd (Checkout.handleConfirmOrder placed p) in
   orderPlaced p p'
   /\ calls p' = calls p ++ [ProcessOfflinePayment cartId "cash_on_delivery"]
   /\ noCart p'
   /\ forall events,
        calls (fold_left (fun p e => Checkout.react e p) events p') = calls p')
  /\ (forall shippingSubmitted,
        shippingSettled (state q) shippingSubmitted ->
        let q' := snd (CheckoutSinglePage.handlePlaceOrder (state q) shippingSubmitted
                         placed q) in
        orderPlaced q q'
        /\ noCart q'
        /\ forall render submitted shippingSubmitted' placed',
             calls (snd (CheckoutSinglePage.onSubmit render submitted shippingSubmitted'
                           placed' q'))
             = calls q').
Proof.
  intros Hp Hq (response & -> & Hok). split.
  - cbv zeta. rewrite (handleConfirmOrder_accepted p cartId response Hp Hok).
    set (p' := {| state := _ |}).
    assert (Hnone : noCart p').
    { unfold noCart. simpl. by rewrite lookup_delete_eq. }
    split; [by repeat split|]. split; [done|]. split; [done|].
    intros events. by destruct (run_without_cart events p' Hnone).
  - intros shippingSubmitted Hshipping. cbv zeta.
    rewrite (handlePlaceOrder_accepted q cartId (state q) shippingSubmitted response
               Hq Hshipping Hok).
    set (q' := {| state := _ |}).
    assert (Hnone : noCart q').
    { unfold noCart. simpl. by rewrite lookup_delete_eq. }
    split; [by repeat split|]. split; [done|].
    intros render submitted shippingSubmitted' placed'.
    by rewrite (single_page_handlers_without_cart q' Hnone).
Qed.

Lemma placed_order_forgets_the_cart_witness :
  let p' := snd (Checkout.handleConfirmOrder (Return reportedSuccess)
                   (confirmationPage "c1")) in
  cookies (world p') !! "cart_id" = None
  /\ navigations p' = ["/"]
  /\ calls (Checkout.react (Checkout.ConfirmOrder (Return reportedSuccess)) p')
     = [ProcessOfflinePayment "c1" "cash_on_delivery"].
Proof.
  destruct (placed_order_forgets_the_cart (confirmationPage "c1") (singlePage "c1") "c1"
              (Return reportedSuccess))
    as [(Hplaced & Hcalls & Hnone & Hquiet) _].
  - by split.
  - by split.
  - exists reportedSuccess. by split.
  - destruct Hplaced as (Hcookies & _ & _ & Hnav).
    split; [by rewrite Hcookies|]. split; [exact Hnav|].
    etransitivity;
      [exact (Hquiet [Checkout.ConfirmOrder (Return reportedSuccess)]) | exact Hcalls].
Defined.

Lemma handleShippingMethodSubmit_accepted (p : Page Checkout.State) (cartId : string)
    (response : StatusResponse.t) (fetched : Completion CheckoutResponse.t) :
  hasCart p cartId ->
  truthy (Checkout.selectedShippingMethod (state p)) = true ->
  succeeded (StatusResponse.status_code response)
            (StatusResponse.status_message response) = true ->
  snd (Checkout.handleShippingMethodSubmit (state p) (Return response) fetched p) =
  {| state :=
       Checkout.withLoading false
         (Checkout.withCurrentStep Checkout.ConfirmationStep
            (Checkout.withLoadingConfirmation false
               (match fetched with
                | Return checkoutData =>
                    match Checkout.checkoutOf checkoutData with
                    | Some checkout =>
                        Checkout.withConfirmationData
                          {| Checkout.confirmedShippingAddress :=
                               List.find Address.is_selected
                                 (Checkout.addressesOf checkout);
                             Checkout.confirmedBillingAddress :=
                               List.find Address.is_selected_billing_address
                                 (Checkout.addressesOf checkout);
                             Checkout.confirmedShipping :=
                               match CheckoutResponse.order checkout with
                               | Some o => CheckoutResponse.shipping o
                               | None => None
                               end;
                             Checkout.confirmedTotal :=
                               match CheckoutResponse.order checkout with
                               | Some o => CheckoutResponse.total o
                               | None => None
                               end |}
                    | None => fun s => s
                    end
                | Throw _ =>
                    Checkout.withError
                      (Some "Failed to load confirmation data. Please refresh the page.")
                end
                  (Checkout.withLoadingConfirmation true
                     (Checkout.withError None (Checkout.withLoading true (state p)))))));
     world := world p;
     calls := calls p ++
       [SubmitShippingMethod cartId (Checkout.selectedShippingMethod (state p));
        GetCheckoutData cartId];
     alerts := alerts p;
     navigations := navigations p |}.
Proof.
  intros Hcart Hselected Hok.
  unfold Checkout.handleShippingMethodSubmit, Checkout.setLoading, Checkout.setError.
  run_handler Hcart. rewrite Hselected. simpl. rewrite Hok. simpl.
  unfold Checkout.fetchConfirmationData, tryFinally, tryCatch, bind, awaitApi,
    Checkout.setLoadingConfirmation, Checkout.setConfirmationData, Checkout.setError,
    Checkout.setCurrentStep, modify, ret. simpl.
  destruct fetched as [checkoutData|err]; simpl.
  - destruct (Checkout.checkoutOf checkoutData); simpl; by rewrite <- app_assoc.
  - by rewrite <- app_assoc.
Qed.

(** X8.  On the shipping step of the three-step checkout, when the
    submission of the selected method goes through, the page asks for the
    checkout data and moves to the confirmation step in every case, with the
    order button enabled.  When the checkout data arrive, the page shows the
    first address flagged [is_selected], the first address flagged
    [is_selected_billing_address], and the shipping method and total of the
    order; when the request for them fails, the page is on the confirmation
    step nevertheless, with the confirmation data it had and the message
    "Failed to load confirmation data. Please refresh the page.". *)
Theorem accepted_shipping_method_opens_confirmation
    (p : Page Checkout.State) (cartId : string)
    (submitted : Completion StatusResponse.t) (fetched : Completion CheckoutResponse.t) :
  hasCart p cartId ->
  truthy (Checkout.selectedShippingMethod (state p)) = true ->
  accepted submitted ->
  let p' := snd (Checkout.handleShippingMethodSubmit (state p) submitted fetched p) in
  Checkout.currentStep (state p') = Checkout.ConfirmationStep
  /\ Checkout.canSubmit (state p') = true
  /\ calls p' = calls p ++
       [SubmitShippingMethod cartId (Checkout.selectedShippingMethod (state p));
        GetCheckoutData cartId]
  /\ world p' = world p
  /\ match fetched with
     | Return checkoutData =>
         Checkout.error (state p') = None
         /\ match Checkout.checkoutOf checkoutData with
            | Some checkout =>
                let shown := Checkout.confirmationData (state p') in
                Checkout.confirmedShippingAddress shown
                = List.find Address.is_selected (Checkout.addressesOf checkout)
                /\ Checkout.confirmedBillingAddress shown
                   = List.find Address.is_selected_billing_address
                       (Checkout.addressesOf checkout)
                /\ Checkout.confirmedShipping shown
                   = match CheckoutResponse.order checkout with
                     | Some o => CheckoutResponse.shipping o
                     | None => None
                     end
                /\ Checkout.confirmedTotal shown
                   = match CheckoutResponse.order checkout with
                     | Some o => CheckoutResponse.total o
                     | None => None
                     end
            | None =>
                Checkout.confirmationData (state p') = Checkout.confirmationData (state p)
            end
     | Throw _ =>
         Checkout.error (state p')
         = Some "Failed to load confirmation data. Please refresh the page."
         /\ Checkout.confirmationData (state p') = Checkout.confirmationData (state p)
     end.
Proof.
  intros Hcart Hselected (response & -> & Hok). cbv zeta.
  rewrite (handleShippingMethodSubmit_accepted p cartId response fetched Hcart
             Hselected Hok).
  destruct fetched as [checkoutData|err]; simpl.
  - destruct (Checkout.checkoutOf checkoutData); by repeat split.
  - by repeat split.
Qed.

Lemma accepted_shipping_method_opens_confirmation_witness :
  let p' := snd (Checkout.handleShippingMethodSubmit (state (shippingPage "c1"))
                   (Return reportedSuccess) (Throw (Error "Failed to get checkout data: 500 "))
                   (shippingPage "c1")) in
  Checkout.currentStep (state p') = Checkout.ConfirmationStep
  /\ Checkout.canSubmit (state p') = true
  /\ Checkout.error (state p')
     = Some "Failed to load confirmation data. Please refresh the page.".
Proof.
  destruct (accepted_shipping_method_opens_confirmation (shippingPage "c1") "c1"
              (Return reportedSuccess) (Throw (Error "Failed to get checkout data: 500 ")))
    as (Hstep & Hcan & _ & _ & Herror & _).
  - by split.
  - reflexivity.
  - exists reportedSuccess. by split.
  - split; [exact Hstep | split; [exact Hcan | exact Herror]].
Defined.

Lemma handleSubmit_no_methods (p : Page Checkout.State) (cartId : string)
    (response : CheckoutAddressResponse.t) :
  hasCart p cartId ->
  succeeded (CheckoutAddressResponse.status_code response)
            (CheckoutAddressResponse.status_message response) = true ->
  shippingMethodsOf response = None \/ shippingMethodsOf response = Some [] ->
  snd (Checkout.handleSubmit (state p) (Return response) p) =
  {| state := Checkout.withLoading false
                (Checkout.withError None (Checkout.withLoading true (state p)));
     world := world p;
     calls := calls p ++
       [SubmitCheckoutAddress cartId
          (AddressForm.withSameBillingAddress (Checkout.sameBillingAddress (state p))
             (Checkout.shippingAddress (state p)))
          (AddressForm.withSameBillingAddress (Checkout.sameBillingAddress (state p))
             (Checkout.billingAddress (state p)))];
     alerts := alerts p ++ ["Address submitted successfully!"];
     navigations := navigations p |}.
Proof.
  intros Hcart Hok Hempty.
  unfold Checkout.handleSubmit, Checkout.setLoading, Checkout.setError.
  run_handler Hcart. rewrite Hok.
  unfold alert, modify. by destruct Hempty as [-> | ->].
Qed.

(** [handlePlaceOrder] catches what it throws. *)
Lemma handlePlaceOrder_returns (render : CheckoutSinglePage.State)
    (shippingSubmitted placed : Completion StatusResponse.t)
    (q : Page CheckoutSinglePage.State) :
  fst (CheckoutSinglePage.handlePlaceOrder render shippingSubmitted placed q) = Return tt.
Proof.
  unfold CheckoutSinglePage.handlePlaceOrder, CheckoutSinglePage.setLoading,
    CheckoutSinglePage.setError, alert, navigate.
  unfold bind at 1, onWorld, Cookies.getCartId, Cookies.getCookie, gets.
  cbn [fst snd].
  destruct (negb (truthyOpt (cookies (world q) !! "cart_id"))); [done|].
  destruct (negb (truthy (CheckoutSinglePage.selectedShippingMethod render))
            && (0 <? length (CheckoutSinglePage.shippingMethods render))%nat); [done|].
  unfold tryFinally, tryCatch, bind, awaitApi, throw, modify, ret. simpl.
  destruct (truthy (CheckoutSinglePage.selectedShippingMethod render)
            && (0 <? length (CheckoutSinglePage.shippingMethods render))%nat); simpl.
  - destruct shippingSubmitted as [r|e]; simpl; [|done].
    destruct (succeeded (StatusResponse.status_code r) (StatusResponse.status_message r));
      simpl; [|done].
    destruct placed as [r'|e']; simpl; [|done].
    by destruct (succeeded (StatusResponse.status_code r')
                   (StatusResponse.status_message r')).
  - destruct placed as [r'|e']; simpl; [|done].
    by destruct (succeeded (StatusResponse.status_code r')
                   (StatusResponse.status_message r')).
Qed.

Lemma handleAddressSubmit_no_methods (q : Page CheckoutSinglePage.State)
    (cartId : string) (response : CheckoutAddressResponse.t)
    (shippingSubmitted placed : Completion StatusResponse.t) :
  hasCart q cartId ->
  succeeded (CheckoutAddressResponse.status_code response)
            (CheckoutAddressResponse.status_message response) = true ->
  shippingMethodsOf response = None \/ shippingMethodsOf response = Some [] ->
  snd (CheckoutSinglePage.handleAddressSubmit (state q) (Return response)
         shippingSubmitted placed q)
  = withState (CheckoutSinglePage.withLoading false)
      (snd (CheckoutSinglePage.handlePlaceOrder (state q) shippingSubmitted placed
              {| state := CheckoutSinglePage.withError None
                            (CheckoutSinglePage.withLoading true (state q));
                 world := world q;
                 calls := calls q ++
                   [SubmitCheckoutAddress cartId
                      (AddressForm.withSameBillingAddress
                         (CheckoutSinglePage.sameBillingAddress (state q))
                         (CheckoutSinglePage.shippingAddress (state q)))
                      (AddressForm.withSameBillingAddress
                         (CheckoutSinglePage.sameBillingAddress (state q))
                         (CheckoutSinglePage.billingAddress (state q)))];
                 alerts := alerts q;
                 navigations := navigations q |})).
Proof.
  intros Hcart Hok Hempty.
  unfold CheckoutSinglePage.handleAddressSubmit, CheckoutSinglePage.setLoading,
    CheckoutSinglePage.setError.
  run_handler Hcart. rewrite Hok.
  match goal with
  | |- context [CheckoutSinglePage.handlePlaceOrder ?r ?s ?pl ?q1] =>
      pose proof (handlePlaceOrder_returns r s pl q1) as Hret;
      destruct Hempty as [-> | ->];
      destruct (CheckoutSinglePage.handlePlaceOrder r s pl q1) as [[[]|e] q2];
      simpl in Hret; try done
  end.
Qed.

Lemma handlePlaceOrder_failed (q : Page CheckoutSinglePage.State) (cartId : string)
    (render : CheckoutSinglePage.State)
    (shippingSubmitted placed : Completion StatusResponse.t) :
  hasCart q cartId ->
  CheckoutSinglePage.shippingMethods render = [] ->
  submissionFailed placed ->
  snd (CheckoutSinglePage.handlePlaceOrder render shippingSubmitted placed q) =
  {| state :=
       CheckoutSinglePage.withLoading false
         (CheckoutSinglePage.withError
            (Some (failureMessage StatusResponse.status_message
                     "Failed to place order" "Failed to place order" placed))
            (CheckoutSinglePage.withError None
               (CheckoutSinglePage.withLoading true (state q))));
     world := world q;
     calls := calls q ++ [ProcessOfflinePayment cartId "cash_on_delivery"];
     alerts := alerts q;
     navigations := navigations q |}.
Proof.
  intros Hcart Hnone Hfailed.
  unfold CheckoutSinglePage.handlePlaceOrder, CheckoutSinglePage.setLoading,
    CheckoutSinglePage.setError.
  run_handler Hcart. rewrite Hnone. simpl. rewrite !andb_false_r. simpl.
  destruct placed as [response|err]; simpl in *; [|done].
  by rewrite Hfailed.
Qed.

(** X9.  When the address submission succeeds but the response lists no
    shipping method, the two revisions of the checkout page part ways.  The
    three-step page stays on its address step and only shows the alert
    "Address submitted successfully!".  The single-page revision goes on to
    place the order at once: it calls [processOfflinePayment] with
    "cash_on_delivery" right after [submitCheckoutAddress], without
    submitting a shipping method; when the order goes through the cart id is
    deleted and the page navigates home, and when it does not the page shows
    the failure and keeps the cart. *)
Theorem address_accepted_without_shipping_methods
    (p : Page Checkout.State) (q : Page CheckoutSinglePage.State) (cartId : string)
    (response : CheckoutAddressResponse.t) :
  hasCart p cartId ->
  hasCart q cartId ->
  CheckoutSinglePage.shippingMethods (state q) = [] ->
  succeeded (CheckoutAddressResponse.status_code response)
            (CheckoutAddressResponse.status_message response) = true ->
  shippingMethodsOf response = None \/ shippingMethodsOf response = Some [] ->
  (let p' := snd (Checkout.handleSubmit (state p) (Return response) p) in
   Checkout.currentStep (state p') = Checkout.currentStep (state p)
   /\ alerts p' = alerts p ++ ["Address submitted successfully!"]
   /\ Checkout.error (state p') = None
   /\ Checkout.shippingMethods (state p') = Checkout.shippingMethods (state p)
   /\ (exists shipping billing,
         calls p' = calls p ++ [SubmitCheckoutAddress cartId shipping billing])
   /\ world p' = world p
   /\ navigations p' = navigations p)
  /\ (forall shippingSubmitted placed,
        let q' := snd (CheckoutSinglePage.handleAddressSubmit (state q) (Return response)
                         shippingSubmitted placed q) in
        (exists shipping billing,
           calls q' = calls q ++ [SubmitCheckoutAddress cartId shipping billing;
                                  ProcessOfflinePayment cartId "cash_on_delivery"])
        /\ CheckoutSinglePage.loading (state q') = false
        /\ (accepted placed ->
            orderPlaced q q' /\ CheckoutSinglePage.error (state q') = None)
        /\ (submissionFailed placed ->
            world q' = world q /\ alerts q' = alerts q
            /\ navigations q' = navigations q
            /\ CheckoutSinglePage.error (state q')
               = Some (failureMessage StatusResponse.status_message
                         "Failed to place order" "Failed to place order" placed))).
Proof.
  intros Hp Hq Hnone Hok Hempty. split.
  - cbv zeta. rewrite (handleSubmit_no_methods p cartId response Hp Hok Hempty). simpl.
    repeat split; try done. by eexists _, _.
  - intros shippingSubmitted placed. cbv zeta.
    rewrite (handleAddressSubmit_no_methods q cartId response shippingSubmitted placed
               Hq Hok Hempty).
    set (q1 := {| state := CheckoutSinglePage.withError None _ |}).
    assert (Hq1 : hasCart q1 cartId) by exact Hq.
    assert (Hdecide : accepted placed \/ submissionFailed placed).
    { destruct placed as [r|e]; [|by right]. simpl.
      destruct (succeeded (StatusResponse.status_code r)
                  (StatusResponse.status_message r)) eqn:Hr; [left|by right].
      by exists r. }
    destruct Hdecide as [(r & -> & Hr)|Hfailed].
    + rewrite (handlePlaceOrder_accepted q1 cartId (state q) shippingSubmitted r Hq1
                 (or_introl Hnone) Hr).
      rewrite Hnone. simpl. rewrite <- app_assoc. simpl.
      split; [by eexists _, _|]. split; [done|]. split.
      * intros _. by repeat split.
      * simpl. intros Hfalse. congruence.
    + rewrite (handlePlaceOrder_failed q1 cartId (state q) shippingSubmitted placed Hq1
                 Hnone Hfailed).
      simpl. rewrite <- app_assoc. simpl.
      split; [by eexists _, _|]. split; [done|]. split.
      * intros (r & -> & Hr). simpl in Hfailed. congruence.
      * intros _. by repeat split.
Qed.

Lemma address_accepted_without_shipping_methods_witness :
  alerts (snd (Checkout.handleSubmit (state (checkoutPage "c1"))
                 (Return (addressAccepted [])) (checkoutPage "c1")))
  = ["Address submitted successfully!"]
  /\ exists shipping billing,
       calls (snd (CheckoutSinglePage.handleAddressSubmit (state (singlePage "c1"))
                     (Return (addressAccepted [])) (Throw NotAnError)
                     (Return reportedSuccess) (singlePage "c1")))
       = [SubmitCheckoutAddress "c1" shipping billing;
          ProcessOfflinePayment "c1" "cash_on_delivery"].
Proof.
  destruct (address_accepted_without_shipping_methods (checkoutPage "c1")
              (singlePage "c1") "c1" (addressAccepted []))
    as [(_ & Halert & _) Hsingle].
  - by split.
  - by split.
  - reflexivity.
  - reflexivity.
  - by right.
  - split; [exact Halert|].
    destruct (Hsingle (Throw NotAnError) (Return reportedSuccess)) as [Hcalls _].
    exact Hcalls.
Defined.

(* ===================================================================== *)
(** * The address section of the checkout form *)
(* ===================================================================== *)

Lemma update_same_billing_address (name : CheckoutForm.Field.t) (value : string)
    (a : AddressForm.t) :
  AddressForm.same_billing_address (CheckoutForm.update name value a)
  = AddressForm.same_billing_address a.
Proof. reflexivity. Qed.

Lemma defaultTo_same_billing_address (c : string) (a : AddressForm.t) :
  AddressForm.same_billing_address (CheckoutForm.defaultTo c a)
  = AddressForm.same_billing_address a.
Proof. unfold CheckoutForm.defaultTo. by destruct (negb _). Qed.

Ltac unfold_form :=
  unfold CheckoutForm.withSameBillingAddress, CheckoutForm.withShippingAddress,
    CheckoutForm.withBillingAddress, CheckoutForm.withCountries,
    CheckoutForm.withLoadingAddressDetails, CheckoutForm.withError, withState in *;
  cbn [state CheckoutForm.sameBillingAddress CheckoutForm.shippingAddress
       CheckoutForm.billingAddress CheckoutForm.countries
       CheckoutForm.loadingAddressDetails CheckoutForm.error] in *.

Lemma useCountries_mirrored (l : list CheckoutForm.Country) (message : string)
    (p : Page CheckoutForm.Form) :
  mirrored (state p) ->
  mirrored (state (snd (CheckoutForm.useCountries l message p)))
  /\ fst (CheckoutForm.useCountries l message p) = Return tt.
Proof.
  intros (Hs & Hb & Hm). destruct l as [|first rest]; [done|].
  unfold CheckoutForm.useCountries, bind, modify. simpl.
  split; [|done]. unfold mirrored. unfold_form. split; [|split].
  - by rewrite defaultTo_same_billing_address.
  - by rewrite defaultTo_same_billing_address.
  - intros Hsame. by rewrite (Hm Hsame).
Qed.

Lemma react_mirrored (e : CheckoutForm.Event) (p : Page CheckoutForm.Form) :
  mirrored (state p) -> mirrored (state (CheckoutForm.react e p)).
Proof.
  intros Hmir. pose proof Hmir as (Hs & Hb & Hm).
  destruct e as [name value|name value|checked|fetched|countriesData]; simpl.
  - unfold CheckoutForm.handleShippingChange, mirrored.
    destruct (CheckoutForm.sameBillingAddress (state p)) eqn:Hsame; unfold_form.
    + rewrite Hsame. repeat split; try done. by rewrite (Hm eq_refl).
    + rewrite Hsame. by repeat split.
  - destruct (CheckoutForm.sameBillingAddress (state p)) eqn:Hsame; [done|].
    unfold CheckoutForm.handleBillingChange, mirrored. unfold_form.
    rewrite Hsame. by repeat split.
  - unfold CheckoutForm.handleSameBillingAddressChange, mirrored.
    destruct checked; unfold_form; by repeat split.
  - unfold CheckoutForm.fetchAddressDetails, bind at 1, onWorld, Cookies.getCartId,
      Cookies.getCookie, gets. cbn [fst snd].
    destruct (negb (truthyOpt (cookies (world p) !! "cart_id"))); [done|].
    unfold tryFinally, tryCatch, bind, awaitApi, modify. cbn [fst snd].
    destruct fetched as [data|err]; [|done].
    match goal with
    | |- context [CheckoutForm.useCountries ?l ?m ?q] =>
        destruct (useCountries_mirrored l m q) as [Hmir' Hret]; [done|];
        destruct (CheckoutForm.useCountries l m q) as [[[]|e] q']; simpl in *; done
    end.
  - unfold CheckoutForm.loadCountries, tryFinally.
    destruct (useCountries_mirrored (default [] countriesData)
                "No countries available in data file." p) as [Hmir' Hret]; [done|].
    by destruct (CheckoutForm.useCountries _ _ p) as [[[]|e] q'].
Qed.

(** X10.  Whatever happens to the address section of the checkout form
    (changes of shipping inputs, changes of billing inputs while the billing
    section is shown, toggling the box, the countries arriving), the
    [same_billing_address] flag of both addresses is the state of the box
    "Billing address is the same as shipping address", and while the box is
    checked the billing address is the shipping address, field by field. *)
Theorem billing_address_mirrors_shipping_while_box_is_checked
    (events : list CheckoutForm.Event) (w : World) :
  mirrored (state (CheckoutForm.run events (freshForm w))).
Proof.
  unfold CheckoutForm.run.
  assert (Hstart : mirrored (state (freshForm w))) by by repeat split.
  revert Hstart. generalize (freshForm w).
  induction events as [|e events IH]; intros p Hp; [done|].
  simpl. apply IH. by apply react_mirrored.
Qed.

Lemma billing_address_mirrors_shipping_while_box_is_checked_witness :
  let p := CheckoutForm.run
             [CheckoutForm.ToggleSameBillingAddress false;
              CheckoutForm.ChangeBilling CheckoutForm.Field.city "Hanoi";
              CheckoutForm.ChangeShipping CheckoutForm.Field.city "Toronto";
              CheckoutForm.ToggleSameBillingAddress true;
              CheckoutForm.ChangeShipping CheckoutForm.Field.country "CA"]
             (freshForm emptyWorld) in
  CheckoutForm.billingAddress (state p) = CheckoutForm.shippingAddress (state p)
  /\ AddressForm.city (CheckoutForm.billingAddress (state p)) = "Toronto".
Proof.
  destruct (billing_address_mirrors_shipping_while_box_is_checked
              [CheckoutForm.ToggleSameBillingAddress false;
               CheckoutForm.ChangeBilling CheckoutForm.Field.city "Hanoi";
               CheckoutForm.ChangeShipping CheckoutForm.Field.city "Toronto";
               CheckoutForm.ToggleSameBillingAddress true;
               CheckoutForm.ChangeShipping CheckoutForm.Field.country "CA"]
              emptyWorld) as (_ & _ & Hmirror).
  split; [exact (Hmirror eq_refl) | reflexivity].
Defined.

Lemma useCountries_run (l : list CheckoutForm.Country) (message : string)
    (p : Page CheckoutForm.Form) :
  CheckoutForm.useCountries l message p =
  (Return tt,
   match l with
   | first :: _ =>
       withState
         (fun f =>
            CheckoutForm.withBillingAddress
              (CheckoutForm.defaultTo (CheckoutForm.code first))
              (CheckoutForm.withShippingAddress
                 (CheckoutForm.defaultTo (CheckoutForm.code first))
                 (CheckoutForm.withCountries l f))) p
   | [] => withState (CheckoutForm.withError (Some message)) p
   end).
Proof. by destruct l. Qed.

Lemma defaultTo_country (c : string) (a : AddressForm.t) :
  AddressForm.country (CheckoutForm.defaultTo c a) = countryOr c a.
Proof.
  unfold CheckoutForm.defaultTo, countryOr.
  by destruct (truthy (AddressForm.country a)).
Qed.

Lemma defaultTo_chosen (c : string) (a : AddressForm.t) :
  truthy (AddressForm.country a) = true -> CheckoutForm.defaultTo c a = a.
Proof. unfold CheckoutForm.defaultTo. by intros ->. Qed.

Lemma fetchAddressDetails_run (fetched : Completion CheckoutForm.AddressDetailsResponse)
    (p : Page CheckoutForm.Form) :
  snd (CheckoutForm.fetchAddressDetails fetched p) =
  if truthyOpt (cookies (world p) !! "cart_id") then
    let called :=
      {| state := state p; world := world p;
         calls := calls p ++
           [GetCheckoutData (default "" (cookies (world p) !! "cart_id"))];
         alerts := alerts p; navigations := navigations p |} in
    withState (CheckoutForm.withLoadingAddressDetails false)
      match fetched with
      | Return data =>
          snd (CheckoutForm.useCountries (default [] (CheckoutForm.countriesOf data))
                 "No countries available. Please check the API response." called)
      | Throw _ =>
          withState
            (CheckoutForm.withError
               (Some "Failed to load address details. Please refresh the page."))
            called
      end
  else withState (CheckoutForm.withLoadingAddressDetails false) p.
Proof.
  unfold CheckoutForm.fetchAddressDetails, bind at 1, onWorld, Cookies.getCartId,
    Cookies.getCookie, gets. cbn [fst snd].
  destruct (truthyOpt (cookies (world p) !! "cart_id")); cbn [negb]; [|done].
  unfold tryFinally, tryCatch, bind, awaitApi, modify. cbn [fst snd].
  destruct fetched as [data|err]; [|done].
  cbn [state world calls alerts navigations].
  by rewrite !useCountries_run.
Qed.

(** X11.  The mount effect of the three-step page that loads the address
    details.  Without a cart id it calls nothing and only ends the loading
    state.  With one it calls [getCheckoutData] once and looks for the
    countries at [payload.checkout.address_detail.countries], then at
    [address_detail.countries], then at [payload.address_detail.countries];
    the first place that is present decides, also when its list is empty.
    A non-empty list becomes the list of countries, and each address that has
    no country yet gets the code of the first country, while an address with
    a country keeps everything; an empty or missing list, and a failed
    request, only set an error message.  In every case the loading state
    ends and the browser state is untouched. *)
Theorem address_details_give_countries_and_defaults
    (p : Page CheckoutForm.Form) (fetched : Completion CheckoutForm.AddressDetailsResponse) :
  let p' := snd (CheckoutForm.fetchAddressDetails fetched p) in
  CheckoutForm.loadingAddressDetails (state p') = false
  /\ world p' = world p
  /\ (noCart p ->
      p' = withState (CheckoutForm.withLoadingAddressDetails false) p)
  /\ (forall cartId,
        hasCart p cartId ->
        calls p' = calls p ++ [GetCheckoutData cartId]
        /\ match fetched with
           | Throw _ =>
               CheckoutForm.error (state p')
               = Some "Failed to load address details. Please refresh the page."
               /\ CheckoutForm.countries (state p') = CheckoutForm.countries (state p)
               /\ CheckoutForm.shippingAddress (state p')
                  = CheckoutForm.shippingAddress (state p)
               /\ CheckoutForm.billingAddress (state p')
                  = CheckoutForm.billingAddress (state p)
           | Return data =>
               let found :=
                 match CheckoutForm.payload_checkout_address_detail_countries data with
                 | Some l => l
                 | None =>
                     match CheckoutForm.address_detail_countries data with
                     | Some l => l
                     | None =>
                         default [] (CheckoutForm.payload_address_detail_countries data)
                     end
                 end in
               match found with
               | first :: _ =>
                   CheckoutForm.countries (state p') = found
                   /\ CheckoutForm.error (state p') = CheckoutForm.error (state p)
                   /\ AddressForm.country (CheckoutForm.shippingAddress (state p'))
                      = countryOr (CheckoutForm.code first)
                          (CheckoutForm.shippingAddress (state p))
                   /\ AddressForm.country (CheckoutForm.billingAddress (state p'))
                      = countryOr (CheckoutForm.code first)
                          (CheckoutForm.billingAddress (state p))
                   /\ (truthy (AddressForm.country
                                 (CheckoutForm.shippingAddress (state p))) = true ->
                       CheckoutForm.shippingAddress (state p')
                       = CheckoutForm.shippingAddress (state p))
                   /\ (truthy (AddressForm.country
                                 (CheckoutForm.billingAddress (state p))) = true ->
                       CheckoutForm.billingAddress (state p')
                       = CheckoutForm.billingAddress (state p))
               | [] =>
                   CheckoutForm.error (state p')
                   = Some "No countries available. Please check the API response."
                   /\ CheckoutForm.countries (state p')
                      = CheckoutForm.countries (state p)
                   /\ CheckoutForm.shippingAddress (state p')
                      = CheckoutForm.shippingAddress (state p)
                   /\ CheckoutForm.billingAddress (state p')
                      = CheckoutForm.billingAddress (state p)
               end
           end).
Proof.
  cbv zeta. rewrite fetchAddressDetails_run.
  assert (Hid : forall cartId, hasCart p cartId ->
                  default "" (cookies (world p) !! "cart_id") = cartId).
  { intros cartId [Hcookie _]. by rewrite Hcookie. }
  destruct (truthyOpt (cookies (world p) !! "cart_id")) eqn:Hcart.
  - cbv zeta. destruct fetched as [data|err].
    + rewrite useCountries_run. cbn [fst snd].
      assert (Hfound : default [] (CheckoutForm.countriesOf data)
                = match CheckoutForm.payload_checkout_address_detail_countries data with
                  | Some l => l
                  | None =>
                      match CheckoutForm.address_detail_countries data with
                      | Some l => l
                      | None =>
                          default [] (CheckoutForm.payload_address_detail_countries data)
                      end
                  end).
      { unfold CheckoutForm.countriesOf.
        destruct (CheckoutForm.payload_checkout_address_detail_countries data); [done|].
        by destruct (CheckoutForm.address_detail_countries data). }
      rewrite <- Hfound.
      destruct (default [] (CheckoutForm.countriesOf data)) as [|first rest] eqn:Hl;
        unfold_form; cbn [world calls].
      * split; [done|]. split; [done|]. split; [unfold noCart; congruence|].
        intros cartId Hhas. rewrite (Hid cartId Hhas). by repeat split.
      * split; [done|]. split; [done|]. split; [unfold noCart; congruence|].
        intros cartId Hhas. rewrite (Hid cartId Hhas).
        split; [done|]. split; [done|]. split; [done|].
        split; [apply defaultTo_country|]. split; [apply defaultTo_country|].
        split; apply defaultTo_chosen.
    + unfold_form; cbn [world calls].
      split; [done|]. split; [done|]. split; [unfold noCart; congruence|].
      intros cartId Hhas. rewrite (Hid cartId Hhas). by repeat split.
  - unfold_form; cbn [world calls].
    split; [done|]. split; [done|]. split; [done|].
    intros cartId [Hcookie Htruthy]. rewrite Hcookie in Hcart. simpl in Hcart.
    congruence.
Qed.

Lemma address_details_give_countries_and_defaults_witness :
  let data := {| CheckoutForm.payload_checkout_address_detail_countries := Some [];
                 CheckoutForm.address_detail_countries := Some [canada; vietnam];
                 CheckoutForm.payload_address_detail_countries := None |} in
  let p' := snd (CheckoutForm.fetchAddressDetails (Return data)
                   (freshForm (worldWithCart "c1"))) in
  calls p' = [GetCheckoutData "c1"]
  /\ CheckoutForm.error (state p')
     = Some "No countries available. Please check the API response.".
Proof.
  destruct (address_details_give_countries_and_defaults (freshForm (worldWithCart "c1"))
              (Return {| CheckoutForm.payload_checkout_address_detail_countries := Some [];
                         CheckoutForm.address_detail_countries := Some [canada; vietnam];
                         CheckoutForm.payload_address_detail_countries := None |}))
    as (_ & _ & _ & Hcart).
  destruct (Hcart "c1") as [Hcalls Hshown]; [by split|].
  split; [exact Hcalls | exact (proj1 Hshown)].
Defined.

(* ===================================================================== *)
(** * [getCookie] on the text of [document.cookie] *)
(* ===================================================================== *)

Lemma append_cons (c : ascii) (s1 s2 : string) :
  String c s1 +:+ s2 = String c (s1 +:+ s2).
Proof. reflexivity. Qed.

Lemma append_nil (s : string) : "" +:+ s = s.
Proof. reflexivity. Qed.

Lemma append_assoc (s1 s2 s3 : string) : (s1 +:+ s2) +:+ s3 = s1 +:+ s2 +:+ s3.
Proof.
  induction s1 as [|c s1 IH]; [done|]. by rewrite !append_cons, IH.
Qed.

Lemma split_without_separator (sep : ascii) (s : string) :
  occurs sep s = false -> CookieText.split sep s = [s].
Proof.
  induction s as [|c s IH]; [done|]. simpl. intros Hno.
  apply orb_false_iff in Hno as [Hc Hs]. rewrite Hc, (IH Hs). done.
Qed.

Lemma split_at_separator (sep : ascii) (s1 s2 : string) :
  occurs sep s1 = false ->
  CookieText.split sep (s1 +:+ String sep s2) = s1 :: CookieText.split sep s2.
Proof.
  induction s1 as [|c s1 IH].
  - intros _. rewrite append_nil. simpl. by rewrite Ascii.eqb_refl.
  - simpl. intros Hno. apply orb_false_iff in Hno as [Hc Hs].
    rewrite ?append_cons. simpl. by rewrite Hc, (IH Hs).
Qed.

Lemma occurs_app (c : ascii) (s1 s2 : string) :
  occurs c (s1 +:+ s2) = occurs c s1 || occurs c s2.
Proof.
  induction s1 as [|a s1 IH]; [done|].
  rewrite append_cons. simpl. by rewrite IH, orb_assoc.
Qed.

(** The text of one cookie holds no semicolon. *)
Lemma occurs_in_pair (name value : string) :
  occurs ";" name = false -> occurs ";" value = false ->
  occurs ";" (name +:+ "=" +:+ value) = false.
Proof. intros Hn Hv. rewrite !occurs_app, Hn, Hv. done. Qed.

(** The pieces of the text of a jar: the first cookie as it is, each further
    one after a space. *)
Lemma split_documentCookie (jar : list (string * string)) :
  Forall storable jar ->
  CookieText.split ";" (CookieText.documentCookie jar) =
  match jar with
  | [] => [""]
  | (name, value) :: rest =>
      (name +:+ "=" +:+ value)
      :: map (fun cookie => " " +:+ fst cookie +:+ "=" +:+ snd cookie) rest
  end.
Proof.
  induction jar as [|[name value] rest IH]; [done|].
  intros Hjar. apply Forall_cons in Hjar as [(_ & Hn & _ & _ & Hv) Hrest].
  simpl in Hn, Hv. specialize (IH Hrest).
  destruct rest as [|[name' value'] rest'].
  - apply split_without_separator. by apply occurs_in_pair.
  - change (CookieText.documentCookie ((name, value) :: (name', value') :: rest'))
      with (name +:+ "=" +:+ value +:+ "; "
            +:+ CookieText.documentCookie ((name', value') :: rest')).
    replace (name +:+ "=" +:+ value +:+ "; "
             +:+ CookieText.documentCookie ((name', value') :: rest'))
      with ((name +:+ "=" +:+ value)
            +:+ String ";" (" " +:+ CookieText.documentCookie ((name', value') :: rest')))
      by by rewrite !append_assoc.
    rewrite split_at_separator by by apply occurs_in_pair.
    f_equal. rewrite append_cons, append_nil.
    cbn [CookieText.split]. simpl Ascii.eqb. cbv iota. by rewrite IH.
Qed.

Lemma prefix_cons (a b : ascii) (s1 s2 : string) :
  String.prefix (String a s1) (String b s2)
  = if Ascii.ascii_dec a b then String.prefix s1 s2 else false.
Proof. reflexivity. Qed.

Lemma trimStart_pair (name value : string) :
  startsWith name " " = false ->
  CookieText.trimStart (name +:+ "=" +:+ value) = name +:+ "=" +:+ value.
Proof.
  destruct name as [|c name]; [done|].
  unfold startsWith. rewrite append_cons, prefix_cons.
  destruct (Ascii.ascii_dec " " c) as [<-|Hne]; [by destruct name|].
  intros _. destruct c as [[] [] [] [] [] [] [] []]; try done.
Qed.

(** A piece names the cookie exactly when the names are equal. *)
Lemma startsWith_pair (name value wanted : string) :
  occurs "=" name = false ->
  occurs "=" wanted = false ->
  startsWith (name +:+ "=" +:+ value) (wanted +:+ "=") = strictEq name wanted.
Proof.
  unfold startsWith, strictEq. revert name.
  induction wanted as [|a wanted IH]; intros name Hname Hwanted.
  - destruct name as [|c name].
    + rewrite !append_nil, bool_decide_eq_true_2 by done. by destruct value.
    + simpl in Hname. apply orb_false_iff in Hname as [Hc _].
      apply Ascii.eqb_neq in Hc.
      rewrite bool_decide_eq_false_2 by done.
      rewrite append_nil, (append_cons c name).
      change ("=" : string) with (String "=" ""). rewrite prefix_cons.
      destruct (Ascii.ascii_dec "=" c) as [<-|Hne]; [done|done].
  - simpl in Hwanted. apply orb_false_iff in Hwanted as [Ha Hw].
    apply Ascii.eqb_neq in Ha.
    destruct name as [|c name].
    + rewrite bool_decide_eq_false_2 by done.
      rewrite append_nil, (append_cons a wanted).
      change ("=" +:+ value) with (String "=" value). rewrite prefix_cons.
      destruct (Ascii.ascii_dec a "=") as [->|Hne]; [done|done].
    + simpl in Hname. apply orb_false_iff in Hname as [Hc Hn].
      rewrite (append_cons a wanted), (append_cons c name), prefix_cons.
      destruct (Ascii.ascii_dec a c) as [->|Hne].
      * rewrite (IH name Hn Hw).
        destruct (decide (name = wanted)) as [->|Hdiff].
        -- by rewrite !bool_decide_eq_true_2.
        -- rewrite !bool_decide_eq_false_2; [done | congruence | done].
      * rewrite bool_decide_eq_false_2; [done | congruence].
Qed.

Lemma substring_after_prefix (p s : string) :
  String.substring (String.length p) (String.length (p +:+ s) - String.length p)%nat (p +:+ s)
  = s.
Proof.
  induction p as [|c p IH].
  - rewrite append_nil. simpl. rewrite Nat.sub_0_r.
    induction s as [|c s IHs]; simpl; [done|]. by rewrite IHs.
  - rewrite append_cons. simpl. exact IH.
Qed.

(** Scanning the piece of one cookie. *)
Lemma scan_pair (wanted name value : string) (rest : list string) (lead : string) :
  CookieText.trimStart lead = "" ->
  occurs "=" name = false ->
  occurs "=" wanted = false ->
  startsWith name " " = false ->
  CookieText.scan (wanted +:+ "=") ((lead +:+ name +:+ "=" +:+ value) :: rest)
  = if strictEq name wanted then Some value
    else CookieText.scan (wanted +:+ "=") rest.
Proof.
  intros Hlead Hname Hwanted Hspace. cbn [CookieText.scan]. cbv zeta.
  assert (Htrim : CookieText.trimStart (lead +:+ name +:+ "=" +:+ value)
                  = name +:+ "=" +:+ value).
  { induction lead as [|c lead IH].
    - rewrite append_nil. by apply trimStart_pair.
    - rewrite append_cons. simpl in Hlead |- *.
      destruct c as [[] [] [] [] [] [] [] []]; try done. by apply IH. }
  rewrite Htrim, startsWith_pair by done.
  destruct (strictEq name wanted) eqn:Heq; [|done].
  unfold strictEq in Heq. apply bool_decide_eq_true in Heq. subst wanted.
  rewrite <- (append_assoc name "=" value).
  by rewrite substring_after_prefix.
Qed.

Lemma lookup_list_to_map_first (name : string) (jar : list (string * string)) :
  (list_to_map jar : gmap string string) !! name = firstNamed name jar.
Proof.
  unfold firstNamed, strictEq.
  induction jar as [|[k v] jar IH]; [done|]. simpl.
  destruct (decide (k = name)) as [->|Hne].
  - by rewrite lookup_insert_eq, bool_decide_eq_true_2.
  - by rewrite lookup_insert_ne, bool_decide_eq_false_2.
Qed.

(** X12.  [getCookie] as written in [cookies.ts], applied to the text that
    the browser returns for [document.cookie] (the cookies as [name=value],
    joined by a semicolon and a space), returns the value of the first
    cookie with the given name and [null] when the jar has none, provided
    the given name holds no equals sign.  This is the lookup in the cookie
    jar by which the rest of this development reads the [cart_id] cookie. *)
Theorem getCookie_finds_the_first_cookie_of_that_name
    (jar : list (string * string)) (name : string) (w : World) :
  Forall storable jar ->
  occurs "=" name = false ->
  CookieText.getCookie (CookieText.documentCookie jar) name = firstNamed name jar
  /\ (cookies w = list_to_map jar ->
      fst (Cookies.getCookie name w)
      = Return (CookieText.getCookie (CookieText.documentCookie jar) name)).
Proof.
  intros Hjar Hname.
  assert (Hfirst : CookieText.getCookie (CookieText.documentCookie jar) name
                   = firstNamed name jar).
  { unfold CookieText.getCookie. cbv zeta. rewrite split_documentCookie by done.
    destruct jar as [|[k v] rest]; [by destruct name|].
    apply Forall_cons in Hjar as [(_ & _ & Hk & Hs & _) Hrest]. simpl in Hk, Hs.
    rewrite <- (append_nil (k +:+ "=" +:+ v)).
    rewrite (scan_pair name k v _ "") by done.
    unfold firstNamed. simpl.
    destruct (strictEq k name); [done|].
    clear Hk Hs k v.
    induction rest as [|[k v] rest IH]; [done|].
    apply Forall_cons in Hrest as [(_ & _ & Hk & Hs & _) Hrest]. simpl in Hk, Hs.
    simpl map. rewrite (scan_pair name k v _ " ") by done.
    simpl. destruct (strictEq k name); [done|]. by apply IH. }
  split; [exact Hfirst|].
  intros Hcookies. rewrite Hfirst.
  unfold Cookies.getCookie, gets. simpl. by rewrite Hcookies, lookup_list_to_map_first.
Qed.

Lemma getCookie_finds_the_first_cookie_of_that_name_witness :
  CookieText.getCookie "theme=dark; cart_id=c1; lang=en" "cart_id" = Some "c1"
  /\ CookieText.getCookie "theme=dark; cart_id=c1; lang=en" "id" = None.
Proof.
  split.
  - destruct (getCookie_finds_the_first_cookie_of_that_name
                [("theme", "dark"); ("cart_id", "c1"); ("lang", "en")] "cart_id"
                emptyWorld) as [Hfirst _].
    + repeat (constructor; try done).
    + reflexivity.
    + exact Hfirst.
  - destruct (getCookie_finds_the_first_cookie_of_that_name
                [("theme", "dark"); ("cart_id", "c1"); ("lang", "en")] "id"
                emptyWorld) as [Hfirst _].
    + repeat (constructor; try done).
    + reflexivity.
    + exact Hfirst.
Defined.

(* ===================================================================== *)
(** * The cart page over any sequence of events *)
(* ===================================================================== *)

(** Resuming a call may drop a slot and set a timer; it makes no call and
    leaves the suspended calls alone. *)
Lemma resume_frame (wt : CartPage.Waiter) (c : Completion CartItemResponse.t)
    (s : CartPage.State) :
  let s' := CartPage.resume wt c s in
  CartPage.world s' = CartPage.world s
  /\ CartPage.invoked s' = CartPage.invoked s
  /\ CartPage.waiters s' = CartPage.waiters s
  /\ (forall cartId promise,
        CartPage.cartPromises s' !! cartId = Some promise ->
        CartPage.cartPromises s !! cartId = Some promise).
Proof.
  unfold CartPage.resume. cbv zeta.
  destruct c as [response|err]; [destruct (CartPage.shared wt)|
                                 destruct (truthy (CartPage.cartIdOf wt))];
    simpl; repeat split; try done.
  intros cartId promise Hslot. by apply lookup_delete_Some in Hslot as [_ Hslot].
Qed.

Lemma ownCalls_resume (wt : CartPage.Waiter) (c : Completion CartItemResponse.t)
    (s : CartPage.State) :
  ownCalls s -> ownCalls (CartPage.resume wt c s).
Proof.
  intros [Hslots Hwaiters].
  destruct (resume_frame wt c s) as (_ & Hi & Hw & Hsub).
  split.
  - intros cartId promise Hslot. rewrite Hi. by apply Hslots, Hsub.
  - by rewrite Hi, Hw.
Qed.

Lemma ownCalls_resume_all (c : Completion CartItemResponse.t)
    (ready : list CartPage.Waiter) (s : CartPage.State) :
  ownCalls s -> ownCalls (fold_left (fun s wt => CartPage.resume wt c s) ready s).
Proof.
  revert s. induction ready as [|wt ready IH]; intros s Hown; [done|].
  simpl. by apply IH, ownCalls_resume.
Qed.

Lemma ownCalls_await (wt : CartPage.Waiter) (s : CartPage.State) :
  ownCalls s ->
  CartPage.invoked s !! CartPage.awaited wt = Some (CartPage.cartIdOf wt) ->
  ownCalls (CartPage.await wt s).
Proof.
  intros Hown Hcall. unfold CartPage.await.
  destruct (CartPage.settled s !! CartPage.awaited wt) as [c|].
  - by apply ownCalls_resume.
  - destruct Hown as [Hslots Hwaiters]. split; [done|].
    simpl. apply Forall_app. split; [done|]. by constructor.
Qed.

(** One more call of [getCartItems] keeps the earlier ones where they are. *)
Lemma ownCalls_invoke (cartId : string) (s : CartPage.State) :
  ownCalls s ->
  ownCalls (CartPage.withInvoked (CartPage.invoked s ++ [cartId]) s).
Proof.
  intros [Hslots Hwaiters]. split; simpl.
  - intros key promise Hslot. by apply lookup_app_l_Some, Hslots.
  - eapply Forall_impl; [exact Hwaiters|].
    intros wt Hcall. by apply lookup_app_l_Some.
Qed.

Lemma ownCalls_view (f : CartPage.View -> CartPage.View) (s : CartPage.State) :
  ownCalls s -> ownCalls (CartPage.withView f s).
Proof. done. Qed.

Lemma ownCalls_loads (n : nat) (s : CartPage.State) :
  ownCalls s -> ownCalls (CartPage.withLoads n s).
Proof. done. Qed.

Lemma ownCalls_loadCartItems (useCache : bool) (s : CartPage.State) :
  ownCalls s -> ownCalls (CartPage.loadCartItems useCache s).
Proof.
  intros Hown. unfold CartPage.loadCartItems. cbv zeta.
  destruct (CartPage.storedCartId _) as [cartId|]; [|done].
  destruct (truthy cartId); [|done].
  destruct useCache.
  - cbn [CartPage.setError CartPage.setLoading CartPage.withView CartPage.withLoads
         CartPage.cartPromises].
    destruct (CartPage.cartPromises s !! cartId) as [promise|] eqn:Hslot.
    + apply ownCalls_await; [done|]. simpl. by apply Hown.
    + apply ownCalls_await.
      * destruct Hown as [Hslots Hwaiters]. split; simpl.
        -- intros key promise Hkey.
           apply lookup_insert_Some in Hkey as [[<- <-]|[_ Hkey]].
           ++ by apply list_lookup_middle.
           ++ by apply lookup_app_l_Some, Hslots.
        -- eapply Forall_impl; [exact Hwaiters|].
           intros wt Hcall. by apply lookup_app_l_Some.
      * simpl. by apply list_lookup_middle.
  - apply ownCalls_await.
    + by apply ownCalls_invoke.
    + simpl. by apply list_lookup_middle.
Qed.

Lemma ownCalls_answer {Outcome : Type}
    (getCartItems : string -> Outcome -> Js World CartItemResponse.t)
    (promise : nat) (outcome : Outcome) (s : CartPage.State) :
  ownCalls s -> ownCalls (CartPage.answer getCartItems promise outcome s).
Proof.
  intros [Hslots Hwaiters]. unfold CartPage.answer.
  destruct (CartPage.invoked s !! promise) as [cartId|]; [|done].
  destruct (CartPage.settled s !! promise); [done|].
  destruct (getCartItems cartId outcome (CartPage.world s)) as [c w].
  apply ownCalls_resume_all. split; [done|]. simpl.
  apply Forall_forall. intros wt Hmem.
  apply list_elem_of_In, filter_In in Hmem as [Hmem _].
  rewrite Forall_forall in Hwaiters. by apply Hwaiters, list_elem_of_In.
Qed.

Lemma ownCalls_elapse (ms : Z) (s : CartPage.State) :
  ownCalls s -> ownCalls (CartPage.elapse ms s).
Proof.
  intros [Hslots Hwaiters].
  destruct (elapse_frame ms s)
    as (_ & Hi & _ & Hw & _ & _ & _ & _ & _ & _ & Hnone).
  split.
  - intros cartId promise Hslot. rewrite Hi. apply Hslots.
    destruct (CartPage.cartPromises s !! cartId) as [p|] eqn:Hold.
    + unfold CartPage.elapse in Hslot. cbv zeta in Hslot.
      destruct (timers_fire
                  (List.filter (fun t => fst t <=? CartPage.now (CartPage.withNow (CartPage.now s + ms) s))
                     (CartPage.timers (CartPage.withNow (CartPage.now s + ms) s)))
                  (CartPage.withTimers
                     (List.filter (fun t => negb (fst t <=? CartPage.now (CartPage.withNow (CartPage.now s + ms) s)))
                        (CartPage.timers (CartPage.withNow (CartPage.now s + ms) s)))
                     (CartPage.withNow (CartPage.now s + ms) s)))
        as (_ & _ & _ & _ & _ & _ & _ & _ & Hin & Hout & _).
      destruct (in_dec String.string_dec cartId
                  (map snd (List.filter (fun t => fst t <=? CartPage.now (CartPage.withNow (CartPage.now s + ms) s))
                     (CartPage.timers (CartPage.withNow (CartPage.now s + ms) s)))))
        as [Hdue|Hkept].
      * rewrite (Hin cartId Hdue) in Hslot. done.
      * rewrite (Hout cartId Hkept) in Hslot. simpl in Hslot. congruence.
    + rewrite (Hnone cartId Hold) in Hslot. done.
  - by rewrite Hi, Hw.
Qed.

(** X13.  On the cart page, whatever the sequence of mounts, loads, network
    answers and delays, every slot of the shared promise map and every
    suspended call of [loadCartItems] stands for a call of [getCartItems]
    that was made for that very cart id: a load that joins a slot is never
    handed the cart of another id. *)
Theorem cart_page_slots_hold_calls_for_their_own_cart {Outcome : Type}
    (getCartItems : string -> Outcome -> Js World CartItemResponse.t)
    (events : list CartPage.Event) (w : World) :
  ownCalls (CartPage.run getCartItems events (CartPage.initial w)).
Proof.
  assert (Hrun : forall s, ownCalls s -> ownCalls (CartPage.run getCartItems events s)).
  { induction events as [|e events IH]; intros s Hown; [done|].
    unfold CartPage.run. simpl. apply IH.
    destruct e as [|useCache|promise outcome|ms]; simpl.
    - unfold CartPage.initLoad.
      destruct (truthyOpt _); [by apply ownCalls_loadCartItems|done].
    - by apply ownCalls_loadCartItems.
    - by apply ownCalls_answer.
    - by apply ownCalls_elapse. }
  apply Hrun. split; [|by constructor].
  intros cartId promise Hslot. simpl in Hslot. by rewrite lookup_empty in Hslot.
Qed.

(** Time passing leaves what the page shows alone. *)
Lemma timers_fire_view (due : list (Z * string)) (s : CartPage.State) :
  CartPage.view
    (fold_left (fun s t => CartPage.withCartPromises (delete (snd t)) s) due s)
  = CartPage.view s.
Proof.
  revert s. induction due as [|t due IH]; intros s; [done|]. simpl. by rewrite IH.
Qed.

Lemma elapse_view (ms : Z) (s : CartPage.State) :
  CartPage.view (CartPage.elapse ms s) = CartPage.view s.
Proof. unfold CartPage.elapse. cbv zeta. by rewrite timers_fire_view. Qed.

(** Without a truthy cart id in the cookie store, an event leaves the page
    with no call made and an empty cart on show. *)
Lemma step_without_cart {Outcome : Type}
    (getCartItems : string -> Outcome -> Js World CartItemResponse.t)
    (e : CartPage.Event) (s : CartPage.State) :
  truthyOpt (CartPage.storedCartId s) = false ->
  CartPage.invoked s = [] ->
  CartPage.cartItems (CartPage.view s) = [] ->
  CartPage.error (CartPage.view s) = None ->
  let s' := CartPage.step getCartItems s e in
  CartPage.world s' = CartPage.world s
  /\ CartPage.invoked s' = []
  /\ CartPage.cartItems (CartPage.view s') = []
  /\ CartPage.error (CartPage.view s') = None
  /\ CartPage.loading (CartPage.view s')
     = if startsLoad e then false else CartPage.loading (CartPage.view s).
Proof.
  intros Hcart Hinvoked Hitems Herror.
  destruct e as [|useCache|promise outcome|ms]; cbn [CartPage.step startsLoad]; cbv zeta.
  - unfold CartPage.initLoad. by rewrite Hcart.
  - unfold CartPage.loadCartItems. cbv zeta.
    change (CartPage.storedCartId (CartPage.withLoads (S (CartPage.loads s)) s))
      with (CartPage.storedCartId s).
    destruct (CartPage.storedCartId s) as [cartId|]; [|done].
    simpl in Hcart. by rewrite Hcart.
  - unfold CartPage.answer. by rewrite Hinvoked.
  - destruct (elapse_frame ms s) as (Hw & Hi & _).
    by rewrite Hw, Hi, elapse_view.
Qed.

(** X14.  A cart page that opens without a truthy [cart_id] cookie never
    calls [getCartItems], whatever the sequence of mounts, loads, answers
    and delays: it keeps showing the empty cart, without an error, and
    stops showing the loading state as soon as the mount effect or a load
    has run. *)
Theorem cart_page_without_cart_id_makes_no_call {Outcome : Type}
    (getCartItems : string -> Outcome -> Js World CartItemResponse.t)
    (events : list CartPage.Event) (w : World) :
  truthyOpt (CartPage.storedCartId (CartPage.initial w)) = false ->
  let s := CartPage.run getCartItems events (CartPage.initial w) in
  CartPage.invoked s = []
  /\ CartPage.world s = w
  /\ CartPage.cartItems (CartPage.view s) = []
  /\ CartPage.error (CartPage.view s) = None
  /\ CartPage.loading (CartPage.view s) = negb (existsb startsLoad events).
Proof.
  intros Hcart. cbv zeta.
  assert (Hrun : forall s,
    truthyOpt (CartPage.storedCartId s) = false ->
    CartPage.invoked s = [] ->
    CartPage.cartItems (CartPage.view s) = [] ->
    CartPage.error (CartPage.view s) = None ->
    let s' := CartPage.run getCartItems events s in
    CartPage.invoked s' = []
    /\ CartPage.world s' = CartPage.world s
    /\ CartPage.cartItems (CartPage.view s') = []
    /\ CartPage.error (CartPage.view s') = None
    /\ CartPage.loading (CartPage.view s')
       = if existsb startsLoad events then false
         else CartPage.loading (CartPage.view s)).
  { induction events as [|e events IH]; intros s Hs Hinvoked Hitems Herror; [done|].
    destruct (step_without_cart getCartItems e s Hs Hinvoked Hitems Herror)
      as (Hw & Hi & Hit & Her & Hl).
    unfold CartPage.run. simpl fold_left.
    destruct (IH (CartPage.step getCartItems s e))
      as (Hi' & Hw' & Hit' & Her' & Hl'); try done.
    { by rewrite (storedCartId_world s). }
    cbv zeta. unfold CartPage.run in *. rewrite Hi', Hw', Hw, Hit', Her', Hl', Hl.
    repeat split; try done. simpl. by destruct (startsLoad e), (existsb startsLoad events). }
  by apply (Hrun (CartPage.initial w)).
Qed.

Lemma cart_page_without_cart_id_makes_no_call_witness :
  let s := CartPage.run ApiWebhook.getCartItems
             [CartPage.Mount; CartPage.Elapse 50; CartPage.Load false;
              CartPage.Answer 0%nat
                (answered (cartOf (Some "c1") (Some [cartLine "v1" 2]) None))]
             (CartPage.initial emptyWorld) in
  CartPage.invoked s = [] /\ CartPage.loading (CartPage.view s) = false.
Proof.
  destruct (cart_page_without_cart_id_makes_no_call ApiWebhook.getCartItems
              [CartPage.Mount; CartPage.Elapse 50; CartPage.Load false;
               CartPage.Answer 0%nat
                 (answered (cartOf (Some "c1") (Some [cartLine "v1" 2]) None))]
              emptyWorld)
    as (Hinvoked & _ & _ & _ & Hloading); [reflexivity|].
  split; [exact Hinvoked | exact Hloading].
Defined.

(* ===================================================================== *)
(** * The cart sidebar and the cart badge *)
(* ===================================================================== *)

(** What one line adds to each of the two sums. *)
Lemma transform_quantity (item : CartLine.t) :
  CartPage.quantity (CartPage.transform item)
  = if lacksQuantity item then 1 else CartPage.orNumber (CartLine.quantity item) 0.
Proof.
  unfold lacksQuantity, CartPage.transform, CartPage.orNumber. simpl.
  destruct (CartLine.quantity item) as [n|]; [|done].
  by destruct (n =? 0) eqn:Hn.
Qed.

(** A line without quantity adds nothing to the count of the badge. *)
Lemma lacking_counts_zero (item : CartLine.t) :
  lacksQuantity item = true -> CartPage.orNumber (CartLine.quantity item) 0 = 0.
Proof.
  unfold lacksQuantity, CartPage.orNumber.
  destruct (CartLine.quantity item) as [n|]; [|done].
  by destruct (n =? 0).
Qed.

(** With every line holding a quantity the two sums add the same numbers in
    the same order, whatever [+] does. *)
Lemma totalItems_count_same (plus : Z -> Z -> Z) (items : list CartLine.t) :
  List.filter lacksQuantity items = [] ->
  Cart.totalItems plus (map CartPage.transform items)
  = HomePageWithCart.count plus items.
Proof.
  unfold Cart.totalItems, HomePageWithCart.count.
  assert (Hgen : forall a,
    List.filter lacksQuantity items = [] ->
    fold_left (fun sum item => plus sum (CartPage.quantity item))
      (map CartPage.transform items) a
    = fold_left (fun sum item => plus sum (CartPage.orNumber (CartLine.quantity item) 0))
        items a); [|apply Hgen].
  induction items as [|item items IH]; intros a Hnone; [done|].
  cbn [map fold_left List.filter] in *. rewrite transform_quantity.
  destruct (lacksQuantity item); [done|]. by apply IH.
Qed.

(** A sum taken with an exact [+] is the exact sum, while it stays in range. *)
Lemma sum_in_safe_range {A : Type} (plus : Z -> Z -> Z) (term : A -> Z)
    (l : list A) (a : Z) :
  exactInSafeRange plus ->
  Forall (fun x => 0 <= term x) l ->
  0 <= a ->
  a + fold_right Z.add 0 (map term l) <= 2 ^ 53 ->
  fold_left (fun sum x => plus sum (term x)) l a
  = a + fold_right Z.add 0 (map term l).
Proof.
  intros Hexact Hterms. revert a.
  induction Hterms as [|x l Hx Hterms IH]; intros a Ha Hsum; simpl in *; [lia|].
  assert (0 <= fold_right Z.add 0 (map term l)).
  { clear -Hterms. induction Hterms; simpl; lia. }
  rewrite Hexact by lia. rewrite IH by lia. lia.
Qed.

(** The exact sums of the two pages differ by the number of lines without
    quantity. *)
Lemma exactTotal_count (items : list CartLine.t) :
  exactTotal items
  = fold_right Z.add 0
      (map (fun item => CartPage.orNumber (CartLine.quantity item) 0) items)
    + Z.of_nat (length (List.filter lacksQuantity items)).
Proof.
  unfold exactTotal, shownQuantity.
  induction items as [|item items IH]; [done|].
  cbn [map fold_right List.filter]. rewrite IH, transform_quantity.
  destruct (lacksQuantity item) eqn:Hlacks.
  - rewrite (lacking_counts_zero item Hlacks). cbn [length]. lia.
  - lia.
Qed.

(** The two sums over the lines of one cart. *)
Lemma totalItems_count (plus : Z -> Z -> Z) (items : list CartLine.t) :
  exactInSafeRange plus ->
  Forall (fun item => 0 <= shownQuantity item) items ->
  exactTotal items <= 2 ^ 53 ->
  Cart.totalItems plus (map CartPage.transform items)
  = HomePageWithCart.count plus items
    + Z.of_nat (length (List.filter lacksQuantity items)).
Proof.
  intros Hexact Hshown Htotal.
  assert (Hcounted : Forall (fun item => 0 <= CartPage.orNumber (CartLine.quantity item) 0)
                       items).
  { eapply Forall_impl; [exact Hshown|]. intros item. unfold shownQuantity.
    rewrite transform_quantity.
    destruct (lacksQuantity item) eqn:Hlacks; [|done].
    rewrite (lacking_counts_zero item Hlacks). lia. }
  pose proof (exactTotal_count items) as Hsplit.
  unfold Cart.totalItems, HomePageWithCart.count.
  assert (Hfold : forall (g : Z -> CartPage.CartItem -> Z) l a,
            fold_left g (map CartPage.transform l) a
            = fold_left (fun sum item => g sum (CartPage.transform item)) l a).
  { intros g l. induction l as [|x l IH]; intros a; [done|]. simpl. apply IH. }
  pose proof (sum_in_safe_range plus shownQuantity items 0 Hexact Hshown (Z.le_refl 0))
    as Hsidebar.
  pose proof (sum_in_safe_range plus
                (fun item => CartPage.orNumber (CartLine.quantity item) 0) items 0
                Hexact Hcounted (Z.le_refl 0)) as Hbadge.
  fold (exactTotal items) in Hsidebar. unfold shownQuantity in Hsidebar.
  rewrite Hfold, Hsidebar, Hbadge by lia. lia.
Qed.

(** The run of [updateCartCount] with a cart id in the cookie store. *)
Lemma updateCartCount_run {Outcome : Type} (plus : Z -> Z -> Z)
    (getCartItems : string -> Outcome -> Js World CartItemResponse.t)
    (outcome : Outcome) (p : Page HomePageWithCart.State) (cartId : string) :
  hasCart p cartId ->
  HomePageWithCart.updateCartCount plus getCartItems outcome p
  = (Return tt,
     {| state :=
          {| HomePageWithCart.isModalOpen := HomePageWithCart.isModalOpen (state p);
             HomePageWithCart.isCartOpen := HomePageWithCart.isCartOpen (state p);
             HomePageWithCart.cartItemCount :=
               match fst (getCartItems cartId outcome (world p)) with
               | Return response =>
                   HomePageWithCart.count plus (CartPage.apiItemsOf response)
               | Throw _ => 0
               end |};
        world := snd (getCartItems cartId outcome (world p));
        calls := calls p; alerts := alerts p; navigations := navigations p |}).
Proof.
  intros [Hcookie Htruthy].
  unfold HomePageWithCart.updateCartCount, bind, onWorld, Cookies.getCartId,
    Cookies.getCookie, gets, tryCatch, HomePageWithCart.setCartItemCount, modify,
    withState.
  cbn [state world calls alerts navigations]. rewrite Hcookie.
  cbn [truthyOpt negb from_option]. unfold id. rewrite Htruthy.
  cbn [negb state world calls alerts navigations].
  destruct (getCartItems cartId outcome (world p)) as [[response|err] w];
    reflexivity.
Qed.

(** The run of [updateCartCount] without one. *)
Lemma updateCartCount_without_cart {Outcome : Type} (plus : Z -> Z -> Z)
    (getCartItems : string -> Outcome -> Js World CartItemResponse.t)
    (outcome : Outcome) (p : Page HomePageWithCart.State) :
  truthyOpt (cookies (world p) !! "cart_id") = false ->
  HomePageWithCart.updateCartCount plus getCartItems outcome p
  = (Return tt,
     {| state :=
          {| HomePageWithCart.isModalOpen := HomePageWithCart.isModalOpen (state p);
             HomePageWithCart.isCartOpen := HomePageWithCart.isCartOpen (state p);
             HomePageWithCart.cartItemCount := 0 |};
        world := world p;
        calls := calls p; alerts := alerts p; navigations := navigations p |}).
Proof.
  intros Hnone.
  unfold HomePageWithCart.updateCartCount, bind, onWorld, Cookies.getCartId,
    Cookies.getCookie, gets, HomePageWithCart.setCartItemCount, modify, withState.
  cbn [state world calls alerts navigations]. by rewrite Hnone.
Qed.

(** The run of [loadCartItems] of the sidebar with a cart id in the cookie
    store. *)
Lemma sidebar_loadCartItems_run {Outcome : Type}
    (getCartItems : string -> Outcome -> Js World CartItemResponse.t)
    (outcome : Outcome) (p : Page Cart.State) (cartId : string) :
  hasCart p cartId ->
  Cart.loadCartItems getCartItems outcome p
  = (Return tt,
     {| state :=
          match fst (getCartItems cartId outcome (world p)) with
          | Return response =>
              {| Cart.cartItems :=
                   map CartPage.transform (CartPage.apiItemsOf response);
                 Cart.loading := false; Cart.error := None |}
          | Throw err =>
              {| Cart.cartItems := []; Cart.loading := false;
                 Cart.error := Some (messageOr "Failed to load cart" err) |}
          end;
        world := snd (getCartItems cartId outcome (world p));
        calls := calls p; alerts := alerts p; navigations := navigations p |}).
Proof.
  intros [Hcookie Htruthy].
  unfold Cart.loadCartItems, bind, onWorld, Cookies.getCartId,
    Cookies.getCookie, gets, tryCatch, tryFinally, Cart.setCartItems, Cart.setLoading,
    Cart.setError, modify, withState.
  cbn [state world calls alerts navigations]. rewrite Hcookie.
  cbn [truthyOpt negb from_option]. unfold id. rewrite Htruthy.
  cbn [negb state world calls alerts navigations].
  destruct (getCartItems cartId outcome (world p)) as [[response|err] w];
    reflexivity.
Qed.

(** X15.  The cart badge of the home page ([updateCartCount]) and the cart
    sidebar ([loadCartItems] of [Cart.tsx]) read the same cart response,
    whose quantities are whole numbers.  When every line holds a quantity
    other than zero, the item total of the sidebar is the count of the
    badge, whatever the [+] of JavaScript does with the numbers.  When the
    quantities are not negative and their exact sum, each line without
    quantity taken as one, is at most [2^53], so that [+] adds them without
    rounding, the item total of the sidebar is the count of the badge plus
    the number of lines whose quantity is missing or zero: the sidebar
    counts such a line as one item ([quantity || 1]), the badge as none
    ([quantity || 0]). *)
Theorem sidebar_total_counts_lines_without_quantity_as_one {Outcome : Type}
    (plus : Z -> Z -> Z)
    (getCartItems : string -> Outcome -> Js World CartItemResponse.t)
    (outcome : Outcome) (badge : Page HomePageWithCart.State)
    (sidebar : Page Cart.State) (cartId : string) (response : CartItemResponse.t) :
  hasCart badge cartId ->
  hasCart sidebar cartId ->
  fst (getCartItems cartId outcome (world badge)) = Return response ->
  fst (getCartItems cartId outcome (world sidebar)) = Return response ->
  let items := CartPage.apiItemsOf response in
  let badge' := snd (HomePageWithCart.updateCartCount plus getCartItems outcome badge) in
  let sidebar' := snd (Cart.loadCartItems getCartItems outcome sidebar) in
  (List.filter lacksQuantity items = [] ->
   Cart.totalItems plus (Cart.cartItems (state sidebar'))
   = HomePageWithCart.cartItemCount (state badge'))
  /\ (exactInSafeRange plus ->
      Forall (fun item => 0 <= shownQuantity item) items ->
      exactTotal items <= 2 ^ 53 ->
      Cart.totalItems plus (Cart.cartItems (state sidebar'))
      = HomePageWithCart.cartItemCount (state badge')
        + Z.of_nat (length (List.filter lacksQuantity items))).
Proof.
  intros Hbadge Hsidebar Hread Hread'. cbv zeta.
  rewrite (updateCartCount_run _ _ _ _ cartId Hbadge).
  rewrite (sidebar_loadCartItems_run _ _ _ cartId Hsidebar).
  cbn [snd state]. rewrite Hread, Hread'.
  cbn [Cart.cartItems HomePageWithCart.cartItemCount].
  split; [apply totalItems_count_same | apply totalItems_count].
Qed.

Lemma sidebar_total_counts_lines_without_quantity_as_one_witness :
  let response := cartOf (Some "c1") (Some [cartLine "v1" 2; unquantified "v3"]) None in
  Cart.totalItems Z.add
    (Cart.cartItems
       (state (snd (Cart.loadCartItems ApiWebhook.getCartItems (answered response)
                      (sidebarPage "c1")))))
  = HomePageWithCart.cartItemCount
      (state (snd (HomePageWithCart.updateCartCount Z.add ApiWebhook.getCartItems
                     (answered response) (badgePage "c1"))))
    + 1.
Proof.
  refine (proj2
           (sidebar_total_counts_lines_without_quantity_as_one Z.add
              ApiWebhook.getCartItems
              (answered (cartOf (Some "c1") (Some [cartLine "v1" 2; unquantified "v3"]) None))
              (badgePage "c1") (sidebarPage "c1") "c1"
              (cartOf (Some "c1") (Some [cartLine "v1" 2; unquantified "v3"]) None)
              (conj eq_refl eq_refl) (conj eq_refl eq_refl) eq_refl eq_refl)
           _ _ _).
  - intros a b _ _ _. reflexivity.
  - repeat constructor; vm_compute; discriminate.
  - vm_compute. discriminate.
Defined.

(** X16.  With the webhook request client, a badge update
    ([updateCartCount]) whose cart read finds the cart empty leaves the
    badge at zero and the browser without its [cart_id] cookie, so that
    every later badge update sets zero again without calling the network. *)
Theorem empty_cart_stops_the_badge_from_reading (plus : Z -> Z -> Z)
    (outcome : FetchOutcome CartItemResponse.t) (p : Page HomePageWithCart.State)
    (cartId : string) (response : CartItemResponse.t) :
  hasCart p cartId ->
  parsed outcome = Some response ->
  ApiWebhook.lineItemsOf response = [] ->
  ApiWebhook.itemsOf response = [] ->
  let p1 := snd (HomePageWithCart.updateCartCount plus ApiWebhook.getCartItems
                   outcome p) in
  HomePageWithCart.cartItemCount (state p1) = 0
  /\ cookies (world p1) !! "cart_id" = None
  /\ length (requests (world p1)) = S (length (requests (world p)))
  /\ (forall later,
        let p2 := snd (HomePageWithCart.updateCartCount plus ApiWebhook.getCartItems
                         later p1) in
        requests (world p2) = requests (world p1)
        /\ HomePageWithCart.cartItemCount (state p2) = 0).
Proof.
  intros Hcart Hparsed Hlines Hitems. cbv zeta.
  rewrite (updateCartCount_run _ _ _ _ cartId Hcart). cbn [snd state world].
  assert (Hread : ApiWebhook.getCartItems cartId outcome (world p)
                  = ApiWebhook.forgetEmptyCart response
                      (withRequest
                         (ApiWebhook.webhookRequest "get-cart"
                            (Some (JObject [("cart_id", JString cartId)])))
                         (world p))).
  { unfold ApiWebhook.getCartItems.
    by rewrite (viaWebhook_parsed _ outcome _ _ _ (world p) response
                  neverThrows_forgetEmptyCart Hparsed). }
  rewrite Hread, forgetEmptyCart_run, Hlines, Hitems.
  cbn [length Nat.eqb andb fst snd HomePageWithCart.cartItemCount].
  assert (Hnone : CartPage.apiItemsOf response = []) by exact Hitems.
  rewrite Hnone.
  split; [done|]. split; [apply lookup_delete_eq|].
  split; [simpl; rewrite length_app; simpl; lia|].
  intros later.
  rewrite updateCartCount_without_cart; [done|].
  cbn [world]. simpl. by rewrite lookup_delete_eq.
Qed.

Lemma empty_cart_stops_the_badge_from_reading_witness :
  let p1 := snd (HomePageWithCart.updateCartCount Z.add ApiWebhook.getCartItems
                   (answered (cartOf (Some "c1") (Some []) None)) (badgePage "c1")) in
  cookies (world p1) !! "cart_id" = None
  /\ requests (world (snd (HomePageWithCart.updateCartCount Z.add ApiWebhook.getCartItems
                             (answered (cartOf (Some "c1") (Some [cartLine "v1" 2]) None))
                             p1)))
     = requests (world p1).
Proof.
  destruct (empty_cart_stops_the_badge_from_reading Z.add
              (answered (cartOf (Some "c1") (Some []) None)) (badgePage "c1") "c1"
              (cartOf (Some "c1") (Some []) None))
    as (_ & Hcookie & _ & Hlater); [by split | reflexivity | reflexivity | reflexivity |].
  split; [exact Hcookie|].
  exact (proj1 (Hlater (answered (cartOf (Some "c1") (Some [cartLine "v1" 2]) None)))).
Defined.

(* ===================================================================== *)
(** * The quantity of the product modal *)
(* ===================================================================== *)

(** A number that is not less than another is that other or more. *)
Lemma not_less_than (a b : JsNumber.t) :
  JsNumber.ltb a b = false -> JsNumber.leb b a = true.
Proof.
  destruct a as [x| |], b as [y| |]; simpl; try done.
  by intros Hle%negb_false_iff.
Qed.

(** The add button is guarded: whatever the quantity on show, a call that
    adds to the cart adds at least one item. *)
Lemma modal_step_adds_at_least_one (stock_available : ProductVariant.t -> JsNumber.t)
    (m : ProductDetailModal.Modal) (e : ProductDetailModal.Event) :
  Forall addsAtLeastOne (ProductDetailModal.made m) ->
  Forall addsAtLeastOne
    (ProductDetailModal.made (ProductDetailModal.step stock_available m e)).
Proof.
  intros Hmade.
  destruct e as [v o fetched|newQuantity|added|index|timeout];
    cbn [ProductDetailModal.step].
  - unfold ProductDetailModal.loadProduct, bind, gets, tryFinally, tryCatch.
    cbn [fst snd ProductDetailModal.withProps ProductDetailModal.variantId
         ProductDetailModal.isOpen].
    destruct (negb (truthyOpt v) || negb o); [done|].
    destruct fetched as [productData|err]; simpl;
      apply Forall_app; split; try done; by constructor.
  - unfold ProductDetailModal.handleQuantityChange.
    destruct (JsNumber.ltb newQuantity (JsNumber.ofZ 1)); [done|].
    cbv zeta.
    destruct (ProductDetailModal.maxStockOf _ _) as [stock|]; [|done].
    by destruct (JsNumber.truthy stock && JsNumber.gtb newQuantity stock).
  - unfold ProductDetailModal.handleAddToCart.
    destruct (ProductDetailModal.product (ProductDetailModal.view m)) as [shown|];
      [|done].
    destruct (negb (truthyOpt (ProductDetailModal.variantId m))); [done|].
    cbn [orb].
    destruct (JsNumber.ltb (ProductDetailModal.quantity (ProductDetailModal.view m))
                (JsNumber.ofZ 1)) eqn:Hq; [done|].
    apply not_less_than in Hq.
    cbv zeta. unfold tryFinally, tryCatch, bind.
    destruct added as [response|err]; simpl;
      apply Forall_app; split; try done; by constructor.
  - done.
  - by destruct (ProductDetailModal.timeouts m !! timeout).
Qed.

(** A quantity change is ignored below one and capped at a stock that is
    not zero. *)
Lemma modal_step_keeps_quantity (stock_available : ProductVariant.t -> JsNumber.t)
    (m : ProductDetailModal.Modal) (e : ProductDetailModal.Event) :
  (forall variant, zeroOrAtLeastOne (stock_available variant)) ->
  atLeastOne (ProductDetailModal.quantity (ProductDetailModal.view m)) ->
  atLeastOne
    (ProductDetailModal.quantity
       (ProductDetailModal.view (ProductDetailModal.step stock_available m e))).
Proof.
  intros Hstock Hquantity.
  destruct e as [v o fetched|newQuantity|added|index|timeout];
    cbn [ProductDetailModal.step].
  - unfold ProductDetailModal.loadProduct, bind, gets, tryFinally, tryCatch.
    cbn [fst snd ProductDetailModal.withProps ProductDetailModal.variantId
         ProductDetailModal.isOpen].
    destruct (negb (truthyOpt v) || negb o); [done|].
    by destruct fetched as [productData|err].
  - unfold ProductDetailModal.handleQuantityChange.
    destruct (JsNumber.ltb newQuantity (JsNumber.ofZ 1)) eqn:Hnew; [done|].
    apply not_less_than in Hnew.
    cbv zeta. unfold ProductDetailModal.maxStockOf.
    destruct (ProductDetailModal.product (ProductDetailModal.view m)) as [shown|];
      [|done].
    destruct (Product.variants shown) as [|variant rest]; [done|].
    destruct (Hstock variant) as [Hzero|Hone].
    + by rewrite Hzero.
    + by destruct (JsNumber.truthy (stock_available variant)
                   && JsNumber.gtb newQuantity (stock_available variant)).
  - unfold ProductDetailModal.handleAddToCart.
    destruct (ProductDetailModal.product (ProductDetailModal.view m)) as [shown|];
      [|done].
    destruct (negb (truthyOpt (ProductDetailModal.variantId m))
              || JsNumber.ltb (ProductDetailModal.quantity (ProductDetailModal.view m))
                   (JsNumber.ofZ 1));
      [done|].
    cbv zeta. unfold tryFinally, tryCatch, bind.
    by destruct added as [response|err].
  - done.
  - by destruct (ProductDetailModal.timeouts m !! timeout).
Qed.

(** X17.  Whatever the sequence of new props, quantity changes, clicks on
    the add button, thumbnail clicks and timeouts, the product modal never
    asks the request client to add fewer than one item.  When the stock
    that every variant reports is zero, or one or more, the quantity it
    shows is never below one.  (A stock below zero, or between zero and
    one, becomes the quantity as soon as a larger quantity is asked
    for.) *)
Theorem modal_never_adds_fewer_than_one
    (stock_available : ProductVariant.t -> JsNumber.t)
    (events : list ProductDetailModal.Event)
    (variantId : option string) (isOpen : bool) :
  let m := ProductDetailModal.run stock_available events
             (ProductDetailModal.mounted variantId isOpen) in
  Forall addsAtLeastOne (ProductDetailModal.made m)
  /\ ((forall variant, zeroOrAtLeastOne (stock_available variant)) ->
      atLeastOne (ProductDetailModal.quantity (ProductDetailModal.view m))).
Proof.
  cbv zeta. split.
  - assert (Hrun : forall m,
      Forall addsAtLeastOne (ProductDetailModal.made m) ->
      Forall addsAtLeastOne
        (ProductDetailModal.made (ProductDetailModal.run stock_available events m))).
    { induction events as [|e events IH]; intros m Hmade; [done|].
      unfold ProductDetailModal.run. simpl fold_left.
      by apply IH, modal_step_adds_at_least_one. }
    apply Hrun. by constructor.
  - intros Hstock.
    assert (Hrun : forall m,
      atLeastOne (ProductDetailModal.quantity (ProductDetailModal.view m)) ->
      atLeastOne
        (ProductDetailModal.quantity
           (ProductDetailModal.view (ProductDetailModal.run stock_available events m)))).
    { induction events as [|e events IH]; intros m Hquantity; [done|].
      unfold ProductDetailModal.run. simpl fold_left.
      by apply IH, modal_step_keeps_quantity. }
    apply Hrun. reflexivity.
Qed.

Lemma modal_never_adds_fewer_than_one_witness :
  let m := ProductDetailModal.run (fun _ => JsNumber.ofZ 3)
             [ProductDetailModal.Props (Some "v1") true (Return tablets);
              ProductDetailModal.ChangeQuantity (JsNumber.ofZ 7);
              ProductDetailModal.ClickAdd (Return (addedTo (Some "c1")));
              ProductDetailModal.ChangeQuantity (JsNumber.ofZ 0)]
             (ProductDetailModal.mounted None false) in
  ProductDetailModal.made m
  = [ProductDetailModal.FetchProductDetail "v1";
     ProductDetailModal.AddToCart "v1" (JsNumber.ofZ 3)]
  /\ atLeastOne (ProductDetailModal.quantity (ProductDetailModal.view m)).
Proof.
  split; [reflexivity|].
  apply (modal_never_adds_fewer_than_one (fun _ => JsNumber.ofZ 3)
           [ProductDetailModal.Props (Some "v1") true (Return tablets);
            ProductDetailModal.ChangeQuantity (JsNumber.ofZ 7);
            ProductDetailModal.ClickAdd (Return (addedTo (Some "c1")));
            ProductDetailModal.ChangeQuantity (JsNumber.ofZ 0)]
           None false).
  intros _. right. reflexivity.
Defined.

(** A stock of one half: asking for two items leaves half an item on show,
    and the add button then adds nothing. *)
Example stock_below_one_becomes_the_quantity :
  let m := ProductDetailModal.run (fun _ => JsNumber.Finite (1 # 2))
             [ProductDetailModal.Props (Some "v1") true (Return tablets);
              ProductDetailModal.ChangeQuantity (JsNumber.ofZ 2);
              ProductDetailModal.ClickAdd (Return (addedTo (Some "c1")))]
             (ProductDetailModal.mounted None false) in
  ProductDetailModal.quantity (ProductDetailModal.view m) = JsNumber.Finite (1 # 2)
  /\ ProductDetailModal.made m = [ProductDetailModal.FetchProductDetail "v1"].
Proof. split; reflexivity. Qed.

(* ===================================================================== *)
(** * The shared promise of the home page *)
(* ===================================================================== *)

Ltac run_effect :=
  unfold HomePage.resume, tryFinally, tryCatch, bind, settle, gets, throw,
    HomePage.whenMounted, modify.

(** Resuming a run of the effect makes no call; it sets one timer. *)
Lemma home_resume_frame (readOfUndefined : string -> string) (wt : HomePage.Waiter)
    (c : Completion ProductsResponse.t) (s : HomePage.Session) :
  let s' := snd (HomePage.resume readOfUndefined wt c s) in
  HomePage.invoked s' = HomePage.invoked s
  /\ HomePage.now s' = HomePage.now s
  /\ HomePage.timers s' = HomePage.timers s ++ [HomePage.now s + 100].
Proof.
  cbv zeta. run_effect.
  destruct c as [response|err]; cbn [fst snd].
  - destruct (default false (HomePage.isMounted s !! HomePage.caller wt)) eqn:Hmounted.
    + destruct (ProductsResponse.payload response) as [payload|]; cbn [fst snd].
      * destruct (ProductsResponse.currency payload) as [currency|]; cbn [fst snd].
        -- cbn. by rewrite Hmounted.
        -- cbn. rewrite Hmounted. cbn. by rewrite Hmounted.
      * cbn. rewrite Hmounted. cbn. by rewrite Hmounted.
    + cbn. by rewrite Hmounted.
  - destruct (default false (HomePage.isMounted s !! HomePage.caller wt)) eqn:Hmounted;
      cbn; by rewrite Hmounted.
Qed.

(** A run of the effect that finds [productsPromise] empty calls
    [fetchProducts]. *)
Lemma home_mount_invokes (readOfUndefined : string -> string) (s : HomePage.Session) :
  HomePage.productsPromise s = None ->
  HomePage.invoked (HomePage.mount readOfUndefined s) = S (HomePage.invoked s).
Proof.
  intros Hnone. unfold HomePage.mount. cbv zeta.
  change (HomePage.productsPromise
            (HomePage.withView (HomePage.setLoading true)
               (HomePage.withIsMounted (HomePage.isMounted s ++ [true]) s)))
    with (HomePage.productsPromise s).
  rewrite Hnone. unfold HomePage.await.
  destruct (HomePage.settled _ !! _) as [c|]; [|done].
  match goal with
  | |- context [HomePage.resume ?r ?wt ?c ?s'] =>
      by destruct (home_resume_frame r wt c s') as (-> & _)
  end.
Qed.

Lemma home_timers_fire (due : list Z) (s : HomePage.Session) :
  let s' := fold_left (fun s _ => HomePage.withProductsPromise None s) due s in
  HomePage.invoked s' = HomePage.invoked s
  /\ (due <> [] -> HomePage.productsPromise s' = None).
Proof.
  revert s. induction due as [|t due IH]; intros s; [done|].
  cbv zeta. simpl fold_left.
  destruct (IH (HomePage.withProductsPromise None s)) as [Hi Hp].
  split; [done|]. intros _.
  destruct due as [|t' due']; [done|]. by apply Hp.
Qed.

(** Time passing makes no call, and a timer that is due clears
    [productsPromise]. *)
Lemma home_elapse_frame (ms : Z) (s : HomePage.Session) :
  HomePage.invoked (HomePage.elapse ms s) = HomePage.invoked s
  /\ (forall t, In t (HomePage.timers s) -> t <= HomePage.now s + ms ->
       HomePage.productsPromise (HomePage.elapse ms s) = None).
Proof.
  unfold HomePage.elapse. cbv zeta.
  set (due := List.filter _ _). set (s1 := HomePage.withTimers _ _).
  destruct (home_timers_fire due s1) as [Hi Hp].
  split; [done|]. intros t Hmem Hdue. apply Hp.
  assert (Hin : In t due).
  { subst due. apply filter_In. split; [done|]. by apply Z.leb_le. }
  intros Hnil. by rewrite Hnil in Hin.
Qed.

(** X18.  On a freshly loaded home page, the two runs of the mount effect
    that React's StrictMode makes (run, cleanup, run again) make one call of
    [fetchProducts] between them: the second run finds the promise of the
    first in [productsPromise] and awaits it.  When the call finishes, the
    run that is still mounted clears the loading state and shows: the
    products and the currency of a response that holds both, without an
    error; the products and the error of reading [code] when the payload
    has no [currency]; the error of reading [products] when the response
    has no [payload]; the error of the call when it failed.  Once 100 ms
    have passed after that, [productsPromise] is cleared and a further run
    of the effect calls [fetchProducts] again. *)
Theorem strict_mode_mounts_share_one_products_call {Outcome : Type}
    (fetchProducts : Outcome -> Js World ProductsResponse.t)
    (readOfUndefined : string -> string) (w : World) (outcome : Outcome)
    (before after : Z) :
  100 <= after ->
  let result := fst (fetchProducts outcome w) in
  let s2 := HomePage.run fetchProducts readOfUndefined
              [HomePage.Mount; HomePage.Cleanup 0; HomePage.Mount;
               HomePage.Elapse before]
              (HomePage.initial w) in
  let s3 := HomePage.step fetchProducts readOfUndefined s2 (HomePage.Answer 0%nat outcome) in
  let s5 := HomePage.run fetchProducts readOfUndefined
              [HomePage.Elapse after; HomePage.Mount] s3 in
  HomePage.invoked s2 = 1%nat
  /\ map HomePage.awaited (HomePage.waiters s2) = [0%nat; 0%nat]
  /\ HomePage.invoked s3 = 1%nat
  /\ HomePage.loading (HomePage.view s3) = false
  /\ (forall response payload currency,
        result = Return response ->
        ProductsResponse.payload response = Some payload ->
        ProductsResponse.currency payload = Some currency ->
        HomePage.products (HomePage.view s3) = ProductsResponse.products payload
        /\ HomePage.currency (HomePage.view s3) = ProductsResponse.code currency
        /\ HomePage.error (HomePage.view s3) = None)
  /\ (forall response payload,
        result = Return response ->
        ProductsResponse.payload response = Some payload ->
        ProductsResponse.currency payload = None ->
        HomePage.products (HomePage.view s3) = ProductsResponse.products payload
        /\ HomePage.currency (HomePage.view s3) = "USD"
        /\ HomePage.error (HomePage.view s3)
           = Some (messageOr "Failed to load products"
                     (TypeError (readOfUndefined "code"))))
  /\ (forall response,
        result = Return response ->
        ProductsResponse.payload response = None ->
        HomePage.products (HomePage.view s3) = Some []
        /\ HomePage.error (HomePage.view s3)
           = Some (messageOr "Failed to load products"
                     (TypeError (readOfUndefined "products"))))
  /\ (forall err,
        result = Throw err ->
        HomePage.products (HomePage.view s3) = Some []
        /\ HomePage.error (HomePage.view s3)
           = Some (messageOr "Failed to load products" err))
  /\ HomePage.invoked s5 = 2%nat.
Proof.
  intros Hafter result s2 s3 s5.
  assert (Hs2 : s2 =
    {| HomePage.world := w; HomePage.productsPromise := Some 0%nat;
       HomePage.invoked := 1; HomePage.settled := ∅;
       HomePage.isMounted := [false; true];
       HomePage.waiters := [{| HomePage.caller := 0; HomePage.awaited := 0 |};
                            {| HomePage.caller := 1; HomePage.awaited := 0 |}];
       HomePage.timers := []; HomePage.now := 0 + before;
       HomePage.view := HomePage.initialState |}) by reflexivity.
  split; [by rewrite Hs2|]. split; [by rewrite Hs2|].
  assert (Hthird : HomePage.invoked s3 = 1%nat ->
                   HomePage.now s3 = 0 + before ->
                   In (0 + before + 100) (HomePage.timers s3) ->
                   HomePage.invoked s5 = 2%nat).
  { intros Hinvoked Hnow Htimer. subst s5. unfold HomePage.run.
    cbn [fold_left HomePage.step].
    destruct (home_elapse_frame after s3) as [Hi Hp].
    rewrite home_mount_invokes; [by rewrite Hi, Hinvoked|].
    apply (Hp (0 + before + 100) Htimer). rewrite Hnow. lia. }
  assert (Hs3 : s3 = HomePage.answer fetchProducts readOfUndefined 0 outcome s2)
    by reflexivity.
  rewrite Hs2 in Hs3. unfold HomePage.answer in Hs3.
  cbn [HomePage.invoked HomePage.settled HomePage.world HomePage.waiters] in Hs3.
  rewrite bool_decide_eq_true_2, lookup_empty in Hs3 by lia.
  subst result. clearbody s3. clear Hs2 s2.
  destruct (fetchProducts outcome w) as [c w']. cbn [fst].
  destruct c as [response|err].
  - destruct (ProductsResponse.payload response) as [payload|] eqn:Hpayload.
    + destruct (ProductsResponse.currency payload) as [currency|] eqn:Hcurrency.
      * assert (Hs3' : s3 =
          {| HomePage.world := w'; HomePage.productsPromise := Some 0%nat;
             HomePage.invoked := 1;
             HomePage.settled := <[0%nat := Return response]> ∅;
             HomePage.isMounted := [false; true]; HomePage.waiters := [];
             HomePage.timers := [0 + before + 100; 0 + before + 100];
             HomePage.now := 0 + before;
             HomePage.view :=
               HomePage.setLoading false
                 (HomePage.setCurrency (ProductsResponse.code currency)
                    (HomePage.setProducts (ProductsResponse.products payload)
                       HomePage.initialState)) |}).
        { rewrite Hs3. run_effect. cbn. rewrite Hpayload. cbn. by rewrite Hcurrency. }
        clear Hs3. subst s3.
        split; [done|]. split; [done|]. split.
        { intros response' payload' currency' [= <-] Hpayload' Hcurrency'.
          rewrite Hpayload in Hpayload'. injection Hpayload' as <-.
          rewrite Hcurrency in Hcurrency'. by injection Hcurrency' as <-. }
        split.
        { intros response' payload' [= <-] Hpayload' Hcurrency'.
          rewrite Hpayload in Hpayload'. injection Hpayload' as <-. congruence. }
        split; [intros response' [= <-]; congruence|].
        split; [done|]. apply Hthird; [done|done|by left].
      * assert (Hs3' : s3 =
          {| HomePage.world := w'; HomePage.productsPromise := None;
             HomePage.invoked := 1;
             HomePage.settled := <[0%nat := Return response]> ∅;
             HomePage.isMounted := [false; true]; HomePage.waiters := [];
             HomePage.timers := [0 + before + 100; 0 + before + 100];
             HomePage.now := 0 + before;
             HomePage.view :=
               HomePage.setLoading false
                 (HomePage.setError
                    (Some (messageOr "Failed to load products"
                             (TypeError (readOfUndefined "code"))))
                    (HomePage.setProducts (ProductsResponse.products payload)
                       HomePage.initialState)) |}).
        { rewrite Hs3. run_effect. cbn. rewrite Hpayload. cbn. by rewrite Hcurrency. }
        clear Hs3. subst s3.
        split; [done|]. split; [done|]. split.
        { intros response' payload' currency' [= <-] Hpayload' Hcurrency'.
          rewrite Hpayload in Hpayload'. injection Hpayload' as <-. congruence. }
        split.
        { intros response' payload' [= <-] Hpayload' _.
          rewrite Hpayload in Hpayload'. by injection Hpayload' as <-. }
        split; [intros response' [= <-]; congruence|].
        split; [done|]. apply Hthird; [done|done|by left].
    + assert (Hs3' : s3 =
        {| HomePage.world := w'; HomePage.productsPromise := None;
           HomePage.invoked := 1; HomePage.settled := <[0%nat := Return response]> ∅;
           HomePage.isMounted := [false; true]; HomePage.waiters := [];
           HomePage.timers := [0 + before + 100; 0 + before + 100];
           HomePage.now := 0 + before;
           HomePage.view :=
             HomePage.setLoading false
               (HomePage.setError
                  (Some (messageOr "Failed to load products"
                           (TypeError (readOfUndefined "products"))))
                  HomePage.initialState) |}).
      { rewrite Hs3. run_effect. cbn. by rewrite Hpayload. }
      clear Hs3. subst s3.
      split; [done|]. split; [done|].
      split; [intros response' payload' currency' [= <-]; congruence|].
      split; [intros response' payload' [= <-]; congruence|].
      split; [by intros response' [= <-] _|].
      split; [done|]. apply Hthird; [done|done|by left].
  - assert (Hs3' : s3 =
      {| HomePage.world := w'; HomePage.productsPromise := None;
         HomePage.invoked := 1; HomePage.settled := <[0%nat := Throw err]> ∅;
         HomePage.isMounted := [false; true]; HomePage.waiters := [];
         HomePage.timers := [0 + before + 100; 0 + before + 100];
         HomePage.now := 0 + before;
         HomePage.view :=
           HomePage.setLoading false
             (HomePage.setError (Some (messageOr "Failed to load products" err))
                HomePage.initialState) |}).
    { rewrite Hs3. run_effect. reflexivity. }
    clear Hs3. subst s3.
    split; [done|]. split; [done|]. split; [done|]. split; [done|]. split; [done|].
    split; [by intros err' [= <-]|].
    apply Hthird; [done|done|by left].
Qed.

Lemma strict_mode_mounts_share_one_products_call_witness :
  let readOfUndefined property :=
    "Cannot read properties of undefined (reading '" +:+ property +:+ "')" in
  let s2 := HomePage.run (ApiWebhook.fetchProducts devEnv) readOfUndefined
              [HomePage.Mount; HomePage.Cleanup 0; HomePage.Mount; HomePage.Elapse 5]
              (HomePage.initial emptyWorld) in
  let s3 := HomePage.step (ApiWebhook.fetchProducts devEnv) readOfUndefined s2
              (HomePage.Answer 0%nat (answered (productList [tablets; syrup]))) in
  let s5 := HomePage.run (ApiWebhook.fetchProducts devEnv) readOfUndefined
              [HomePage.Elapse 100; HomePage.Mount] s3 in
  HomePage.invoked s2 = 1%nat
  /\ HomePage.products (HomePage.view s3) = Some [tablets; syrup]
  /\ HomePage.error (HomePage.view s3) = None
  /\ HomePage.loading (HomePage.view s3) = false
  /\ HomePage.invoked s5 = 2%nat.
Proof.
  destruct (strict_mode_mounts_share_one_products_call (ApiWebhook.fetchProducts devEnv)
              (fun property =>
                 "Cannot read properties of undefined (reading '" +:+ property +:+ "')")
              emptyWorld
              (answered (productList [tablets; syrup])) 5 100)
    as (Hone & _ & _ & Hloading & Hshown & _ & _ & _ & Hthird); [lia|].
  destruct (Hshown (productList [tablets; syrup])
              {| ProductsResponse.products := Some [tablets; syrup];
                 ProductsResponse.currency := Some {| ProductsResponse.code := "USD" |} |}
              {| ProductsResponse.code := "USD" |} eq_refl eq_refl eq_refl)
    as (Hproducts & _ & Herror).
  split; [exact Hone|]. split; [exact Hproducts|]. split; [exact Herror|].
  split; [exact Hloading|exact Hthird].
Defined.

(* ===================================================================== *)
(** * The serverless webhook proxy *)
(* ===================================================================== *)

Lemma startsWith_append (p s : string) : startsWith (p +:+ s) p = true.
Proof.
  unfold startsWith. induction p as [|c p IH].
  - rewrite append_nil. by destruct s.
  - rewrite append_cons, prefix_cons. by destruct (Ascii.ascii_dec c c).
Qed.

Lemma forward_shape (req : WebhookProxy.VercelRequest) (encode : string -> string)
    (queryParams : list (string * string)) (headers : list (string * string)) :
  let call := WebhookProxy.forward req (WebhookProxy.targetUrlOf encode queryParams)
                headers in
  method call = orDefault (WebhookProxy.reqMethod req) "POST"
  /\ startsWith (url call) WebhookProxy.webhookBaseUrl = true
  /\ (WebhookProxy.methodIs req "GET" || WebhookProxy.methodIs req "HEAD" = true ->
      body call = None)
  /\ (WebhookProxy.methodIs req "GET" || WebhookProxy.methodIs req "HEAD" = false ->
      forall sent, WebhookProxy.reqBody req = Some sent ->
                   WebhookProxy.truthyJson sent = true ->
                   body call = Some sent).
Proof.
  cbv zeta. split; [done|]. split; [|split].
  - apply startsWith_append.
  - intros Hget. cbn [WebhookProxy.forward body]. unfold WebhookProxy.bodyOf.
    by destruct (WebhookProxy.methodIs req "GET"), (WebhookProxy.methodIs req "HEAD").
  - intros Hget sent Hbody Htruthy.
    cbn [WebhookProxy.forward body]. unfold WebhookProxy.bodyOf.
    apply orb_false_iff in Hget as [-> ->]. cbn [negb andb].
    by rewrite Hbody, Htruthy.
Qed.

(** The part that the three revisions share: the call and what is sent
    back. *)
Lemma relayed_forward {B} (unreadable : JsError) (req : WebhookProxy.VercelRequest)
    (outcome : FetchOutcome B) (encode : string -> string)
    (queryParams : list (string * string)) (headers : list (string * string))
    (before after : Js (WebhookProxy.Invocation B) unit) :
  (forall s, exists extra,
     before s = (Return tt,
                 {| WebhookProxy.forwarded := WebhookProxy.forwarded s;
                    WebhookProxy.resHeaders := WebhookProxy.resHeaders s ++ extra;
                    WebhookProxy.replies := WebhookProxy.replies s;
                    WebhookProxy.logged := WebhookProxy.logged s |})) ->
  (forall s, exists extra,
     after s = (Return tt,
                {| WebhookProxy.forwarded := WebhookProxy.forwarded s;
                   WebhookProxy.resHeaders := WebhookProxy.resHeaders s ++ extra;
                   WebhookProxy.replies := WebhookProxy.replies s;
                   WebhookProxy.logged := WebhookProxy.logged s |})) ->
  relayed unreadable req outcome
    (tryCatch
       (answer <- WebhookProxy.fetchText unreadable
                    (WebhookProxy.forward req
                       (WebhookProxy.targetUrlOf encode queryParams) headers)
                    outcome ;;
        before ;;
        WebhookProxy.send (status (fst answer))
          (WebhookProxy.parseOrKeep (fst answer) (snd answer)))
       (fun error =>
          WebhookProxy.console_error "Webhook proxy error:" ;;
          after ;;
          WebhookProxy.send 500
            (WebhookProxy.Failure "Failed to proxy webhook request"
               (Some (messageOr "Unknown error" error))))
       WebhookProxy.start).
Proof.
  intros Hbefore Hafter.
  destruct (forward_shape req encode queryParams headers) as (Hm & Hu & Hb & Hs).
  unfold relayed, tryCatch, bind, WebhookProxy.fetchText.
  destruct outcome as [r|m]; [destruct (text r) as [data|]|].
  - cbn [fst snd].
    match goal with
    | |- context [before ?s] => destruct (Hbefore s) as [extra ->]
    end.
    split; [done|]. eexists. eexists. split; [reflexivity|].
    split; [reflexivity|]. by repeat split.
  - cbn [fst snd]. unfold WebhookProxy.console_error, modify. cbn [fst snd].
    match goal with
    | |- context [after ?s] => destruct (Hafter s) as [extra ->]
    end.
    split; [done|]. eexists. eexists. split; [reflexivity|].
    split; [reflexivity|]. by repeat split.
  - cbn [fst snd]. unfold WebhookProxy.console_error, modify. cbn [fst snd].
    match goal with
    | |- context [after ?s] => destruct (Hafter s) as [extra ->]
    end.
    split; [done|]. eexists. eexists. split; [reflexivity|].
    split; [reflexivity|]. by repeat split.
Qed.

Lemma allowAll_run {B} (s : WebhookProxy.Invocation B) :
  exists extra,
    WebhookProxy.allowAll s
    = (Return tt,
       {| WebhookProxy.forwarded := WebhookProxy.forwarded s;
          WebhookProxy.resHeaders := WebhookProxy.resHeaders s ++ extra;
          WebhookProxy.replies := WebhookProxy.replies s;
          WebhookProxy.logged := WebhookProxy.logged s |}).
Proof.
  eexists. unfold WebhookProxy.allowAll, bind, WebhookProxy.setHeader, modify.
  cbn. by rewrite <- !app_assoc.
Qed.

Lemma setHeader_run {B} (name value : string) (s : WebhookProxy.Invocation B) :
  exists extra,
    WebhookProxy.setHeader name value s
    = (Return tt,
       {| WebhookProxy.forwarded := WebhookProxy.forwarded s;
          WebhookProxy.resHeaders := WebhookProxy.resHeaders s ++ extra;
          WebhookProxy.replies := WebhookProxy.replies s;
          WebhookProxy.logged := WebhookProxy.logged s |}).
Proof. by eexists. Qed.

Lemma ret_run {B} (s : WebhookProxy.Invocation B) :
  exists extra,
    ret tt s
    = (Return tt,
       {| WebhookProxy.forwarded := WebhookProxy.forwarded s;
          WebhookProxy.resHeaders := WebhookProxy.resHeaders s ++ extra;
          WebhookProxy.replies := WebhookProxy.replies s;
          WebhookProxy.logged := WebhookProxy.logged s |}).
Proof. exists []. rewrite app_nil_r. by destruct s. Qed.

(** The call that the shared part makes. *)
Lemma forwarded_call {B} (unreadable : JsError) (call : Request)
    (outcome : FetchOutcome B)
    (before after : Js (WebhookProxy.Invocation B) unit) :
  (forall s, exists extra,
     before s = (Return tt,
                 {| WebhookProxy.forwarded := WebhookProxy.forwarded s;
                    WebhookProxy.resHeaders := WebhookProxy.resHeaders s ++ extra;
                    WebhookProxy.replies := WebhookProxy.replies s;
                    WebhookProxy.logged := WebhookProxy.logged s |})) ->
  (forall s, exists extra,
     after s = (Return tt,
                {| WebhookProxy.forwarded := WebhookProxy.forwarded s;
                   WebhookProxy.resHeaders := WebhookProxy.resHeaders s ++ extra;
                   WebhookProxy.replies := WebhookProxy.replies s;
                   WebhookProxy.logged := WebhookProxy.logged s |})) ->
  WebhookProxy.forwarded
    (snd (tryCatch
            (answer <- WebhookProxy.fetchText unreadable call outcome ;;
             before ;;
             WebhookProxy.send (status (fst answer))
               (WebhookProxy.parseOrKeep (fst answer) (snd answer)))
            (fun error =>
               WebhookProxy.console_error "Webhook proxy error:" ;;
               after ;;
               WebhookProxy.send 500
                 (WebhookProxy.Failure "Failed to proxy webhook request"
                    (Some (messageOr "Unknown error" error))))
            WebhookProxy.start))
  = [call].
Proof.
  intros Hbefore Hafter.
  unfold tryCatch, bind, WebhookProxy.fetchText.
  destruct outcome as [r|m]; [destruct (text r) as [data|]|]; cbn [fst snd].
  - match goal with
    | |- context [before ?s] => by destruct (Hbefore s) as [extra ->]
    end.
  - unfold WebhookProxy.console_error, modify. cbn [fst snd].
    match goal with
    | |- context [after ?s] => by destruct (Hafter s) as [extra ->]
    end.
  - unfold WebhookProxy.console_error, modify. cbn [fst snd].
    match goal with
    | |- context [after ?s] => by destruct (Hafter s) as [extra ->]
    end.
Qed.

(** X19.  The webhook proxy forwards a request and relays the answer, in
    each of its three revisions.  The oldest revision does so for every
    request.  The revision with the CORS headers does so for every request
    but a preflight ([OPTIONS]), which it answers itself with status 200.
    The revision that requires the key does so for every request but a
    preflight when a key is configured; it answers a preflight itself with
    status 200, and any other request without a configured key with status
    500.  Forwarding and relaying means: the proxy does not throw; it calls
    the webhook once, with the method of the request (POST when there is
    none), at the webhook's address, without a body for GET and HEAD and
    with the truthy body of the request otherwise; and it sends one reply,
    with the webhook's status and body (parsed when it is JSON, as text
    otherwise), or with status 500 and the message of the failure when the
    call or the reading of its body fails. *)
Theorem webhook_proxy_relays_the_answer {B : Type}
    (encode : string -> string) (unreadable : JsError)
    (env : WebhookProxy.ProcessEnv) (req : WebhookProxy.VercelRequest)
    (outcome : FetchOutcome B) :
  let keyed := WebhookProxy.Keyed.handler encode unreadable env req outcome
                 WebhookProxy.start in
  let cors := WebhookProxy.Cors.handler encode unreadable env req outcome
                WebhookProxy.start in
  let oldest := WebhookProxy.Path.handler encode unreadable env req outcome
                  WebhookProxy.start in
  relayed unreadable req outcome oldest
  /\ (WebhookProxy.methodIs req "OPTIONS" = false -> relayed unreadable req outcome cors)
  /\ (WebhookProxy.methodIs req "OPTIONS" = true -> answeredItself 200 cors)
  /\ (WebhookProxy.methodIs req "OPTIONS" = false ->
      truthyOpt (WebhookProxy.authKeyOf env) = true ->
      relayed unreadable req outcome keyed)
  /\ (WebhookProxy.methodIs req "OPTIONS" = true -> answeredItself 200 keyed)
  /\ (WebhookProxy.methodIs req "OPTIONS" = false ->
      truthyOpt (WebhookProxy.authKeyOf env) = false ->
      answeredItself 500 keyed).
Proof.
  cbv zeta. split; [|split; [|split; [|split; [|split]]]].
  - exact (relayed_forward unreadable req outcome encode _ _
             (ret tt) (ret tt) ret_run ret_run).
  - intros Hoptions. unfold WebhookProxy.Cors.handler. rewrite Hoptions.
    exact (relayed_forward unreadable req outcome encode _ _
             WebhookProxy.allowAll
             (WebhookProxy.setHeader "Access-Control-Allow-Origin" "*")
             allowAll_run (setHeader_run _ _)).
  - intros Hoptions. unfold WebhookProxy.Cors.handler. by rewrite Hoptions.
  - intros Hoptions Hkey. unfold WebhookProxy.Keyed.handler.
    rewrite Hoptions. cbv zeta. rewrite Hkey. cbn [negb].
    exact (relayed_forward unreadable req outcome encode _ _
             WebhookProxy.allowAll
             (WebhookProxy.setHeader "Access-Control-Allow-Origin" "*")
             allowAll_run (setHeader_run _ _)).
  - intros Hoptions. unfold WebhookProxy.Keyed.handler. by rewrite Hoptions.
  - intros Hoptions Hkey. unfold WebhookProxy.Keyed.handler.
    by rewrite Hoptions, Hkey.
Qed.

Lemma webhook_proxy_relays_the_answer_witness :
  let run := WebhookProxy.Keyed.handler (fun s => s) NotAnError keyedEnv cartRequest
               (serverError (B := CartItemResponse.t)) WebhookProxy.start in
  map body (WebhookProxy.forwarded (snd run)) = [Some (JObject [("cart_id", JString "c1")])]
  /\ map WebhookProxy.replyStatus (WebhookProxy.replies (snd run)) = [500]
  /\ map WebhookProxy.replyBody (WebhookProxy.replies (snd run))
     = [WebhookProxy.Raw "upstream failed"].
Proof.
  destruct (webhook_proxy_relays_the_answer (fun s => s) NotAnError keyedEnv cartRequest
              (serverError (B := CartItemResponse.t)))
    as (_ & _ & _ & Hkeyed & _).
  destruct (Hkeyed eq_refl eq_refl)
    as (_ & call & reply & Hcall & Hreply & _ & _ & _ & Hbody & Hstatus & Hsent).
  cbv zeta. rewrite Hcall, Hreply. cbn [map].
  rewrite (Hbody eq_refl _ eq_refl eq_refl), Hstatus, Hsent.
  repeat split.
Defined.

(** X20.  The revision of the webhook proxy that requires the key never
    calls the webhook for a preflight request (it answers 200 itself) or
    when no key is configured (it answers 500 with a configuration error);
    every call it makes carries the configured key.  The oldest revision
    forwards a request even when no key is configured, without a [key]
    header. *)
Theorem keyed_proxy_never_calls_the_webhook_without_key {B : Type}
    (encode : string -> string) (unreadable : JsError)
    (env : WebhookProxy.ProcessEnv) (req : WebhookProxy.VercelRequest)
    (outcome : FetchOutcome B) :
  let keyed := snd (WebhookProxy.Keyed.handler encode unreadable env req outcome
                      WebhookProxy.start) in
  let oldest := snd (WebhookProxy.Path.handler encode unreadable env req outcome
                       WebhookProxy.start) in
  (WebhookProxy.methodIs req "OPTIONS" = true ->
   WebhookProxy.forwarded keyed = []
   /\ map WebhookProxy.replyStatus (WebhookProxy.replies keyed) = [200])
  /\ (WebhookProxy.methodIs req "OPTIONS" = false ->
      truthyOpt (WebhookProxy.authKeyOf env) = false ->
      WebhookProxy.forwarded keyed = []
      /\ map WebhookProxy.replyStatus (WebhookProxy.replies keyed) = [500]
      /\ map WebhookProxy.replyBody (WebhookProxy.replies keyed)
         = [WebhookProxy.Failure
              "Server configuration error: Webhook auth key is missing" None])
  /\ (forall call, In call (WebhookProxy.forwarded keyed) ->
      exists key, WebhookProxy.authKeyOf env = Some key
                  /\ truthy key = true
                  /\ In ("key", key) (headers call))
  /\ (truthyOpt (WebhookProxy.authKeyOf env) = false ->
      exists call, WebhookProxy.forwarded oldest = [call]
                   /\ forall key, ~ In ("key", key) (headers call)).
Proof.
  cbv zeta. split; [|split; [|split]].
  - intros Hoptions. unfold WebhookProxy.Keyed.handler. by rewrite Hoptions.
  - intros Hoptions Hkey. unfold WebhookProxy.Keyed.handler.
    by rewrite Hoptions, Hkey.
  - intros call. unfold WebhookProxy.Keyed.handler.
    destruct (WebhookProxy.methodIs req "OPTIONS"); [done|]. cbv zeta.
    destruct (WebhookProxy.authKeyOf env) as [key|] eqn:Hkey; [|done].
    cbn [truthyOpt]. destruct (truthy key) eqn:Htruthy; [|done].
    cbn [negb].
    rewrite (forwarded_call unreadable _ outcome WebhookProxy.allowAll
               (WebhookProxy.setHeader "Access-Control-Allow-Origin" "*")
               allowAll_run (setHeader_run _ _)).
    intros [<-|[]]. exists key. repeat split; [done|]. cbn. auto.
  - intros Hkey. unfold WebhookProxy.Path.handler. cbv zeta.
    eexists. split.
    + exact (forwarded_call unreadable _ outcome (ret tt) (ret tt) ret_run ret_run).
    + unfold WebhookProxy.headersWith. rewrite Hkey. cbn.
      intros key [[=]|[[=]|[]]].
Qed.

Lemma keyed_proxy_never_calls_the_webhook_without_key_witness :
  WebhookProxy.forwarded
    (snd (WebhookProxy.Keyed.handler (fun s => s) NotAnError keylessEnv cartRequest
            (answered (cartOf (Some "c1") None None)) WebhookProxy.start))
  = []
  /\ exists call,
       WebhookProxy.forwarded
         (snd (WebhookProxy.Path.handler (fun s => s) NotAnError keylessEnv cartRequest
                 (answered (cartOf (Some "c1") None None)) WebhookProxy.start))
       = [call].
Proof.
  destruct (keyed_proxy_never_calls_the_webhook_without_key (fun s => s) NotAnError
              keylessEnv cartRequest (answered (cartOf (Some "c1") None None)))
    as (_ & Hmissing & _ & Holdest).
  split.
  - exact (proj1 (Hmissing eq_refl eq_refl)).
  - destruct (Holdest eq_refl) as (call & Hcall & _). by exists call.
Defined.

(* ===================================================================== *)
(** * The checkout operations of the webhook revision *)
(* ===================================================================== *)

Lemma property_assign (fields : list (string * Json)) (key key' : string)
    (value : Json) :
  property key (JObject (ApiWebhookCheckout.assign fields key' value))
  = if strictEq key' key then Some value else property key (JObject fields).
Proof.
  unfold strictEq. induction fields as [|[k v] fields IH]; simpl.
  - unfold strictEq. by destruct (bool_decide (key' = key)).
  - unfold strictEq in *.
    destruct (decide (k = key')) as [->|Hne].
    + rewrite bool_decide_eq_true_2 by done. simpl. unfold strictEq.
      by destruct (bool_decide (key' = key)).
    + rewrite bool_decide_eq_false_2 by done. simpl. unfold strictEq.
      destruct (decide (k = key)) as [->|Hne'].
      * rewrite bool_decide_eq_true_2 by done.
        by rewrite (bool_decide_eq_false_2 (key' = key)) by congruence.
      * rewrite bool_decide_eq_false_2 by done. exact IH.
Qed.

(** Spreading an object that lacks a property leaves that property as it
    was. *)
Lemma property_spread (fields more : list (string * Json)) (key : string) :
  Forall (fun entry => fst entry <> key) more ->
  property key (JObject (ApiWebhookCheckout.spread fields more))
  = property key (JObject fields).
Proof.
  unfold ApiWebhookCheckout.spread. revert fields.
  induction more as [|[k v] more IH]; intros fields Hlacks; [done|].
  apply Forall_cons in Hlacks as [Hk Hmore]. simpl in Hk.
  simpl fold_left. rewrite (IH _ Hmore), property_assign.
  unfold strictEq. by rewrite bool_decide_eq_false_2.
Qed.

Lemma viaWebhook_oneWebhookCall {B} (function cartId : string) (body : Json)
    (outcome : FetchOutcome B) (failure : Z -> string -> string)
    (corsMessage : string) (w : World) :
  property "checkout_id" body = Some (JString cartId) ->
  oneWebhookCall function cartId outcome w
    (ApiWebhook.viaWebhook (ApiWebhook.webhookRequest function (Some body)) outcome
       failure corsMessage ret w).
Proof.
  intros Hnamed. unfold oneWebhookCall.
  destruct (parsed outcome) as [b|] eqn:Hparsed.
  - rewrite (viaWebhook_parsed _ outcome failure corsMessage ret w b
               neverThrows_ret Hparsed).
    split; [by exists body|]. split; [|done]. intros b' Heq. by simplify_eq.
  - destruct (viaWebhook_unparsed (ApiWebhook.webhookRequest function (Some body))
                outcome failure corsMessage (@ret World B) w Hparsed) as [e ->].
    split; [by exists body|]. split; [done|]. intros _. by exists e.
Qed.

(** X21.  Each checkout operation of the webhook request client
    ([getCheckoutData], [submitCheckoutAddress], [submitShippingMethod],
    [processOfflinePayment], [confirmCheckout]) makes exactly one call, a
    POST to its own webhook function whose body names the cart as
    [checkout_id], and changes nothing else in the browser: the cookie store
    and the product caches stay as they were.  It returns the parsed body
    when the answer has a success status and parses, and throws in every
    other case.  (For [submitCheckoutAddress] the address data, which is
    spread into the body after [checkout_id], must itself have no
    [checkout_id] property.) *)
Theorem webhook_checkout_operations_make_one_call
    (cartId shippingMethodId paymentMode : string) (shipping : option string)
    (addressData : list (string * Json)) (w : World) :
  (forall outcome,
     oneWebhookCall "get-checkout-info" cartId outcome w
       (ApiWebhookCheckout.getCheckoutData cartId outcome w))
  /\ (Forall (fun entry => fst entry <> "checkout_id") addressData ->
      forall outcome,
        oneWebhookCall "add-address" cartId outcome w
          (ApiWebhookCheckout.submitCheckoutAddress cartId addressData outcome w))
  /\ (forall outcome,
        oneWebhookCall "add-shipping-methods" cartId outcome w
          (ApiWebhookCheckout.submitShippingMethod cartId shippingMethodId outcome w))
  /\ (forall outcome,
        oneWebhookCall "place-order" cartId outcome w
          (ApiWebhookCheckout.processOfflinePayment cartId paymentMode outcome w))
  /\ (forall outcome,
        oneWebhookCall "confirm-checkout" cartId outcome w
          (ApiWebhookCheckout.confirmCheckout cartId shipping paymentMode outcome w)).
Proof.
  split; [|split; [|split; [|split]]].
  - intros outcome. by apply viaWebhook_oneWebhookCall.
  - intros Hlacks outcome. apply viaWebhook_oneWebhookCall.
    by rewrite property_spread.
  - intros outcome. by apply viaWebhook_oneWebhookCall.
  - intros outcome. by apply viaWebhook_oneWebhookCall.
  - intros outcome. unfold ApiWebhookCheckout.confirmCheckout. cbv zeta.
    apply viaWebhook_oneWebhookCall. by destruct (truthyOpt shipping).
Qed.

Lemma webhook_checkout_operations_make_one_call_witness :
  fst (ApiWebhookCheckout.submitCheckoutAddress "c1"
         [("shipping_address", JObject [("city", JString "Hanoi")])]
         (answered (addressAccepted [standard])) (worldWithCart "c1"))
  = Return (addressAccepted [standard])
  /\ exists e,
       fst (ApiWebhookCheckout.processOfflinePayment "c1" "cash_on_delivery"
              serverError (worldWithCart "c1"))
       = Throw e.
Proof.
  destruct (webhook_checkout_operations_make_one_call "c1" "exp" "cash_on_delivery"
              (Some "exp") [("shipping_address", JObject [("city", JString "Hanoi")])]
              (worldWithCart "c1"))
    as (_ & Haddress & _ & Hpay & _).
  split.
  - assert (Hlacks : Forall (fun entry : string * Json => fst entry <> "checkout_id")
                       [("shipping_address", JObject [("city", JString "Hanoi")])])
      by (repeat constructor; discriminate).
    exact (proj1 (proj2 (Haddress Hlacks (answered (addressAccepted [standard]))))
             (addressAccepted [standard]) eq_refl).
  - exact (proj2 (proj2 (Hpay serverError)) eq_refl).
Defined.

(* ===================================================================== *)
(** * The two channels and the proxy of the development server *)
(* ===================================================================== *)

(** The development server and the request client name the same domain:
    always with the configuration that has the ['/webhook'] entry, and with
    the other one when [VITE_DOMAIN_NAME] is set. *)
Lemma domainName_agrees (revision : ViteConfig.Revision) (env : Env) :
  revision = ViteConfig.WithWebhook \/ truthyOpt (VITE_DOMAIN_NAME env) = true ->
  ViteConfig.domainName revision env = ApiDirect.DOMAIN_NAME env.
Proof.
  intros [->|Hset]; [done|].
  unfold ViteConfig.domainName, ApiDirect.DOMAIN_NAME, orDefault.
  destruct (VITE_DOMAIN_NAME env) as [name|]; [|done].
  simpl in Hset. by rewrite Hset.
Qed.

Lemma proxyThenDirect_sameEndpoint (env : Env) {B R} (method : string)
    (path : string) (body : option Json)
    (proxy direct : FetchOutcome B) (failure : Z -> string -> string)
    (corsMessage : string) (onOk : B -> Js World R) (w : World) :
  DEV env = true ->
  channelFailed proxy = true ->
  (forall b, silent (onOk b)) ->
  sameEndpoint (ApiDirect.DOMAIN_NAME env) w
    (ApiDirect.proxyThenDirect env
       (ApiDirect.proxyRequest env method ("/api" +:+ path) body)
       (ApiDirect.directRequest env method
          ("https://" +:+ ApiDirect.DOMAIN_NAME env +:+ "/storefront/api/v1" +:+ path)
          body)
       proxy direct failure corsMessage onOk w).
Proof.
  intros Hdev Hfailed Hsilent.
  rewrite proxyThenDirect_fallback by done.
  eexists _, _. split.
  - rewrite tryCatch_rethrow_world, (attempt_requests env) by done.
    simpl. by rewrite <- app_assoc.
  - repeat split. cbn. auto.
Qed.

(** X22.  Take a development build, and a development server whose
    configuration names the domain of the request client: the configuration
    with the ['/webhook'] entry (fallback [activepharm.zohoecommerce.com],
    as in [api.ts]), or the one without it (fallback
    [plera.zohoecommerce.com]) when [VITE_DOMAIN_NAME] is set.  An operation
    of the proxy/direct request client whose proxy channel fails then asks
    the direct channel for the same thing: the direct call has the method
    and the body of the proxied call, its URL is the storefront domain
    followed by the path into which the server's ['/api'] rule rewrites the
    proxied URL, and it carries the [domain-name] header that the rule sets
    ([fetchProductDetail] is taken with a product cache that does not
    answer: no entry, or a stale one).  In the configuration that has the
    ['/webhook'] entry, a webhook URL of the other request client, once
    rewritten by that entry and sent to its target, is the address that the
    serverless proxy calls; the other configuration has no such entry. *)
Theorem direct_channel_asks_what_the_dev_proxy_forwards
    (revision : ViteConfig.Revision) (env : Env) (w : World) :
  DEV env = true ->
  revision = ViteConfig.WithWebhook \/ truthyOpt (VITE_DOMAIN_NAME env) = true ->
  let domain := ViteConfig.domainName revision env in
  (forall proxy direct,
     channelFailed proxy = true ->
     sameEndpoint domain w (ApiDirect.fetchProducts env proxy direct w))
  /\ (forall variantId proxy direct,
        channelFailed proxy = true ->
        unanswered env variantId w ->
        sameEndpoint domain w (ApiDirect.fetchProductDetail env variantId proxy direct w))
  /\ (forall productVariantId quantity proxy direct,
        channelFailed proxy = true ->
        sameEndpoint domain w
          (ApiDirect.addToCart env productVariantId quantity proxy direct w))
  /\ (forall cartId proxy direct,
        channelFailed proxy = true ->
        sameEndpoint domain w (ApiDirect.getCartItems env cartId proxy direct w))
  /\ (forall cartId proxy direct,
        channelFailed proxy = true ->
        sameEndpoint domain w (ApiDirect.getCheckoutData env cartId proxy direct w))
  /\ (forall cartId addressData proxy direct,
        channelFailed proxy = true ->
        sameEndpoint domain w
          (ApiDirect.submitCheckoutAddress env cartId addressData proxy direct w))
  /\ (forall cartId shippingMethodId proxy direct,
        channelFailed proxy = true ->
        sameEndpoint domain w
          (ApiDirect.submitShippingMethod env cartId shippingMethodId proxy direct w))
  /\ (forall cartId paymentMode proxy direct,
        channelFailed proxy = true ->
        sameEndpoint domain w
          (ApiDirect.processOfflinePayment env cartId paymentMode proxy direct w))
  /\ (forall target rewriteWebhook function body,
        ViteConfig.webhookEntry revision = Some (target, rewriteWebhook) ->
        target +:+ rewriteWebhook (url (ApiWebhook.webhookRequest function body))
        = WebhookProxy.webhookBaseUrl +:+ "?function=" +:+ function)
  /\ ViteConfig.webhookEntry ViteConfig.WithWebhook
     = Some (ViteConfig.webhookTarget, ViteConfig.rewriteWebhook)
  /\ ViteConfig.webhookEntry ViteConfig.ApiOnly = None.
Proof.
  intros Hdev Hdomain domain. subst domain.
  rewrite (domainName_agrees revision env Hdomain).
  split; [|split; [|split; [|split; [|split; [|split; [|split; [|split;
    [|split; [|split]]]]]]]]].
  - intros proxy direct Hfailed.
    rewrite direct_fetchProducts_fallback by done. cbv zeta.
    eexists _, _. split.
    + destruct direct as [r|m]; [|by rewrite rethrow_run; simpl; rewrite <- app_assoc].
      destruct (ok r); [|by rewrite rethrow_run; simpl; rewrite <- app_assoc].
      destruct (json r); [|rewrite rethrow_run]; simpl; by rewrite <- app_assoc.
    + repeat split. cbn. auto.
  - intros variantId proxy direct Hfailed Hcache.
    rewrite direct_fetchProductDetail_run, cacheCheck_run.
    unfold unanswered in Hcache.
    destruct (productCache w !! variantId) as [e|].
    + rewrite Hcache.
      exact (proxyThenDirect_sameEndpoint env "GET" ("/products/" +:+ variantId) None
               proxy direct _ _ _ (withClockRead w) Hdev Hfailed
               (silent_direct_cacheDetail env variantId)).
    + exact (proxyThenDirect_sameEndpoint env "GET" ("/products/" +:+ variantId) None
               proxy direct _ _ _ w Hdev Hfailed (silent_direct_cacheDetail env variantId)).
  - intros productVariantId quantity proxy direct Hfailed.
    rewrite direct_addToCart_run. cbv zeta.
    exact (proxyThenDirect_sameEndpoint env "POST" "/cart" _
             proxy direct _ _ _ w Hdev Hfailed (silent_direct_saveCartId env _)).
  - intros cartId proxy direct Hfailed.
    exact (proxyThenDirect_sameEndpoint env "GET" ("/cart?cart_id=" +:+ cartId) None
             proxy direct _ _ _ w Hdev Hfailed silent_ret).
  - intros cartId proxy direct Hfailed.
    exact (proxyThenDirect_sameEndpoint env "GET" ("/checkout?checkout_id=" +:+ cartId)
             None proxy direct _ _ _ w Hdev Hfailed silent_ret).
  - intros cartId addressData proxy direct Hfailed.
    exact (proxyThenDirect_sameEndpoint env "POST"
             ("/checkout/address?checkout_id=" +:+ cartId) (Some addressData)
             proxy direct _ _ _ w Hdev Hfailed silent_ret).
  - intros cartId shippingMethodId proxy direct Hfailed.
    exact (proxyThenDirect_sameEndpoint env "POST"
             ("/checkout/shipping-methods?checkout_id=" +:+ cartId) _
             proxy direct _ _ _ w Hdev Hfailed silent_ret).
  - intros cartId paymentMode proxy direct Hfailed.
    exact (proxyThenDirect_sameEndpoint env "POST"
             ("/checkout/process-offline-payment?checkout_id=" +:+ cartId
              +:+ "&payment_mode=" +:+ paymentMode) None
             proxy direct _ _ _ w Hdev Hfailed silent_ret).
  - intros target rewriteWebhook function body Hentry.
    destruct revision; [|done]. by injection Hentry as <- <-.
  - reflexivity.
  - reflexivity.
Qed.

Lemma direct_channel_asks_what_the_dev_proxy_forwards_witness :
  exists p d,
    requests (snd (ApiDirect.getCartItems devEnv "c1" serverError
                     (answered (cartOf (Some "c1") None None)) emptyWorld))
    = [p; d]
    /\ url d = "https://activepharm.zohoecommerce.com" +:+ ViteConfig.rewrite (url p).
Proof.
  destruct (direct_channel_asks_what_the_dev_proxy_forwards ViteConfig.WithWebhook
              devEnv emptyWorld eq_refl (or_introl eq_refl))
    as (_ & _ & _ & Hcart & _).
  destruct (Hcart "c1" serverError (answered (cartOf (Some "c1") None None)) eq_refl)
    as (p & d & Hrequests & Hurl & _).
  exists p, d. split; [exact Hrequests | exact Hurl].
Defined.

(** Without [VITE_DOMAIN_NAME], the development server of the configuration
    that lacks the ['/webhook'] entry sends a proxied request under another
    domain name than the one the direct channel calls. *)
Example dev_server_without_webhook_entry_names_another_domain :
  ViteConfig.domainName ViteConfig.ApiOnly devEnv = "plera.zohoecommerce.com"
  /\ ApiDirect.DOMAIN_NAME devEnv = "activepharm.zohoecommerce.com".
Proof. split; reflexivity. Qed.

(* ===================================================================== *)
(** * The error of the product page *)
(* ===================================================================== *)

Lemma page_load_keeps_error (variantId : option string)
    (fetched : Completion Product.t) (s : ProductDetail.State) :
  rejectionHasMessage fetched ->
  truthyOpt (ProductDetail.error s) = true ->
  let s' := snd (ProductDetail.loadProduct variantId fetched s) in
  truthyOpt (ProductDetail.error s') = true
  /\ ProductDetail.loading s' = false.
Proof.
  intros Hmessage Herror. cbv zeta. unfold ProductDetail.loadProduct.
  destruct (negb (truthyOpt variantId)); [done|].
  unfold tryFinally, tryCatch, bind, settle.
  destruct fetched as [productData|err]; cbn; [done|].
  split; [|done]. unfold messageOr. simpl in Hmessage.
  destruct (instanceofError err); [by apply Hmessage|done].
Qed.

(** X23.  The product page never clears its error: once a load has failed
    (or the route had no variant id), every later load, also a successful
    one, leaves the page on its error screen, provided each rejection that
    is an [Error] has a message.  The product modal clears its error at the
    start of each load, so that a successful load shows no error. *)
Theorem product_page_keeps_its_error
    (loads : list (option string * Completion Product.t))
    (s : ProductDetail.State) :
  truthyOpt (ProductDetail.error s) = true ->
  ProductDetail.loading s = false ->
  Forall (fun load => rejectionHasMessage (snd load)) loads ->
  (exists text, ProductDetail.render (ProductDetail.run loads s)
                = ProductDetail.Failed text
                /\ truthy text = true)
  /\ (forall stock_available m variantId shown,
        truthy variantId = true ->
        ProductDetailModal.error
          (ProductDetailModal.view
             (ProductDetailModal.step stock_available m
                (ProductDetailModal.Props (Some variantId) true (Return shown))))
        = None).
Proof.
  intros Herror Hloading Hloads. split.
  - assert (Hrun : truthyOpt (ProductDetail.error (ProductDetail.run loads s)) = true
                   /\ ProductDetail.loading (ProductDetail.run loads s) = false).
    { revert s Herror Hloading.
      induction Hloads as [|[variantId fetched] loads Hmessage Hloads IH];
        intros s Herror Hloading; [done|].
      destruct (page_load_keeps_error variantId fetched s Hmessage Herror)
        as [Herror' Hloading'].
      unfold ProductDetail.run. simpl fold_left. by apply IH. }
    destruct Hrun as [Herror' Hloading'].
    unfold ProductDetail.render. rewrite Hloading'.
    destruct (ProductDetail.error (ProductDetail.run loads s)) as [text|]; [|done].
    simpl in Herror'.
    destruct (ProductDetail.product (ProductDetail.run loads s)).
    + simpl. rewrite Herror'. by exists text.
    + simpl. rewrite Herror'. by exists text.
  - intros stock_available m variantId shown Htruthy.
    cbn [ProductDetailModal.step].
    unfold ProductDetailModal.loadProduct, bind, gets, tryFinally, tryCatch.
    cbn [fst snd ProductDetailModal.withProps ProductDetailModal.variantId
         ProductDetailModal.isOpen truthyOpt].
    by rewrite Htruthy.
Qed.

Lemma product_page_keeps_its_error_witness :
  exists text,
    ProductDetail.render
      (ProductDetail.run [(Some "v1", Return tablets)]
         (snd (ProductDetail.loadProduct (Some "v9") (Throw (Error "Not found"))
                 ProductDetail.initialState)))
    = ProductDetail.Failed text
    /\ truthy text = true.
Proof.
  apply (product_page_keeps_its_error [(Some "v1", Return tablets)]
           (snd (ProductDetail.loadProduct (Some "v9") (Throw (Error "Not found"))
                   ProductDetail.initialState)));
    [reflexivity | reflexivity | by repeat constructor].
Defined.
